(** * The OpenGL render backend of SDL (src/render/opengl/SDL_render_gl.c)

    A shallow embedding of the backend: the blend-mode translators, the
    error bookkeeping, texture creation, update, locking and destruction,
    render targets and their framebuffer objects, the vertex queueing
    functions, the command-queue executor, reading pixels back, and the
    creation and the end of the renderer.  C integers are [Z] with their
    wrap-around written out, [GLfloat] is IEEE binary32 through
    [SpecFloat], and the calls made on the OpenGL function table are
    recorded in a log of [Call]s (in a trace of [Op]s for the entries that
    only the later functions use). *)

From Stdlib Require Import ZArith List Bool Lia SpecFloat QArith.
Import ListNotations.
Open Scope Z_scope.

(** ** C integer types *)

Definition Uint8 := Z.
Definition Uint32 := Z.
Definition GLenum := Z.
Definition GLuint := Z.

(** [int] is 32 bits wide on every target of the backend.  Signed overflow is
    undefined in C; the embedding gives it the two's-complement result the
    targets compute, so that an overflowing run is visible, not hidden. *)
Definition wrap_int (z : Z) : Z := (z + 2 ^ 31) mod 2 ^ 32 - 2 ^ 31.
Definition wrap_Uint32 (z : Z) : Z := z mod 2 ^ 32.
Definition wrap_size_t (z : Z) : Z := z mod 2 ^ 64.

Definition int_add (a b : Z) : Z := wrap_int (a + b).
Definition int_sub (a b : Z) : Z := wrap_int (a - b).
Definition int_mul (a b : Z) : Z := wrap_int (a * b).
(** C division truncates toward zero. *)
Definition int_div (a b : Z) : Z := Z.quot a b.
Definition int_shl (a n : Z) : Z := wrap_int (Z.shiftl a n).

Definition in_int_range (z : Z) : bool := (- 2 ^ 31 <=? z) && (z <? 2 ^ 31).

(** ** GLfloat: IEEE 754 binary32 *)

Definition GLfloat := spec_float.

Definition f32_of_int (z : Z) : GLfloat := binary_normalize 24 128 z 0 false.
Definition f32_add : GLfloat -> GLfloat -> GLfloat := SFadd 24 128.
Definition f32_sub : GLfloat -> GLfloat -> GLfloat := SFsub 24 128.
Definition f32_mul : GLfloat -> GLfloat -> GLfloat := SFmul 24 128.
Definition f32_div : GLfloat -> GLfloat -> GLfloat := SFdiv 24 128.
Definition f32_eqb : GLfloat -> GLfloat -> bool := SFeqb.
Definition f32_leb : GLfloat -> GLfloat -> bool := SFleb.

(** The literals [0.0f], [0.5f] and [1.0f]. *)
Definition f32_zero : GLfloat := S754_zero false.
Definition f32_half : GLfloat := S754_finite false 8388608 (-24).
Definition f32_one : GLfloat := S754_finite false 8388608 (-23).

(** [static const float inv255f = 1.0f / 255.0f;] *)
Definition inv255f : GLfloat := f32_div f32_one (f32_of_int 255).

(** The rational a finite float stands for. *)
Definition f32_to_Q (x : GLfloat) : option Q :=
  match x with
  | S754_zero _ => Some (0 # 1)%Q
  | S754_finite s m e =>
      let mag := if 0 <=? e then inject_Z (Zpos m * 2 ^ e)
                 else (Zpos m # Z.to_pos (2 ^ (- e)))%Q in
      Some (if s then Qopp mag else mag)
  | _ => None
  end.

(** Conversion of a float to [int] (C: truncation toward zero, undefined when
    the truncated value is not an [int], or for NaN and the infinities). *)
Definition f32_to_int (x : GLfloat) : option Z :=
  match x with
  | S754_zero _ => Some 0
  | S754_finite s m e =>
      let mag := if 0 <=? e then Zpos m * 2 ^ e else Zpos m / 2 ^ (- e) in
      let v := if s then - mag else mag in
      if in_int_range v then Some v else None
  | _ => None
  end.

(** ** Enumerations of SDL and OpenGL used by the backend

    The numeric values are those of SDL_blendmode.h, SDL_pixels.h,
    SDL_render.h and the OpenGL headers. *)

Definition SDL_BlendFactor := Z.
Abbreviation SDL_BLENDFACTOR_ZERO := (1%Z).
Abbreviation SDL_BLENDFACTOR_ONE := (2%Z).
Abbreviation SDL_BLENDFACTOR_SRC_COLOR := (3%Z).
Abbreviation SDL_BLENDFACTOR_ONE_MINUS_SRC_COLOR := (4%Z).
Abbreviation SDL_BLENDFACTOR_SRC_ALPHA := (5%Z).
Abbreviation SDL_BLENDFACTOR_ONE_MINUS_SRC_ALPHA := (6%Z).
Abbreviation SDL_BLENDFACTOR_DST_COLOR := (7%Z).
Abbreviation SDL_BLENDFACTOR_ONE_MINUS_DST_COLOR := (8%Z).
Abbreviation SDL_BLENDFACTOR_DST_ALPHA := (9%Z).
Abbreviation SDL_BLENDFACTOR_ONE_MINUS_DST_ALPHA := (10%Z).

Definition SDL_BlendOperation := Z.
Abbreviation SDL_BLENDOPERATION_ADD := (1%Z).
Abbreviation SDL_BLENDOPERATION_SUBTRACT := (2%Z).
Abbreviation SDL_BLENDOPERATION_REV_SUBTRACT := (3%Z).
Abbreviation SDL_BLENDOPERATION_MINIMUM := (4%Z).
Abbreviation SDL_BLENDOPERATION_MAXIMUM := (5%Z).

Definition SDL_BlendMode := Z.
Abbreviation SDL_BLENDMODE_NONE := (0%Z).
Abbreviation SDL_BLENDMODE_BLEND := (1%Z).
Abbreviation SDL_BLENDMODE_ADD := (2%Z).
Abbreviation SDL_BLENDMODE_MOD := (4%Z).
Abbreviation SDL_BLENDMODE_INVALID := (2147483647%Z).

Abbreviation SDL_PIXELFORMAT_ARGB8888 := (372645892%Z).
Abbreviation SDL_PIXELFORMAT_YV12 := (842094169%Z).
Abbreviation SDL_PIXELFORMAT_IYUV := (1448433993%Z).
Abbreviation SDL_PIXELFORMAT_NV12 := (842094158%Z).
Abbreviation SDL_PIXELFORMAT_NV21 := (825382478%Z).
Abbreviation SDL_PIXELFORMAT_UYVY := (1498831189%Z).

Abbreviation SDL_TEXTUREACCESS_STATIC := (0%Z).
Abbreviation SDL_TEXTUREACCESS_STREAMING := (1%Z).
Abbreviation SDL_TEXTUREACCESS_TARGET := (2%Z).

Abbreviation SDL_ScaleModeNearest := (0%Z).

Abbreviation GL_NO_ERROR := (0%Z).
Abbreviation GL_ZERO := (0%Z).
Abbreviation GL_ONE := (1%Z).
Abbreviation GL_SRC_COLOR := (768%Z).
Abbreviation GL_ONE_MINUS_SRC_COLOR := (769%Z).
Abbreviation GL_SRC_ALPHA := (770%Z).
Abbreviation GL_ONE_MINUS_SRC_ALPHA := (771%Z).
Abbreviation GL_DST_ALPHA := (772%Z).
Abbreviation GL_ONE_MINUS_DST_ALPHA := (773%Z).
Abbreviation GL_DST_COLOR := (774%Z).
Abbreviation GL_ONE_MINUS_DST_COLOR := (775%Z).
Abbreviation GL_INVALID_ENUM := (1280%Z).
Abbreviation GL_FUNC_ADD := (32774%Z).
Abbreviation GL_FUNC_SUBTRACT := (32778%Z).
Abbreviation GL_FUNC_REVERSE_SUBTRACT := (32779%Z).

Abbreviation GL_POINTS := (0%Z).
Abbreviation GL_LINE_LOOP := (2%Z).
Abbreviation GL_LINE_STRIP := (3%Z).
Abbreviation GL_TRIANGLE_STRIP := (5%Z).
Abbreviation GL_BLEND := (3042%Z).
Abbreviation GL_SCISSOR_TEST := (3089%Z).
Abbreviation GL_TEXTURE_2D := (3553%Z).
Abbreviation GL_TEXTURE_RECTANGLE_ARB := (34037%Z).
Abbreviation GL_MODELVIEW := (5888%Z).
Abbreviation GL_PROJECTION := (5889%Z).
Abbreviation GL_COLOR_BUFFER_BIT := (16384%Z).
Abbreviation GL_TEXTURE0_ARB := (33984%Z).
Abbreviation GL_TEXTURE1_ARB := (33985%Z).
Abbreviation GL_TEXTURE2_ARB := (33986%Z).
Abbreviation GL_NEAREST := (9728%Z).
Abbreviation GL_LINEAR := (9729%Z).
Abbreviation GL_TEXTURE_MAG_FILTER := (10240%Z).
Abbreviation GL_TEXTURE_MIN_FILTER := (10241%Z).
Abbreviation GL_TEXTURE_WRAP_S := (10242%Z).
Abbreviation GL_TEXTURE_WRAP_T := (10243%Z).
Abbreviation GL_CLAMP_TO_EDGE := (33071%Z).
Abbreviation GL_UNSIGNED_BYTE := (5121%Z).
Abbreviation GL_LUMINANCE := (6409%Z).
Abbreviation GL_LUMINANCE_ALPHA := (6410%Z).
Abbreviation GL_RGBA8 := (32856%Z).
Abbreviation GL_BGRA := (32993%Z).
Abbreviation GL_UNSIGNED_INT_8_8_8_8_REV := (33639%Z).
Abbreviation GL_UNPACK_ROW_LENGTH := (3314%Z).
Abbreviation GL_UNPACK_ALIGNMENT := (3317%Z).
Abbreviation GL_UNPACK_CLIENT_STORAGE_APPLE := (34226%Z).
Abbreviation GL_TEXTURE_STORAGE_HINT_APPLE := (34236%Z).
Abbreviation GL_STORAGE_CACHED_APPLE := (34238%Z).
Abbreviation GL_STORAGE_SHARED_APPLE := (34239%Z).

(** [GL_Shader] of SDL_shaders_gl.h. *)
Inductive GL_Shader : Type :=
| SHADER_INVALID
| SHADER_NONE
| SHADER_SOLID
| SHADER_RGB
| SHADER_YUV_JPEG
| SHADER_YUV_BT601
| SHADER_YUV_BT709
| SHADER_NV12_JPEG
| SHADER_NV12_BT601
| SHADER_NV12_BT709
| SHADER_NV21_JPEG
| SHADER_NV21_BT601
| SHADER_NV21_BT709.

Definition GL_Shader_eqb (a b : GL_Shader) : bool :=
  match a, b with
  | SHADER_INVALID, SHADER_INVALID | SHADER_NONE, SHADER_NONE
  | SHADER_SOLID, SHADER_SOLID | SHADER_RGB, SHADER_RGB
  | SHADER_YUV_JPEG, SHADER_YUV_JPEG | SHADER_YUV_BT601, SHADER_YUV_BT601
  | SHADER_YUV_BT709, SHADER_YUV_BT709 | SHADER_NV12_JPEG, SHADER_NV12_JPEG
  | SHADER_NV12_BT601, SHADER_NV12_BT601 | SHADER_NV12_BT709, SHADER_NV12_BT709
  | SHADER_NV21_JPEG, SHADER_NV21_JPEG | SHADER_NV21_BT601, SHADER_NV21_BT601
  | SHADER_NV21_BT709, SHADER_NV21_BT709 => true
  | _, _ => false
  end.

(** What [SDL_GetYUVConversionModeForResolution] can answer. *)
Inductive SDL_YUV_CONVERSION_MODE : Type :=
| SDL_YUV_CONVERSION_JPEG
| SDL_YUV_CONVERSION_BT601
| SDL_YUV_CONVERSION_BT709
| SDL_YUV_CONVERSION_AUTOMATIC.

Record SDL_Rect : Type := mkRect { rx : Z; ry : Z; rw : Z; rh : Z }.

(** [SDL_memcmp] of two rectangles, as the test [!= 0] uses it. *)
Definition SDL_Rect_eqb (a b : SDL_Rect) : bool :=
  (rx a =? rx b) && (ry a =? ry b) && (rw a =? rw b) && (rh a =? rh b).

Record SDL_FPoint : Type := mkFPoint { fx : GLfloat; fy : GLfloat }.
Record SDL_FRect : Type :=
  mkFRect { frx : GLfloat; fry : GLfloat; frw : GLfloat; frh : GLfloat }.

(** ** Format/state translators *)

Definition GetBlendFunc (factor : SDL_BlendFactor) : GLenum :=
  match factor with
  | SDL_BLENDFACTOR_ZERO => GL_ZERO
  | SDL_BLENDFACTOR_ONE => GL_ONE
  | SDL_BLENDFACTOR_SRC_COLOR => GL_SRC_COLOR
  | SDL_BLENDFACTOR_ONE_MINUS_SRC_COLOR => GL_ONE_MINUS_SRC_COLOR
  | SDL_BLENDFACTOR_SRC_ALPHA => GL_SRC_ALPHA
  | SDL_BLENDFACTOR_ONE_MINUS_SRC_ALPHA => GL_ONE_MINUS_SRC_ALPHA
  | SDL_BLENDFACTOR_DST_COLOR => GL_DST_COLOR
  | SDL_BLENDFACTOR_ONE_MINUS_DST_COLOR => GL_ONE_MINUS_DST_COLOR
  | SDL_BLENDFACTOR_DST_ALPHA => GL_DST_ALPHA
  | SDL_BLENDFACTOR_ONE_MINUS_DST_ALPHA => GL_ONE_MINUS_DST_ALPHA
  | _ => GL_INVALID_ENUM
  end.

Definition GetBlendEquation (operation : SDL_BlendOperation) : GLenum :=
  match operation with
  | SDL_BLENDOPERATION_ADD => GL_FUNC_ADD
  | SDL_BLENDOPERATION_SUBTRACT => GL_FUNC_SUBTRACT
  | SDL_BLENDOPERATION_REV_SUBTRACT => GL_FUNC_REVERSE_SUBTRACT
  | _ => GL_INVALID_ENUM
  end.

(** The decomposition of a blend mode into its six components is done by
    the [SDL_GetBlendMode*] functions of SDL_render.c, which the backend only
    calls; they are taken as they come. *)
Record BlendModeAccessors : Type := {
  SDL_GetBlendModeSrcColorFactor : SDL_BlendMode -> SDL_BlendFactor;
  SDL_GetBlendModeSrcAlphaFactor : SDL_BlendMode -> SDL_BlendFactor;
  SDL_GetBlendModeColorOperation : SDL_BlendMode -> SDL_BlendOperation;
  SDL_GetBlendModeDstColorFactor : SDL_BlendMode -> SDL_BlendFactor;
  SDL_GetBlendModeDstAlphaFactor : SDL_BlendMode -> SDL_BlendFactor;
  SDL_GetBlendModeAlphaOperation : SDL_BlendMode -> SDL_BlendOperation
}.

Definition GL_SupportsBlendMode (acc : BlendModeAccessors)
    (blendMode : SDL_BlendMode) : bool :=
  let srcColorFactor := SDL_GetBlendModeSrcColorFactor acc blendMode in
  let srcAlphaFactor := SDL_GetBlendModeSrcAlphaFactor acc blendMode in
  let colorOperation := SDL_GetBlendModeColorOperation acc blendMode in
  let dstColorFactor := SDL_GetBlendModeDstColorFactor acc blendMode in
  let dstAlphaFactor := SDL_GetBlendModeDstAlphaFactor acc blendMode in
  let alphaOperation := SDL_GetBlendModeAlphaOperation acc blendMode in
  if (GetBlendFunc srcColorFactor =? GL_INVALID_ENUM)
     || (GetBlendFunc srcAlphaFactor =? GL_INVALID_ENUM)
     || (GetBlendEquation colorOperation =? GL_INVALID_ENUM)
     || (GetBlendFunc dstColorFactor =? GL_INVALID_ENUM)
     || (GetBlendFunc dstAlphaFactor =? GL_INVALID_ENUM)
     || (GetBlendEquation alphaOperation =? GL_INVALID_ENUM)
  then false
  else if negb (colorOperation =? alphaOperation) then false
  else true.

(** [power_of_2]: the loop doubles [value] until it reaches [input].  The
    fuel bounds the number of iterations; [None] is a run that has not left
    the loop. *)
Fixpoint power_of_2_loop (fuel : nat) (value input : Z) : option Z :=
  match fuel with
  | O => None
  | S fuel' =>
      if value <? input
      then power_of_2_loop fuel' (int_shl value 1) input
      else Some value
  end.

Definition power_of_2 (fuel : nat) (input : Z) : option Z :=
  power_of_2_loop fuel 1 input.

(** [convert_format] (the [__MACOSX__] case of UYVY is governed by
    [macosx]): [Some (internalFormat, format, type)] is [SDL_TRUE]. *)
Definition convert_format (macosx : bool) (pixel_format : Uint32)
    : option (Z * GLenum * GLenum) :=
  match pixel_format with
  | SDL_PIXELFORMAT_ARGB8888 =>
      Some (GL_RGBA8, GL_BGRA, GL_UNSIGNED_INT_8_8_8_8_REV)
  | SDL_PIXELFORMAT_YV12
  | SDL_PIXELFORMAT_IYUV
  | SDL_PIXELFORMAT_NV12
  | SDL_PIXELFORMAT_NV21 =>
      Some (GL_LUMINANCE, GL_LUMINANCE, GL_UNSIGNED_BYTE)
  | SDL_PIXELFORMAT_UYVY =>
      if macosx then Some (32849, 34233, 34234) else None
  | _ => None
  end.

(** ** The OpenGL function table as a log of calls

    Every entry of the function table the modelled functions go through is a
    constructor; a run appends what it calls to the log.  Arguments that are
    fixed in the source (a count of 1, the level and border of
    [glTexImage2D]) are not repeated; [client_pixels] tells whether
    [glTexImage2D] was given the texture's own pixel block or a null
    pointer. *)
Inductive Call : Type :=
| glGetError
| glGenTextures (name : GLuint)
| glDeleteTextures (name : GLuint)
| glGenFramebuffersEXT (name : GLuint)
| glEnable (cap : GLenum)
| glDisable (cap : GLenum)
| glBindTexture (target : GLenum) (name : GLuint)
| glTexParameteri (target pname param : GLenum)
| glTexImage2D (target : GLenum) (internalFormat width height : Z)
               (format type : GLenum) (client_pixels : bool)
| glPixelStorei (pname : GLenum) (param : Z)
| glColor4f (r g b a : GLfloat)
| glClearColor (r g b a : GLfloat)
| glBlendFuncSeparate (srcRGB dstRGB srcAlpha dstAlpha : GLenum)
| glBlendEquation (mode : GLenum)
| GL_SelectShader (shader : GL_Shader)
| glActiveTextureARB (unit : GLenum)
| glMatrixMode (mode : GLenum)
| glLoadIdentity
| glViewport (x y width height : Z)
| glOrtho (left right bottom top : Z)
| glScissor (x y width height : Z)
| glClear (mask : Z)
| glBegin (mode : GLenum)
| glEnd
| glVertex2f (x y : GLfloat)
| glTexCoord2f (s t : GLfloat)
| glRectf (x1 y1 x2 y2 : GLfloat)
| glPushMatrix
| glPopMatrix
| glTranslatef (x y z : GLfloat)
| glRotated (angle : GLfloat)
| SDL_GL_MakeCurrent (context : Z).

Record GL_FBOList : Type := mkFBO { fbo_w : Uint32; fbo_h : Uint32; FBO : GLuint }.

(** [GL_RenderData], without the function pointers.  [error_messages] holds
    one entry per recorded debug message ([errors] is its length);
    [shaders] tells whether the shader context pointer is non-null. *)
Record GL_RenderData : Type := mkRenderData {
  context : Z;
  debug_enabled : bool;
  GL_ARB_debug_output_supported : bool;
  error_messages : list GLenum;
  textype : GLenum;
  GL_ARB_texture_non_power_of_two_supported : bool;
  GL_ARB_texture_rectangle_supported : bool;
  GL_EXT_framebuffer_object_supported : bool;
  framebuffers : list GL_FBOList;
  shaders : bool
}.

(** [GL_TextureData].  [pixels] is [Some n] for a block of [n] bytes obtained
    from [SDL_calloc] and [None] for the null pointer. *)
Record GL_TextureData : Type := mkTextureData {
  texture : GLuint;
  texw : GLfloat;
  texh : GLfloat;
  format : GLenum;
  formattype : GLenum;
  pixels : option Z;
  pitch : Z;
  locked_rect : SDL_Rect;
  yuv : bool;
  nv12 : bool;
  utexture : GLuint;
  vtexture : GLuint;
  fbo : option GL_FBOList
}.

(** What [SDL_calloc (1, sizeof ( *data))] returns. *)
Definition zeroed_TextureData : GL_TextureData :=
  mkTextureData 0 f32_zero f32_zero 0 0 None 0 (mkRect 0 0 0 0)
                false false 0 0 None.

(** The fields of [SDL_Texture] the backend reads, and its [driverdata]. *)
Record SDL_Texture : Type := mkTexture {
  tex_format : Uint32;
  tex_access : Z;
  tex_w : Z;
  tex_h : Z;
  tex_scaleMode : Z;
  driverdata : option GL_TextureData
}.

(** The requests for memory the modelled functions make. *)
Inductive AllocSite : Type :=
| Alloc_TextureData
| Alloc_pixels (size : Z)
| Alloc_FBOList
| Alloc_vertices (numbytes : Z).

(** What the backend cannot decide by itself: which errors the driver
    reports for a call, whether a context can be made current, whether an
    allocation succeeds, and (when the target defines it) the platform
    macros. *)
Record Platform : Type := mkPlatform {
  raises : Call -> list GLenum;
  make_current_ok : bool;
  alloc_ok : AllocSite -> bool;
  SDL_BYTESPERPIXEL : Uint32 -> Z;
  SDL_GetYUVConversionModeForResolution : Z -> Z -> SDL_YUV_CONVERSION_MODE;
  blend_accessors : BlendModeAccessors;
  MACOSX : bool;
  WIN32 : bool
}.

(** The state a backend function runs in: the renderer's driver data, the
    context that is current on the thread, the error flags [glGetError] has
    not returned yet, the next unused object name, and the log. *)
Record GLState : Type := mkState {
  renderdata : GL_RenderData;
  current_context : Z;
  gl_errors : list GLenum;
  next_name : GLuint;
  log : list Call
}.

(** A state monad that can fail to return. *)
Definition GL (A : Type) : Type := GLState -> option (A * GLState).

Definition ret {A : Type} (a : A) : GL A := fun s => Some (a, s).

Definition bind {A B : Type} (m : GL A) (k : A -> GL B) : GL B :=
  fun s => match m s with
           | Some (a, s') => k a s'
           | None => None
           end.

Definition diverge {A : Type} : GL A := fun _ => None.

Declare Scope gl_scope.
Delimit Scope gl_scope with gl.
Notation "x <- m ;; k" := (bind m (fun x => k))
  (at level 100, m at next level, right associativity) : gl_scope.
Notation "m ;;; k" := (bind m (fun _ => k))
  (at level 100, right associativity) : gl_scope.

Definition get_data : GL GL_RenderData := fun s => Some (renderdata s, s).

Definition set_data (d : GL_RenderData) : GL unit :=
  fun s => Some (tt, mkState d (current_context s) (gl_errors s)
                             (next_name s) (log s)).

Definition set_error_messages (d : GL_RenderData) (msgs : list GLenum)
    : GL_RenderData :=
  mkRenderData (context d) (debug_enabled d) (GL_ARB_debug_output_supported d)
    msgs (textype d) (GL_ARB_texture_non_power_of_two_supported d)
    (GL_ARB_texture_rectangle_supported d)
    (GL_EXT_framebuffer_object_supported d) (framebuffers d) (shaders d).

Definition set_framebuffers (d : GL_RenderData) (l : list GL_FBOList)
    : GL_RenderData :=
  mkRenderData (context d) (debug_enabled d) (GL_ARB_debug_output_supported d)
    (error_messages d) (textype d) (GL_ARB_texture_non_power_of_two_supported d)
    (GL_ARB_texture_rectangle_supported d)
    (GL_EXT_framebuffer_object_supported d) l (shaders d).

Definition real_errors (l : list GLenum) : list GLenum :=
  filter (fun e => negb (e =? GL_NO_ERROR)) l.

(** One call through the function table: it is logged, and the errors the
    driver reports for it become pending error flags; [GL_HandleDebugMessage],
    installed when debug output is in use, records them as messages. *)
Definition call (P : Platform) (c : Call) : GL unit :=
  fun s =>
    let errs := real_errors (raises P c) in
    let d := renderdata s in
    let d' := if debug_enabled d && GL_ARB_debug_output_supported d
              then set_error_messages d (error_messages d ++ errs)
              else d in
    Some (tt, mkState d' (current_context s) (gl_errors s ++ errs)
                      (next_name s) (log s ++ [c])).

Fixpoint calls (P : Platform) (l : list Call) : GL unit :=
  match l with
  | [] => ret tt
  | c :: l' => (call P c ;;; calls P l')%gl
  end.

(** [glGenTextures (1, &name)]: the driver hands out an unused name. *)
Definition fresh_name : GL GLuint :=
  fun s => Some (next_name s,
                 mkState (renderdata s) (current_context s) (gl_errors s)
                         (next_name s + 1) (log s)).

Definition gen_texture (P : Platform) : GL GLuint :=
  (n <- fresh_name ;; call P (glGenTextures n) ;;; ret n)%gl.

(** ** Error bookkeeping and activation *)

(** [glGetError]: returns and clears one pending flag ([GL_NO_ERROR] is
    not a flag). *)
Definition get_error : GL GLenum :=
  fun s =>
    match real_errors (gl_errors s) with
    | [] => Some (GL_NO_ERROR,
                  mkState (renderdata s) (current_context s) []
                          (next_name s) (log s ++ [glGetError]))
    | e :: rest => Some (e,
                  mkState (renderdata s) (current_context s) rest
                          (next_name s) (log s ++ [glGetError]))
    end.

(** [while (data->glGetError() != GL_NO_ERROR) continue;] *)
Fixpoint GL_ClearErrors_loop (fuel : nat) : GL unit :=
  match fuel with
  | O => diverge
  | S fuel' =>
      (e <- get_error ;;
       if e =? GL_NO_ERROR then ret tt else GL_ClearErrors_loop fuel')%gl
  end.

Definition GL_ClearErrors : GL unit :=
  (d <- get_data ;;
   if negb (debug_enabled d) then ret tt
   else if GL_ARB_debug_output_supported d then
     match error_messages d with
     | [] => ret tt
     | _ :: _ => set_data (set_error_messages d [])
     end
   else fun s => GL_ClearErrors_loop (S (length (gl_errors s))) s)%gl.

(** The [for (;;)] loop of [GL_CheckAllErrors]; [r] is [ret]. *)
Fixpoint GL_CheckAllErrors_loop (fuel : nat) (r : Z) : GL Z :=
  match fuel with
  | O => diverge
  | S fuel' =>
      (e <- get_error ;;
       if negb (e =? GL_NO_ERROR) then GL_CheckAllErrors_loop fuel' (-1)
       else ret r)%gl
  end.

(** [GL_CheckAllErrors], which [GL_CheckError] expands to.  The text handed
    to [SDL_SetError] is not kept. *)
Definition GL_CheckError : GL Z :=
  (d <- get_data ;;
   if negb (debug_enabled d) then ret 0
   else if GL_ARB_debug_output_supported d then
     match error_messages d with
     | [] => ret 0
     | _ :: _ => GL_ClearErrors ;;; ret (-1)
     end
   else fun s => GL_CheckAllErrors_loop (S (length (gl_errors s))) 0 s)%gl.

(** [SDL_GL_MakeCurrent (renderer->window, data->context)]. *)
Definition make_current (P : Platform) (ctx : Z) : GL Z :=
  fun s =>
    let s' := mkState (renderdata s)
                      (if make_current_ok P then ctx else current_context s)
                      (gl_errors s) (next_name s)
                      (log s ++ [SDL_GL_MakeCurrent ctx]) in
    Some (if make_current_ok P then 0 else -1, s').

Definition GL_ActivateRenderer (P : Platform) : GL Z :=
  (d <- get_data ;;
   fun s =>
     (r <- (if negb (current_context s =? context d)
            then make_current P (context d) else ret 0) ;;
      if r <? 0 then ret (-1)
      else GL_ClearErrors ;;; ret 0) s)%gl.

Fixpoint find_FBO (l : list GL_FBOList) (w h : Uint32) : option GL_FBOList :=
  match l with
  | [] => None
  | r :: next =>
      if negb (fbo_w r =? w) || negb (fbo_h r =? h)
      then find_FBO next w h else Some r
  end.

Definition GL_GetFBO (P : Platform) (w h : Uint32) : GL (option GL_FBOList) :=
  (d <- get_data ;;
   match find_FBO (framebuffers d) w h with
   | Some result => ret (Some result)
   | None =>
       if alloc_ok P Alloc_FBOList then
         n <- fresh_name ;;
         call P (glGenFramebuffersEXT n) ;;;
         d' <- get_data ;;
         set_data (set_framebuffers d' (mkFBO w h n :: framebuffers d')) ;;;
         ret (Some (mkFBO w h n))
       else ret None
   end)%gl.

(** ** Texture resource manager *)

Definition is_YV12_or_IYUV (fmt : Uint32) : bool :=
  (fmt =? SDL_PIXELFORMAT_YV12) || (fmt =? SDL_PIXELFORMAT_IYUV).

Definition is_NV12_or_NV21 (fmt : Uint32) : bool :=
  (fmt =? SDL_PIXELFORMAT_NV12) || (fmt =? SDL_PIXELFORMAT_NV21).

(** [data->pitch] of a streaming texture. *)
Definition streaming_pitch (P : Platform) (tex : SDL_Texture) : Z :=
  int_mul (tex_w tex) (SDL_BYTESPERPIXEL P (tex_format tex)).

(** The [size_t size] handed to [SDL_calloc] for a streaming texture. *)
Definition streaming_size (P : Platform) (tex : SDL_Texture) : Z :=
  let pitch := streaming_pitch P tex in
  let size := wrap_size_t (int_mul (tex_h tex) pitch) in
  let size :=
    if is_YV12_or_IYUV (tex_format tex)
    then wrap_size_t
           (size + int_mul (int_mul 2 (int_div (int_add (tex_h tex) 1) 2))
                           (int_div (int_add pitch 1) 2))
    else size in
  let size :=
    if is_NV12_or_NV21 (tex_format tex)
    then wrap_size_t
           (size + int_mul (int_mul 2 (int_div (int_add (tex_h tex) 1) 2))
                           (int_div (int_add pitch 1) 2))
    else size in
  size.

Definition with_driverdata (tex : SDL_Texture) (d : option GL_TextureData)
    : SDL_Texture :=
  mkTexture (tex_format tex) (tex_access tex) (tex_w tex) (tex_h tex)
            (tex_scaleMode tex) d.

(** The size of the texture object and the UV scale stored with it: the
    three sizing policies of [GL_CreateTexture]. *)
Definition texture_dimensions (fuel : nat) (d : GL_RenderData)
    (tex : SDL_Texture) : option (Z * Z * GLfloat * GLfloat) :=
  if GL_ARB_texture_non_power_of_two_supported d then
    Some (tex_w tex, tex_h tex, f32_one, f32_one)
  else if GL_ARB_texture_rectangle_supported d then
    Some (tex_w tex, tex_h tex, f32_of_int (tex_w tex), f32_of_int (tex_h tex))
  else
    match power_of_2 fuel (tex_w tex), power_of_2 fuel (tex_h tex) with
    | Some texture_w, Some texture_h =>
        Some (texture_w, texture_h,
              f32_div (f32_of_int (tex_w tex)) (f32_of_int texture_w),
              f32_div (f32_of_int (tex_h tex)) (f32_of_int texture_h))
    | _, _ => None
    end.

(** The four [glTexParameteri] calls made for an auxiliary plane. *)
Definition plane_parameters (textype scaleMode : GLenum) : list Call :=
  [ glTexParameteri textype GL_TEXTURE_MIN_FILTER scaleMode;
    glTexParameteri textype GL_TEXTURE_MAG_FILTER scaleMode;
    glTexParameteri textype GL_TEXTURE_WRAP_S GL_CLAMP_TO_EDGE;
    glTexParameteri textype GL_TEXTURE_WRAP_T GL_CLAMP_TO_EDGE ].

(** The upload of the primary image, with its [__MACOSX__] variants. *)
Definition primary_image (P : Platform) (tex : SDL_Texture)
    (textype : GLenum) (internalFormat texture_w texture_h : Z)
    (fmt type : GLenum) (pitch : Z) : list Call :=
  (if MACOSX P then
     [ glTexParameteri textype GL_TEXTURE_STORAGE_HINT_APPLE
         (if tex_access tex =? SDL_TEXTUREACCESS_STREAMING
          then GL_STORAGE_SHARED_APPLE else GL_STORAGE_CACHED_APPLE) ]
   else [])
  ++
  (if MACOSX P
      && (tex_access tex =? SDL_TEXTUREACCESS_STREAMING)
      && (tex_format tex =? SDL_PIXELFORMAT_ARGB8888)
      && (Z.rem (tex_w tex) 8 =? 0)
   then
     [ glPixelStorei GL_UNPACK_CLIENT_STORAGE_APPLE 1;
       glPixelStorei GL_UNPACK_ALIGNMENT 1;
       glPixelStorei GL_UNPACK_ROW_LENGTH
         (int_div pitch (SDL_BYTESPERPIXEL P (tex_format tex)));
       glTexImage2D textype internalFormat texture_w texture_h fmt type true;
       glPixelStorei GL_UNPACK_CLIENT_STORAGE_APPLE 0 ]
   else
     [ glTexImage2D textype internalFormat texture_w texture_h fmt type false ]).

(** The block of [GL_CreateTexture] for YV12 and IYUV: the U and V planes. *)
Definition create_yuv_planes (P : Platform) (textype scaleMode : GLenum)
    (internalFormat half_w half_h : Z) (fmt type : GLenum)
    : GL (GLuint * GLuint) :=
  (u <- gen_texture P ;;
   v <- gen_texture P ;;
   call P (glEnable textype) ;;;
   call P (glBindTexture textype u) ;;;
   calls P (plane_parameters textype scaleMode) ;;;
   call P (glTexImage2D textype internalFormat half_w half_h fmt type false) ;;;
   call P (glBindTexture textype v) ;;;
   calls P (plane_parameters textype scaleMode) ;;;
   call P (glTexImage2D textype internalFormat half_w half_h fmt type false) ;;;
   call P (glDisable textype) ;;;
   ret (u, v))%gl.

(** The block of [GL_CreateTexture] for NV12 and NV21: the interleaved U/V
    plane. *)
Definition create_nv12_plane (P : Platform) (textype scaleMode : GLenum)
    (half_w half_h : Z) : GL GLuint :=
  (u <- gen_texture P ;;
   call P (glEnable textype) ;;;
   call P (glBindTexture textype u) ;;;
   calls P (plane_parameters textype scaleMode) ;;;
   call P (glTexImage2D textype GL_LUMINANCE_ALPHA half_w half_h
                        GL_LUMINANCE_ALPHA GL_UNSIGNED_BYTE false) ;;;
   call P (glDisable textype) ;;;
   ret u)%gl.

(** The calls between [texture->driverdata = data] and the check of
    [glTexImage2D]: parameters and storage of the primary texture. *)
Definition primary_texture_calls (P : Platform) (tex : SDL_Texture)
    (textype scaleMode : GLenum) (name : GLuint)
    (internalFormat texture_w texture_h : Z) (fmt type : GLenum) (pitch : Z)
    : list Call :=
  [ glEnable textype;
    glBindTexture textype name;
    glTexParameteri textype GL_TEXTURE_MIN_FILTER scaleMode;
    glTexParameteri textype GL_TEXTURE_MAG_FILTER scaleMode ]
  ++ (if negb (textype =? GL_TEXTURE_RECTANGLE_ARB)
      then [ glTexParameteri textype GL_TEXTURE_WRAP_S GL_CLAMP_TO_EDGE;
             glTexParameteri textype GL_TEXTURE_WRAP_T GL_CLAMP_TO_EDGE ]
      else [])
  ++ primary_image P tex textype internalFormat texture_w texture_h
                   fmt type pitch
  ++ [ glDisable textype ].

(** [GL_CreateTexture].  The result is the returned [int] and the texture
    with the [driverdata] the call has left in it. *)
Definition GL_CreateTexture (P : Platform) (fuel : nat) (tex : SDL_Texture)
    : GL (Z * SDL_Texture) :=
  (GL_ActivateRenderer P ;;;
   renderdata <- get_data ;;
   let textype := textype renderdata in
   if (tex_access tex =? SDL_TEXTUREACCESS_TARGET)
      && negb (GL_EXT_framebuffer_object_supported renderdata)
   then ret (-1, tex)
   else
   match convert_format (MACOSX P) (tex_format tex) with
   | None => ret (-1, tex)
   | Some (internalFormat, fmt, type) =>
   if negb (alloc_ok P Alloc_TextureData) then ret (-1, tex)
   else
   let streaming := tex_access tex =? SDL_TEXTUREACCESS_STREAMING in
   let pitch := if streaming then streaming_pitch P tex else 0 in
   let size := streaming_size P tex in
   if streaming && negb (alloc_ok P (Alloc_pixels size)) then ret (-1, tex)
   else
   let pixels := if streaming then Some size else None in
   fbo <- (if tex_access tex =? SDL_TEXTUREACCESS_TARGET
           then GL_GetFBO P (wrap_Uint32 (tex_w tex)) (wrap_Uint32 (tex_h tex))
           else ret None) ;;
   GL_CheckError ;;;
   name <- gen_texture P ;;
   r <- GL_CheckError ;;
   if r <? 0 then ret (-1, tex)
   else
   match texture_dimensions fuel renderdata tex with
   | None => diverge
   | Some (texture_w, texture_h, texw, texh) =>
   let scaleMode := if tex_scaleMode tex =? SDL_ScaleModeNearest
                    then GL_NEAREST else GL_LINEAR in
   let data := fun yuv nv12 utexture vtexture =>
     mkTextureData name texw texh fmt type pixels pitch (mkRect 0 0 0 0)
                   yuv nv12 utexture vtexture fbo in
   calls P (primary_texture_calls P tex textype scaleMode name internalFormat
                                  texture_w texture_h fmt type pitch) ;;;
   r <- GL_CheckError ;;
   if r <? 0 then ret (-1, with_driverdata tex (Some (data false false 0 0)))
   else
   let half_w := int_div (int_add texture_w 1) 2 in
   let half_h := int_div (int_add texture_h 1) 2 in
   uv <- (if is_YV12_or_IYUV (tex_format tex)
          then create_yuv_planes P textype scaleMode internalFormat
                                 half_w half_h fmt type
          else ret (0, 0)) ;;
   u <- (if is_NV12_or_NV21 (tex_format tex)
         then create_nv12_plane P textype scaleMode half_w half_h
         else ret (fst uv)) ;;
   r <- GL_CheckError ;;
   ret (r, with_driverdata tex
             (Some (data (is_YV12_or_IYUV (tex_format tex))
                         (is_NV12_or_NV21 (tex_format tex)) u (snd uv))))
   end
   end)%gl.

(** [GL_DestroyTexture]; [SDL_free] of the pixel block and of the texture
    data is the disappearance of [driverdata]. *)
Definition GL_DestroyTexture (P : Platform) (tex : SDL_Texture)
    : GL SDL_Texture :=
  (GL_ActivateRenderer P ;;;
   match driverdata tex with
   | None => ret tex
   | Some data =>
       (if negb (texture data =? 0)
        then call P (glDeleteTextures (texture data)) else ret tt) ;;;
       (if yuv data
        then call P (glDeleteTextures (utexture data)) ;;;
             call P (glDeleteTextures (vtexture data))
        else ret tt) ;;;
       ret (with_driverdata tex None)
   end)%gl.

(** ** Queueing vertices *)

(** The [data.draw] member of [SDL_RenderCommand]; [draw_texture] is the
    address of the texture, 0 for the null pointer. *)
Record DrawCommand : Type := mkDraw {
  first : Z;
  count : Z;
  draw_r : Uint8;
  draw_g : Uint8;
  draw_b : Uint8;
  draw_a : Uint8;
  draw_blend : SDL_BlendMode;
  draw_texture : Z
}.

Definition with_first_count (cmd : DrawCommand) (f c : Z) : DrawCommand :=
  mkDraw f c (draw_r cmd) (draw_g cmd) (draw_b cmd) (draw_a cmd)
         (draw_blend cmd) (draw_texture cmd).

Inductive SDL_RenderCommand : Type :=
| SDL_RENDERCMD_NO_OP
| SDL_RENDERCMD_SETVIEWPORT (rect : SDL_Rect)
| SDL_RENDERCMD_SETCLIPRECT (enabled : bool) (rect : SDL_Rect)
| SDL_RENDERCMD_SETDRAWCOLOR (r g b a : Uint8)
| SDL_RENDERCMD_CLEAR (r g b a : Uint8)
| SDL_RENDERCMD_DRAW_POINTS (draw : DrawCommand)
| SDL_RENDERCMD_DRAW_LINES (draw : DrawCommand)
| SDL_RENDERCMD_FILL_RECTS (draw : DrawCommand)
| SDL_RENDERCMD_COPY (draw : DrawCommand)
| SDL_RENDERCMD_COPY_EX (draw : DrawCommand).

(** [*p = v] for a pointer into the vertex array. *)
Fixpoint store (l : list GLfloat) (i : nat) (v : GLfloat) : list GLfloat :=
  match l, i with
  | [], _ => []
  | _ :: t, O => v :: t
  | x :: t, S i' => x :: store t i' v
  end.

(** Modelled from the spec: [SDL_AllocateRenderVertices] of SDL_render.c, the
    frontend's vertex-buffer allocator, [allocate (byteSize, alignment) ->
    offset], which reserves the space for a command's geometry: the block is
    taken at the end of the vertex data and its byte offset is returned; a
    refused request returns the null pointer. *)
Definition SDL_AllocateRenderVertices (P : Platform)
    (vertex_data : list GLfloat) (numbytes : Z) : option (Z * list GLfloat) :=
  if alloc_ok P (Alloc_vertices numbytes)
  then Some (4 * Z.of_nat (length vertex_data),
             vertex_data ++ repeat f32_zero (Z.to_nat (numbytes / 4)))
  else None.

(** The [for] loop of [GL_QueueDrawPoints]; [verts] is the write pointer, as
    an index into the vertex data. *)
Fixpoint GL_QueueDrawPoints_loop (points : list SDL_FPoint) (verts : nat)
    (vertex_data : list GLfloat) : list GLfloat :=
  match points with
  | [] => vertex_data
  | p :: rest =>
      let vertex_data := store vertex_data verts (f32_add f32_half (fx p)) in
      let vertex_data :=
        store vertex_data (S verts) (f32_add f32_half (fy p)) in
      GL_QueueDrawPoints_loop rest (S (S verts)) vertex_data
  end.

(** [GL_QueueDrawPoints]: the array [points] with its [count] is a list.  The
    result is the returned [int], the command and the vertex data. *)
Definition GL_QueueDrawPoints (P : Platform) (vertex_data : list GLfloat)
    (cmd : DrawCommand) (points : list SDL_FPoint)
    : Z * DrawCommand * list GLfloat :=
  let count := Z.of_nat (length points) in
  match SDL_AllocateRenderVertices P vertex_data
          (wrap_size_t (int_mul count 2 * 4)) with
  | None => (-1, cmd, vertex_data)
  | Some (first, vertex_data') =>
      (0, with_first_count cmd first count,
       GL_QueueDrawPoints_loop points (Z.to_nat (first / 4)) vertex_data')
  end.

(** The entries of the renderer's function table that [GL_CreateRenderer]
    fills for points and lines. *)
Record QueueHooks : Type := mkHooks {
  QueueDrawPoints :
    list GLfloat -> DrawCommand -> list SDL_FPoint ->
    Z * DrawCommand * list GLfloat;
  QueueDrawLines :
    list GLfloat -> DrawCommand -> list SDL_FPoint ->
    Z * DrawCommand * list GLfloat
}.

Definition GL_CreateRenderer_hooks (P : Platform) : QueueHooks :=
  mkHooks (GL_QueueDrawPoints P) (GL_QueueDrawPoints P).

(** ** Command executor *)

(** The fields of [SDL_Renderer] that [GL_RunCommandQueue] reads.  [target] is
    the address of the target texture (0 when drawing to the window),
    [drawable] what [SDL_GL_GetDrawableSize] answers for the window, and
    [textures] the textures the commands point to. *)
Record SDL_Renderer : Type := mkRenderer {
  target : Z;
  renderer_r : Uint8;
  renderer_g : Uint8;
  renderer_b : Uint8;
  renderer_a : Uint8;
  renderer_viewport : SDL_Rect;
  clip_rect : SDL_Rect;
  clipping_enabled : bool;
  drawable : Z * Z;
  textures : Z -> option SDL_Texture
}.

(** The local variables of [GL_RunCommandQueue] that cache what was last
    sent to OpenGL. *)
Record StateCache : Type := mkCache {
  viewport : SDL_Rect;
  bound_texture : Z;
  blend : SDL_BlendMode;
  shader : GL_Shader;
  cliprect_enabled : bool;
  cliprect : SDL_Rect;
  clear_color : Uint32;
  draw_color : Uint32;
  texturing : bool
}.

(** [((a << 24) | (r << 16) | (g << 8) | b)] as a [Uint32]. *)
Definition pack_color (r g b a : Uint8) : Uint32 :=
  wrap_Uint32
    (Z.lor (Z.lor (Z.lor (Z.shiftl a 24) (Z.shiftl r 16)) (Z.shiftl g 8)) b).

Definition color4 (r g b a : Uint8) : GLfloat * GLfloat * GLfloat * GLfloat :=
  (f32_mul (f32_of_int r) inv255f, f32_mul (f32_of_int g) inv255f,
   f32_mul (f32_of_int b) inv255f, f32_mul (f32_of_int a) inv255f).

Definition glColor4f_bytes (r g b a : Uint8) : Call :=
  let '(fr, fg, fb, fa) := color4 r g b a in glColor4f fr fg fb fa.

Definition glClearColor_bytes (r g b a : Uint8) : Call :=
  let '(fr, fg, fb, fa) := color4 r g b a in glClearColor fr fg fb fa.

(** The four blocks of [SetDrawState], in the order of the source.  Each
    returns the new value of the cached variable and the calls it makes. *)
Definition SetDrawState_color (cmd : DrawCommand) (current_color : Uint32)
    : Uint32 * list Call :=
  let color := pack_color (draw_r cmd) (draw_g cmd) (draw_b cmd) (draw_a cmd) in
  if negb (color =? current_color)
  then (color,
        [glColor4f_bytes (draw_r cmd) (draw_g cmd) (draw_b cmd) (draw_a cmd)])
  else (current_color, []).

Definition SetDrawState_blend (P : Platform) (cmd : DrawCommand)
    (current_blend : SDL_BlendMode) : SDL_BlendMode * list Call :=
  let blend := draw_blend cmd in
  let acc := blend_accessors P in
  if negb (blend =? current_blend) then
    (blend,
     if blend =? SDL_BLENDMODE_NONE then [glDisable GL_BLEND]
     else [ glEnable GL_BLEND;
            glBlendFuncSeparate
              (GetBlendFunc (SDL_GetBlendModeSrcColorFactor acc blend))
              (GetBlendFunc (SDL_GetBlendModeDstColorFactor acc blend))
              (GetBlendFunc (SDL_GetBlendModeSrcAlphaFactor acc blend))
              (GetBlendFunc (SDL_GetBlendModeDstAlphaFactor acc blend));
            glBlendEquation
              (GetBlendEquation (SDL_GetBlendModeColorOperation acc blend)) ])
  else (current_blend, []).

Definition SetDrawState_shader (data : GL_RenderData) (shader : GL_Shader)
    (current_shader : GL_Shader) : GL_Shader * list Call :=
  if shaders data && negb (GL_Shader_eqb shader current_shader)
  then (shader, [GL_SelectShader shader])
  else (current_shader, []).

Definition SetDrawState_texturing (data : GL_RenderData) (cmd : DrawCommand)
    (current_texturing : bool) : bool * list Call :=
  if negb (Bool.eqb (negb (draw_texture cmd =? 0)) current_texturing) then
    if draw_texture cmd =? 0
    then (false, [glDisable (textype data)])
    else (false, [glEnable (textype data)])
  else (current_texturing, []).

Definition SetDrawState (P : Platform) (data : GL_RenderData)
    (cmd : DrawCommand) (shader0 : GL_Shader) (c : StateCache)
    : StateCache * list Call :=
  let '(color', k1) := SetDrawState_color cmd (draw_color c) in
  let '(blend', k2) := SetDrawState_blend P cmd (blend c) in
  let '(shader', k3) := SetDrawState_shader data shader0 (shader c) in
  let '(texturing', k4) := SetDrawState_texturing data cmd (texturing c) in
  (mkCache (viewport c) (bound_texture c) blend' shader' (cliprect_enabled c)
           (cliprect c) (clear_color c) color' texturing',
   k1 ++ k2 ++ k3 ++ k4).

(** The shader [SetCopyState] selects for a texture. *)
Definition SetCopyState_shader (P : Platform) (data : GL_RenderData)
    (tex : SDL_Texture) (texturedata : GL_TextureData) : GL_Shader :=
  let pick := fun s_yuv s_nv12 s_nv21 =>
    if yuv texturedata then s_yuv
    else if tex_format tex =? SDL_PIXELFORMAT_NV12 then s_nv12
    else s_nv21 in
  if shaders data && (yuv texturedata || nv12 texturedata) then
    match SDL_GetYUVConversionModeForResolution P (tex_w tex) (tex_h tex) with
    | SDL_YUV_CONVERSION_JPEG =>
        pick SHADER_YUV_JPEG SHADER_NV12_JPEG SHADER_NV21_JPEG
    | SDL_YUV_CONVERSION_BT601 =>
        pick SHADER_YUV_BT601 SHADER_NV12_BT601 SHADER_NV21_BT601
    | SDL_YUV_CONVERSION_BT709 =>
        pick SHADER_YUV_BT709 SHADER_NV12_BT709 SHADER_NV21_BT709
    | SDL_YUV_CONVERSION_AUTOMATIC => SHADER_RGB
    end
  else SHADER_RGB.

Definition SetCopyState_bind (data : GL_RenderData) (cmd : DrawCommand)
    (texturedata : GL_TextureData) (current_texture : Z) : Z * list Call :=
  if negb (draw_texture cmd =? current_texture) then
    (draw_texture cmd,
     (if yuv texturedata
      then [ glActiveTextureARB GL_TEXTURE2_ARB;
             glBindTexture (textype data) (vtexture texturedata);
             glActiveTextureARB GL_TEXTURE1_ARB;
             glBindTexture (textype data) (utexture texturedata) ]
      else [])
     ++ (if nv12 texturedata
         then [ glActiveTextureARB GL_TEXTURE1_ARB;
                glBindTexture (textype data) (utexture texturedata) ]
         else [])
     ++ [ glActiveTextureARB GL_TEXTURE0_ARB;
          glBindTexture (textype data) (texture texturedata) ])
  else (current_texture, []).

(** [SetCopyState]; [None] when the command's texture pointer or its driver
    data cannot be dereferenced. *)
Definition SetCopyState (P : Platform) (renderer : SDL_Renderer)
    (data : GL_RenderData) (cmd : DrawCommand) (c : StateCache)
    : option (StateCache * list Call) :=
  match textures renderer (draw_texture cmd) with
  | None => None
  | Some tex =>
      match driverdata tex with
      | None => None
      | Some texturedata =>
          let shader0 := SetCopyState_shader P data tex texturedata in
          let '(c1, k1) := SetDrawState P data cmd shader0 c in
          let '(bound', k2) :=
            SetCopyState_bind data cmd texturedata (bound_texture c1) in
          Some (mkCache (viewport c1) bound' (blend c1) (shader c1)
                        (cliprect_enabled c1) (cliprect c1) (clear_color c1)
                        (draw_color c1) (texturing c1),
                k1 ++ k2)
      end
  end.

(** [verts[i]], for [verts] an index into the vertex array: [None] outside
    the array. *)
Definition read (vertices : list GLfloat) (i : Z) : option GLfloat :=
  if i <? 0 then None else nth_error vertices (Z.to_nat i).

(** [(GLfloat * ) (((Uint8 * ) vertices) + cmd->data.draw.first)]. *)
Definition verts_of (cmd : DrawCommand) : option Z :=
  if (0 <=? first cmd) && (Z.rem (first cmd) 4 =? 0)
  then Some (Z.quot (first cmd) 4) else None.

(** [for (i = 0; i < count; ++i, verts += 2) glVertex2f (verts[0], verts[1])] *)
Fixpoint emit_vertices (vertices : list GLfloat) (verts : Z) (n : nat)
    : option (list Call) :=
  match n with
  | O => Some []
  | S n' =>
      match read vertices verts, read vertices (verts + 1),
            emit_vertices vertices (verts + 2) n' with
      | Some x, Some y, Some k => Some (glVertex2f x y :: k)
      | _, _, _ => None
      end
  end.

(** [for (i = 0; i < count; ++i, verts += 4) glRectf (verts[0], ...)] *)
Fixpoint emit_rects (vertices : list GLfloat) (verts : Z) (n : nat)
    : option (list Call) :=
  match n with
  | O => Some []
  | S n' =>
      match read vertices verts, read vertices (verts + 1),
            read vertices (verts + 2), read vertices (verts + 3),
            emit_rects vertices (verts + 4) n' with
      | Some x1, Some y1, Some x2, Some y2, Some k =>
          Some (glRectf x1 y1 x2 y2 :: k)
      | _, _, _, _, _ => None
      end
  end.

Definition read_int (vertices : list GLfloat) (i : Z) : option Z :=
  match read vertices i with
  | Some x => f32_to_int x
  | None => None
  end.

(** The vertices put between [glBegin (GL_POINTS)] and [glEnd] after a line
    strip.  [verts] is the read pointer as the strip loop has left it. *)
Definition open_endpoint (P : Platform) (vertices : list GLfloat)
    (verts count : Z) : option (list Call) :=
  if MACOSX P || WIN32 P then
    match read vertices (verts + (count - 1) * 2),
          read vertices (verts + (count * 2 - 1)) with
    | Some x, Some y => Some [glVertex2f x y]
    | _, _ => None
    end
  else
    match read_int vertices verts, read_int vertices (verts + 1),
          read_int vertices (verts + (count - 1) * 2),
          read_int vertices (verts + (count * 2 - 1)) with
    | Some x1, Some y1, Some x2, Some y2 =>
        Some ((if x1 >? x2
               then [glVertex2f (f32_of_int x1) (f32_of_int y1)]
               else if x2 >? x1
               then [glVertex2f (f32_of_int x2) (f32_of_int y2)]
               else [])
              ++ (if y1 >? y2
                  then [glVertex2f (f32_of_int x1) (f32_of_int y1)]
                  else if y2 >? y1
                  then [glVertex2f (f32_of_int x2) (f32_of_int y2)]
                  else []))
    | _, _, _, _ => None
    end.

(** The test that selects [GL_LINE_LOOP]; the reads are only made when
    [count > 2]. *)
Definition closes_loop (vertices : list GLfloat) (verts count : Z)
    : option bool :=
  if count >? 2 then
    match read vertices verts, read vertices (verts + (count - 1) * 2) with
    | Some x0, Some xn =>
        if f32_eqb x0 xn then
          match read vertices (verts + 1),
                read vertices (verts + (count * 2 - 1)) with
          | Some y0, Some yn => Some (f32_eqb y0 yn)
          | _, _ => None
          end
        else Some false
    | _, _ => None
    end
  else Some false.

(** The calls of [SDL_RENDERCMD_DRAW_LINES] after [SetDrawState]. *)
Definition draw_lines (P : Platform) (vertices : list GLfloat)
    (verts count : Z) : option (list Call) :=
  match closes_loop vertices verts count with
  | None => None
  | Some true =>
      let count := count - 1 in
      match emit_vertices vertices verts (Z.to_nat count) with
      | Some k => Some ([glBegin GL_LINE_LOOP] ++ k ++ [glEnd])
      | None => None
      end
  | Some false =>
      match emit_vertices vertices verts (Z.to_nat count),
            open_endpoint P vertices (verts + 2 * count) count with
      | Some k, Some extra =>
          Some ([glBegin GL_LINE_STRIP] ++ k ++ [glEnd]
                ++ [glBegin GL_POINTS] ++ extra ++ [glEnd])
      | _, _ => None
      end
  end.

(** How far the executor gets with the vertices of a command: the calls it
    has made, and whether it has come to the end of the command.  The flag is
    [false] when a read outside the vertex array (or a conversion to [int]
    that C leaves undefined) has stopped it; the calls are then those made
    before that read. *)
Definition Progress : Type := list Call * bool.

(** The loop of [emit_vertices], as far as it gets. *)
Fixpoint emit_vertices_progress (vertices : list GLfloat) (verts : Z)
    (n : nat) : Progress :=
  match n with
  | O => ([], true)
  | S n' =>
      match read vertices verts, read vertices (verts + 1) with
      | Some x, Some y =>
          let '(k, finished) :=
            emit_vertices_progress vertices (verts + 2) n' in
          (glVertex2f x y :: k, finished)
      | _, _ => ([], false)
      end
  end.

(** [SDL_RENDERCMD_DRAW_LINES] after [SetDrawState], as far as it gets: the
    test of the loop, then the loop or the strip, then [glBegin (GL_POINTS)],
    the reads of the extra point, its vertices and [glEnd]. *)
Definition draw_lines_progress (P : Platform) (vertices : list GLfloat)
    (verts count : Z) : Progress :=
  match closes_loop vertices verts count with
  | None => ([], false)
  | Some true =>
      let '(k, finished) :=
        emit_vertices_progress vertices verts (Z.to_nat (count - 1)) in
      ([glBegin GL_LINE_LOOP] ++ k ++ (if finished then [glEnd] else []),
       finished)
  | Some false =>
      let '(k, finished) :=
        emit_vertices_progress vertices verts (Z.to_nat count) in
      if finished then
        match open_endpoint P vertices (verts + 2 * count) count with
        | Some extra =>
            ([glBegin GL_LINE_STRIP] ++ k ++ [glEnd]
             ++ [glBegin GL_POINTS] ++ extra ++ [glEnd], true)
        | None =>
            ([glBegin GL_LINE_STRIP] ++ k ++ [glEnd] ++ [glBegin GL_POINTS],
             false)
        end
      else ([glBegin GL_LINE_STRIP] ++ k, false)
  end.

(** The case [SDL_RENDERCMD_DRAW_LINES] of [GL_RunCommandQueue_cmd], as far
    as it gets. *)
Definition DrawLines_progress (P : Platform) (data : GL_RenderData)
    (vertices : list GLfloat) (draw : DrawCommand) (c : StateCache)
    : Progress :=
  let n := wrap_size_t (count draw) in
  let '(_, k1) := SetDrawState P data draw SHADER_SOLID c in
  match verts_of draw with
  | None => (k1, false)
  | Some verts =>
      let '(k, finished) := draw_lines_progress P vertices verts n in
      (k1 ++ k, finished)
  end.

(** The projection set up for a viewport: the block shared by the prologue
    of [GL_RunCommandQueue] and by [SDL_RENDERCMD_SETVIEWPORT]. *)
Definition viewport_calls (renderer : SDL_Renderer) (istarget : bool)
    (drawableh : Z) (viewport : SDL_Rect) : list Call :=
  [ glMatrixMode GL_PROJECTION;
    glLoadIdentity;
    glViewport (rx viewport)
               (if istarget then ry viewport
                else int_sub (int_sub drawableh (ry viewport)) (rh viewport))
               (rw viewport) (rh viewport) ]
  ++ (if negb (rw viewport =? 0) && negb (rh viewport =? 0)
      then [ glOrtho 0 (rw (renderer_viewport renderer))
                     (if istarget then 0 else rh (renderer_viewport renderer))
                     (if istarget then rh (renderer_viewport renderer) else 0) ]
      else [])
  ++ [ glMatrixMode GL_MODELVIEW ].

Definition scissor_call (istarget : bool) (drawableh : Z)
    (viewport rect : SDL_Rect) : Call :=
  glScissor (int_add (rx viewport) (rx rect))
            (if istarget then int_add (ry viewport) (ry rect)
             else int_sub (int_sub (int_sub drawableh (ry viewport)) (ry rect))
                          (rh rect))
            (rw rect) (rh rect).

Definition set_viewport (c : StateCache) (v : SDL_Rect) : StateCache :=
  mkCache v (bound_texture c) (blend c) (shader c) (cliprect_enabled c)
          (cliprect c) (clear_color c) (draw_color c) (texturing c).

Definition set_cliprect (c : StateCache) (e : bool) (r : SDL_Rect)
    : StateCache :=
  mkCache (viewport c) (bound_texture c) (blend c) (shader c) e r
          (clear_color c) (draw_color c) (texturing c).

Definition set_clear_color (c : StateCache) (color : Uint32) : StateCache :=
  mkCache (viewport c) (bound_texture c) (blend c) (shader c)
          (cliprect_enabled c) (cliprect c) color (draw_color c) (texturing c).

Definition textured_quad (minx miny maxx maxy minu maxu minv maxv : GLfloat)
    : list Call :=
  [ glBegin GL_TRIANGLE_STRIP;
    glTexCoord2f minu minv; glVertex2f minx miny;
    glTexCoord2f maxu minv; glVertex2f maxx miny;
    glTexCoord2f minu maxv; glVertex2f minx maxy;
    glTexCoord2f maxu maxv; glVertex2f maxx maxy;
    glEnd ].

(** [Some [verts[0]; ...; verts[n-1]]]. *)
Fixpoint read_n (vertices : list GLfloat) (verts : Z) (n : nat)
    : option (list GLfloat) :=
  match n with
  | O => Some []
  | S n' =>
      match read vertices verts, read_n vertices (verts + 1) n' with
      | Some x, Some l => Some (x :: l)
      | _, _ => None
      end
  end.

(** One turn of the [while (cmd)] loop: the body of the [switch].  The result
    is the cache after the command and the calls made for it; [None] when the
    command reads outside the vertex array or through a dangling texture. *)
Definition GL_RunCommandQueue_cmd (P : Platform) (renderer : SDL_Renderer)
    (data : GL_RenderData) (vertices : list GLfloat) (drawableh : Z)
    (cmd : SDL_RenderCommand) (c : StateCache)
    : option (StateCache * list Call) :=
  let istarget := negb (target renderer =? 0) in
  match cmd with
  | SDL_RENDERCMD_SETDRAWCOLOR _ _ _ _ => Some (c, [])
  | SDL_RENDERCMD_SETVIEWPORT rect =>
      if negb (SDL_Rect_eqb rect (viewport c))
      then Some (set_viewport c rect,
                 viewport_calls renderer istarget drawableh rect)
      else Some (c, [])
  | SDL_RENDERCMD_SETCLIPRECT enabled rect =>
      let changed := negb (SDL_Rect_eqb (cliprect c) rect) in
      let k1 := if negb (Bool.eqb (cliprect_enabled c) enabled)
                then [if enabled then glEnable GL_SCISSOR_TEST
                      else glDisable GL_SCISSOR_TEST]
                else [] in
      if enabled && changed
      then Some (set_cliprect c enabled rect,
                 k1 ++ [scissor_call istarget drawableh (viewport c) rect])
      else Some (set_cliprect c enabled (cliprect c), k1)
  | SDL_RENDERCMD_CLEAR r g b a =>
      let color := pack_color r g b a in
      let '(c', k1) := if negb (color =? clear_color c)
                       then (set_clear_color c color, [glClearColor_bytes r g b a])
                       else (c, []) in
      Some (c',
            k1 ++ (if clipping_enabled renderer
                   then [glDisable GL_SCISSOR_TEST] else [])
               ++ [glClear GL_COLOR_BUFFER_BIT]
               ++ (if clipping_enabled renderer
                   then [glEnable GL_SCISSOR_TEST] else []))
  | SDL_RENDERCMD_DRAW_POINTS draw =>
      let n := wrap_size_t (count draw) in
      let '(c', k1) := SetDrawState P data draw SHADER_SOLID c in
      match verts_of draw with
      | None => None
      | Some verts =>
          match emit_vertices vertices verts (Z.to_nat n) with
          | Some k => Some (c', k1 ++ [glBegin GL_POINTS] ++ k ++ [glEnd])
          | None => None
          end
      end
  | SDL_RENDERCMD_DRAW_LINES draw =>
      let n := wrap_size_t (count draw) in
      let '(c', k1) := SetDrawState P data draw SHADER_SOLID c in
      match verts_of draw with
      | None => None
      | Some verts =>
          match draw_lines P vertices verts n with
          | Some k => Some (c', k1 ++ k)
          | None => None
          end
      end
  | SDL_RENDERCMD_FILL_RECTS draw =>
      let n := wrap_size_t (count draw) in
      let '(c', k1) := SetDrawState P data draw SHADER_SOLID c in
      match verts_of draw with
      | None => None
      | Some verts =>
          match emit_rects vertices verts (Z.to_nat n) with
          | Some k => Some (c', k1 ++ k)
          | None => None
          end
      end
  | SDL_RENDERCMD_COPY draw =>
      match verts_of draw with
      | None => None
      | Some verts =>
          match read_n vertices verts 8, SetCopyState P renderer data draw c with
          | Some [minx; miny; maxx; maxy; minu; maxu; minv; maxv],
            Some (c', k1) =>
              Some (c', k1 ++ textured_quad minx miny maxx maxy
                                            minu maxu minv maxv)
          | _, _ => None
          end
      end
  | SDL_RENDERCMD_COPY_EX draw =>
      match verts_of draw with
      | None => None
      | Some verts =>
          match read_n vertices verts 11, SetCopyState P renderer data draw c with
          | Some [minx; miny; maxx; maxy; minu; maxu; minv; maxv;
                  translatex; translatey; angle],
            Some (c', k1) =>
              Some (c', k1 ++ [ glPushMatrix;
                                glTranslatef translatex translatey f32_zero;
                                glRotated angle ]
                           ++ textured_quad minx miny maxx maxy
                                            minu maxu minv maxv
                           ++ [ glPopMatrix ])
          | _, _ => None
          end
      end
  | SDL_RENDERCMD_NO_OP => Some (c, [])
  end.

(** The [while (cmd)] loop over the linked list of commands. *)
Fixpoint GL_RunCommandQueue_loop (P : Platform) (renderer : SDL_Renderer)
    (data : GL_RenderData) (vertices : list GLfloat) (drawableh : Z)
    (cmds : list SDL_RenderCommand) (c : StateCache)
    : option (StateCache * list Call) :=
  match cmds with
  | [] => Some (c, [])
  | cmd :: next =>
      match GL_RunCommandQueue_cmd P renderer data vertices drawableh cmd c with
      | None => None
      | Some (c1, k1) =>
          match GL_RunCommandQueue_loop P renderer data vertices drawableh
                                        next c1 with
          | None => None
          | Some (c2, k2) => Some (c2, k1 ++ k2)
          end
      end
  end.

(** The values the cached variables have when the loop is entered. *)
Definition initial_cache (renderer : SDL_Renderer) : StateCache :=
  let clear_color := pack_color (renderer_r renderer) (renderer_g renderer)
                                (renderer_b renderer) (renderer_a renderer) in
  mkCache (renderer_viewport renderer) 0 SDL_BLENDMODE_INVALID SHADER_INVALID
          (clipping_enabled renderer) (clip_rect renderer)
          clear_color clear_color false.

(** The calls made before the loop. *)
Definition prologue (renderer : SDL_Renderer) (data : GL_RenderData)
    (drawableh : Z) : list Call :=
  let istarget := negb (target renderer =? 0) in
  [ glClearColor_bytes (renderer_r renderer) (renderer_g renderer)
                       (renderer_b renderer) (renderer_a renderer);
    glColor4f_bytes (renderer_r renderer) (renderer_g renderer)
                    (renderer_b renderer) (renderer_a renderer) ]
  ++ viewport_calls renderer istarget drawableh (renderer_viewport renderer)
  ++ [ glLoadIdentity;
       (if clipping_enabled renderer then glEnable GL_SCISSOR_TEST
        else glDisable GL_SCISSOR_TEST);
       glDisable (textype data);
       scissor_call istarget drawableh (renderer_viewport renderer)
                    (clip_rect renderer) ].

(** [GL_RunCommandQueue]: the returned [int]. *)
Definition GL_RunCommandQueue (P : Platform) (renderer : SDL_Renderer)
    (cmds : list SDL_RenderCommand) (vertices : list GLfloat) : GL Z :=
  (r <- GL_ActivateRenderer P ;;
   if r <? 0 then ret (-1)
   else
     data <- get_data ;;
     let istarget := negb (target renderer =? 0) in
     let drawableh := if istarget then 0 else snd (drawable renderer) in
     calls P (prologue renderer data drawableh) ;;;
     match GL_RunCommandQueue_loop P renderer data vertices drawableh cmds
                                   (initial_cache renderer) with
     | None => diverge
     | Some (_, k) => calls P k ;;; GL_CheckError
     end)%gl.

(** ** Queueing rectangles and copies *)

Definition f32_opp : GLfloat -> GLfloat := SFopp.

(** [GLdouble]: IEEE 754 binary64, and its conversion to [GLfloat] (round to
    nearest, ties to even). *)
Definition GLdouble := spec_float.

Definition f32_of_double (x : GLdouble) : GLfloat :=
  match x with
  | S754_finite s m e => binary_normalize 24 128 (cond_Zopp s (Zpos m)) e s
  | _ => x
  end.

Abbreviation SDL_FLIP_HORIZONTAL := (1%Z).
Abbreviation SDL_FLIP_VERTICAL := (2%Z).

(** [*(verts++) = v] for each [v] of [values], in order. *)
Fixpoint store_all (l : list GLfloat) (verts : nat) (values : list GLfloat)
    : list GLfloat :=
  match values with
  | [] => l
  | v :: rest => store_all (store l verts v) (S verts) rest
  end.

(** [GL_QueueSetViewport], which is also the renderer's
    [QueueSetDrawColor]: nothing to do in this backend. *)
Definition GL_QueueSetViewport (cmd : SDL_RenderCommand) : Z := 0.

(** The [for] loop of [GL_QueueFillRects]. *)
Fixpoint GL_QueueFillRects_loop (rects : list SDL_FRect) (verts : nat)
    (vertex_data : list GLfloat) : list GLfloat :=
  match rects with
  | [] => vertex_data
  | rect :: rest =>
      let vertex_data := store vertex_data verts (frx rect) in
      let vertex_data := store vertex_data (S verts) (fry rect) in
      let vertex_data :=
        store vertex_data (S (S verts)) (f32_add (frx rect) (frw rect)) in
      let vertex_data :=
        store vertex_data (S (S (S verts))) (f32_add (fry rect) (frh rect)) in
      GL_QueueFillRects_loop rest (S (S (S (S verts)))) vertex_data
  end.

(** [GL_QueueFillRects]: the array [rects] with its [count] is a list. *)
Definition GL_QueueFillRects (P : Platform) (vertex_data : list GLfloat)
    (cmd : DrawCommand) (rects : list SDL_FRect)
    : Z * DrawCommand * list GLfloat :=
  let count := Z.of_nat (length rects) in
  match SDL_AllocateRenderVertices P vertex_data
          (wrap_size_t (int_mul count 4 * 4)) with
  | None => (-1, cmd, vertex_data)
  | Some (first, vertex_data') =>
      (0, with_first_count cmd first count,
       GL_QueueFillRects_loop rects (Z.to_nat (first / 4)) vertex_data')
  end.

(** [minu], [maxu], [minv], [maxv] as [GL_QueueCopy] and [GL_QueueCopyEx]
    both compute them: the source rectangle relative to the texture, scaled
    by [texw] and [texh]. *)
Definition texture_coordinates (tex : SDL_Texture)
    (texturedata : GL_TextureData) (srcrect : SDL_Rect)
    : GLfloat * GLfloat * GLfloat * GLfloat :=
  let minu := f32_div (f32_of_int (rx srcrect)) (f32_of_int (tex_w tex)) in
  let minu := f32_mul minu (texw texturedata) in
  let maxu := f32_div (f32_of_int (int_add (rx srcrect) (rw srcrect)))
                      (f32_of_int (tex_w tex)) in
  let maxu := f32_mul maxu (texw texturedata) in
  let minv := f32_div (f32_of_int (ry srcrect)) (f32_of_int (tex_h tex)) in
  let minv := f32_mul minv (texh texturedata) in
  let maxv := f32_div (f32_of_int (int_add (ry srcrect) (rh srcrect)))
                      (f32_of_int (tex_h tex)) in
  let maxv := f32_mul maxv (texh texturedata) in
  (minu, maxu, minv, maxv).

(** [GL_QueueCopy]; [None] when [texture->driverdata], which the function
    reads without a test, is the null pointer. *)
Definition GL_QueueCopy (P : Platform) (vertex_data : list GLfloat)
    (cmd : DrawCommand) (tex : SDL_Texture) (srcrect : SDL_Rect)
    (dstrect : SDL_FRect) : option (Z * DrawCommand * list GLfloat) :=
  match SDL_AllocateRenderVertices P vertex_data (wrap_size_t (8 * 4)) with
  | None => Some (-1, cmd, vertex_data)
  | Some (first, vertex_data') =>
      match driverdata tex with
      | None => None
      | Some texturedata =>
          let minx := frx dstrect in
          let miny := fry dstrect in
          let maxx := f32_add (frx dstrect) (frw dstrect) in
          let maxy := f32_add (fry dstrect) (frh dstrect) in
          let '(minu, maxu, minv, maxv) :=
            texture_coordinates tex texturedata srcrect in
          Some (0, with_first_count cmd first 1,
                store_all vertex_data' (Z.to_nat (first / 4))
                  [minx; miny; maxx; maxy; minu; maxu; minv; maxv])
      end
  end.

(** [GL_QueueCopyEx]. *)
Definition GL_QueueCopyEx (P : Platform) (vertex_data : list GLfloat)
    (cmd : DrawCommand) (tex : SDL_Texture) (srcrect : SDL_Rect)
    (dstrect : SDL_FRect) (angle : GLdouble) (center : SDL_FPoint) (flip : Z)
    : option (Z * DrawCommand * list GLfloat) :=
  match SDL_AllocateRenderVertices P vertex_data (wrap_size_t (11 * 4)) with
  | None => Some (-1, cmd, vertex_data)
  | Some (first, vertex_data') =>
      let centerx := fx center in
      let centery := fy center in
      let '(minx, maxx) :=
        if negb (Z.land flip SDL_FLIP_HORIZONTAL =? 0)
        then (f32_sub (frw dstrect) centerx, f32_opp centerx)
        else (f32_opp centerx, f32_sub (frw dstrect) centerx) in
      let '(miny, maxy) :=
        if negb (Z.land flip SDL_FLIP_VERTICAL =? 0)
        then (f32_sub (frh dstrect) centery, f32_opp centery)
        else (f32_opp centery, f32_sub (frh dstrect) centery) in
      match driverdata tex with
      | None => None
      | Some texturedata =>
          let '(minu, maxu, minv, maxv) :=
            texture_coordinates tex texturedata srcrect in
          Some (0, with_first_count cmd first 1,
                store_all vertex_data' (Z.to_nat (first / 4))
                  [minx; miny; maxx; maxy; minu; maxu; minv; maxv;
                   f32_add (frx dstrect) centerx;
                   f32_add (fry dstrect) centery;
                   f32_of_double angle])
      end
  end.

(** ** The rest of the function table

    The functions below go through entries of the function table, and
    through functions of SDL, that the functions above do not use.  [Op]
    adds them to [Call]; a run in [GLX] keeps, beside the state of the
    [GL] runs it contains, the trace of everything that was called, in
    order. *)

(** An address: the block it points into ([Some size] for a block of [size]
    bytes, [None] for an address derived from the null pointer) and the
    byte offset from the start of the block. *)
Record Address : Type := mkAddress { block : option Z; offset : Z }.

(** [(Uint8 * ) p + n] *)
Definition advance (p : Address) (n : Z) : Address :=
  mkAddress (block p) (offset p + n).

Abbreviation GL_PACK_ROW_LENGTH := (3330%Z).
Abbreviation GL_PACK_ALIGNMENT := (3333%Z).
Abbreviation GL_FRAMEBUFFER_COMPLETE_EXT := (36053%Z).

Inductive Op : Type :=
| gl (c : Call)
| glTexSubImage2D (target : GLenum) (xoffset yoffset width height : Z)
                  (format type : GLenum) (pixels : Address)
| glBindFramebufferEXT (framebuffer : GLuint)
| glFramebufferTexture2DEXT (textarget : GLenum) (texture : GLuint)
| glCheckFramebufferStatusEXT
| glDeleteFramebuffersEXT (name : GLuint)
| glReadPixels (x y width height : Z) (format type : GLenum)
| glDebugMessageCallbackARB
| GL_DestroyShaderContext
| SDL_GL_DeleteContext (context : Z)
| SDL_GL_SwapWindow.

(** What these functions cannot decide by themselves, beside [Platform]:
    the errors the driver reports for the further entries, the status of a
    framebuffer object with a texture attached, the bytes [glReadPixels]
    delivers, whether [SDL_malloc] succeeds, the size
    [SDL_GetRendererOutputSize] answers, and the status and the converted
    pixels of [SDL_ConvertPixels]. *)
Record Driver : Type := mkDriver {
  platform : Platform;
  raises_op : Op -> list GLenum;
  framebuffer_status : GLuint -> GLuint -> GLenum;
  read_back : Op -> nat -> Uint8;
  malloc_ok : Z -> bool;
  SDL_GetRendererOutputSize : Z * Z;
  SDL_ConvertPixels :
    Z -> Z -> Uint32 -> list Uint8 -> Z -> Uint32 -> Z -> Z * list Uint8
}.

Record Session : Type := mkSession { gl_state : GLState; trace : list Op }.

Definition GLX (A : Type) : Type := Session -> option (A * Session).

Definition retx {A : Type} (a : A) : GLX A := fun x => Some (a, x).

Definition bindx {A B : Type} (m : GLX A) (k : A -> GLX B) : GLX B :=
  fun x => match m x with
           | Some (a, x') => k a x'
           | None => None
           end.

(** A run that has no result: a null pointer is dereferenced, or a
    division by zero is made. *)
Definition crash {A : Type} : GLX A := fun _ => None.

Declare Scope glx_scope.
Delimit Scope glx_scope with glx.
Notation "x <- m ;; k" := (bindx m (fun x => k))
  (at level 100, m at next level, right associativity) : glx_scope.
Notation "m ;;; k" := (bindx m (fun _ => k))
  (at level 100, right associativity) : glx_scope.

(** A [GL] run inside a [GLX] run: what it has appended to the log goes to
    the trace. *)
Definition lift {A : Type} (m : GL A) : GLX A :=
  fun x =>
    match m (gl_state x) with
    | Some (a, s') =>
        Some (a, mkSession s'
                   (trace x
                    ++ map gl (skipn (length (log (gl_state x))) (log s'))))
    | None => None
    end.

(** One call through a further entry: it goes to the trace, and the errors
    the driver reports for it become pending, as in [call]. *)
Definition op (D : Driver) (o : Op) : GLX unit :=
  fun x =>
    let s := gl_state x in
    let errs := real_errors (raises_op D o) in
    let d := renderdata s in
    let d' := if debug_enabled d && GL_ARB_debug_output_supported d
              then set_error_messages d (error_messages d ++ errs)
              else d in
    Some (tt, mkSession (mkState d' (current_context s) (gl_errors s ++ errs)
                                 (next_name s) (log s))
                        (trace x ++ [o])).

Definition glcall (D : Driver) (c : Call) : GLX unit :=
  lift (call (platform D) c).

(** ** Updating textures *)

(** The upload of the two chroma planes of a YV12 or IYUV texture in
    [GL_UpdateTexture]; the result is [pixels] as the block leaves it. *)
Definition update_yuv_planes (D : Driver) (textype : GLenum)
    (tex : SDL_Texture) (data : GL_TextureData) (rect : SDL_Rect)
    (pixels : Address) (pitch : Z) : GLX Address :=
  (glcall D (glPixelStorei GL_UNPACK_ROW_LENGTH
               (int_div (int_add pitch 1) 2)) ;;;
   let pixels := advance pixels (int_mul (rh rect) pitch) in
   glcall D (glBindTexture textype
               (if tex_format tex =? SDL_PIXELFORMAT_YV12
                then vtexture data else utexture data)) ;;;
   op D (glTexSubImage2D textype
           (int_div (rx rect) 2) (int_div (ry rect) 2)
           (int_div (int_add (rw rect) 1) 2)
           (int_div (int_add (rh rect) 1) 2)
           (format data) (formattype data) pixels) ;;;
   let pixels :=
     advance pixels (int_mul (int_div (int_add (rh rect) 1) 2)
                             (int_div (int_add pitch 1) 2)) in
   glcall D (glBindTexture textype
               (if tex_format tex =? SDL_PIXELFORMAT_YV12
                then utexture data else vtexture data)) ;;;
   op D (glTexSubImage2D textype
           (int_div (rx rect) 2) (int_div (ry rect) 2)
           (int_div (int_add (rw rect) 1) 2)
           (int_div (int_add (rh rect) 1) 2)
           (format data) (formattype data) pixels) ;;;
   retx pixels)%glx.

(** The upload of the interleaved chroma plane of an NV12 or NV21 texture
    in [GL_UpdateTexture]. *)
Definition update_nv12_plane (D : Driver) (textype : GLenum)
    (data : GL_TextureData) (rect : SDL_Rect) (pixels : Address) (pitch : Z)
    : GLX unit :=
  (glcall D (glPixelStorei GL_UNPACK_ROW_LENGTH
               (int_div (int_add pitch 1) 2)) ;;;
   let pixels := advance pixels (int_mul (rh rect) pitch) in
   glcall D (glBindTexture textype (utexture data)) ;;;
   op D (glTexSubImage2D textype
           (int_div (rx rect) 2) (int_div (ry rect) 2)
           (int_div (int_add (rw rect) 1) 2)
           (int_div (int_add (rh rect) 1) 2)
           GL_LUMINANCE_ALPHA GL_UNSIGNED_BYTE pixels))%glx.

(** [GL_UpdateTexture].  A texture without driver data is a null pointer
    that is dereferenced; [texturebpp] of zero is a division by zero. *)
Definition GL_UpdateTexture (D : Driver) (tex : SDL_Texture) (rect : SDL_Rect)
    (pixels : Address) (pitch : Z) : GLX Z :=
  (renderdata <- lift get_data ;;
   let textype := textype renderdata in
   let texturebpp := SDL_BYTESPERPIXEL (platform D) (tex_format tex) in
   lift (GL_ActivateRenderer (platform D)) ;;;
   match driverdata tex with
   | None => crash
   | Some data =>
   if texturebpp =? 0 then crash
   else
   glcall D (glEnable textype) ;;;
   glcall D (glBindTexture textype (texture data)) ;;;
   glcall D (glPixelStorei GL_UNPACK_ALIGNMENT 1) ;;;
   glcall D (glPixelStorei GL_UNPACK_ROW_LENGTH (int_div pitch texturebpp)) ;;;
   op D (glTexSubImage2D textype (rx rect) (ry rect) (rw rect) (rh rect)
           (format data) (formattype data) pixels) ;;;
   pixels <- (if yuv data
              then update_yuv_planes D textype tex data rect pixels pitch
              else retx pixels) ;;
   (if nv12 data
    then update_nv12_plane D textype data rect pixels pitch
    else retx tt) ;;;
   glcall D (glDisable textype) ;;;
   lift GL_CheckError
   end)%glx.

(** [GL_UpdateTextureYUV] *)
Definition GL_UpdateTextureYUV (D : Driver) (tex : SDL_Texture)
    (rect : SDL_Rect) (Yplane : Address) (Ypitch : Z)
    (Uplane : Address) (Upitch : Z) (Vplane : Address) (Vpitch : Z) : GLX Z :=
  (renderdata <- lift get_data ;;
   let textype := textype renderdata in
   lift (GL_ActivateRenderer (platform D)) ;;;
   match driverdata tex with
   | None => crash
   | Some data =>
   glcall D (glEnable textype) ;;;
   glcall D (glBindTexture textype (texture data)) ;;;
   glcall D (glPixelStorei GL_UNPACK_ALIGNMENT 1) ;;;
   glcall D (glPixelStorei GL_UNPACK_ROW_LENGTH Ypitch) ;;;
   op D (glTexSubImage2D textype (rx rect) (ry rect) (rw rect) (rh rect)
           (format data) (formattype data) Yplane) ;;;
   glcall D (glPixelStorei GL_UNPACK_ROW_LENGTH Upitch) ;;;
   glcall D (glBindTexture textype (utexture data)) ;;;
   op D (glTexSubImage2D textype
           (int_div (rx rect) 2) (int_div (ry rect) 2)
           (int_div (int_add (rw rect) 1) 2)
           (int_div (int_add (rh rect) 1) 2)
           (format data) (formattype data) Uplane) ;;;
   glcall D (glPixelStorei GL_UNPACK_ROW_LENGTH Vpitch) ;;;
   glcall D (glBindTexture textype (vtexture data)) ;;;
   op D (glTexSubImage2D textype
           (int_div (rx rect) 2) (int_div (ry rect) 2)
           (int_div (int_add (rw rect) 1) 2)
           (int_div (int_add (rh rect) 1) 2)
           (format data) (formattype data) Vplane) ;;;
   glcall D (glDisable textype) ;;;
   lift GL_CheckError
   end)%glx.

Definition with_locked_rect (data : GL_TextureData) (rect : SDL_Rect)
    : GL_TextureData :=
  mkTextureData (texture data) (texw data) (texh data) (format data)
                (formattype data) (pixels data) (pitch data) rect
                (yuv data) (nv12 data) (utexture data) (vtexture data)
                (fbo data).

(** [(Uint8 * ) data->pixels + rect->y * data->pitch
     + rect->x * SDL_BYTESPERPIXEL (texture->format)] *)
Definition locked_pixels (P : Platform) (tex : SDL_Texture)
    (data : GL_TextureData) (rect : SDL_Rect) : Address :=
  advance (advance (mkAddress (pixels data) 0)
                   (int_mul (ry rect) (pitch data)))
          (int_mul (rx rect) (SDL_BYTESPERPIXEL P (tex_format tex))).

(** [GL_LockTexture]: the returned [int], the texture with the rectangle
    recorded, and what is stored through [pixels] and [pitch]. *)
Definition GL_LockTexture (P : Platform) (tex : SDL_Texture) (rect : SDL_Rect)
    : option (Z * SDL_Texture * Address * Z) :=
  match driverdata tex with
  | None => None
  | Some data =>
      Some (0, with_driverdata tex (Some (with_locked_rect data rect)),
            locked_pixels P tex data rect, pitch data)
  end.

(** [GL_UnlockTexture] *)
Definition GL_UnlockTexture (D : Driver) (tex : SDL_Texture) : GLX unit :=
  match driverdata tex with
  | None => crash
  | Some data =>
      let rect := locked_rect data in
      let pixels := locked_pixels (platform D) tex data rect in
      (GL_UpdateTexture D tex rect pixels (pitch data) ;;; retx tt)%glx
  end.

(** ** Render targets, presentation and the end of the renderer *)

(** [GL_SetRenderTarget]; [tex] is [None] for the null pointer.  A texture
    without driver data, or whose [fbo] is null, is a null pointer that is
    dereferenced.  [SDL_SetError] returns -1. *)
Definition GL_SetRenderTarget (D : Driver) (tex : option SDL_Texture)
    : GLX Z :=
  (lift (GL_ActivateRenderer (platform D)) ;;;
   data <- lift get_data ;;
   if negb (GL_EXT_framebuffer_object_supported data) then retx (-1)
   else
   match tex with
   | None => op D (glBindFramebufferEXT 0) ;;; retx 0
   | Some tex =>
       match driverdata tex with
       | None => crash
       | Some texturedata =>
           match fbo texturedata with
           | None => crash
           | Some f =>
               op D (glBindFramebufferEXT (FBO f)) ;;;
               op D (glFramebufferTexture2DEXT (textype data)
                       (texture texturedata)) ;;;
               op D glCheckFramebufferStatusEXT ;;;
               let status :=
                 framebuffer_status D (FBO f) (texture texturedata) in
               if negb (status =? GL_FRAMEBUFFER_COMPLETE_EXT)
               then retx (-1)
               else retx 0
           end
       end
   end)%glx.

(** [GL_RenderPresent] *)
Definition GL_RenderPresent (D : Driver) : GLX unit :=
  (lift (GL_ActivateRenderer (platform D)) ;;; op D SDL_GL_SwapWindow)%glx.

(** The [while (data->framebuffers)] loop of [GL_DestroyRenderer]; a run
    that is out of fuel has not left the loop. *)
Fixpoint GL_DestroyRenderer_loop (D : Driver) (fuel : nat) : GLX unit :=
  match fuel with
  | O => crash
  | S fuel' =>
      (data <- lift get_data ;;
       match framebuffers data with
       | [] => retx tt
       | node :: nextnode =>
           op D (glDeleteFramebuffersEXT (FBO node)) ;;;
           lift GL_CheckError ;;;
           data <- lift get_data ;;
           lift (set_data (set_framebuffers data nextnode)) ;;;
           GL_DestroyRenderer_loop D fuel'
       end)%glx
  end.

(** [GL_DestroyRenderer]; [has_driverdata] tells whether
    [renderer->driverdata] is non-null.  The memory that is freed is not
    kept. *)
Definition GL_DestroyRenderer (D : Driver) (has_driverdata : bool)
    : GLX unit :=
  if has_driverdata then
    (data <- lift get_data ;;
     (if negb (context data =? 0)
      then lift (GL_ActivateRenderer (platform D)) ;;; retx tt
      else retx tt) ;;;
     lift GL_ClearErrors ;;;
     data <- lift get_data ;;
     (if GL_ARB_debug_output_supported data
      then op D glDebugMessageCallbackARB else retx tt) ;;;
     (if shaders data then op D GL_DestroyShaderContext else retx tt) ;;;
     (if negb (context data =? 0)
      then
        (fun x =>
           GL_DestroyRenderer_loop D
             (S (length (framebuffers (renderdata (gl_state x))))) x) ;;;
        op D (SDL_GL_DeleteContext (context data))
      else retx tt))%glx
  else retx tt.

(** ** Reading pixels back *)

(** [SDL_memcpy] out of and into a buffer of bytes, at a byte offset; a copy
    that leaves the buffer has no result. *)
Definition load (buf : list Uint8) (from len : Z) : option (list Uint8) :=
  if (0 <=? from) && (0 <=? len) && (from + len <=? Z.of_nat (length buf))
  then Some (firstn (Z.to_nat len) (skipn (Z.to_nat from) buf))
  else None.

Definition store_bytes (buf : list Uint8) (to : Z) (bytes : list Uint8)
    : option (list Uint8) :=
  if (0 <=? to) && (to + Z.of_nat (length bytes) <=? Z.of_nat (length buf))
  then Some (firstn (Z.to_nat to) buf ++ bytes
             ++ skipn (Z.to_nat to + length bytes) buf)
  else None.

(** The [while (rows--)] loop of [GL_RenderReadPixels]: [dst] and [src] are
    byte offsets into [temp_pixels]. *)
Fixpoint flip_rows (fuel : nat) (rows : Z) (temp_pixels : list Uint8)
    (dst src len temp_pitch : Z) : option (list Uint8) :=
  match fuel with
  | O => None
  | S fuel' =>
      if rows =? 0 then Some temp_pixels
      else
        match load temp_pixels dst len with
        | None => None
        | Some tmp =>
            match load temp_pixels src len with
            | None => None
            | Some row =>
                match store_bytes temp_pixels dst row with
                | None => None
                | Some temp_pixels =>
                    match store_bytes temp_pixels src tmp with
                    | None => None
                    | Some temp_pixels =>
                        flip_rows fuel' (int_sub rows 1) temp_pixels
                                  (dst + temp_pitch) (src - temp_pitch)
                                  len temp_pitch
                    end
                end
            end
        end
  end.

(** [GL_RenderReadPixels].  The result is the returned [int] and what has
    been written through [pixels] ([None] when nothing was).  The bytes of
    [temp_pixels] are those the driver delivers for the [glReadPixels]. *)
Definition GL_RenderReadPixels (D : Driver) (renderer : SDL_Renderer)
    (rect : SDL_Rect) (pixel_format : Uint32) (pitch : Z)
    : GLX (Z * option (list Uint8)) :=
  let P := platform D in
  match (if negb (target renderer =? 0)
         then option_map tex_format (textures renderer (target renderer))
         else Some SDL_PIXELFORMAT_ARGB8888) with
  | None => crash
  | Some temp_format =>
  (lift (GL_ActivateRenderer P) ;;;
   match convert_format (MACOSX P) temp_format with
   | None => retx (-1, None)
   | Some (internalFormat, format, type) =>
   if (rw rect =? 0) || (rh rect =? 0) then retx (0, None)
   else
   let temp_pitch := int_mul (rw rect) (SDL_BYTESPERPIXEL P temp_format) in
   let size := wrap_size_t (int_mul (rh rect) temp_pitch) in
   if negb (malloc_ok D size) then retx (-1, None)
   else
   let h := snd (SDL_GetRendererOutputSize D) in
   glcall D (glPixelStorei GL_PACK_ALIGNMENT 1) ;;;
   if SDL_BYTESPERPIXEL P temp_format =? 0 then crash
   else
   glcall D (glPixelStorei GL_PACK_ROW_LENGTH
               (int_div temp_pitch (SDL_BYTESPERPIXEL P temp_format))) ;;;
   let read :=
     glReadPixels (rx rect)
                  (if negb (target renderer =? 0) then ry rect
                   else int_sub (int_sub h (ry rect)) (rh rect))
                  (rw rect) (rh rect) format type in
   op D read ;;;
   let temp_pixels := map (read_back D read) (seq 0 (Z.to_nat size)) in
   r <- lift GL_CheckError ;;
   if r <? 0 then retx (-1, None)
   else
   match (if negb (target renderer =? 0) then Some temp_pixels
          else
            let len := int_mul (rw rect) (SDL_BYTESPERPIXEL P temp_format) in
            let src := int_mul (int_sub (rh rect) 1) temp_pitch in
            let rows := int_div (rh rect) 2 in
            flip_rows (S (Z.to_nat rows)) rows temp_pixels 0 src len
                      temp_pitch) with
   | None => crash
   | Some temp_pixels =>
       let status :=
         SDL_ConvertPixels D (rw rect) (rh rect) temp_format temp_pixels
                           temp_pitch pixel_format pitch in
       retx (fst status, Some (snd status))
   end
   end)%glx
  end.

(** ** Binding a texture for the application *)

(** [GL_BindTexture], called with both [texw] and [texh]: the returned
    [int] and what is stored through the two pointers.  A texture without
    driver data is a null pointer that is dereferenced. *)
Definition GL_BindTexture (P : Platform) (tex : SDL_Texture)
    : GL (Z * GLfloat * GLfloat) :=
  (data <- get_data ;;
   let textype := textype data in
   GL_ActivateRenderer P ;;;
   match driverdata tex with
   | None => diverge
   | Some texturedata =>
       calls P
         ([ glEnable textype ]
          ++ (if yuv texturedata
              then [ glActiveTextureARB GL_TEXTURE2_ARB;
                     glBindTexture textype (vtexture texturedata);
                     glActiveTextureARB GL_TEXTURE1_ARB;
                     glBindTexture textype (utexture texturedata);
                     glActiveTextureARB GL_TEXTURE0_ARB ]
              else [])
          ++ [ glBindTexture textype (texture texturedata) ]) ;;;
       ret (0, texw texturedata, texh texturedata)
   end)%gl.

(** [GL_UnbindTexture] *)
Definition GL_UnbindTexture (P : Platform) (tex : SDL_Texture) : GL Z :=
  (data <- get_data ;;
   let textype := textype data in
   GL_ActivateRenderer P ;;;
   match driverdata tex with
   | None => diverge
   | Some texturedata =>
       calls P
         ((if yuv texturedata
           then [ glActiveTextureARB GL_TEXTURE2_ARB;
                  glDisable textype;
                  glActiveTextureARB GL_TEXTURE1_ARB;
                  glDisable textype;
                  glActiveTextureARB GL_TEXTURE0_ARB ]
           else [])
          ++ [ glDisable textype ]) ;;;
       ret 0
   end)%gl.

(** ** Creating the renderer *)

Abbreviation SDL_WINDOW_OPENGL := (2%Z).
Abbreviation SDL_GL_CONTEXT_PROFILE_ES := (4%Z).
Abbreviation SDL_GL_CONTEXT_DEBUG_FLAG := (1%Z).
Abbreviation RENDERER_CONTEXT_MAJOR := (2%Z).
Abbreviation RENDERER_CONTEXT_MINOR := (1%Z).
Abbreviation SDL_RENDERER_ACCELERATED := (2%Z).
Abbreviation SDL_RENDERER_PRESENTVSYNC := (4%Z).
Abbreviation SDL_RENDERER_TARGETTEXTURE := (8%Z).
Abbreviation GL_MAX_TEXTURE_SIZE := (3379%Z).
Abbreviation GL_MAX_TEXTURE_UNITS_ARB := (34018%Z).
Abbreviation GL_MAX_RECTANGLE_TEXTURE_SIZE_ARB := (34040%Z).

(** The extensions [GL_CreateRenderer] asks for by name. *)
Inductive Extension : Type :=
| GL_ARB_debug_output
| GL_ARB_texture_non_power_of_two
| GL_ARB_texture_rectangle
| GL_EXT_texture_rectangle
| GL_ARB_multitexture
| GL_EXT_framebuffer_object.

(** The fields of [SDL_RendererInfo] that [GL_CreateRenderer] sets;
    [texture_formats] with [num_texture_formats] is a list. *)
Record SDL_RendererInfo : Type := mkInfo {
  info_flags : Uint32;
  texture_formats : list Uint32;
  max_texture_width : Z;
  max_texture_height : Z
}.

(** What the window, the allocator and the new context answer to
    [GL_CreateRenderer]: the window flags and the three context attributes,
    whether the window can be recreated, whether the two allocations
    succeed, the context [SDL_GL_CreateContext] returns (0 for null),
    whether every function is found, the swap interval in effect after a
    request, the context flags when [SDL_GL_GetAttribute] returns 0, the
    extensions, whether [glActiveTextureARB] is found, the integers of
    [glGetIntegerv], the shader hint and whether the shader context could
    be created. *)
Record Window : Type := mkWindow {
  window_flags : Uint32;
  profile_mask : Z;
  major : Z;
  minor : Z;
  SDL_RecreateWindow_ok : bool;
  calloc_renderer_ok : bool;
  calloc_data_ok : bool;
  SDL_GL_CreateContext : Z;
  GL_LoadFunctions_ok : bool;
  SDL_GL_GetSwapInterval : Z -> Z;
  context_flags : option Z;
  SDL_GL_ExtensionSupported : Extension -> bool;
  glActiveTextureARB_found : bool;
  glGetIntegerv : GLenum -> Z;
  SDL_HINT_RENDER_OPENGL_SHADERS : bool;
  GL_CreateShaderContext_ok : bool
}.

(** [GL_CreateRenderer]: the driver data and the info of the renderer it
    returns, [None] for the null pointer.  The calls made on the way (the
    attributes set and restored, the window recreated, the renderer
    destroyed again on a failure) are not kept; what is kept is every
    decision that reaches the returned renderer. *)
Definition GL_CreateRenderer (P : Platform) (W : Window) (flags : Uint32)
    : option (GL_RenderData * SDL_RendererInfo) :=
  let changed_window :=
    (Z.land (window_flags W) SDL_WINDOW_OPENGL =? 0)
    || (profile_mask W =? SDL_GL_CONTEXT_PROFILE_ES)
    || negb (major W =? RENDERER_CONTEXT_MAJOR)
    || negb (minor W =? RENDERER_CONTEXT_MINOR) in
  if changed_window && negb (SDL_RecreateWindow_ok W) then None
  else if negb (calloc_renderer_ok W) then None
  else if negb (calloc_data_ok W) then None
  else
  let context := SDL_GL_CreateContext W in
  if context =? 0 then None
  else if negb (make_current_ok P) then None
  else if negb (GL_LoadFunctions_ok W) then None
  else
  let info_flags := SDL_RENDERER_ACCELERATED in
  let interval :=
    SDL_GL_GetSwapInterval W
      (if negb (Z.land flags SDL_RENDERER_PRESENTVSYNC =? 0) then 1 else 0) in
  let info_flags :=
    if 0 <? interval then Z.lor info_flags SDL_RENDERER_PRESENTVSYNC
    else info_flags in
  let debug_enabled :=
    match context_flags W with
    | Some value => negb (Z.land value SDL_GL_CONTEXT_DEBUG_FLAG =? 0)
    | None => false
    end in
  let debug_output :=
    debug_enabled && SDL_GL_ExtensionSupported W GL_ARB_debug_output in
  let non_power_of_two :=
    SDL_GL_ExtensionSupported W GL_ARB_texture_non_power_of_two in
  let rectangle :=
    negb non_power_of_two
    && (SDL_GL_ExtensionSupported W GL_ARB_texture_rectangle
        || SDL_GL_ExtensionSupported W GL_EXT_texture_rectangle) in
  let textype :=
    if rectangle then GL_TEXTURE_RECTANGLE_ARB else GL_TEXTURE_2D in
  let value :=
    if rectangle then glGetIntegerv W GL_MAX_RECTANGLE_TEXTURE_SIZE_ARB
    else glGetIntegerv W GL_MAX_TEXTURE_SIZE in
  let num_texture_units :=
    if SDL_GL_ExtensionSupported W GL_ARB_multitexture
       && glActiveTextureARB_found W
    then glGetIntegerv W GL_MAX_TEXTURE_UNITS_ARB else 0 in
  let shaders :=
    SDL_HINT_RENDER_OPENGL_SHADERS W && GL_CreateShaderContext_ok W in
  let texture_formats :=
    [ SDL_PIXELFORMAT_ARGB8888 ]
    ++ (if shaders && (3 <=? num_texture_units)
        then [ SDL_PIXELFORMAT_YV12; SDL_PIXELFORMAT_IYUV;
               SDL_PIXELFORMAT_NV12; SDL_PIXELFORMAT_NV21 ]
        else [])
    ++ (if MACOSX P then [ SDL_PIXELFORMAT_UYVY ] else []) in
  let framebuffer_object :=
    SDL_GL_ExtensionSupported W GL_EXT_framebuffer_object in
  let info_flags :=
    if framebuffer_object then Z.lor info_flags SDL_RENDERER_TARGETTEXTURE
    else info_flags in
  Some (mkRenderData context debug_enabled debug_output [] textype
                     non_power_of_two rectangle framebuffer_object []
                     shaders,
        mkInfo info_flags texture_formats value value).

(** ** Vocabulary of the properties *)

(** The ceiling of [a / b], for [b > 0]. *)
Definition ceil_div (a b : Z) : Z := - ((- a) / b).

(** The calls that allocate a texture object or its storage. *)
Definition is_texture_call (c : Call) : bool :=
  match c with
  | glGenTextures _ => true
  | glTexImage2D _ _ _ _ _ _ _ => true
  | _ => false
  end.

Definition texture_calls (k : list Call) : list Call :=
  filter is_texture_call k.

(** The capabilities and settings of the renderer that never change once
    the renderer is created. *)
Definition caps (d : GL_RenderData) :=
  (context d, debug_enabled d, GL_ARB_debug_output_supported d, textype d,
   GL_ARB_texture_non_power_of_two_supported d,
   GL_ARB_texture_rectangle_supported d,
   GL_EXT_framebuffer_object_supported d, shaders d).

(** What a run from [s] to [s'] has done: it has appended [k] to the log and
    left the capabilities alone. *)
Definition step (s s' : GLState) (k : list Call) : Prop :=
  log s' = log s ++ k /\ caps (renderdata s') = caps (renderdata s).

(** The auxiliary planes a pixel format needs. *)
Definition auxiliary_planes (fmt : Uint32) : nat :=
  if is_YV12_or_IYUV fmt then 2%nat
  else if is_NV12_or_NV21 fmt then 1%nat
  else 0%nat.

Definition is_glGenTextures (c : Call) : bool :=
  match c with
  | glGenTextures _ => true
  | _ => false
  end.

(** The width and height a [glTexImage2D] call allocates. *)
Definition image_size (c : Call) : option (Z * Z) :=
  match c with
  | glTexImage2D _ _ width height _ _ _ => Some (width, height)
  | _ => None
  end.

Definition is_glTexImage2D (c : Call) : bool :=
  match image_size c with
  | Some _ => true
  | None => false
  end.

(** The size of the pixel block of a streaming texture as the specification
    words it: the primary plane, plus two chroma planes of
    [ceil (h/2) * ceil (pitch/2)] bytes for a three-plane format and one such
    plane for a two-plane format. *)
Definition spec_streaming_size (fmt : Uint32) (h pitch : Z) : Z :=
  h * pitch
  + (if is_YV12_or_IYUV fmt then 2 * (ceil_div h 2 * ceil_div pitch 2)
     else if is_NV12_or_NV21 fmt then 1 * (ceil_div h 2 * ceil_div pitch 2)
     else 0).

(** ** A platform to run the definitions on

    A driver that reports no error, a context that can be made current, an
    allocator that never refuses; [SDL_BYTESPERPIXEL] as SDL_pixels.h gives it
    for the formats of the backend, and the components of a blend mode as
    [SDL_ComposeCustomBlendMode] packs them in four-bit fields. *)
Definition sample_accessors : BlendModeAccessors :=
  {| SDL_GetBlendModeSrcColorFactor := fun m => Z.land (Z.shiftr m 4) 15;
     SDL_GetBlendModeSrcAlphaFactor := fun m => Z.land (Z.shiftr m 20) 15;
     SDL_GetBlendModeColorOperation := fun m => Z.land m 15;
     SDL_GetBlendModeDstColorFactor := fun m => Z.land (Z.shiftr m 8) 15;
     SDL_GetBlendModeDstAlphaFactor := fun m => Z.land (Z.shiftr m 24) 15;
     SDL_GetBlendModeAlphaOperation := fun m => Z.land (Z.shiftr m 16) 15 |}.

Definition sample_platform : Platform :=
  {| raises := fun _ => [];
     make_current_ok := true;
     alloc_ok := fun _ => true;
     SDL_BYTESPERPIXEL := fun fmt =>
       if fmt =? SDL_PIXELFORMAT_ARGB8888 then 4
       else if fmt =? SDL_PIXELFORMAT_UYVY then 2
       else 1;
     SDL_GetYUVConversionModeForResolution := fun _ _ =>
       SDL_YUV_CONVERSION_BT601;
     blend_accessors := sample_accessors;
     MACOSX := false;
     WIN32 := false |}.

(** A renderer on a context with neither of the two texture-size extensions,
    with shaders and debug output off. *)
Definition sample_renderdata (npot rect : bool) : GL_RenderData :=
  mkRenderData 1 false false []
               (if negb npot && rect then GL_TEXTURE_RECTANGLE_ARB
                else GL_TEXTURE_2D)
               npot rect true [] true.

Definition sample_state (npot rect : bool) : GLState :=
  mkState (sample_renderdata npot rect) 1 [] 1 [].

Definition sample_texture (fmt : Uint32) (access w h : Z) : SDL_Texture :=
  mkTexture fmt access w h 1 None.

(** A state without its log: what a later call can depend on. *)
Definition forget_log (s : GLState) : GLState :=
  mkState (renderdata s) (current_context s) (gl_errors s) (next_name s) [].

Definition is_glDeleteTextures (c : Call) : bool :=
  match c with
  | glDeleteTextures _ => true
  | _ => false
  end.

(** The state [GL_ClearErrors] leaves: with debugging on, no recorded
    message (debug output in use) or no pending flag (otherwise). *)
Definition errors_cleared (s : GLState) : GLState :=
  let d := renderdata s in
  if debug_enabled d then
    if GL_ARB_debug_output_supported d
    then mkState (set_error_messages d []) (current_context s) (gl_errors s)
                 (next_name s) (log s)
    else mkState d (current_context s) [] (next_name s) (log s)
  else s.

(** The state [GL_ActivateRenderer] leaves: when the context is current or
    can be made so, it is current and the errors are cleared; otherwise
    nothing has changed. *)
Definition activated (P : Platform) (s : GLState) : GLState :=
  if (current_context s =? context (renderdata s)) || make_current_ok P
  then errors_cleared
         (mkState (renderdata s) (context (renderdata s)) (gl_errors s)
                  (next_name s) (log s))
  else s.

(** The vertices [GL_QueueDrawPoints] writes for a list of points: both
    coordinates of each point, moved by [0.5f]. *)
Definition snapped_vertices (points : list SDL_FPoint) : list GLfloat :=
  flat_map (fun p => [f32_add f32_half (fx p); f32_add f32_half (fy p)]) points.

(** The commands that carry a [data.draw] and go through [SetDrawState]. *)
Definition draw_of (cmd : SDL_RenderCommand) : option DrawCommand :=
  match cmd with
  | SDL_RENDERCMD_DRAW_POINTS d | SDL_RENDERCMD_DRAW_LINES d
  | SDL_RENDERCMD_FILL_RECTS d | SDL_RENDERCMD_COPY d
  | SDL_RENDERCMD_COPY_EX d => Some d
  | _ => None
  end.

Definition color_of (d : DrawCommand) : Uint32 :=
  pack_color (draw_r d) (draw_g d) (draw_b d) (draw_a d).

(** The calls that program each of the five cached fields. *)
Definition is_color_call (c : Call) : bool :=
  match c with
  | glColor4f _ _ _ _ => true
  | _ => false
  end.

Definition is_blend_call (c : Call) : bool :=
  match c with
  | glEnable cap | glDisable cap => cap =? GL_BLEND
  | glBlendFuncSeparate _ _ _ _ | glBlendEquation _ => true
  | _ => false
  end.

(** One per reprogramming of the blend mode: the switch of [GL_BLEND]. *)
Definition is_blend_switch (c : Call) : bool :=
  match c with
  | glEnable cap | glDisable cap => cap =? GL_BLEND
  | _ => false
  end.

Definition is_shader_call (c : Call) : bool :=
  match c with
  | GL_SelectShader _ => true
  | _ => false
  end.

Definition is_texturing_call (textype : GLenum) (c : Call) : bool :=
  match c with
  | glEnable cap | glDisable cap => cap =? textype
  | _ => false
  end.

Definition is_bind_call (c : Call) : bool :=
  match c with
  | glBindTexture _ _ | glActiveTextureARB _ => true
  | _ => false
  end.

(** The calls that draw: they program none of the cached fields. *)
Definition is_geometry_call (c : Call) : bool :=
  match c with
  | glBegin _ | glEnd | glVertex2f _ _ | glTexCoord2f _ _
  | glRectf _ _ _ _ | glPushMatrix | glPopMatrix | glTranslatef _ _ _
  | glRotated _ => true
  | _ => false
  end.

Definition count_calls (f : Call -> bool) (k : list Call) : nat :=
  length (filter f k).

(** The texture targets [GL_CreateRenderer] can choose. *)
Definition valid_textype (data : GL_RenderData) : Prop :=
  textype data = GL_TEXTURE_2D \/ textype data = GL_TEXTURE_RECTANGLE_ARB.

(** A renderer with a 640x480 viewport and an opaque black draw colour. *)
Definition sample_renderer (target : Z) (clipping : bool) : SDL_Renderer :=
  mkRenderer target 0 0 0 255 (mkRect 0 0 640 480) (mkRect 0 0 0 0) clipping
             (640, 480) (fun _ => None).

(** What the state cache promises of one command: [k] are the calls made for
    [cmd], [c] and [c'] the cache before and after it. *)
Definition elides (data : GL_RenderData) (cmd : SDL_RenderCommand)
    (c c' : StateCache) (k : list Call) : Prop :=
  count_calls is_color_call k
  = (if draw_color c' =? draw_color c then 0%nat else 1%nat)
  /\ count_calls is_blend_switch k
     = (if blend c' =? blend c then 0%nat else 1%nat)
  /\ existsb is_blend_call k = negb (blend c' =? blend c)
  /\ count_calls is_shader_call k
     = (if GL_Shader_eqb (shader c') (shader c) then 0%nat else 1%nat)
  /\ existsb is_bind_call k = negb (bound_texture c' =? bound_texture c)
  /\ count_calls (is_texturing_call (textype data)) k
     = match draw_of cmd with
       | Some d => if Bool.eqb (negb (draw_texture d =? 0)) (texturing c)
                   then 0%nat else 1%nat
       | None => 0%nat
       end
  /\ (forall d, draw_of cmd = Some d ->
        draw_color c' = color_of d /\ blend c' = draw_blend d).

(** What a command asks of the cache.  The texture of a Copy or CopyEx
    command: the pointer the command carries, the texture and its driver
    data. *)
Definition texture_of (renderer : SDL_Renderer) (cmd : SDL_RenderCommand)
    : option (Z * SDL_Texture * GL_TextureData) :=
  match cmd with
  | SDL_RENDERCMD_COPY d | SDL_RENDERCMD_COPY_EX d =>
      match textures renderer (draw_texture d) with
      | Some tex =>
          match driverdata tex with
          | Some texturedata => Some (draw_texture d, tex, texturedata)
          | None => None
          end
      | None => None
      end
  | _ => None
  end.

(** The shader of a command: [SHADER_SOLID] for points, lines and
    rectangles, the shader of its texture for a copy; none on a renderer
    without shaders, where [SetDrawState] selects none. *)
Definition shader_of (P : Platform) (renderer : SDL_Renderer)
    (data : GL_RenderData) (cmd : SDL_RenderCommand) : option GL_Shader :=
  if shaders data then
    match cmd with
    | SDL_RENDERCMD_DRAW_POINTS _ | SDL_RENDERCMD_DRAW_LINES _
    | SDL_RENDERCMD_FILL_RECTS _ => Some SHADER_SOLID
    | _ =>
        match texture_of renderer cmd with
        | Some (_, tex, texturedata) =>
            Some (SetCopyState_shader P data tex texturedata)
        | None => None
        end
    end
  else None.

(** The texture objects of a texture, in the order [SetCopyState] binds
    them, and the objects a list of calls binds. *)
Definition texture_objects (texturedata : GL_TextureData) : list GLuint :=
  (if yuv texturedata then [vtexture texturedata; utexture texturedata]
   else [])
  ++ (if nv12 texturedata then [utexture texturedata] else [])
  ++ [texture texturedata].

Definition bound_names (k : list Call) : list GLuint :=
  flat_map (fun c => match c with glBindTexture _ n => [n] | _ => [] end) k.

(** One cached field across one command: [wanted] is the value the command
    asks for ([None] when it asks for none), [cached] and [cached'] are what
    the cache holds before and after the command, and [n] is the number of
    times the command programs the field. *)
Definition programmed_when_differs {A : Type} (eqb : A -> A -> bool)
    (wanted : option A) (cached cached' : A) (n : nat) : Prop :=
  match wanted with
  | Some v => cached' = v /\ n = (if eqb v cached then 0 else 1)%nat
  | None => cached' = cached /\ n = 0%nat
  end.

(** The points of a DrawLines command, as [GL_QueueDrawPoints] lays them out
    in the vertex array, and the call that draws one. *)
Definition flat_vertices (pts : list (GLfloat * GLfloat)) : list GLfloat :=
  flat_map (fun p => [fst p; snd p]) pts.

Definition vertex_call (p : GLfloat * GLfloat) : Call :=
  glVertex2f (fst p) (snd p).

Definition first_vertex (pts : list (GLfloat * GLfloat)) : GLfloat * GLfloat :=
  nth 0 pts (f32_zero, f32_zero).

Definition last_vertex (pts : list (GLfloat * GLfloat)) : GLfloat * GLfloat :=
  nth (length pts - 1) pts (f32_zero, f32_zero).

(** [==] of C on both coordinates. *)
Definition coincide (p q : GLfloat * GLfloat) : bool :=
  f32_eqb (fst p) (fst q) && f32_eqb (snd p) (snd q).

Definition is_glVertex2f (c : Call) : bool :=
  match c with
  | glVertex2f _ _ => true
  | _ => false
  end.

(** Whether [GL_SCISSOR_TEST] is enabled after the calls [k], when it was
    [enabled] before them. *)
Definition scissor_test_after (enabled : bool) (k : list Call) : bool :=
  fold_left (fun e c => match c with
                        | glEnable cap =>
                            if cap =? GL_SCISSOR_TEST then true else e
                        | glDisable cap =>
                            if cap =? GL_SCISSOR_TEST then false else e
                        | _ => e
                        end) k enabled.

(** The size a node of the framebuffer list was made for. *)
Definition fbo_size (f : GL_FBOList) : Uint32 * Uint32 := (fbo_w f, fbo_h f).

(** The requests [GL_CreateTexture] turns down before it touches OpenGL: a
    render target without framebuffer objects, a pixel format
    [convert_format] has no case for, and a refused allocation. *)
Definition creation_refused (P : Platform) (d : GL_RenderData)
    (tex : SDL_Texture) : bool :=
  (tex_access tex =? SDL_TEXTUREACCESS_TARGET)
  && negb (GL_EXT_framebuffer_object_supported d)
  || match convert_format (MACOSX P) (tex_format tex) with
     | None => true
     | Some _ => false
     end
  || negb (alloc_ok P Alloc_TextureData)
  || (tex_access tex =? SDL_TEXTUREACCESS_STREAMING)
     && negb (alloc_ok P (Alloc_pixels (streaming_size P tex))).

(** The texture names a run has obtained from [glGenTextures] and those it
    has handed to [glDeleteTextures], in the order of the calls. *)
Definition generated_textures (k : list Call) : list GLuint :=
  flat_map (fun c => match c with glGenTextures n => [n] | _ => [] end) k.

Definition deleted_textures (k : list Call) : list GLuint :=
  flat_map (fun c => match c with glDeleteTextures n => [n] | _ => [] end) k.

(** The vertices [GL_QueueFillRects] writes for a list of rectangles, and the
    call that draws one. *)
Definition rect_vertices (rects : list SDL_FRect) : list GLfloat :=
  flat_map (fun r => [frx r; fry r; f32_add (frx r) (frw r);
                      f32_add (fry r) (frh r)]) rects.

Definition rect_call (r : SDL_FRect) : Call :=
  glRectf (frx r) (fry r) (f32_add (frx r) (frw r)) (f32_add (fry r) (frh r)).

(** A texture as [GL_CreateTexture] leaves one of 4x4 pixels on a renderer
    with the non-power-of-two extension, and a renderer whose commands can
    point to it (at the address 7). *)
Definition sample_texturedata : GL_TextureData :=
  mkTextureData 1 f32_one f32_one GL_BGRA GL_UNSIGNED_INT_8_8_8_8_REV None 0
                (mkRect 0 0 0 0) false false 0 0 None.

Definition sample_created_texture : SDL_Texture :=
  mkTexture SDL_PIXELFORMAT_ARGB8888 SDL_TEXTUREACCESS_STATIC 4 4 1
            (Some sample_texturedata).

Definition sample_renderer_with_texture : SDL_Renderer :=
  mkRenderer 0 0 0 0 255 (mkRect 0 0 640 480) (mkRect 0 0 0 0) false
             (640, 480)
             (fun t => if t =? 7 then Some sample_created_texture else None).

(** The point [GL_QueueDrawPoints] queues for a point. *)
Definition snapped (p : SDL_FPoint) : GLfloat * GLfloat :=
  (f32_add f32_half (fx p), f32_add f32_half (fy p)).

(** The discipline of immediate mode: [glBegin] and [glEnd] alternate,
    [glVertex2f] and [glTexCoord2f] occur only between them and nothing else
    does.  [inside] tells whether a block is open before the calls; the
    calls must leave none open. *)
Fixpoint well_bracketed (inside : bool) (k : list Call) : bool :=
  match k with
  | [] => negb inside
  | c :: k' =>
      match c with
      | glBegin _ => negb inside && well_bracketed true k'
      | glEnd => inside && well_bracketed false k'
      | glVertex2f _ _ | glTexCoord2f _ _ => inside && well_bracketed true k'
      | _ => negb inside && well_bracketed false k'
      end
  end.

(** The depth of the matrix stack after the calls, from depth [d]; [None]
    when a [glPopMatrix] finds nothing that was pushed. *)
Fixpoint matrix_depth (d : nat) (k : list Call) : option nat :=
  match k with
  | [] => Some d
  | glPushMatrix :: k' => matrix_depth (S d) k'
  | glPopMatrix :: k' =>
      match d with
      | O => None
      | S d' => matrix_depth d' k'
      end
  | _ :: k' => matrix_depth d k'
  end.

Definition is_block_call (c : Call) : bool :=
  match c with
  | glBegin _ | glEnd | glVertex2f _ _ | glTexCoord2f _ _ => true
  | _ => false
  end.

Definition is_matrix_stack_call (c : Call) : bool :=
  match c with
  | glPushMatrix | glPopMatrix => true
  | _ => false
  end.

Definition is_clear (cmd : SDL_RenderCommand) : bool :=
  match cmd with
  | SDL_RENDERCMD_CLEAR _ _ _ _ => true
  | _ => false
  end.

Definition is_glClearColor (c : Call) : bool :=
  match c with
  | glClearColor _ _ _ _ => true
  | _ => false
  end.

(** The error flags the driver raises for an operation. *)
Definition raised (D : Driver) (o : Op) : list GLenum :=
  match o with
  | gl c => real_errors (raises (platform D) c)
  | _ => real_errors (raises_op D o)
  end.

(** The session after one operation, and after a list of them. *)
Definition after1 (D : Driver) (x : Session) (o : Op) : Session :=
  let s := gl_state x in
  let d := renderdata s in
  let d' := if debug_enabled d && GL_ARB_debug_output_supported d
            then set_error_messages d (error_messages d ++ raised D o)
            else d in
  mkSession (mkState d' (current_context s) (gl_errors s ++ raised D o)
                     (next_name s)
                     (match o with
                      | gl c => log s ++ [c]
                      | _ => log s
                      end))
            (trace x ++ [o]).

Definition after (D : Driver) (k : list Op) (x : Session) : Session :=
  fold_left (after1 D) k x.

Definition half_rect (rect : SDL_Rect) : SDL_Rect :=
  mkRect (int_div (rx rect) 2) (int_div (ry rect) 2)
         (int_div (int_add (rw rect) 1) 2) (int_div (int_add (rh rect) 1) 2).

Definition tex_sub_image (textype : GLenum) (rect : SDL_Rect)
    (format type : GLenum) (pixels : Address) : Op :=
  glTexSubImage2D textype (rx rect) (ry rect) (rw rect) (rh rect)
                  format type pixels.

(** The address of the second plane of a planar image at [pixels], and of
    the third. *)
Definition second_plane (rect : SDL_Rect) (pixels : Address) (pitch : Z)
    : Address :=
  advance pixels (int_mul (rh rect) pitch).

Definition third_plane (rect : SDL_Rect) (pixels : Address) (pitch : Z)
    : Address :=
  advance (second_plane rect pixels pitch)
          (int_mul (int_div (int_add (rh rect) 1) 2)
                   (int_div (int_add pitch 1) 2)).

(** The operations of [GL_UpdateTexture] between the activation and the
    error check. *)
Definition update_ops (P : Platform) (textype : GLenum) (tex : SDL_Texture)
    (data : GL_TextureData) (rect : SDL_Rect) (pixels : Address) (pitch : Z)
    : list Op :=
  [ gl (glEnable textype);
    gl (glBindTexture textype (texture data));
    gl (glPixelStorei GL_UNPACK_ALIGNMENT 1);
    gl (glPixelStorei GL_UNPACK_ROW_LENGTH
          (int_div pitch (SDL_BYTESPERPIXEL P (tex_format tex))));
    tex_sub_image textype rect (format data) (formattype data) pixels ]
  ++ (if yuv data
      then [ gl (glPixelStorei GL_UNPACK_ROW_LENGTH
                   (int_div (int_add pitch 1) 2));
             gl (glBindTexture textype
                   (if tex_format tex =? SDL_PIXELFORMAT_YV12
                    then vtexture data else utexture data));
             tex_sub_image textype (half_rect rect) (format data)
               (formattype data) (second_plane rect pixels pitch);
             gl (glBindTexture textype
                   (if tex_format tex =? SDL_PIXELFORMAT_YV12
                    then utexture data else vtexture data));
             tex_sub_image textype (half_rect rect) (format data)
               (formattype data) (third_plane rect pixels pitch) ]
      else [])
  ++ (if nv12 data
      then [ gl (glPixelStorei GL_UNPACK_ROW_LENGTH
                   (int_div (int_add pitch 1) 2));
             gl (glBindTexture textype (utexture data));
             tex_sub_image textype (half_rect rect)
               GL_LUMINANCE_ALPHA GL_UNSIGNED_BYTE
               (second_plane rect
                  (if yuv data then third_plane rect pixels pitch
                   else pixels) pitch) ]
      else [])
  ++ [ gl (glDisable textype) ].

(** The operations of [GL_UpdateTextureYUV] between the activation and the
    error check. *)
Definition update_yuv_ops (textype : GLenum) (data : GL_TextureData)
    (rect : SDL_Rect) (Yplane : Address) (Ypitch : Z)
    (Uplane : Address) (Upitch : Z) (Vplane : Address) (Vpitch : Z)
    : list Op :=
  [ gl (glEnable textype);
    gl (glBindTexture textype (texture data));
    gl (glPixelStorei GL_UNPACK_ALIGNMENT 1);
    gl (glPixelStorei GL_UNPACK_ROW_LENGTH Ypitch);
    tex_sub_image textype rect (format data) (formattype data) Yplane;
    gl (glPixelStorei GL_UNPACK_ROW_LENGTH Upitch);
    gl (glBindTexture textype (utexture data));
    tex_sub_image textype (half_rect rect) (format data) (formattype data)
      Uplane;
    gl (glPixelStorei GL_UNPACK_ROW_LENGTH Vpitch);
    gl (glBindTexture textype (vtexture data));
    tex_sub_image textype (half_rect rect) (format data) (formattype data)
      Vplane;
    gl (glDisable textype) ].

(** The calls of [GL_ActivateRenderer]: they touch no object. *)
Definition is_activation_call (c : Call) : bool :=
  match c with
  | SDL_GL_MakeCurrent _ | glGetError => true
  | _ => false
  end.

(** One [glTexSubImage2D] as the driver sees it: the texture object bound
    when it is made, the [GL_UNPACK_ROW_LENGTH] in effect, the rectangle
    written, the format and type of the pixels and their address. *)
Record Upload : Type := mkUpload {
  up_texture : GLuint;
  up_row_length : Z;
  up_rect : SDL_Rect;
  up_format : GLenum;
  up_type : GLenum;
  up_pixels : Address
}.

(** The uploads of a trace, from the binding and the row length in effect
    before it (the traces looked at use one texture target and one texture
    unit). *)
Fixpoint uploads (bound : GLuint) (row_length : Z) (k : list Op)
    : list Upload :=
  match k with
  | [] => []
  | gl (glBindTexture _ name) :: k' => uploads name row_length k'
  | gl (glPixelStorei pname param) :: k' =>
      uploads bound
              (if pname =? GL_UNPACK_ROW_LENGTH then param else row_length) k'
  | glTexSubImage2D _ x y w h f t p :: k' =>
      mkUpload bound row_length (mkRect x y w h) f t p
      :: uploads bound row_length k'
  | _ :: k' => uploads bound row_length k'
  end.

(** A renderer session to run the definitions on, with the texture data and
    the driver that go with it: a planar texture of 4 x 4 pixels with a
    block of 24 bytes. *)
Definition sample_driver : Driver :=
  {| platform := sample_platform;
     raises_op := fun _ => [];
     framebuffer_status := fun _ _ => GL_FRAMEBUFFER_COMPLETE_EXT;
     read_back := fun _ i => Z.of_nat i mod 256;
     malloc_ok := fun _ => true;
     SDL_GetRendererOutputSize := (640, 480);
     SDL_ConvertPixels := fun _ _ _ src _ _ _ => (0, src) |}.

Definition sample_session : Session := mkSession (sample_state true false) [].

Definition sample_planar_texture (fmt : Uint32) : SDL_Texture :=
  mkTexture fmt SDL_TEXTUREACCESS_STREAMING 4 4 1
    (Some (mkTextureData 1 f32_one f32_one GL_LUMINANCE GL_UNSIGNED_BYTE
             (Some 24) 4 (mkRect 0 0 0 0) true false 2 3 None)).

(** A driver that refuses every [glTexSubImage2D] with [GL_INVALID_VALUE],
    and a session of a renderer with the debug flag, without debug
    output, in which an older error is still pending. *)
Definition sample_failing_driver : Driver :=
  {| platform := sample_platform;
     raises_op := fun o => match o with
                           | glTexSubImage2D _ _ _ _ _ _ _ _ => [1281]
                           | _ => []
                           end;
     framebuffer_status := fun _ _ => GL_FRAMEBUFFER_COMPLETE_EXT;
     read_back := fun _ i => Z.of_nat i mod 256;
     malloc_ok := fun _ => true;
     SDL_GetRendererOutputSize := (640, 480);
     SDL_ConvertPixels := fun _ _ _ src _ _ _ => (0, src) |}.

Definition sample_debug_session : Session :=
  mkSession
    (mkState (mkRenderData 1 true false [] GL_TEXTURE_2D true false true []
                           true)
             1 [1280] 1 [])
    [].

(** The bytes of a pixel in client memory for the pixel formats the backend
    uploads: [GL_BGRA] (with [GL_UNSIGNED_INT_8_8_8_8_REV]),
    [GL_LUMINANCE_ALPHA] and [GL_LUMINANCE] (with [GL_UNSIGNED_BYTE]). *)
Definition bytes_per_pixel (format : GLenum) : Z :=
  if format =? GL_BGRA then 4
  else if format =? GL_LUMINANCE_ALPHA then 2
  else 1.

(** The bytes of the plane an upload reads when all its rows are read in
    full: rows times row length times bytes per pixel. *)
Definition plane_bytes (u : Upload) : Z :=
  rh (up_rect u) * (up_row_length u * bytes_per_pixel (up_format u)).

(** The uploads read a block of [size] bytes plane after plane: the first
    plane begins at [start], each one begins where the one before ends, and
    the last one ends with the block. *)
Fixpoint tiles (size start : Z) (us : list Upload) : Prop :=
  match us with
  | [] => start = size
  | u :: us' =>
      up_pixels u = mkAddress (Some size) start
      /\ tiles size (start + plane_bytes u) us'
  end.

(** The framebuffer objects a log has obtained from [glGenFramebuffersEXT]
    and those a trace has handed to [glDeleteFramebuffersEXT], in the order
    of the calls. *)
Definition generated_framebuffers (k : list Call) : list GLuint :=
  flat_map (fun c => match c with
                     | glGenFramebuffersEXT n => [n]
                     | _ => []
                     end) k.

Definition deleted_framebuffers (k : list Op) : list GLuint :=
  flat_map (fun o => match o with
                     | glDeleteFramebuffersEXT n => [n]
                     | _ => []
                     end) k.

(** The list of framebuffer objects holds what the log has generated, the
    latest first. *)
Definition framebuffers_tracked (s : GLState) : Prop :=
  map FBO (framebuffers (renderdata s))
  = rev (generated_framebuffers (log s)).

(** A run from [s] to [s'] that has left the list of framebuffer objects
    alone and generated none. *)
Definition quiet (s s' : GLState) : Prop :=
  framebuffers (renderdata s') = framebuffers (renderdata s)
  /\ generated_framebuffers (log s') = generated_framebuffers (log s).

(** The first [n] rows of [len] bytes of a buffer. *)
Fixpoint rows_of (n len : nat) (buf : list Uint8) : list (list Uint8) :=
  match n with
  | O => []
  | S n' => firstn len buf :: rows_of n' len (skipn len buf)
  end.

(** The texture units as OpenGL keeps them for one texture target: the
    active unit, whether the target is enabled on a unit, and the texture
    bound to the target on a unit. *)
Record Units : Type := mkUnits {
  active_unit : GLenum;
  unit_enabled : GLenum -> bool;
  unit_texture : GLenum -> option GLuint
}.

Definition set_at {A : Type} (f : GLenum -> A) (unit : GLenum) (a : A)
    : GLenum -> A :=
  fun n => if n =? unit then a else f n.

(** The effect of a call on the units: [glActiveTextureARB] selects the
    unit that [glEnable], [glDisable] and [glBindTexture] then act on. *)
Definition unit_call (textype : GLenum) (u : Units) (c : Call) : Units :=
  match c with
  | glActiveTextureARB unit => mkUnits unit (unit_enabled u) (unit_texture u)
  | glEnable cap =>
      if cap =? textype
      then mkUnits (active_unit u)
                   (set_at (unit_enabled u) (active_unit u) true)
                   (unit_texture u)
      else u
  | glDisable cap =>
      if cap =? textype
      then mkUnits (active_unit u)
                   (set_at (unit_enabled u) (active_unit u) false)
                   (unit_texture u)
      else u
  | glBindTexture target name =>
      if target =? textype
      then mkUnits (active_unit u) (unit_enabled u)
                   (set_at (unit_texture u) (active_unit u) (Some name))
      else u
  | _ => u
  end.

Definition units_after (textype : GLenum) (u : Units) (k : list Call)
    : Units :=
  fold_left (unit_call textype) k u.

(** A colour component as it is handed to OpenGL:
    [(GLfloat) v * inv255f]. *)
Definition color_component (v : Uint8) : GLfloat :=
  f32_mul (f32_of_int v) inv255f.

Definition is_Uint8 (v : Z) : Prop := 0 <= v <= 255.

Definition in_unit_range (c : GLfloat) : bool :=
  f32_leb f32_zero c && f32_leb c f32_one.

(** The values of a [Uint8], and the byte whose component a float is. *)
Definition all_Uint8 : list Z := map Z.of_nat (seq 0 256).

Definition byte_of_component (c : GLfloat) : option Z :=
  find (fun v => f32_eqb (color_component v) c) all_Uint8.

(** A window that needs no recreation, on a context with every extension
    and four texture units. *)
Definition sample_window : Window :=
  {| window_flags := 2;
     profile_mask := 0;
     major := 2;
     minor := 1;
     SDL_RecreateWindow_ok := true;
     calloc_renderer_ok := true;
     calloc_data_ok := true;
     SDL_GL_CreateContext := 1;
     GL_LoadFunctions_ok := true;
     SDL_GL_GetSwapInterval := fun n => n;
     context_flags := Some 0;
     SDL_GL_ExtensionSupported := fun _ => true;
     glActiveTextureARB_found := true;
     glGetIntegerv := fun pname => if pname =? 34018 then 4 else 4096;
     SDL_HINT_RENDER_OPENGL_SHADERS := true;
     GL_CreateShaderContext_ok := true |}.

(** * Properties *)

(** ** Blend modes *)

(** The factors [GetBlendFunc] has a case for are the ten of SDL_blendmode.h. *)
Lemma GetBlendFunc_valid (factor : SDL_BlendFactor) :
  GetBlendFunc factor <> GL_INVALID_ENUM <-> 1 <= factor <= 10.
Proof.
  split.
  - intros H.
    destruct factor as [|p|p]; try (exfalso; apply H; reflexivity).
    destruct (Z_le_dec (Zpos p) 10) as [Hle|Hgt]; [lia|].
    exfalso; apply H.
    do 4 (destruct p as [p|p|]; try reflexivity; try lia).
  - intros [H1 H2].
    assert (Hc : factor = 1 \/ factor = 2 \/ factor = 3 \/ factor = 4
                 \/ factor = 5 \/ factor = 6 \/ factor = 7 \/ factor = 8
                 \/ factor = 9 \/ factor = 10) by lia.
    repeat (destruct Hc as [Hc|Hc]; [subst factor; discriminate|]).
    subst factor; discriminate.
Qed.

(** The operations [GetBlendEquation] has a case for: add, subtract and
    reverse subtract, not minimum and maximum. *)
Lemma GetBlendEquation_valid (operation : SDL_BlendOperation) :
  GetBlendEquation operation <> GL_INVALID_ENUM <-> 1 <= operation <= 3.
Proof.
  split.
  - intros H.
    destruct operation as [|p|p]; try (exfalso; apply H; reflexivity).
    destruct (Z_le_dec (Zpos p) 3) as [Hle|Hgt]; [lia|].
    exfalso; apply H.
    do 3 (destruct p as [p|p|]; try reflexivity; try lia).
  - intros [H1 H2].
    assert (Hc : operation = 1 \/ operation = 2 \/ operation = 3) by lia.
    destruct Hc as [Hc|[Hc|Hc]]; subst operation; discriminate.
Qed.

(** C3. [GL_SupportsBlendMode] answers true exactly for the blend modes whose
    six components (source and destination colour factor, source and
    destination alpha factor, colour operation, alpha operation) all map to
    an OpenGL enum and whose colour operation equals the alpha operation; in
    particular it answers false whenever the two operations differ. *)
Theorem GL_SupportsBlendMode_spec (acc : BlendModeAccessors)
    (blendMode : SDL_BlendMode) :
  (GL_SupportsBlendMode acc blendMode = true <->
     GetBlendFunc (SDL_GetBlendModeSrcColorFactor acc blendMode)
       <> GL_INVALID_ENUM
     /\ GetBlendFunc (SDL_GetBlendModeDstColorFactor acc blendMode)
       <> GL_INVALID_ENUM
     /\ GetBlendFunc (SDL_GetBlendModeSrcAlphaFactor acc blendMode)
       <> GL_INVALID_ENUM
     /\ GetBlendFunc (SDL_GetBlendModeDstAlphaFactor acc blendMode)
       <> GL_INVALID_ENUM
     /\ GetBlendEquation (SDL_GetBlendModeColorOperation acc blendMode)
       <> GL_INVALID_ENUM
     /\ GetBlendEquation (SDL_GetBlendModeAlphaOperation acc blendMode)
       <> GL_INVALID_ENUM
     /\ SDL_GetBlendModeColorOperation acc blendMode
        = SDL_GetBlendModeAlphaOperation acc blendMode)
  /\ (SDL_GetBlendModeColorOperation acc blendMode
        <> SDL_GetBlendModeAlphaOperation acc blendMode ->
      GL_SupportsBlendMode acc blendMode = false).
Proof.
  unfold GL_SupportsBlendMode.
  set (sc := GetBlendFunc (SDL_GetBlendModeSrcColorFactor acc blendMode)).
  set (dc := GetBlendFunc (SDL_GetBlendModeDstColorFactor acc blendMode)).
  set (sa := GetBlendFunc (SDL_GetBlendModeSrcAlphaFactor acc blendMode)).
  set (da := GetBlendFunc (SDL_GetBlendModeDstAlphaFactor acc blendMode)).
  set (co := SDL_GetBlendModeColorOperation acc blendMode).
  set (ao := SDL_GetBlendModeAlphaOperation acc blendMode).
  set (ce := GetBlendEquation co).
  set (ae := GetBlendEquation ao).
  destruct (Z.eqb_spec sc GL_INVALID_ENUM), (Z.eqb_spec sa GL_INVALID_ENUM),
    (Z.eqb_spec ce GL_INVALID_ENUM), (Z.eqb_spec dc GL_INVALID_ENUM),
    (Z.eqb_spec da GL_INVALID_ENUM), (Z.eqb_spec ae GL_INVALID_ENUM),
    (Z.eqb_spec co ao); cbn; intuition congruence.
Qed.

(** ** Runs in the [GL] monad *)

Lemma bind_inv {A B : Type} (m : GL A) (k : A -> GL B) (s : GLState)
    (r : B * GLState) :
  bind m k s = Some r -> exists a s1, m s = Some (a, s1) /\ k a s1 = Some r.
Proof.
  unfold bind. destruct (m s) as [[a s1]|]; [|discriminate].
  intros H. exists a, s1. auto.
Qed.

Lemma ret_inv {A : Type} (a b : A) (s s' : GLState) :
  ret a s = Some (b, s') -> b = a /\ s' = s.
Proof. unfold ret. intros H. inversion H. auto. Qed.

Lemma step_refl (s : GLState) : step s s [].
Proof. split; [now rewrite app_nil_r | reflexivity]. Qed.

Lemma step_trans (s1 s2 s3 : GLState) (k1 k2 : list Call) :
  step s1 s2 k1 -> step s2 s3 k2 -> step s1 s3 (k1 ++ k2).
Proof.
  intros [L1 C1] [L2 C2]. split.
  - rewrite L2, L1. now rewrite app_assoc.
  - congruence.
Qed.

Lemma caps_set_error_messages (d : GL_RenderData) (l : list GLenum) :
  caps (set_error_messages d l) = caps d.
Proof. reflexivity. Qed.

Lemma caps_set_framebuffers (d : GL_RenderData) (l : list GL_FBOList) :
  caps (set_framebuffers d l) = caps d.
Proof. reflexivity. Qed.

Lemma call_step (P : Platform) (c : Call) (s s' : GLState) (u : unit) :
  call P c s = Some (u, s') -> step s s' [c].
Proof.
  unfold call. intros H. inversion H; subst; clear H. split; cbn; auto.
  destruct (debug_enabled (renderdata s)
            && GL_ARB_debug_output_supported (renderdata s)); reflexivity.
Qed.

Lemma call_total (P : Platform) (c : Call) (s : GLState) :
  exists s', call P c s = Some (tt, s').
Proof. unfold call. eexists. reflexivity. Qed.

Lemma calls_step (P : Platform) (l : list Call) :
  forall (s s' : GLState) (u : unit),
    calls P l s = Some (u, s') -> step s s' l.
Proof.
  induction l as [|c l IH]; intros s s' u H.
  - apply ret_inv in H. destruct H as [_ ->]. apply step_refl.
  - change (bind (call P c) (fun _ => calls P l) s = Some (u, s')) in H.
    apply bind_inv in H. destruct H as (a & s1 & H1 & H2).
    apply call_step in H1. apply IH in H2.
    exact (step_trans _ _ _ _ _ H1 H2).
Qed.

Lemma calls_total (P : Platform) (l : list Call) :
  forall s : GLState, exists s', calls P l s = Some (tt, s').
Proof.
  induction l as [|c l IH]; intros s.
  - eexists. reflexivity.
  - change (calls P (c :: l)) with (bind (call P c) (fun _ => calls P l)).
    unfold bind. destruct (call_total P c s) as [s1 ->]. apply IH.
Qed.

Lemma get_error_step (s s' : GLState) (e : GLenum) :
  get_error s = Some (e, s') -> step s s' [glGetError].
Proof.
  unfold get_error. destruct (real_errors (gl_errors s)); intros H;
    inversion H; subst; split; reflexivity.
Qed.

Lemma GL_ClearErrors_loop_step (fuel : nat) :
  forall (s s' : GLState) (u : unit),
    GL_ClearErrors_loop fuel s = Some (u, s') ->
    exists n, step s s' (repeat glGetError n).
Proof.
  induction fuel as [|fuel IH]; intros s s' u H; [discriminate|].
  change (bind get_error
            (fun e => if e =? GL_NO_ERROR then ret tt
                      else GL_ClearErrors_loop fuel) s = Some (u, s')) in H.
  apply bind_inv in H. destruct H as (e & s1 & H1 & H2).
  apply get_error_step in H1.
  destruct (e =? GL_NO_ERROR).
  - apply ret_inv in H2. destruct H2 as [_ ->]. now exists 1%nat.
  - apply IH in H2. destruct H2 as [n H2]. exists (S n).
    exact (step_trans _ _ _ _ _ H1 H2).
Qed.

Lemma set_data_step (d : GL_RenderData) (s s' : GLState) (u : unit) :
  set_data d s = Some (u, s') ->
  caps d = caps (renderdata s) -> step s s' [].
Proof.
  unfold set_data. intros H Hc. inversion H; subst. split; cbn; auto.
  now rewrite app_nil_r.
Qed.

Lemma GL_ClearErrors_step (s s' : GLState) (u : unit) :
  GL_ClearErrors s = Some (u, s') ->
  exists n, step s s' (repeat glGetError n).
Proof.
  unfold GL_ClearErrors, bind, get_data.
  destruct (debug_enabled (renderdata s)); cbn [negb].
  - destruct (GL_ARB_debug_output_supported (renderdata s)).
    + destruct (error_messages (renderdata s)); intros H.
      * apply ret_inv in H. destruct H as [_ ->]. exists 0%nat. apply step_refl.
      * exists 0%nat. eapply set_data_step; eauto.
    + apply GL_ClearErrors_loop_step.
  - intros H. apply ret_inv in H. destruct H as [_ ->]. exists 0%nat.
    apply step_refl.
Qed.

Lemma GL_CheckAllErrors_loop_step (fuel : nat) :
  forall (r r' : Z) (s s' : GLState),
    GL_CheckAllErrors_loop fuel r s = Some (r', s') ->
    exists n, step s s' (repeat glGetError n).
Proof.
  induction fuel as [|fuel IH]; intros r r' s s' H; [discriminate|].
  change (bind get_error
            (fun e => if negb (e =? GL_NO_ERROR)
                      then GL_CheckAllErrors_loop fuel (-1)
                      else ret r) s = Some (r', s')) in H.
  apply bind_inv in H. destruct H as (e & s1 & H1 & H2).
  apply get_error_step in H1.
  destruct (e =? GL_NO_ERROR); cbn [negb] in H2.
  - apply ret_inv in H2. destruct H2 as [_ ->]. now exists 1%nat.
  - apply IH in H2. destruct H2 as [n H2]. exists (S n).
    exact (step_trans _ _ _ _ _ H1 H2).
Qed.

Lemma GL_CheckError_step (s s' : GLState) (r : Z) :
  GL_CheckError s = Some (r, s') ->
  exists n, step s s' (repeat glGetError n).
Proof.
  unfold GL_CheckError, bind, get_data.
  destruct (debug_enabled (renderdata s)); cbn [negb].
  - destruct (GL_ARB_debug_output_supported (renderdata s)).
    + destruct (error_messages (renderdata s)) eqn:E; intros H.
      * apply ret_inv in H. destruct H as [_ ->]. exists 0%nat. apply step_refl.
      * destruct (GL_ClearErrors s) as [[u s1]|] eqn:E1; [|discriminate].
        apply ret_inv in H. destruct H as [_ ->].
        eapply GL_ClearErrors_step; eauto.
    + apply GL_CheckAllErrors_loop_step.
  - intros H. apply ret_inv in H. destruct H as [_ ->]. exists 0%nat.
    apply step_refl.
Qed.

Lemma texture_calls_app (k1 k2 : list Call) :
  texture_calls (k1 ++ k2) = texture_calls k1 ++ texture_calls k2.
Proof. apply filter_app. Qed.

Lemma texture_calls_glGetError (n : nat) :
  texture_calls (repeat glGetError n) = [].
Proof. induction n; cbn; auto. Qed.

Lemma make_current_step (P : Platform) (ctx : Z) (s s' : GLState) (r : Z) :
  make_current P ctx s = Some (r, s') -> step s s' [SDL_GL_MakeCurrent ctx].
Proof.
  unfold make_current. intros H. inversion H; subst. split; reflexivity.
Qed.

Lemma GL_ActivateRenderer_step (P : Platform) (s s' : GLState) (r : Z) :
  GL_ActivateRenderer P s = Some (r, s') ->
  exists k, step s s' k /\ texture_calls k = [].
Proof.
  unfold GL_ActivateRenderer. unfold bind at 1. unfold get_data.
  intros H. apply bind_inv in H. destruct H as (r1 & s1 & H1 & H2).
  assert (Hk : exists k1, step s s1 k1 /\ texture_calls k1 = []).
  { destruct (negb (current_context s =? context (renderdata s))).
    - apply make_current_step in H1. eexists; split; [exact H1|reflexivity].
    - apply ret_inv in H1. destruct H1 as [_ ->]. exists [].
      split; [apply step_refl|reflexivity]. }
  destruct Hk as (k1 & Hs1 & Hq1).
  destruct (r1 <? 0).
  - apply ret_inv in H2. destruct H2 as [_ ->]. eauto.
  - apply bind_inv in H2. destruct H2 as (u & s2 & H2 & H3).
    apply ret_inv in H3. destruct H3 as [_ ->].
    apply GL_ClearErrors_step in H2. destruct H2 as [n H2].
    exists (k1 ++ repeat glGetError n). split.
    + exact (step_trans _ _ _ _ _ Hs1 H2).
    + now rewrite texture_calls_app, Hq1, texture_calls_glGetError.
Qed.

Lemma fresh_name_step (s s' : GLState) (n : GLuint) :
  fresh_name s = Some (n, s') -> step s s' [] /\ n = next_name s.
Proof.
  unfold fresh_name. intros H. inversion H; subst. split; [|reflexivity].
  split; cbn; [now rewrite app_nil_r | reflexivity].
Qed.

Lemma gen_texture_step (P : Platform) (s s' : GLState) (n : GLuint) :
  gen_texture P s = Some (n, s') -> step s s' [glGenTextures n].
Proof.
  unfold gen_texture. intros H.
  apply bind_inv in H. destruct H as (m & s1 & H1 & H2).
  apply fresh_name_step in H1. destruct H1 as [H1 _].
  apply bind_inv in H2. destruct H2 as (u & s2 & H2 & H3).
  apply ret_inv in H3. destruct H3 as [-> ->].
  apply call_step in H2.
  exact (step_trans _ _ _ _ _ H1 H2).
Qed.

Lemma GL_GetFBO_step (P : Platform) (w h : Uint32) (s s' : GLState)
    (r : option GL_FBOList) :
  GL_GetFBO P w h s = Some (r, s') ->
  exists k, step s s' k /\ texture_calls k = [].
Proof.
  unfold GL_GetFBO. unfold bind at 1. unfold get_data.
  destruct (find_FBO (framebuffers (renderdata s)) w h).
  - intros H. apply ret_inv in H. destruct H as [_ ->]. exists [].
    split; [apply step_refl|reflexivity].
  - destruct (alloc_ok P Alloc_FBOList).
    + intros H.
      apply bind_inv in H. destruct H as (n & s1 & H1 & H).
      apply fresh_name_step in H1. destruct H1 as [H1 _].
      apply bind_inv in H. destruct H as (u & s2 & H2 & H).
      apply call_step in H2.
      apply bind_inv in H. destruct H as (d' & s3 & H3 & H).
      inversion H3; subst d' s3; clear H3.
      apply bind_inv in H. destruct H as (u' & s4 & H4 & H).
      apply ret_inv in H. destruct H as [_ ->].
      apply set_data_step in H4; [|apply caps_set_framebuffers].
      exists ([] ++ [glGenFramebuffersEXT n] ++ []). split; [|reflexivity].
      exact (step_trans _ _ _ _ _ H1 (step_trans _ _ _ _ _ H2 H4)).
    + intros H. apply ret_inv in H. destruct H as [_ ->]. exists [].
      split; [apply step_refl|reflexivity].
Qed.

(** ** Texture creation *)

Ltac gl_bind H :=
  let a := fresh "a" in
  let s1 := fresh "s" in
  let Hm := fresh "Hm" in
  apply bind_inv in H; destruct H as (a & s1 & Hm & H).

Ltac gl_fail H :=
  apply ret_inv in H; destruct H as [H _]; discriminate H.

Lemma caps_inv (d d' : GL_RenderData) :
  caps d = caps d' ->
  textype d = textype d'
  /\ GL_ARB_texture_non_power_of_two_supported d
     = GL_ARB_texture_non_power_of_two_supported d'
  /\ GL_ARB_texture_rectangle_supported d
     = GL_ARB_texture_rectangle_supported d'.
Proof. unfold caps. intros H. inversion H. auto. Qed.

Lemma texture_dimensions_caps (fuel : nat) (d d' : GL_RenderData)
    (tex : SDL_Texture) :
  caps d = caps d' ->
  texture_dimensions fuel d tex = texture_dimensions fuel d' tex.
Proof.
  intros H. apply caps_inv in H. destruct H as (_ & H1 & H2).
  unfold texture_dimensions. now rewrite H1, H2.
Qed.

Lemma texture_calls_plane_parameters (textype scaleMode : GLenum) :
  texture_calls (plane_parameters textype scaleMode) = [].
Proof. reflexivity. Qed.

Lemma texture_calls_primary (P : Platform) (tex : SDL_Texture)
    (textype scaleMode : GLenum) (name : GLuint)
    (internalFormat texture_w texture_h : Z) (fmt type : GLenum) (pitch : Z) :
  exists cp,
    texture_calls (primary_texture_calls P tex textype scaleMode name
                     internalFormat texture_w texture_h fmt type pitch)
    = [glTexImage2D textype internalFormat texture_w texture_h fmt type cp].
Proof.
  unfold primary_texture_calls, primary_image.
  repeat rewrite texture_calls_app.
  destruct (negb (textype =? 34037)), (MACOSX P); cbn [andb];
    try (destruct ((tex_access tex =? 1) && (tex_format tex =? 372645892)
                   && (Z.rem (tex_w tex) 8 =? 0)));
    eexists; reflexivity.
Qed.

Lemma create_yuv_planes_step (P : Platform) (textype scaleMode : GLenum)
    (internalFormat half_w half_h : Z) (fmt type : GLenum)
    (s s' : GLState) (u v : GLuint) :
  create_yuv_planes P textype scaleMode internalFormat half_w half_h fmt type s
  = Some ((u, v), s') ->
  exists k, step s s' k
    /\ texture_calls k
       = [ glGenTextures u; glGenTextures v;
           glTexImage2D textype internalFormat half_w half_h fmt type false;
           glTexImage2D textype internalFormat half_w half_h fmt type false ].
Proof.
  unfold create_yuv_planes. intros H.
  gl_bind H. apply gen_texture_step in Hm.
  gl_bind H. apply gen_texture_step in Hm0.
  gl_bind H. apply call_step in Hm1.
  gl_bind H. apply call_step in Hm2.
  gl_bind H. apply calls_step in Hm3.
  gl_bind H. apply call_step in Hm4.
  gl_bind H. apply call_step in Hm5.
  gl_bind H. apply calls_step in Hm6.
  gl_bind H. apply call_step in Hm7.
  gl_bind H. apply call_step in Hm8.
  apply ret_inv in H. destruct H as [H ->]. inversion H; subst a a0.
  eexists. split.
  - repeat (eapply step_trans; [eassumption|]). apply step_refl.
  - reflexivity.
Qed.

Lemma create_nv12_plane_step (P : Platform) (textype scaleMode : GLenum)
    (half_w half_h : Z) (s s' : GLState) (u : GLuint) :
  create_nv12_plane P textype scaleMode half_w half_h s = Some (u, s') ->
  exists k, step s s' k
    /\ texture_calls k
       = [ glGenTextures u;
           glTexImage2D textype 6410 half_w half_h 6410 5121 false ].
Proof.
  unfold create_nv12_plane. intros H.
  gl_bind H. apply gen_texture_step in Hm.
  gl_bind H. apply call_step in Hm0.
  gl_bind H. apply call_step in Hm1.
  gl_bind H. apply calls_step in Hm2.
  gl_bind H. apply call_step in Hm3.
  gl_bind H. apply call_step in Hm4.
  apply ret_inv in H. destruct H as [-> ->].
  eexists. split.
  - repeat (eapply step_trans; [eassumption|]). apply step_refl.
  - reflexivity.
Qed.

(** What a successful [GL_CreateTexture] has done. *)
Lemma GL_CreateTexture_created (P : Platform) (fuel : nat)
    (tex tex' : SDL_Texture) (s s' : GLState) :
  GL_CreateTexture P fuel tex s = Some ((0, tex'), s') ->
  exists data tw th ifmt cp,
    tex' = with_driverdata tex (Some data)
    /\ texture_dimensions fuel (renderdata s) tex
       = Some (tw, th, texw data, texh data)
    /\ pixels data = (if tex_access tex =? SDL_TEXTUREACCESS_STREAMING
                      then Some (streaming_size P tex) else None)
    /\ pitch data = (if tex_access tex =? SDL_TEXTUREACCESS_STREAMING
                     then streaming_pitch P tex else 0)
    /\ yuv data = is_YV12_or_IYUV (tex_format tex)
    /\ nv12 data = is_NV12_or_NV21 (tex_format tex)
    /\ texture_calls (log s')
       = texture_calls (log s)
         ++ [ glGenTextures (texture data);
              glTexImage2D (textype (renderdata s)) ifmt tw th
                           (format data) (formattype data) cp ]
         ++ (if is_YV12_or_IYUV (tex_format tex)
             then [ glGenTextures (utexture data);
                    glGenTextures (vtexture data);
                    glTexImage2D (textype (renderdata s)) ifmt
                      (int_div (int_add tw 1) 2) (int_div (int_add th 1) 2)
                      (format data) (formattype data) false;
                    glTexImage2D (textype (renderdata s)) ifmt
                      (int_div (int_add tw 1) 2) (int_div (int_add th 1) 2)
                      (format data) (formattype data) false ]
             else [])
         ++ (if is_NV12_or_NV21 (tex_format tex)
             then [ glGenTextures (utexture data);
                    glTexImage2D (textype (renderdata s)) GL_LUMINANCE_ALPHA
                      (int_div (int_add tw 1) 2) (int_div (int_add th 1) 2)
                      GL_LUMINANCE_ALPHA GL_UNSIGNED_BYTE false ]
             else []).
Proof.
  unfold GL_CreateTexture. intros H.
  gl_bind H. apply GL_ActivateRenderer_step in Hm.
  destruct Hm as (k0 & Hs0 & Hq0).
  gl_bind H. inversion Hm; subst a0 s1; clear Hm.
  destruct ((tex_access tex =? 2)
            && negb (GL_EXT_framebuffer_object_supported (renderdata s0)));
    [gl_fail H|].
  destruct (convert_format (MACOSX P) (tex_format tex))
    as [[[internalFormat fmt] type]|]; [|gl_fail H].
  destruct (negb (alloc_ok P Alloc_TextureData)); [gl_fail H|].
  cbv zeta in H.
  destruct ((tex_access tex =? 1)
            && negb (alloc_ok P (Alloc_pixels (streaming_size P tex))));
    [gl_fail H|].
  gl_bind H.
  assert (Hfbo : exists k, step s0 s1 k /\ texture_calls k = []).
  { destruct (tex_access tex =? 2).
    - eapply GL_GetFBO_step; eauto.
    - apply ret_inv in Hm. destruct Hm as [_ ->]. exists [].
      split; [apply step_refl|reflexivity]. }
  destruct Hfbo as (k1 & Hs1 & Hq1). clear Hm.
  gl_bind H. apply GL_CheckError_step in Hm. destruct Hm as (n2 & Hs2).
  gl_bind H. apply gen_texture_step in Hm.
  gl_bind H. apply GL_CheckError_step in Hm0. destruct Hm0 as (n4 & Hs4).
  destruct (a3 <? 0); [gl_fail H|].
  destruct (texture_dimensions fuel (renderdata s0) tex)
    as [[[[tw th] tw_scale] th_scale]|] eqn:Hdim; [|discriminate H].
  gl_bind H. apply calls_step in Hm0.
  gl_bind H. apply GL_CheckError_step in Hm1. destruct Hm1 as (n6 & Hs6).
  destruct (a5 <? 0); [gl_fail H|].
  gl_bind H.
  assert (Hyuv : exists k, step s6 s7 k
            /\ texture_calls k
               = if is_YV12_or_IYUV (tex_format tex)
                 then [ glGenTextures (fst a6); glGenTextures (snd a6);
                        glTexImage2D (textype (renderdata s0)) internalFormat
                          (int_div (int_add tw 1) 2) (int_div (int_add th 1) 2)
                          fmt type false;
                        glTexImage2D (textype (renderdata s0)) internalFormat
                          (int_div (int_add tw 1) 2) (int_div (int_add th 1) 2)
                          fmt type false ]
                 else []).
  { destruct (is_YV12_or_IYUV (tex_format tex)).
    - destruct a6 as [u v]. eapply create_yuv_planes_step; eauto.
    - apply ret_inv in Hm1. destruct Hm1 as [_ ->]. exists [].
      split; [apply step_refl|reflexivity]. }
  destruct Hyuv as (k7 & Hs7 & Hq7). clear Hm1.
  gl_bind H.
  assert (Hnv : exists k, step s7 s8 k
            /\ texture_calls k
               = (if is_NV12_or_NV21 (tex_format tex)
                 then [ glGenTextures a7;
                        glTexImage2D (textype (renderdata s0)) 6410
                          (int_div (int_add tw 1) 2) (int_div (int_add th 1) 2)
                          6410 5121 false ]
                 else [])
           /\ (is_NV12_or_NV21 (tex_format tex) = false -> a7 = fst a6)).
  { destruct (is_NV12_or_NV21 (tex_format tex)).
    - apply create_nv12_plane_step in Hm1. destruct Hm1 as (k & ? & ?).
      exists k. split; [assumption|]. split; [assumption|].
      intros E; discriminate E.
    - apply ret_inv in Hm1. destruct Hm1 as [-> ->]. exists [].
      split; [apply step_refl|]. split; reflexivity. }
  destruct Hnv as (k8 & Hs8 & Hq8 & Hu). clear Hm1.
  gl_bind H. apply GL_CheckError_step in Hm1. destruct Hm1 as (n9 & Hs9).
  apply ret_inv in H. destruct H as [H ->]. inversion H; subst a8 tex'; clear H.
  match type of Hm0 with
  | step _ _ (primary_texture_calls ?p ?t ?ty ?sm ?nm ?i ?w ?h ?f ?y ?pi) =>
      destruct (texture_calls_primary p t ty sm nm i w h f y pi) as [cp Hqp]
  end.
  assert (Hcaps : caps (renderdata s0) = caps (renderdata s)) by apply Hs0.
  assert (Htt : textype (renderdata s0) = textype (renderdata s))
    by (apply caps_inv in Hcaps; tauto).
  eexists. exists tw, th, internalFormat, cp. cbn [texw texh pixels pitch yuv nv12
    texture format formattype utexture vtexture].
  repeat split; try reflexivity.
  - rewrite <- (texture_dimensions_caps fuel _ _ tex Hcaps). exact Hdim.
  - pose proof (step_trans _ _ _ _ _ Hs0
                 (step_trans _ _ _ _ _ Hs1
                 (step_trans _ _ _ _ _ Hs2
                 (step_trans _ _ _ _ _ Hm
                 (step_trans _ _ _ _ _ Hs4
                 (step_trans _ _ _ _ _ Hm0
                 (step_trans _ _ _ _ _ Hs6
                 (step_trans _ _ _ _ _ Hs7
                 (step_trans _ _ _ _ _ Hs8 Hs9))))))))) as [Hlog _].
    rewrite Hlog. repeat rewrite texture_calls_app.
    rewrite Hq0, Hq1, Hqp, Hq7, Hq8.
    repeat rewrite texture_calls_glGetError.
    rewrite <- Htt. cbn [app texture_calls filter is_texture_call].
    rewrite app_nil_r.
    destruct (is_YV12_or_IYUV (tex_format tex)) eqn:Ey;
      destruct (is_NV12_or_NV21 (tex_format tex)) eqn:En;
      try reflexivity.
    + exfalso. unfold is_YV12_or_IYUV, is_NV12_or_NV21 in *. lia.
    + rewrite (Hu eq_refl). reflexivity.
Qed.


(** ** Integer arithmetic of the backend *)

Lemma wrap_int_small (z : Z) : - 2 ^ 31 <= z < 2 ^ 31 -> wrap_int z = z.
Proof. intros H. unfold wrap_int. rewrite Z.mod_small; lia. Qed.

Lemma wrap_size_t_small (z : Z) : 0 <= z < 2 ^ 64 -> wrap_size_t z = z.
Proof. intros H. unfold wrap_size_t. apply Z.mod_small; lia. Qed.

(** [ceil_div a 2] is the least [k] with [a <= 2 * k]. *)
Lemma ceil_div_2_spec (a k : Z) :
  k = ceil_div a 2 <-> 2 * (k - 1) < a <= 2 * k.
Proof.
  unfold ceil_div.
  pose proof (Z.div_mod (- a) 2 ltac:(lia)) as Hd.
  pose proof (Z.mod_pos_bound (- a) 2 ltac:(lia)) as Hm.
  lia.
Qed.

(** The C expression [(n + 1) / 2] is that ceiling for the sizes of a
    texture. *)
Lemma int_half_up (n : Z) :
  0 <= n < 2 ^ 31 - 1 -> int_div (int_add n 1) 2 = ceil_div n 2.
Proof.
  intros H. unfold int_div, int_add. rewrite wrap_int_small by lia.
  rewrite Z.quot_div_nonneg by lia.
  apply (proj2 (ceil_div_2_spec n ((n + 1) / 2))).
  pose proof (Z.div_mod (n + 1) 2 ltac:(lia)) as Hd.
  pose proof (Z.mod_pos_bound (n + 1) 2 ltac:(lia)) as Hm.
  lia.
Qed.

Lemma ceil_div_2_bounds (n : Z) : 0 < n -> 0 < ceil_div n 2 <= n.
Proof.
  intros H. pose proof (proj1 (ceil_div_2_spec n (ceil_div n 2)) eq_refl). lia.
Qed.

(** The size [GL_CreateTexture] asks [SDL_calloc] for, when nothing
    overflows: both the three-plane and the two-plane formats add twice
    [ceil (h/2) * ceil (pitch/2)]. *)
Lemma streaming_size_value (P : Platform) (tex : SDL_Texture) :
  0 < tex_w tex -> 0 < tex_h tex ->
  0 < SDL_BYTESPERPIXEL P (tex_format tex) ->
  tex_h tex * (tex_w tex * SDL_BYTESPERPIXEL P (tex_format tex))
  + 2 * (ceil_div (tex_h tex) 2
         * ceil_div (tex_w tex * SDL_BYTESPERPIXEL P (tex_format tex)) 2)
    < 2 ^ 31 ->
  streaming_pitch P tex = tex_w tex * SDL_BYTESPERPIXEL P (tex_format tex)
  /\ streaming_size P tex
     = tex_h tex * (tex_w tex * SDL_BYTESPERPIXEL P (tex_format tex))
       + (if is_YV12_or_IYUV (tex_format tex)
             || is_NV12_or_NV21 (tex_format tex)
          then 2 * (ceil_div (tex_h tex) 2
                    * ceil_div (tex_w tex
                                * SDL_BYTESPERPIXEL P (tex_format tex)) 2)
          else 0).
Proof.
  intros Hw Hh Hb Hsmall.
  set (bpp := SDL_BYTESPERPIXEL P (tex_format tex)) in *.
  set (w := tex_w tex) in *. set (h := tex_h tex) in *.
  assert (Hp0 : 0 < w * bpp) by nia.
  pose proof (ceil_div_2_bounds h Hh) as Hch.
  pose proof (ceil_div_2_bounds (w * bpp) Hp0) as Hcp.
  set (p := w * bpp) in *. set (ch := ceil_div h 2) in *.
  set (cp := ceil_div p 2) in *.
  assert (Hcc : ch <= ch * cp) by nia.
  assert (Hcc' : cp <= ch * cp) by nia.
  assert (Hhp : h <= h * p) by nia.
  assert (Hhp' : p <= h * p) by nia.
  assert (Hpitch : streaming_pitch P tex = p).
  { unfold streaming_pitch, int_mul. fold w bpp p.
    apply wrap_int_small. lia. }
  split; [exact Hpitch|].
  unfold streaming_size. rewrite Hpitch. fold h.
  assert (Hchroma :
    int_mul (int_mul 2 (int_div (int_add h 1) 2)) (int_div (int_add p 1) 2)
    = 2 * (ch * cp)).
  { rewrite (int_half_up h) by lia.
    rewrite (int_half_up p) by lia.
    fold ch cp. unfold int_mul.
    rewrite (wrap_int_small (2 * ch)) by lia.
    rewrite wrap_int_small by lia. ring. }
  rewrite Hchroma.
  unfold int_mul. rewrite (wrap_int_small (h * p)) by lia.
  rewrite (wrap_size_t_small (h * p)) by lia.
  destruct (is_YV12_or_IYUV (tex_format tex)) eqn:Ey;
    destruct (is_NV12_or_NV21 (tex_format tex)) eqn:En; cbn [orb].
  - exfalso. unfold is_YV12_or_IYUV, is_NV12_or_NV21 in *. lia.
  - apply wrap_size_t_small. lia.
  - apply wrap_size_t_small. lia.
  - lia.
Qed.

(** C2 (as amended). A streaming texture that [GL_CreateTexture] creates, of
    positive size and with [pitch = w * bytes per pixel], owns a pixel block
    of exactly [h * pitch + 2 * ceil (h/2) * ceil (pitch/2)] bytes for the
    three-plane formats YV12 and IYUV and also for the two-plane formats NV12
    and NV21, and of [h * pitch] bytes for the other formats, as long as the
    size fits an [int]. *)
Theorem GL_CreateTexture_streaming_block (P : Platform) (fuel : nat)
    (tex tex' : SDL_Texture) (s s' : GLState) :
  GL_CreateTexture P fuel tex s = Some ((0, tex'), s') ->
  tex_access tex = SDL_TEXTUREACCESS_STREAMING ->
  0 < tex_w tex -> 0 < tex_h tex ->
  0 < SDL_BYTESPERPIXEL P (tex_format tex) ->
  tex_h tex * (tex_w tex * SDL_BYTESPERPIXEL P (tex_format tex))
  + 2 * (ceil_div (tex_h tex) 2
         * ceil_div (tex_w tex * SDL_BYTESPERPIXEL P (tex_format tex)) 2)
    < 2 ^ 31 ->
  exists data,
    driverdata tex' = Some data
    /\ pitch data = tex_w tex * SDL_BYTESPERPIXEL P (tex_format tex)
    /\ pixels data
       = Some (tex_h tex * pitch data
               + (if is_YV12_or_IYUV (tex_format tex)
                     || is_NV12_or_NV21 (tex_format tex)
                  then 2 * (ceil_div (tex_h tex) 2 * ceil_div (pitch data) 2)
                  else 0)).
Proof.
  intros Hrun Hacc Hw Hh Hb Hsmall.
  apply GL_CreateTexture_created in Hrun.
  destruct Hrun as (data & tw & th & ifmt & cp & -> & _ & Hpix & Hpitch & _).
  destruct (streaming_size_value P tex Hw Hh Hb Hsmall) as [Ep Es].
  rewrite Hacc in Hpix, Hpitch. cbn in Hpix, Hpitch.
  exists data. split; [reflexivity|].
  rewrite Hpitch, Ep. split; [reflexivity|].
  rewrite Hpix, Es. reflexivity.
Qed.

Lemma GL_CreateTexture_streaming_block_witness :
  exists tex' s',
    GL_CreateTexture sample_platform 32
      (sample_texture SDL_PIXELFORMAT_NV12 SDL_TEXTUREACCESS_STREAMING 5 3)
      (sample_state true false) = Some ((0, tex'), s')
    /\ exists data,
         driverdata tex' = Some data
         /\ pitch data = 5
         /\ pixels data = Some 27.
Proof.
  pose (tex := sample_texture SDL_PIXELFORMAT_NV12
                              SDL_TEXTUREACCESS_STREAMING 5 3).
  pose (run := GL_CreateTexture sample_platform 32 tex (sample_state true false)).
  pose (tex' := match run with Some ((_, t), _) => t | None => tex end).
  pose (s' := match run with Some (_, s) => s | None => sample_state true false end).
  assert (Hrun : run = Some ((0, tex'), s')) by (vm_compute; reflexivity).
  exists tex', s'. split; [exact Hrun|].
  destruct (GL_CreateTexture_streaming_block sample_platform 32 tex tex'
              (sample_state true false) s' Hrun eq_refl
              eq_refl eq_refl eq_refl eq_refl)
    as (data & Hd & Hp & Hx).
  exists data. split; [exact Hd|]. split; [exact Hp|].
  rewrite Hx, Hp. reflexivity.
Defined.

(** C2, the two-plane case as the specification words it: a 2x2 NV12
    streaming texture is given 6 bytes, not the 5 of
    [h * pitch + 1 * ceil (h/2) * ceil (pitch/2)]. *)
Lemma spec_streaming_size_NV12_counterexample :
  (exists tex' s',
     GL_CreateTexture sample_platform 32
       (sample_texture SDL_PIXELFORMAT_NV12 SDL_TEXTUREACCESS_STREAMING 2 2)
       (sample_state true false) = Some ((0, tex'), s')
     /\ option_map pixels (driverdata tex') = Some (Some 6))
  /\ spec_streaming_size SDL_PIXELFORMAT_NV12 2 2 = 5.
Proof.
  split; [|reflexivity].
  eexists. eexists. split; vm_compute; reflexivity.
Qed.

(** ** [power_of_2] *)

Lemma int_shl_1 (v : Z) : int_shl v 1 = wrap_int (2 * v).
Proof. unfold int_shl. now rewrite Z.shiftl_mul_pow2 by lia; rewrite Z.mul_comm. Qed.

(** Once the doubling has overflowed to 0 the loop is never left. *)
Lemma power_of_2_loop_zero (fuel : nat) (input : Z) :
  0 < input -> power_of_2_loop fuel 0 input = None.
Proof.
  intros H. induction fuel as [|fuel IH]; cbn [power_of_2_loop]; [reflexivity|].
  destruct (Z.ltb_spec 0 input); [|lia].
  rewrite int_shl_1. exact IH.
Qed.

(** A result of the loop started at a power of two is the least power of
    two, from there on, that reaches [input]. *)
Lemma power_of_2_loop_result (fuel : nat) :
  forall (k input p : Z),
    0 <= k <= 30 ->
    power_of_2_loop fuel (2 ^ k) input = Some p ->
    exists j, k <= j <= 30 /\ p = 2 ^ j /\ input <= p
              /\ (j = k \/ 2 ^ (j - 1) < input).
Proof.
  induction fuel as [|fuel IH]; intros k input p Hk H;
    cbn [power_of_2_loop] in H; [discriminate|].
  destruct (Z.ltb_spec (2 ^ k) input) as [Hlt|Hge].
  - rewrite int_shl_1 in H.
    destruct (Z.eq_dec k 30) as [->|Hne].
    + exfalso. change (wrap_int (2 * 2 ^ 30)) with (- 2 ^ 31) in H.
      destruct fuel as [|fuel]; cbn [power_of_2_loop] in H; [discriminate|].
      destruct (Z.ltb_spec (- 2 ^ 31) input); [|lia].
      change (int_shl (- 2 ^ 31) 1) with 0 in H.
      rewrite power_of_2_loop_zero in H by lia. discriminate.
    + replace (2 * 2 ^ k) with (2 ^ (k + 1)) in H
        by (rewrite Z.pow_add_r by lia; lia).
      assert (Hpow : 2 ^ (k + 1) <= 2 ^ 30)
        by (apply Z.pow_le_mono_r; lia).
      rewrite wrap_int_small in H by lia.
      apply IH in H; [|lia].
      destruct H as (j & Hj & -> & Hin & Hmin).
      exists j. repeat split; try lia.
      right. destruct Hmin as [->|Hmin]; [|exact Hmin].
      now replace (k + 1 - 1) with k by lia.
  - inversion H; subst p. exists k. repeat split; try lia.
Qed.

(** With 32 turns the loop returns for every size up to [2 ^ 30]. *)
Lemma power_of_2_loop_returns (fuel : nat) :
  forall (k input : Z),
    0 <= k <= 30 -> input <= 2 ^ 30 ->
    (30 - k < Z.of_nat fuel) ->
    exists p, power_of_2_loop fuel (2 ^ k) input = Some p.
Proof.
  induction fuel as [|fuel IH]; intros k input Hk Hin Hf; [lia|].
  cbn [power_of_2_loop].
  destruct (Z.ltb_spec (2 ^ k) input) as [Hlt|Hge]; [|eauto].
  assert (Hk' : k < 30).
  { destruct (Z.eq_dec k 30) as [->|]; lia. }
  rewrite int_shl_1.
  replace (2 * 2 ^ k) with (2 ^ (k + 1)) by (rewrite Z.pow_add_r by lia; lia).
  assert (Hpow : 2 ^ (k + 1) <= 2 ^ 30) by (apply Z.pow_le_mono_r; lia).
  rewrite wrap_int_small by lia.
  apply IH; lia.
Qed.

(** [power_of_2]: the smallest power of two that is at least [input]. *)
Lemma power_of_2_spec (fuel : nat) (input p : Z) :
  power_of_2 fuel input = Some p ->
  exists j, 0 <= j <= 30 /\ p = 2 ^ j /\ input <= p
            /\ (forall i, 0 <= i -> input <= 2 ^ i -> p <= 2 ^ i).
Proof.
  unfold power_of_2. intros H.
  apply (power_of_2_loop_result fuel 0 input p) in H; [|lia].
  destruct H as (j & Hj & -> & Hin & Hmin).
  exists j. repeat split; try lia.
  intros i Hi Hle. apply Z.pow_le_mono_r; [lia|].
  destruct Hmin as [->|Hmin]; [lia|].
  destruct (Z_lt_le_dec i j) as [Hlt|]; [|lia].
  exfalso.
  assert (2 ^ i <= 2 ^ (j - 1)) by (apply Z.pow_le_mono_r; lia).
  lia.
Qed.

Lemma power_of_2_returns (fuel : nat) (input : Z) :
  (32 <= fuel)%nat -> input <= 2 ^ 30 ->
  exists p, power_of_2 fuel input = Some p.
Proof.
  intros Hf Hin. unfold power_of_2.
  apply (power_of_2_loop_returns fuel 0 input); lia.
Qed.

(** ** Single-precision arithmetic on texture sizes *)

Lemma digits2_pos_bounds (p : positive) :
  2 ^ (Zpos (digits2_pos p) - 1) <= Zpos p < 2 ^ Zpos (digits2_pos p).
Proof.
  induction p as [p IH|p IH|]; cbn [digits2_pos].
  - rewrite Pos2Z.inj_succ.
    replace (Z.succ (Zpos (digits2_pos p)) - 1) with (Zpos (digits2_pos p) - 1 + 1) by lia.
    rewrite Z.pow_succ_r by lia. rewrite Z.pow_add_r by lia. lia.
  - rewrite Pos2Z.inj_succ.
    replace (Z.succ (Zpos (digits2_pos p)) - 1) with (Zpos (digits2_pos p) - 1 + 1) by lia.
    rewrite Z.pow_succ_r by lia. rewrite Z.pow_add_r by lia. lia.
  - cbn. lia.
Qed.

Lemma digits2_pos_unique (p : positive) (d : Z) :
  2 ^ (d - 1) <= Zpos p < 2 ^ d -> 0 < d -> Zpos (digits2_pos p) = d.
Proof.
  intros [H1 H2] Hd. pose proof (digits2_pos_bounds p) as [B1 B2].
  assert (d - 1 < Zpos (digits2_pos p)).
  { apply (Z.pow_lt_mono_r_iff 2); lia. }
  assert (Zpos (digits2_pos p) - 1 < d).
  { apply (Z.pow_lt_mono_r_iff 2); lia. }
  lia.
Qed.

Lemma Pos_iter_xO (m n : positive) :
  Zpos (Pos.iter xO m n) = Zpos m * 2 ^ Zpos n.
Proof.
  induction n as [|n IH] using Pos.peano_ind.
  - cbn. lia.
  - rewrite Pos.iter_succ, Pos2Z.inj_succ, Z.pow_succ_r by lia.
    rewrite Pos2Z.inj_xO, IH. ring.
Qed.

Lemma iter_pos_Pos_iter {A : Type} (f : A -> A) (n : positive) :
  forall x, SpecFloat.iter_pos f n x = Pos.iter f x n.
Proof.
  induction n as [n IH|n IH|]; intros x; cbn [SpecFloat.iter_pos Pos.iter].
  - rewrite !IH. now rewrite <- !Pos.iter_swap.
  - now rewrite !IH.
  - reflexivity.
Qed.

Lemma shr_1_nonneg (m : Z) (r s : bool) :
  0 <= m ->
  shr_1 (Build_shr_record m r s) = Build_shr_record (m / 2) (Z.odd m) (r || s).
Proof.
  intros Hm. destruct m as [|p|p]; [reflexivity| |lia].
  destruct p as [p|p|]; cbn [shr_1 Z.odd].
  - replace (Zpos p~1 / 2) with (Zpos p); [reflexivity|].
    rewrite Pos2Z.inj_xI. apply (Z.div_unique _ _ _ 1); lia.
  - replace (Zpos p~0 / 2) with (Zpos p); [reflexivity|].
    rewrite Pos2Z.inj_xO. apply (Z.div_unique _ _ _ 0); lia.
  - reflexivity.
Qed.

(** Shifting a mantissa right by [n] bits: the quotient, and no rounding
    information when the shifted-out bits are all zero. *)
Lemma shr_iter (n : positive) (m : Z) :
  0 <= m ->
  shr_m (SpecFloat.iter_pos shr_1 n (Build_shr_record m false false)) = m / 2 ^ Zpos n
  /\ (m mod 2 ^ Zpos n = 0 ->
      SpecFloat.iter_pos shr_1 n (Build_shr_record m false false)
      = Build_shr_record (m / 2 ^ Zpos n) false false).
Proof.
  intros Hm. rewrite iter_pos_Pos_iter.
  induction n as [|n IH] using Pos.peano_ind.
  - cbn [Pos.iter]. rewrite shr_1_nonneg by lia. cbn [shr_m]. change (2 ^ 1) with 2.
    split; [reflexivity|]. intros H0. f_equal.
    rewrite <- Z.negb_even. apply Bool.negb_false_iff.
    apply Zeven_bool_iff, Zeven_ex_iff. exists (m / 2).
    pose proof (Z.div_mod m 2 ltac:(lia)). lia.
  - rewrite Pos.iter_succ. destruct IH as [IHm IHe].
    destruct (Pos.iter shr_1 (Build_shr_record m false false) n) as [m' r' s'] eqn:E.
    cbn [shr_m] in IHm. subst m'.
    assert (Hq : 0 <= m / 2 ^ Zpos n) by (apply Z.div_pos; lia).
    rewrite shr_1_nonneg by exact Hq. cbn [shr_m].
    rewrite Pos2Z.inj_succ, Z.pow_succ_r by lia.
    assert (Hdd : m / 2 ^ Zpos n / 2 = m / (2 * 2 ^ Zpos n)).
    { rewrite Z.div_div by lia. f_equal. lia. }
    split; [exact Hdd|].
    intros H0.
    assert (Hpow : 0 < 2 ^ Zpos n) by lia.
    pose proof (Z.div_mod m (2 * 2 ^ Zpos n) ltac:(lia)) as Hdm.
    assert (Hmn : m mod 2 ^ Zpos n = 0).
    { apply Z.mod_divide; [lia|]. exists (2 * (m / (2 * 2 ^ Zpos n))). lia. }
    specialize (IHe Hmn). inversion IHe; subst r' s'.
    rewrite Hdd. f_equal.
    rewrite <- Z.negb_even. apply Bool.negb_false_iff.
    apply Zeven_bool_iff, Zeven_ex_iff. exists (m / (2 * 2 ^ Zpos n)).
    rewrite <- Hdd.
    assert (m = 2 ^ Zpos n * (2 * (m / (2 * 2 ^ Zpos n)))) by lia.
    rewrite H at 1. rewrite Z.mul_comm, Z.div_mul by lia. lia.
Qed.

Lemma fexp_32 (x : Z) : -125 <= x -> fexp 24 128 x = x - 24.
Proof. intros H. unfold fexp, emin. lia. Qed.

(** A 24-bit mantissa is not shifted by the normalisation. *)
Lemma shr_fexp_24 (m : positive) (e : Z) :
  Zpos (digits2_pos m) = 24 -> -149 <= e ->
  shr_fexp 24 128 (Zpos m) e loc_Exact
  = (Build_shr_record (Zpos m) false false, e).
Proof.
  intros Hd He. unfold shr_fexp. cbn [Zdigits2 shr_record_of_loc].
  rewrite Hd, fexp_32 by lia.
  replace (24 + e - 24 - e) with 0 by lia. reflexivity.
Qed.

(** A mantissa that has grown to [2 ^ 24] is shifted once. *)
Lemma shr_fexp_overflow (e : Z) :
  -149 <= e ->
  shr_fexp 24 128 16777216 e loc_Exact
  = (Build_shr_record 8388608 false false, e + 1).
Proof.
  intros He. unfold shr_fexp. cbn [Zdigits2 shr_record_of_loc].
  change (Zpos (digits2_pos 16777216)) with 25.
  rewrite fexp_32 by lia.
  replace (25 + e - 24 - e) with 1 by lia. reflexivity.
Qed.

Lemma binary_round_aux_24 (m : positive) (e : Z) :
  Zpos (digits2_pos m) = 24 -> -149 <= e <= 104 ->
  binary_round_aux 24 128 false (Zpos m) e loc_Exact = S754_finite false m e.
Proof.
  intros Hd He. unfold binary_round_aux.
  rewrite shr_fexp_24 by lia.
  cbn [shr_m loc_of_shr_record round_nearest_even].
  rewrite shr_fexp_24 by lia. cbn [shr_m].
  destruct (Z.leb_spec e (128 - 24)); [reflexivity|lia].
Qed.

Lemma round_nearest_even_bounds (q : Z) (l : location) :
  q <= round_nearest_even q l <= q + 1.
Proof.
  destruct l as [|[| |]]; cbn [round_nearest_even]; try lia.
  destruct (Z.even q); lia.
Qed.

(** The float of a positive [int] up to [2 ^ k]: a normal number with a
    24-bit mantissa, at most [2 ^ k], and the integer itself below [2 ^ 24]. *)
Lemma f32_of_int_normal (w k : Z) :
  0 < w <= 2 ^ k -> 0 <= k <= 30 ->
  exists m e,
    f32_of_int w = S754_finite false m e
    /\ Zpos (digits2_pos m) = 24
    /\ -23 <= e <= 7
    /\ (e < k - 23 \/ (e = k - 23 /\ m = 8388608%positive))
    /\ (w < 2 ^ 24 -> e <= 0 /\ Zpos m = w * 2 ^ (- e)).
Proof.
  intros [Hw0 Hwk] Hk.
  destruct w as [|p|p]; try lia.
  assert (Hk30 : 2 ^ k <= 2 ^ 30) by (apply Z.pow_le_mono_r; lia).
  pose proof (digits2_pos_bounds p) as [B1 B2].
  set (d := Zpos (digits2_pos p)) in *.
  assert (Hd1 : 1 <= d) by (unfold d; lia).
  assert (Hd31 : d <= 31).
  { assert (d - 1 < 31); [|lia]. apply (Z.pow_lt_mono_r_iff 2); lia. }
  assert (Hdk : d - 1 <= k).
  { apply (Z.pow_le_mono_r_iff 2); lia. }
  unfold f32_of_int, binary_normalize, binary_round.
  fold d. rewrite fexp_32 by lia.
  unfold shl_align.
  destruct (d + 0 - 24 - 0) as [|n|n] eqn:En.
  - (* d = 24 *)
    assert (d = 24) by lia.
    exists p, 0. rewrite binary_round_aux_24 by (fold d; lia).
    split; [reflexivity|]. split; [exact H|]. split; [lia|].
    split.
    + destruct (Z.eq_dec k 23) as [->|]; [right|left; lia].
      split; [reflexivity|]. rewrite H in B1. change (2 ^ (24 - 1)) with 8388608 in B1.
      change (2 ^ 23) with 8388608 in Hwk. lia.
    + intros _. split; [lia|]. cbn. lia.
  - (* d > 24: the low bits are rounded away *)
    assert (Hn : Zpos n = d - 24) by lia.
    unfold binary_round_aux.
    unfold shr_fexp at 1. cbn [Zdigits2 shr_record_of_loc]. fold d.
    rewrite fexp_32 by lia.
    replace (d + 0 - 24 - 0) with (Zpos n) by lia.
    cbn [shr].
    destruct (shr_iter n (Zpos p) ltac:(lia)) as [Hq Hexact].
    set (mrs := SpecFloat.iter_pos shr_1 n (Build_shr_record (Zpos p) false false)) in *.
    set (q := shr_m mrs) in *.
    assert (Hpow : 2 ^ d = 2 ^ 24 * 2 ^ Zpos n).
    { rewrite <- Z.pow_add_r by lia. f_equal. lia. }
    assert (Hpow1 : 2 ^ (d - 1) = 2 ^ 23 * 2 ^ Zpos n).
    { rewrite <- Z.pow_add_r by lia. f_equal. lia. }
    assert (Hpn : 0 < 2 ^ Zpos n) by lia.
    assert (Hp24 : 2 ^ 24 <= Zpos p).
    { assert (2 ^ 1 <= 2 ^ Zpos n) by (apply Z.pow_le_mono_r; lia).
      change (2 ^ 1) with 2 in H. change (2 ^ 24) with (2 ^ 23 * 2). nia. }
    assert (Hq23 : 2 ^ 23 <= q).
    { rewrite Hq. apply Z.div_le_lower_bound; lia. }
    assert (Hq24 : q < 2 ^ 24).
    { rewrite Hq. apply Z.div_lt_upper_bound; lia. }
    assert (Hkn : 2 ^ k = 2 ^ (k - Zpos n) * 2 ^ Zpos n).
    { rewrite <- Z.pow_add_r by lia. f_equal. lia. }
    pose proof (round_nearest_even_bounds q (loc_of_shr_record mrs)) as Hr.
    set (q' := round_nearest_even q (loc_of_shr_record mrs)) in *.
    assert (Hq'k : q' <= 2 ^ (k - Zpos n)).
    { destruct (Z.eq_dec (Zpos p) (2 ^ k)) as [Hpk|Hpk].
      - assert (Hmod : Zpos p mod 2 ^ Zpos n = 0).
        { rewrite Hpk, Hkn. apply Z.mod_mul. lia. }
        specialize (Hexact Hmod). unfold q', q. fold mrs in Hexact.
        rewrite Hexact. cbn [shr_m loc_of_shr_record round_nearest_even].
        rewrite Hpk, Hkn, Z.div_mul by lia. lia.
      - assert (q < 2 ^ (k - Zpos n)); [|lia].
        rewrite Hq. apply Z.div_lt_upper_bound; lia. }
    assert (Hkn24 : k - Zpos n <= 30) by lia.
    destruct (Z.eq_dec q' (2 ^ 24)) as [Hov|Hnov].
    + (* the mantissa overflows to 2^24 *)
      rewrite Hov. change (2 ^ 24) with 16777216.
      rewrite shr_fexp_overflow by lia. cbn [shr_m].
      destruct (Z.leb_spec (0 + Zpos n + 1) (128 - 24)); [|lia].
      exists 8388608%positive, (0 + Zpos n + 1).
      assert (24 <= k - Zpos n).
      { apply (Z.pow_le_mono_r_iff 2); lia. }
      split; [reflexivity|]. split; [reflexivity|]. split; [lia|].
      split; [|intros Hlt; exfalso; lia].
      destruct (Z.eq_dec (0 + Zpos n + 1) (k - 23)); [right; auto|left; lia].
    + destruct q' as [|m'|m'] eqn:Eq'; try lia.
      assert (Hd' : Zpos (digits2_pos m') = 24).
      { apply digits2_pos_unique; lia. }
      rewrite shr_fexp_24 by lia. cbn [shr_m].
      destruct (Z.leb_spec (0 + Zpos n) (128 - 24)); [|lia].
      exists m', (0 + Zpos n).
      split; [reflexivity|]. split; [exact Hd'|]. split; [lia|].
      assert (23 <= k - Zpos n).
      { apply (Z.pow_le_mono_r_iff 2); lia. }
      split; [|intros Hlt; exfalso; lia].
      destruct (Z.eq_dec (k - Zpos n) 23) as [E23|]; [right|left; lia].
      split; [lia|]. rewrite E23 in Hq'k.
      assert (H23 : Zpos m' = 8388608) by (change 8388608 with (2 ^ 23); lia).
      now inversion H23.
  - (* d < 24: the mantissa is shifted left, nothing is lost *)
    assert (Hn : Zpos n = 24 - d) by lia.
    assert (Hval : Zpos (Pos.iter xO p n) = Zpos p * 2 ^ (24 - d)).
    { rewrite Pos_iter_xO. now rewrite Hn. }
    assert (Hpow : 2 ^ 24 = 2 ^ d * 2 ^ (24 - d)).
    { rewrite <- Z.pow_add_r by lia. f_equal. lia. }
    assert (Hpow1 : 2 ^ 23 = 2 ^ (d - 1) * 2 ^ (24 - d)).
    { rewrite <- Z.pow_add_r by lia. f_equal. lia. }
    assert (Hpn : 0 < 2 ^ (24 - d)) by (apply Z.pow_pos_nonneg; lia).
    assert (Hd' : Zpos (digits2_pos (Pos.iter xO p n)) = 24).
    { apply digits2_pos_unique; [|lia]. rewrite Hval.
      change (24 - 1) with 23. nia. }
    exists (Pos.iter xO p n), (d + 0 - 24).
    rewrite binary_round_aux_24 by (auto; lia).
    split; [reflexivity|]. split; [exact Hd'|]. split; [lia|].
    split.
    + destruct (Z.eq_dec (d - 1) k) as [Edk|]; [right|left; lia].
      split; [lia|].
      assert (Zpos p = 2 ^ k) by (rewrite <- Edk in *; lia).
      assert (H23 : Zpos (Pos.iter xO p n) = 8388608).
      { rewrite Hval, H, <- Edk, <- Hpow1. reflexivity. }
      now inversion H23.
    + intros _. split; [lia|]. rewrite Hval. f_equal. f_equal. lia.
Qed.

(** Dividing a normal float by a power of two only lowers its exponent. *)
Lemma f32_div_pow2 (m : positive) (e k : Z) :
  Zpos (digits2_pos m) = 24 -> -23 <= e <= 7 -> 0 <= k <= 30 ->
  f32_div (S754_finite false m e) (S754_finite false 8388608 (k - 23))
  = S754_finite false m (e - k).
Proof.
  intros Hd He Hk.
  unfold f32_div, SFdiv, SFdiv_core_binary. cbn [Zdigits2 xorb].
  rewrite Hd. change (Zpos (digits2_pos 8388608)) with 24.
  rewrite fexp_32 by lia.
  replace (Z.min (24 + e - (24 + (k - 23)) - 24) (e - (k - 23)))
    with (e - k - 1) by lia.
  replace (e - (k - 23) - (e - k - 1)) with 24 by lia.
  assert (Hdiv : Z.div_eucl (Z.shiftl (Zpos m) 24) 8388608 = (Zpos m~0, 0)).
  { rewrite Z.shiftl_mul_pow2 by lia.
    pose proof (Z.div_eucl_eq (Zpos m * 2 ^ 24) 8388608 ltac:(lia)) as E.
    pose proof (Z.mod_pos_bound (Zpos m * 2 ^ 24) 8388608 ltac:(lia)) as B.
    unfold Z.modulo in B.
    destruct (Z.div_eucl (Zpos m * 2 ^ 24) 8388608) as [q r].
    change (2 ^ 24) with 16777216 in E.
    assert (q = Zpos m~0 /\ r = 0) as [-> ->] by lia. reflexivity. }
  rewrite Hdiv.
  change (new_location 8388608 0) with loc_Exact.
  unfold binary_round_aux.
  unfold shr_fexp at 1. cbn [Zdigits2 digits2_pos shr_record_of_loc].
  rewrite Pos2Z.inj_succ, Hd. rewrite fexp_32 by lia.
  replace (Z.succ 24 + (e - k - 1) - 24 - (e - k - 1)) with 1 by lia.
  cbn [shr SpecFloat.iter_pos shr_1 shr_m orb loc_of_shr_record round_nearest_even].
  rewrite shr_fexp_24 by lia. cbn [shr_m].
  destruct (Z.leb_spec (e - k - 1 + 1) (128 - 24)); [|lia].
  f_equal. lia.
Qed.

Lemma f32_of_int_pow2 (k : Z) :
  0 <= k <= 30 -> f32_of_int (2 ^ k) = S754_finite false 8388608 (k - 23).
Proof.
  intros Hk.
  destruct (f32_of_int_normal (2 ^ k) k ltac:(lia) Hk)
    as (m & e & E & Hd & He & [Hlt|[-> ->]] & Hex); [|exact E].
  exfalso.
  (* the float of 2^k cannot be smaller than 2^k *)
  assert (Hk' : k < 24 \/ 24 <= k) by lia.
  destruct Hk' as [Hk'|Hk'].
  - assert (H24 : 2 ^ k < 2 ^ 24) by (apply Z.pow_lt_mono_r; lia).
    destruct (Hex H24) as [He0 Hv].
    pose proof (digits2_pos_bounds m) as [B1 B2]. rewrite Hd in B1, B2.
    rewrite <- Z.pow_add_r in Hv by lia.
    rewrite Hv in B2.
    apply (Z.pow_lt_mono_r_iff 2) in B2; lia.
  - revert E. 
    assert (Hc : k = 24 \/ k = 25 \/ k = 26 \/ k = 27 \/ k = 28 \/ k = 29
                 \/ k = 30) by lia.
    repeat (destruct Hc as [->|Hc]; [vm_compute; intros E; inversion E; lia|]).
    subst k. vm_compute. intros E; inversion E; lia.
Qed.

(** A float that is at most [2 ^ k], divided by [2 ^ k], is at most one. *)
Lemma f32_div_le_one (w k : Z) :
  0 < w <= 2 ^ k -> 0 <= k <= 30 ->
  f32_leb (f32_div (f32_of_int w) (f32_of_int (2 ^ k))) f32_one = true.
Proof.
  intros Hw Hk.
  destruct (f32_of_int_normal w k Hw Hk) as (m & e & E & Hd & He & Hle & _).
  rewrite E, f32_of_int_pow2, f32_div_pow2 by assumption.
  unfold f32_leb, SFleb, f32_one, SFcompare.
  destruct Hle as [Hlt|[-> ->]].
  - destruct (Z.compare_spec (e - k) (-23)); try reflexivity; lia.
  - replace (k - 23 - k) with (-23) by lia. reflexivity.
Qed.

(** Below [2 ^ 24] the quotient is the exact ratio. *)
Lemma f32_div_exact (w k : Z) :
  0 < w <= 2 ^ k -> w < 2 ^ 24 -> 0 <= k <= 30 ->
  exists q, f32_to_Q (f32_div (f32_of_int w) (f32_of_int (2 ^ k))) = Some q
            /\ Qeq q (Qmake w (Z.to_pos (2 ^ k))).
Proof.
  intros Hw Hw24 Hk.
  destruct (f32_of_int_normal w k Hw Hk) as (m & e & E & Hd & He & Hle & Hex).
  destruct (Hex Hw24) as [He0 Hv].
  rewrite E, f32_of_int_pow2, f32_div_pow2 by assumption.
  unfold f32_to_Q.
  assert (Hpk : 0 < 2 ^ k) by (apply Z.pow_pos_nonneg; lia).
  assert (Hpe : 0 < 2 ^ (- e)) by (apply Z.pow_pos_nonneg; lia).
  destruct (Z.leb_spec 0 (e - k)) as [Hge|Hlt].
  - assert (e = 0 /\ k = 0) as [-> ->] by lia.
    eexists. split; [reflexivity|].
    unfold Qeq, inject_Z. cbn in *. lia.
  - eexists. split; [reflexivity|].
    unfold Qeq. cbn [Qnum Qden].
    rewrite !Z2Pos.id by (try apply Z.pow_pos_nonneg; lia).
    rewrite Hv. replace (- (e - k)) with (- e + k) by lia.
    rewrite Z.pow_add_r by lia. ring.
Qed.

(** ** Sizes of the texture objects *)

Lemma texture_dimensions_policies (fuel : nat) (d : GL_RenderData)
    (tex : SDL_Texture) (tw th : Z) (sw sh : GLfloat) :
  texture_dimensions fuel d tex = Some (tw, th, sw, sh) ->
  (GL_ARB_texture_non_power_of_two_supported d = true ->
     tw = tex_w tex /\ th = tex_h tex /\ sw = f32_one /\ sh = f32_one)
  /\ (GL_ARB_texture_non_power_of_two_supported d = false ->
      GL_ARB_texture_rectangle_supported d = true ->
      tw = tex_w tex /\ th = tex_h tex
      /\ sw = f32_of_int (tex_w tex) /\ sh = f32_of_int (tex_h tex))
  /\ (GL_ARB_texture_non_power_of_two_supported d = false ->
      GL_ARB_texture_rectangle_supported d = false ->
      power_of_2 fuel (tex_w tex) = Some tw
      /\ power_of_2 fuel (tex_h tex) = Some th
      /\ sw = f32_div (f32_of_int (tex_w tex)) (f32_of_int tw)
      /\ sh = f32_div (f32_of_int (tex_h tex)) (f32_of_int th)).
Proof.
  unfold texture_dimensions. intros H.
  destruct (GL_ARB_texture_non_power_of_two_supported d).
  - inversion H; subst. repeat split; auto; discriminate.
  - destruct (GL_ARB_texture_rectangle_supported d).
    + inversion H; subst. repeat split; auto; discriminate.
    + destruct (power_of_2 fuel (tex_w tex)) as [pw|]; [|discriminate].
      destruct (power_of_2 fuel (tex_h tex)) as [ph|]; [|discriminate].
      inversion H; subst. repeat split; auto; discriminate.
Qed.

(** The allocated size is positive and leaves room for [+ 1] in an [int]. *)
Lemma texture_dimensions_range (fuel : nat) (d : GL_RenderData)
    (tex : SDL_Texture) (tw th : Z) (sw sh : GLfloat) :
  texture_dimensions fuel d tex = Some (tw, th, sw, sh) ->
  0 < tex_w tex < 2 ^ 31 - 1 -> 0 < tex_h tex < 2 ^ 31 - 1 ->
  0 < tw < 2 ^ 31 - 1 /\ 0 < th < 2 ^ 31 - 1.
Proof.
  intros H Hw Hh.
  destruct (texture_dimensions_policies _ _ _ _ _ _ _ H) as (H1 & H2 & H3).
  destruct (GL_ARB_texture_non_power_of_two_supported d).
  - destruct (H1 eq_refl) as (-> & -> & _). auto.
  - destruct (GL_ARB_texture_rectangle_supported d).
    + destruct (H2 eq_refl eq_refl) as (-> & -> & _). auto.
    + destruct (H3 eq_refl eq_refl) as (Pw & Ph & _).
      apply power_of_2_spec in Pw, Ph.
      destruct Pw as (i & Hi & -> & _). destruct Ph as (j & Hj & -> & _).
      assert (2 ^ i <= 2 ^ 30) by (apply Z.pow_le_mono_r; lia).
      assert (2 ^ j <= 2 ^ 30) by (apply Z.pow_le_mono_r; lia).
      assert (0 < 2 ^ i) by (apply Z.pow_pos_nonneg; lia).
      assert (0 < 2 ^ j) by (apply Z.pow_pos_nonneg; lia).
      lia.
Qed.

Lemma texture_dimensions_returns (fuel : nat) (d : GL_RenderData)
    (tex : SDL_Texture) :
  (32 <= fuel)%nat -> tex_w tex <= 2 ^ 30 -> tex_h tex <= 2 ^ 30 ->
  exists r, texture_dimensions fuel d tex = Some r.
Proof.
  intros Hf Hw Hh. unfold texture_dimensions.
  destruct (GL_ARB_texture_non_power_of_two_supported d); [eauto|].
  destruct (GL_ARB_texture_rectangle_supported d); [eauto|].
  destruct (power_of_2_returns fuel (tex_w tex) Hf Hw) as [pw ->].
  destruct (power_of_2_returns fuel (tex_h tex) Hf Hh) as [ph ->].
  eauto.
Qed.

(** C4. A texture that [GL_CreateTexture] creates gets, on a renderer with
    neither the non-power-of-two nor the rectangle extension, a texture
    object whose width and height are the smallest powers of two that are at
    least the requested width and height, with the UV scale factors
    [requested / allocated] in each dimension, both at most 1.0 (and the
    exact ratio for any size below [2 ^ 24]); with the non-power-of-two
    extension the requested size is used with the scale 1.0, and with only
    the rectangle extension the requested size is used with the requested
    size as scale. *)
Theorem GL_CreateTexture_sizing (P : Platform) (fuel : nat)
    (tex tex' : SDL_Texture) (s s' : GLState) :
  GL_CreateTexture P fuel tex s = Some ((0, tex'), s') ->
  0 < tex_w tex -> 0 < tex_h tex ->
  exists data tw th ifmt cp rest,
    driverdata tex' = Some data
    /\ texture_calls (log s')
       = texture_calls (log s)
         ++ glGenTextures (texture data)
            :: glTexImage2D (textype (renderdata s)) ifmt tw th
                            (format data) (formattype data) cp
            :: rest
    /\ (GL_ARB_texture_non_power_of_two_supported (renderdata s) = true ->
        tw = tex_w tex /\ th = tex_h tex
        /\ texw data = f32_one /\ texh data = f32_one)
    /\ (GL_ARB_texture_non_power_of_two_supported (renderdata s) = false ->
        GL_ARB_texture_rectangle_supported (renderdata s) = true ->
        tw = tex_w tex /\ th = tex_h tex
        /\ texw data = f32_of_int (tex_w tex)
        /\ texh data = f32_of_int (tex_h tex))
    /\ (GL_ARB_texture_non_power_of_two_supported (renderdata s) = false ->
        GL_ARB_texture_rectangle_supported (renderdata s) = false ->
        (exists i j, 0 <= i <= 30 /\ 0 <= j <= 30
                     /\ tw = 2 ^ i /\ th = 2 ^ j)
        /\ tex_w tex <= tw /\ tex_h tex <= th
        /\ (forall i, 0 <= i -> tex_w tex <= 2 ^ i -> tw <= 2 ^ i)
        /\ (forall j, 0 <= j -> tex_h tex <= 2 ^ j -> th <= 2 ^ j)
        /\ texw data = f32_div (f32_of_int (tex_w tex)) (f32_of_int tw)
        /\ texh data = f32_div (f32_of_int (tex_h tex)) (f32_of_int th)
        /\ f32_leb (texw data) f32_one = true
        /\ f32_leb (texh data) f32_one = true
        /\ (tex_w tex < 2 ^ 24 ->
            exists q, f32_to_Q (texw data) = Some q
                      /\ Qeq q (Qmake (tex_w tex) (Z.to_pos tw)))
        /\ (tex_h tex < 2 ^ 24 ->
            exists q, f32_to_Q (texh data) = Some q
                      /\ Qeq q (Qmake (tex_h tex) (Z.to_pos th)))).
Proof.
  intros Hrun Hw Hh.
  apply GL_CreateTexture_created in Hrun.
  destruct Hrun as (data & tw & th & ifmt & cp & -> & Hdim & _ & _ & _ & _ & Hlog).
  destruct (texture_dimensions_policies _ _ _ _ _ _ _ Hdim) as (H1 & H2 & H3).
  exists data, tw, th, ifmt, cp. eexists.
  split; [reflexivity|]. split; [exact Hlog|].
  split; [exact H1|]. split; [exact H2|].
  intros Hn Hr. destruct (H3 Hn Hr) as (Pw & Ph & Ew & Eh).
  apply power_of_2_spec in Pw, Ph.
  destruct Pw as (i & Hi & -> & Hwi & Hmw).
  destruct Ph as (j & Hj & -> & Hhj & Hmh).
  split; [exists i, j; auto|].
  split; [exact Hwi|]. split; [exact Hhj|].
  split; [exact Hmw|]. split; [exact Hmh|].
  split; [exact Ew|]. split; [exact Eh|].
  rewrite Ew, Eh.
  split; [apply f32_div_le_one; lia|].
  split; [apply f32_div_le_one; lia|].
  split; intros H24; apply f32_div_exact; lia.
Qed.

Lemma GL_CreateTexture_sizing_witness :
  exists tex' s',
    GL_CreateTexture sample_platform 32
      (sample_texture SDL_PIXELFORMAT_ARGB8888 SDL_TEXTUREACCESS_STATIC 5 3)
      (sample_state false false) = Some ((0, tex'), s')
    /\ exists data tw th,
         driverdata tex' = Some data
         /\ 5 <= tw /\ 3 <= th
         /\ f32_leb (texw data) f32_one = true
         /\ f32_leb (texh data) f32_one = true.
Proof.
  pose (tex := sample_texture SDL_PIXELFORMAT_ARGB8888
                              SDL_TEXTUREACCESS_STATIC 5 3).
  pose (run := GL_CreateTexture sample_platform 32 tex
                                (sample_state false false)).
  pose (tex' := match run with Some ((_, t), _) => t | None => tex end).
  pose (s' := match run with
              | Some (_, s) => s
              | None => sample_state false false
              end).
  assert (Hrun : run = Some ((0, tex'), s')) by (vm_compute; reflexivity).
  exists tex', s'. split; [exact Hrun|].
  destruct (GL_CreateTexture_sizing sample_platform 32 tex tex'
              (sample_state false false) s' Hrun eq_refl eq_refl)
    as (data & tw & th & ifmt & cp & rest & Hd & _ & _ & _ & H3).
  destruct (H3 eq_refl eq_refl) as (_ & Hw & Hh & _ & _ & _ & _ & Lw & Lh & _).
  exists data, tw, th. auto.
Defined.

(** ** Auxiliary textures *)

Lemma auxiliary_planes_cases (fmt : Uint32) :
  (is_YV12_or_IYUV fmt = true /\ is_NV12_or_NV21 fmt = false
   /\ auxiliary_planes fmt = 2%nat)
  \/ (is_YV12_or_IYUV fmt = false /\ is_NV12_or_NV21 fmt = true
      /\ auxiliary_planes fmt = 1%nat)
  \/ (is_YV12_or_IYUV fmt = false /\ is_NV12_or_NV21 fmt = false
      /\ auxiliary_planes fmt = 0%nat).
Proof.
  unfold auxiliary_planes.
  destruct (is_YV12_or_IYUV fmt) eqn:Ey; destruct (is_NV12_or_NV21 fmt) eqn:En;
    auto.
  exfalso. unfold is_YV12_or_IYUV, is_NV12_or_NV21 in *. lia.
Qed.

(** The number of auxiliary planes is two exactly for YV12 and IYUV, one
    exactly for NV12 and NV21, and zero for every other format. *)
Lemma auxiliary_planes_formats (fmt : Uint32) :
  (auxiliary_planes fmt = 2%nat <->
     fmt = SDL_PIXELFORMAT_YV12 \/ fmt = SDL_PIXELFORMAT_IYUV)
  /\ (auxiliary_planes fmt = 1%nat <->
        fmt = SDL_PIXELFORMAT_NV12 \/ fmt = SDL_PIXELFORMAT_NV21)
  /\ (auxiliary_planes fmt = 0%nat <->
        fmt <> SDL_PIXELFORMAT_YV12 /\ fmt <> SDL_PIXELFORMAT_IYUV
        /\ fmt <> SDL_PIXELFORMAT_NV12 /\ fmt <> SDL_PIXELFORMAT_NV21).
Proof.
  unfold auxiliary_planes, is_YV12_or_IYUV, is_NV12_or_NV21.
  destruct (Z.eqb_spec fmt SDL_PIXELFORMAT_YV12),
           (Z.eqb_spec fmt SDL_PIXELFORMAT_IYUV),
           (Z.eqb_spec fmt SDL_PIXELFORMAT_NV12),
           (Z.eqb_spec fmt SDL_PIXELFORMAT_NV21);
    cbn [orb]; repeat split; intros; try discriminate; try lia; auto;
    try (intuition congruence).
Qed.

(** C8. For every texture that [GL_CreateTexture] creates, the texture
    objects generated besides the primary one are as many as the pixel
    format alone says: two for the three-plane formats YV12 and IYUV, one for
    the two-plane formats NV12 and NV21, none for the other formats; and the
    storage of each is [ceil (w / 2)] by [ceil (h / 2)] for the allocated
    width [w] and height [h] of the primary texture. *)
Theorem GL_CreateTexture_auxiliary_textures (P : Platform) (fuel : nat)
    (tex tex' : SDL_Texture) (s s' : GLState) :
  GL_CreateTexture P fuel tex s = Some ((0, tex'), s') ->
  0 < tex_w tex < 2 ^ 31 - 1 -> 0 < tex_h tex < 2 ^ 31 - 1 ->
  exists name primary tw th aux,
    texture_calls (log s')
    = texture_calls (log s) ++ glGenTextures name :: primary :: aux
    /\ image_size primary = Some (tw, th)
    /\ length (filter is_glGenTextures aux) = auxiliary_planes (tex_format tex)
    /\ map image_size (filter is_glTexImage2D aux)
       = repeat (Some (ceil_div tw 2, ceil_div th 2))
                (auxiliary_planes (tex_format tex))
    /\ (auxiliary_planes (tex_format tex) = 2%nat <->
          tex_format tex = SDL_PIXELFORMAT_YV12
          \/ tex_format tex = SDL_PIXELFORMAT_IYUV)
    /\ (auxiliary_planes (tex_format tex) = 1%nat <->
          tex_format tex = SDL_PIXELFORMAT_NV12
          \/ tex_format tex = SDL_PIXELFORMAT_NV21).
Proof.
  intros Hrun Hw Hh.
  apply GL_CreateTexture_created in Hrun.
  destruct Hrun as (data & tw & th & ifmt & cp & -> & Hdim & _ & _ & _ & _ & Hlog).
  destruct (texture_dimensions_range _ _ _ _ _ _ _ Hdim Hw Hh) as [Htw Hth].
  rewrite (int_half_up tw), (int_half_up th) in Hlog by lia.
  destruct (auxiliary_planes_formats (tex_format tex)) as (F2 & F1 & _).
  eexists. eexists. exists tw, th. eexists.
  split; [exact Hlog|]. split; [reflexivity|].
  split; [|split; [|split; [exact F2|exact F1]]];
    destruct (auxiliary_planes_cases (tex_format tex))
      as [(-> & -> & ->)|[(-> & -> & ->)|(-> & -> & ->)]]; reflexivity.
Qed.

Lemma GL_CreateTexture_auxiliary_textures_witness :
  exists tex' s',
    GL_CreateTexture sample_platform 32
      (sample_texture SDL_PIXELFORMAT_YV12 SDL_TEXTUREACCESS_STATIC 5 3)
      (sample_state false false) = Some ((0, tex'), s')
    /\ exists name primary tw th aux,
         texture_calls (log s') = glGenTextures name :: primary :: aux
         /\ image_size primary = Some (tw, th)
         /\ length (filter is_glGenTextures aux) = 2%nat
         /\ map image_size (filter is_glTexImage2D aux)
            = [Some (ceil_div tw 2, ceil_div th 2);
               Some (ceil_div tw 2, ceil_div th 2)].
Proof.
  pose (tex := sample_texture SDL_PIXELFORMAT_YV12
                              SDL_TEXTUREACCESS_STATIC 5 3).
  pose (run := GL_CreateTexture sample_platform 32 tex
                                (sample_state false false)).
  pose (tex' := match run with Some ((_, t), _) => t | None => tex end).
  pose (s' := match run with
              | Some (_, s) => s
              | None => sample_state false false
              end).
  assert (Hrun : run = Some ((0, tex'), s')) by (vm_compute; reflexivity).
  exists tex', s'. split; [exact Hrun|].
  destruct (GL_CreateTexture_auxiliary_textures sample_platform 32 tex tex'
              (sample_state false false) s' Hrun
              (conj eq_refl eq_refl) (conj eq_refl eq_refl))
    as (name & primary & tw & th & aux & Hlog & Hp & Hn & Hs & _).
  exists name, primary, tw, th, aux. auto.
Defined.

(** ** Destroying a texture *)

Lemma set_error_messages_same (d : GL_RenderData) :
  set_error_messages d (error_messages d) = d.
Proof. destruct d; reflexivity. Qed.

Lemma real_errors_length (l : list GLenum) :
  (length (real_errors l) <= length l)%nat.
Proof. apply filter_length_le. Qed.

Lemma real_errors_idem (l : list GLenum) :
  real_errors (real_errors l) = real_errors l.
Proof.
  unfold real_errors. induction l as [|e l IH]; cbn; auto.
  destruct (negb (e =? 0)) eqn:E; cbn; rewrite ?E, IH; reflexivity.
Qed.

(** The loop of [GL_ClearErrors] empties the flags and is left within
    [length flags + 1] turns. *)
Lemma GL_ClearErrors_loop_effect (fuel : nat) :
  forall s : GLState,
    (length (real_errors (gl_errors s)) < fuel)%nat ->
    exists n,
      GL_ClearErrors_loop fuel s
      = Some (tt, mkState (renderdata s) (current_context s) []
                          (next_name s) (log s ++ repeat glGetError n)).
Proof.
  induction fuel as [|fuel IH]; intros s Hf; [lia|].
  change (GL_ClearErrors_loop (S fuel))
    with (bind get_error
            (fun e => if e =? GL_NO_ERROR then ret tt
                      else GL_ClearErrors_loop fuel)).
  unfold bind, get_error.
  destruct (real_errors (gl_errors s)) as [|e rest] eqn:E.
  - exists 1%nat. reflexivity.
  - assert (He : negb (e =? 0) = true).
    { assert (Hin : In e (real_errors (gl_errors s))) by (rewrite E; left; auto).
      unfold real_errors in Hin. apply filter_In in Hin. tauto. }
    apply Bool.negb_true_iff in He. rewrite He.
    assert (Hrest : real_errors rest = rest).
    { pose proof (real_errors_idem (gl_errors s)) as Hi. rewrite E in Hi.
      unfold real_errors in Hi. cbn [filter] in Hi.
      rewrite He in Hi. cbn [negb] in Hi. inversion Hi.
      unfold real_errors. now rewrite H0. }
    destruct (IH (mkState (renderdata s) (current_context s) rest
                          (next_name s) (log s ++ [glGetError]))) as [n Hn].
    { cbn [gl_errors]. rewrite Hrest. cbn [length] in Hf. lia. }
    exists (S n). rewrite Hn. cbn [renderdata current_context next_name log].
    rewrite <- app_assoc. reflexivity.
Qed.

Lemma GL_ClearErrors_effect (s : GLState) :
  exists n s',
    GL_ClearErrors s = Some (tt, s')
    /\ forget_log s' = forget_log (errors_cleared s)
    /\ log s' = log s ++ repeat glGetError n.
Proof.
  unfold GL_ClearErrors, bind, get_data, errors_cleared.
  destruct (debug_enabled (renderdata s)) eqn:Ed; cbn [negb].
  - destruct (GL_ARB_debug_output_supported (renderdata s)) eqn:Ea.
    + destruct (error_messages (renderdata s)) eqn:Em.
      * exists 0%nat, s. unfold ret. repeat split; [|now rewrite app_nil_r].
        unfold forget_log. cbn. rewrite <- Em, set_error_messages_same.
        reflexivity.
      * exists 0%nat. eexists. unfold set_data. split; [reflexivity|].
        cbn. now rewrite app_nil_r.
    + destruct (GL_ClearErrors_loop_effect (S (length (gl_errors s))) s)
        as [n Hn].
      { pose proof (real_errors_length (gl_errors s)). lia. }
      exists n. eexists. split; [exact Hn|]. split; reflexivity.
  - exists 0%nat, s. unfold ret. repeat split. now rewrite app_nil_r.
Qed.

Lemma errors_cleared_idem (s : GLState) :
  errors_cleared (errors_cleared s) = errors_cleared s.
Proof.
  unfold errors_cleared.
  destruct (debug_enabled (renderdata s)) eqn:Ed;
    [destruct (GL_ARB_debug_output_supported (renderdata s)) eqn:Ea|];
    cbn; rewrite ?Ed, ?Ea; reflexivity.
Qed.

Lemma errors_cleared_forget (s s' : GLState) :
  forget_log s = forget_log s' ->
  forget_log (errors_cleared s) = forget_log (errors_cleared s').
Proof.
  destruct s as [d c e n l], s' as [d' c' e' n' l'].
  unfold forget_log, errors_cleared. cbn. intros H. inversion H; subst.
  destruct (debug_enabled d');
    [destruct (GL_ARB_debug_output_supported d')|]; reflexivity.
Qed.

(** A call for which the driver reports nothing changes the log only. *)
Lemma call_quiet (P : Platform) (c : Call) (s : GLState) :
  real_errors (raises P c) = [] ->
  exists s', call P c s = Some (tt, s')
             /\ forget_log s' = forget_log s /\ log s' = log s ++ [c].
Proof.
  intros Hq. unfold call. rewrite Hq. eexists. split; [reflexivity|].
  split; [|reflexivity].
  unfold forget_log. cbn. rewrite !app_nil_r.
  destruct (debug_enabled (renderdata s)
            && GL_ARB_debug_output_supported (renderdata s));
    rewrite ?set_error_messages_same; reflexivity.
Qed.

Lemma context_errors_cleared (s : GLState) :
  context (renderdata (errors_cleared s)) = context (renderdata s)
  /\ current_context (errors_cleared s) = current_context s.
Proof.
  unfold errors_cleared.
  destruct (debug_enabled (renderdata s));
    [destruct (GL_ARB_debug_output_supported (renderdata s))|]; auto.
Qed.

Lemma GL_ActivateRenderer_effect (P : Platform) (s : GLState) :
  exists r s' k,
    GL_ActivateRenderer P s = Some (r, s')
    /\ forget_log s' = forget_log (activated P s)
    /\ log s' = log s ++ k
    /\ filter is_glDeleteTextures k = [].
Proof.
  unfold GL_ActivateRenderer, activated. unfold bind at 1. unfold get_data.
  unfold bind.
  destruct (Z.eqb_spec (current_context s) (context (renderdata s))) as [Ec|Ec];
    cbn [negb orb].
  - unfold ret at 1. cbn [Z.ltb Z.compare].
    destruct (GL_ClearErrors_effect s) as (n & s' & -> & Hf & Hl).
    exists 0, s', (repeat glGetError n). unfold ret.
    split; [reflexivity|]. split; [|split; [exact Hl|]].
    + rewrite Hf. apply errors_cleared_forget.
      unfold forget_log. cbn. now rewrite Ec.
    + clear. induction n; cbn; auto.
  - unfold make_current.
    destruct (make_current_ok P); cbn [Z.ltb Z.compare Z.opp].
    + match goal with
      | |- context [GL_ClearErrors ?t] =>
          destruct (GL_ClearErrors_effect t) as (n & s' & -> & Hf & Hl)
      end.
      exists 0, s', (SDL_GL_MakeCurrent (context (renderdata s))
                     :: repeat glGetError n). unfold ret.
      split; [reflexivity|]. split; [|split].
      * rewrite Hf. apply errors_cleared_forget. reflexivity.
      * rewrite Hl. cbn [log]. now rewrite <- app_assoc.
      * clear. cbn. induction n; cbn; auto.
    + eexists. eexists. exists [SDL_GL_MakeCurrent (context (renderdata s))].
      unfold ret. split; [reflexivity|]. repeat split.
Qed.

Lemma activated_forget (P : Platform) (s s' : GLState) :
  forget_log s = forget_log s' ->
  forget_log (activated P s) = forget_log (activated P s').
Proof.
  intros H. unfold activated.
  assert (Hs : renderdata s = renderdata s'
               /\ current_context s = current_context s'
               /\ gl_errors s = gl_errors s' /\ next_name s = next_name s').
  { unfold forget_log in H. inversion H. auto. }
  destruct Hs as (Hd & Hc & He & Hn). rewrite Hd, Hc, He, Hn.
  destruct ((current_context s' =? context (renderdata s'))
            || make_current_ok P); [|exact H].
  apply errors_cleared_forget. reflexivity.
Qed.

Lemma activated_idem (P : Platform) (s : GLState) :
  forget_log (activated P (activated P s)) = forget_log (activated P s).
Proof.
  unfold activated at 2 3.
  destruct ((current_context s =? context (renderdata s))
            || make_current_ok P) eqn:E.
  - remember (mkState (renderdata s) (context (renderdata s)) (gl_errors s)
                      (next_name s) (log s)) as t eqn:Et.
    assert (Htc : current_context t = context (renderdata t))
      by (subst t; reflexivity).
    clear Et E. unfold activated.
    destruct (context_errors_cleared t) as [Hc Hcur].
    rewrite Hc, Hcur, Htc, Z.eqb_refl. cbn [orb].
    transitivity (forget_log (errors_cleared (errors_cleared t))).
    + apply errors_cleared_forget. unfold forget_log. cbn.
      rewrite Hcur.
      rewrite Htc.
      reflexivity.
    + now rewrite errors_cleared_idem.
  - unfold activated. rewrite E. reflexivity.
Qed.

(** On a texture without driver data, [GL_DestroyTexture] is
    [GL_ActivateRenderer] and nothing else. *)
Lemma GL_DestroyTexture_null (P : Platform) (tex : SDL_Texture) (s : GLState) :
  driverdata tex = None ->
  GL_DestroyTexture P tex s
  = match GL_ActivateRenderer P s with
    | Some (_, s') => Some (tex, s')
    | None => None
    end.
Proof.
  intros H. unfold GL_DestroyTexture, bind. rewrite H. reflexivity.
Qed.

(** What [GL_ActivateRenderer] does and nothing more: at most one
    [SDL_GL_MakeCurrent] and the [glGetError] calls that clear the flags. *)
Lemma GL_ActivateRenderer_only_activates (P : Platform) (s : GLState) :
  exists r s' k,
    GL_ActivateRenderer P s = Some (r, s')
    /\ forget_log s' = forget_log (activated P s)
    /\ log s' = log s ++ k
    /\ forallb is_activation_call k = true
    /\ (current_context s = context (renderdata s) ->
        debug_enabled (renderdata s) = false -> s' = s).
Proof.
  unfold GL_ActivateRenderer, activated. unfold bind at 1. unfold get_data.
  unfold bind.
  assert (Hrep : forall n, forallb is_activation_call (repeat glGetError n)
                           = true)
    by (induction n as [|n IH]; [reflexivity|exact IH]).
  destruct (Z.eqb_spec (current_context s) (context (renderdata s))) as [Ec|Ec];
    cbn [negb orb].
  - unfold ret at 1. cbn [Z.ltb Z.compare].
    destruct (GL_ClearErrors_effect s) as (n & s' & E & Hf & Hl).
    rewrite E. exists 0, s', (repeat glGetError n). unfold ret.
    split; [reflexivity|]. split; [|split; [exact Hl|split; [apply Hrep|]]].
    + rewrite Hf. apply errors_cleared_forget.
      unfold forget_log. cbn. now rewrite Ec.
    + intros _ Hd. unfold GL_ClearErrors, bind, get_data in E.
      rewrite Hd in E. cbn [negb] in E. apply ret_inv in E. tauto.
  - unfold make_current.
    destruct (make_current_ok P); cbn [Z.ltb Z.compare Z.opp].
    + match goal with
      | |- context [GL_ClearErrors ?t] =>
          destruct (GL_ClearErrors_effect t) as (n & s' & -> & Hf & Hl)
      end.
      exists 0, s', (SDL_GL_MakeCurrent (context (renderdata s))
                     :: repeat glGetError n). unfold ret.
      split; [reflexivity|]. split; [|split; [|split]].
      * rewrite Hf. apply errors_cleared_forget. reflexivity.
      * rewrite Hl. cbn [log]. now rewrite <- app_assoc.
      * cbn [forallb is_activation_call andb]. apply Hrep.
      * intros Hc. now elim Ec.
    + eexists. eexists. exists [SDL_GL_MakeCurrent (context (renderdata s))].
      unfold ret. split; [reflexivity|]. split; [reflexivity|].
      split; [reflexivity|]. split; [reflexivity|].
      intros Hc. now elim Ec.
Qed.

(** The state a first [GL_DestroyTexture] leaves when the driver reports
    nothing for the deletions: the activated state. *)
Lemma GL_DestroyTexture_first (P : Platform) (tex tex1 : SDL_Texture)
    (s s1 : GLState) :
  (forall name, real_errors (raises P (glDeleteTextures name)) = []) ->
  GL_DestroyTexture P tex s = Some (tex1, s1) ->
  forget_log s1 = forget_log (activated P s).
Proof.
  intros Hquiet Hrun. unfold GL_DestroyTexture in Hrun.
  destruct (GL_ActivateRenderer_effect P s) as (r & sa & k & Ha & Hf & _).
  unfold bind at 1 in Hrun. rewrite Ha in Hrun.
  destruct (driverdata tex) as [data|] eqn:Ed.
  - unfold bind in Hrun.
    assert (Hd1 : exists sb,
               (if negb (texture data =? 0)
                then call P (glDeleteTextures (texture data)) else ret tt) sa
               = Some (tt, sb) /\ forget_log sb = forget_log sa).
    { destruct (negb (texture data =? 0)).
      - destruct (call_quiet P _ sa (Hquiet (texture data)))
          as (sb & E & F & _). eauto.
      - exists sa. split; reflexivity. }
    destruct Hd1 as (sb & Eb & Fb). rewrite Eb in Hrun.
    assert (Hd2 : exists sc,
               (if yuv data
                then bind (call P (glDeleteTextures (utexture data)))
                          (fun _ => call P (glDeleteTextures (vtexture data)))
                else ret tt) sb
               = Some (tt, sc) /\ forget_log sc = forget_log sb).
    { destruct (yuv data).
      - unfold bind.
        destruct (call_quiet P _ sb (Hquiet (utexture data)))
          as (sc & E & F & _). rewrite E.
        destruct (call_quiet P _ sc (Hquiet (vtexture data)))
          as (sd & E' & F' & _). exists sd. split; [exact E'|congruence].
      - exists sb. split; reflexivity. }
    destruct Hd2 as (sc & Ec & Fc). unfold bind in Ec. rewrite Ec in Hrun.
    apply ret_inv in Hrun. destruct Hrun as [_ ->]. congruence.
  - apply ret_inv in Hrun. destruct Hrun as [_ ->]. exact Hf.
Qed.

(** C9 (amended).  [GL_DestroyTexture] returns and leaves the texture
    without driver data.  Called again on that texture, in whatever state
    the renderer is by then, it returns the texture as it is and does what
    [GL_ActivateRenderer] does and nothing more: its only calls are at most
    one [SDL_GL_MakeCurrent] and the [glGetError] calls that clear the
    pending flags, so it deletes no texture object; the state it leaves is
    the activated state; and when the renderer's context is current and
    debugging is off it makes no call and changes nothing.  Called again
    right after the first call, the driver having reported nothing for the
    deletions, it leaves the renderer's data, the current context, the
    pending errors and the object names as the first call left them. *)
Theorem GL_DestroyTexture_idempotent (P : Platform) (tex : SDL_Texture)
    (s : GLState) :
  exists tex1 s1,
    GL_DestroyTexture P tex s = Some (tex1, s1)
    /\ driverdata tex1 = None
    /\ (forall t : GLState,
          exists s2 k,
            GL_DestroyTexture P tex1 t = Some (tex1, s2)
            /\ log s2 = log t ++ k
            /\ forallb is_activation_call k = true
            /\ forget_log s2 = forget_log (activated P t)
            /\ (current_context t = context (renderdata t) ->
                debug_enabled (renderdata t) = false -> s2 = t))
    /\ ((forall name, real_errors (raises P (glDeleteTextures name)) = []) ->
        exists s2,
          GL_DestroyTexture P tex1 s1 = Some (tex1, s2)
          /\ forget_log s2 = forget_log s1).
Proof.
  assert (Hfirst : exists tex1 s1,
            GL_DestroyTexture P tex s = Some (tex1, s1)
            /\ driverdata tex1 = None).
  { unfold GL_DestroyTexture. unfold bind at 1.
    destruct (GL_ActivateRenderer_only_activates P s)
      as (r & s0 & k0 & -> & _).
    destruct (driverdata tex) as [data|] eqn:Ed.
    - unfold bind, ret, call.
      destruct (negb (texture data =? 0)), (yuv data);
        eexists; eexists; (split; [reflexivity|reflexivity]).
    - exists tex, s0. unfold ret. auto. }
  destruct Hfirst as (tex1 & s1 & E1 & Hnull).
  assert (Hagain : forall t : GLState,
            exists s2 k,
              GL_DestroyTexture P tex1 t = Some (tex1, s2)
              /\ log s2 = log t ++ k
              /\ forallb is_activation_call k = true
              /\ forget_log s2 = forget_log (activated P t)
              /\ (current_context t = context (renderdata t) ->
                  debug_enabled (renderdata t) = false -> s2 = t)).
  { intros t. rewrite (GL_DestroyTexture_null P tex1 t Hnull).
    destruct (GL_ActivateRenderer_only_activates P t)
      as (r & s2 & k & -> & Hf & Hl & Hk & Hsame).
    exists s2, k. auto. }
  exists tex1, s1. split; [exact E1|]. split; [exact Hnull|].
  split; [exact Hagain|].
  intros Hquiet.
  destruct (Hagain s1) as (s2 & k & E2 & _ & _ & Hf & _).
  exists s2. split; [exact E2|].
  pose proof (GL_DestroyTexture_first P tex tex1 s s1 Hquiet E1) as Hs1.
  rewrite Hf, (activated_forget P s1 (activated P s)).
  - rewrite activated_idem. now rewrite Hs1.
  - rewrite Hs1. unfold forget_log. reflexivity.
Qed.

Lemma GL_DestroyTexture_idempotent_witness :
  exists tex1 s1 s2,
    GL_DestroyTexture sample_platform
      (mkTexture SDL_PIXELFORMAT_YV12 SDL_TEXTUREACCESS_STREAMING 4 4 1
         (Some (mkTextureData 1 f32_one f32_one GL_LUMINANCE GL_UNSIGNED_BYTE
                  (Some 24) 4 (mkRect 0 0 0 0) true false 2 3 None)))
      (mkState (sample_renderdata true false) 0 [GL_INVALID_ENUM] 4 [])
    = Some (tex1, s1)
    /\ driverdata tex1 = None
    /\ GL_DestroyTexture sample_platform tex1 s1 = Some (tex1, s2)
    /\ forget_log s2 = forget_log s1.
Proof.
  destruct (GL_DestroyTexture_idempotent sample_platform
              (mkTexture SDL_PIXELFORMAT_YV12 SDL_TEXTUREACCESS_STREAMING 4 4 1
                 (Some (mkTextureData 1 f32_one f32_one GL_LUMINANCE
                          GL_UNSIGNED_BYTE (Some 24) 4 (mkRect 0 0 0 0)
                          true false 2 3 None)))
              (mkState (sample_renderdata true false) 0 [GL_INVALID_ENUM] 4 []))
    as (tex1 & s1 & E1 & Hnull & _ & Hquiet).
  destruct (Hquiet (fun _ => eq_refl)) as (s2 & E2 & Hf).
  exists tex1, s1, s2.
  split; [exact E1|]. split; [exact Hnull|]. split; [exact E2|exact Hf].
Defined.

(** A texture is destroyed; before it is destroyed again, another context
    has been made current and the debug output has recorded a message.  The
    second call makes the context of the renderer current again and drops
    the message: the renderer's data and the current context are not what
    they were before the call. *)
Lemma GL_DestroyTexture_again_activates_counterexample :
  exists tex1 s1 t s2,
    GL_DestroyTexture sample_platform
      (mkTexture SDL_PIXELFORMAT_ARGB8888 SDL_TEXTUREACCESS_STATIC 4 4 1
         (Some (mkTextureData 1 f32_one f32_one GL_BGRA
                  GL_UNSIGNED_INT_8_8_8_8_REV None 0 (mkRect 0 0 0 0)
                  false false 0 0 None)))
      (mkState (mkRenderData 1 true true [] GL_TEXTURE_2D true false true []
                  true) 1 [] 2 [])
    = Some (tex1, s1)
    /\ driverdata tex1 = None
    /\ t = mkState (set_error_messages (renderdata s1) [GL_INVALID_ENUM]) 2
                   (gl_errors s1) (next_name s1) (log s1)
    /\ GL_DestroyTexture sample_platform tex1 t = Some (tex1, s2)
    /\ current_context t = 2 /\ current_context s2 = 1
    /\ error_messages (renderdata t) = [GL_INVALID_ENUM]
    /\ error_messages (renderdata s2) = []
    /\ log s2 = log t ++ [SDL_GL_MakeCurrent 1].
Proof.
  eexists. eexists. eexists. eexists.
  split; [vm_compute; reflexivity|].
  split; [reflexivity|].
  split; [reflexivity|].
  split; [vm_compute; reflexivity|].
  repeat split.
Qed.

(** ** Queueing points and lines *)

Lemma store_app (pre rest : list GLfloat) (x v : GLfloat) :
  store (pre ++ x :: rest) (length pre) v = pre ++ v :: rest.
Proof. induction pre as [|a pre IH]; cbn; [reflexivity|now rewrite IH]. Qed.

Lemma GL_QueueDrawPoints_loop_fills (points : list SDL_FPoint) :
  forall pre block post : list GLfloat,
    length block = (2 * length points)%nat ->
    GL_QueueDrawPoints_loop points (length pre) (pre ++ block ++ post)
    = pre ++ snapped_vertices points ++ post.
Proof.
  induction points as [|p points IH]; intros pre block post Hlen.
  - destruct block; [reflexivity|discriminate].
  - destruct block as [|b1 [|b2 block]]; cbn [length] in Hlen; try lia.
    cbn [GL_QueueDrawPoints_loop snapped_vertices flat_map app].
    rewrite store_app.
    replace (pre ++ f32_add f32_half (fx p) :: b2 :: block ++ post)
      with ((pre ++ [f32_add f32_half (fx p)]) ++ b2 :: block ++ post)
      by (now rewrite <- app_assoc).
    replace (S (length pre)) with (length (pre ++ [f32_add f32_half (fx p)]))
      by (rewrite length_app; cbn; lia).
    rewrite store_app.
    replace ((pre ++ [f32_add f32_half (fx p)])
             ++ f32_add f32_half (fy p) :: block ++ post)
      with ((pre ++ [f32_add f32_half (fx p); f32_add f32_half (fy p)])
            ++ block ++ post)
      by (rewrite <- !app_assoc; reflexivity).
    replace (S (length (pre ++ [f32_add f32_half (fx p)])))
      with (length (pre ++ [f32_add f32_half (fx p); f32_add f32_half (fy p)]))
      by (rewrite !length_app; cbn; lia).
    rewrite IH by lia.
    rewrite <- !app_assoc. reflexivity.
Qed.

Lemma snapped_vertices_length (points : list SDL_FPoint) :
  length (snapped_vertices points) = (2 * length points)%nat.
Proof.
  induction points as [|p points IH]; [reflexivity|].
  change (snapped_vertices (p :: points))
    with (f32_add f32_half (fx p) :: f32_add f32_half (fy p)
          :: snapped_vertices points).
  cbn [length]. rewrite IH. lia.
Qed.

Lemma snapped_vertices_nth (points : list SDL_FPoint) :
  forall (i : nat) (p : SDL_FPoint),
    nth_error points i = Some p ->
    nth_error (snapped_vertices points) (2 * i)
    = Some (f32_add f32_half (fx p))
    /\ nth_error (snapped_vertices points) (2 * i + 1)
       = Some (f32_add f32_half (fy p)).
Proof.
  induction points as [|q points IH]; intros i p H.
  - destruct i; discriminate.
  - destruct i as [|i].
    + cbn in H. inversion H; subst. split; reflexivity.
    + cbn [nth_error] in H. apply IH in H.
      change (snapped_vertices (q :: points))
        with (f32_add f32_half (fx q) :: f32_add f32_half (fy q)
              :: snapped_vertices points).
      replace (2 * S i)%nat with (S (S (2 * i))) by lia.
      exact H.
Qed.

(** C10. A successful [GL_QueueDrawPoints] of [count] points appends exactly
    [2 * count] floats to the vertex data, the x and y of each point in
    order, each the input coordinate plus 0.5 (the constant is exactly one
    half; the sum is a single-precision sum), records the offset of the block
    and [count] in the command, and returns 0; and the renderer queues lines
    with the same function as points. *)
Theorem GL_QueueDrawPoints_spec (P : Platform) (vertex_data : list GLfloat)
    (cmd : DrawCommand) (points : list SDL_FPoint) :
  Z.of_nat (length points) < 2 ^ 30 ->
  alloc_ok P (Alloc_vertices (8 * Z.of_nat (length points))) = true ->
  GL_QueueDrawPoints P vertex_data cmd points
  = (0,
     with_first_count cmd (4 * Z.of_nat (length vertex_data))
                      (Z.of_nat (length points)),
     vertex_data ++ snapped_vertices points)
  /\ length (snapped_vertices points) = (2 * length points)%nat
  /\ (forall (i : nat) (p : SDL_FPoint),
        nth_error points i = Some p ->
        nth_error (vertex_data ++ snapped_vertices points)
                  (length vertex_data + 2 * i)
        = Some (f32_add f32_half (fx p))
        /\ nth_error (vertex_data ++ snapped_vertices points)
                     (length vertex_data + (2 * i + 1))
           = Some (f32_add f32_half (fy p)))
  /\ (exists q, f32_to_Q f32_half = Some q /\ Qeq q (Qmake 1 2))
  /\ QueueDrawLines (GL_CreateRenderer_hooks P)
     = QueueDrawPoints (GL_CreateRenderer_hooks P).
Proof.
  intros Hcount Halloc.
  set (n := length points) in *.
  assert (Hbytes : wrap_size_t (int_mul (Z.of_nat n) 2 * 4) = 8 * Z.of_nat n).
  { unfold int_mul. rewrite wrap_int_small by lia.
    rewrite wrap_size_t_small by lia. lia. }
  split.
  - unfold GL_QueueDrawPoints, SDL_AllocateRenderVertices. fold n.
    rewrite Hbytes, Halloc.
    replace (Z.to_nat (4 * Z.of_nat (length vertex_data) / 4))
      with (length vertex_data)
      by (rewrite Z.mul_comm, Z.div_mul by lia; lia).
    replace (8 * Z.of_nat n / 4) with (2 * Z.of_nat n)
      by (replace (8 * Z.of_nat n) with (2 * Z.of_nat n * 4) by lia;
          now rewrite Z.div_mul by lia).
    f_equal.
    pose proof (GL_QueueDrawPoints_loop_fills points vertex_data
                  (repeat f32_zero (Z.to_nat (2 * Z.of_nat n))) []) as H.
    rewrite !app_nil_r in H. apply H.
    rewrite repeat_length. unfold n. lia.
  - split; [apply snapped_vertices_length|].
    split; [|split; [eexists; split; reflexivity|reflexivity]].
    intros i p Hp. destruct (snapped_vertices_nth points i p Hp) as [Hx Hy].
    rewrite !nth_error_app2 by lia.
    replace (length vertex_data + 2 * i - length vertex_data)%nat
      with (2 * i)%nat by lia.
    replace (length vertex_data + (2 * i + 1) - length vertex_data)%nat
      with (2 * i + 1)%nat by lia.
    auto.
Qed.

Lemma GL_QueueDrawPoints_spec_witness :
  GL_QueueDrawPoints sample_platform [f32_one; f32_one]
    (mkDraw 0 0 255 0 0 255 SDL_BLENDMODE_NONE 0)
    [mkFPoint f32_one f32_zero; mkFPoint (f32_of_int 3) (f32_of_int 7)]
  = (0, mkDraw 8 2 255 0 0 255 SDL_BLENDMODE_NONE 0,
     [f32_one; f32_one;
      S754_finite false 12582912 (-23); f32_half;
      S754_finite false 14680064 (-22); S754_finite false 15728640 (-21)]).
Proof.
  exact (proj1 (GL_QueueDrawPoints_spec sample_platform [f32_one; f32_one]
                  (mkDraw 0 0 255 0 0 255 SDL_BLENDMODE_NONE 0)
                  [mkFPoint f32_one f32_zero;
                   mkFPoint (f32_of_int 3) (f32_of_int 7)]
                  eq_refl eq_refl)).
Defined.

(** ** The state cache of the executor *)

Lemma count_calls_app (f : Call -> bool) (k1 k2 : list Call) :
  count_calls f (k1 ++ k2) = (count_calls f k1 + count_calls f k2)%nat.
Proof. unfold count_calls. now rewrite filter_app, length_app. Qed.

Lemma geometry_not_counted (f : Call -> bool) (k : list Call) :
  (forall c, is_geometry_call c = true -> f c = false) ->
  Forall (fun c => is_geometry_call c = true) k ->
  count_calls f k = 0%nat /\ existsb f k = false.
Proof.
  intros Hf Hk. unfold count_calls.
  induction Hk as [|c k Hc Hk IH]; [split; reflexivity|].
  cbn. rewrite (Hf c Hc). exact IH.
Qed.

Ltac all_geometry :=
  repeat first [ assumption
               | apply Forall_nil
               | apply Forall_cons; [reflexivity|]
               | apply Forall_app; split ].

Lemma emit_vertices_geometry (vertices : list GLfloat) (n : nat) :
  forall (verts : Z) (k : list Call),
    emit_vertices vertices verts n = Some k ->
    Forall (fun c => is_geometry_call c = true) k.
Proof.
  induction n as [|n IH]; intros verts k H; cbn [emit_vertices] in H.
  - inversion H. constructor.
  - destruct (read vertices verts); [|discriminate].
    destruct (read vertices (verts + 1)); [|discriminate].
    destruct (emit_vertices vertices (verts + 2) n) eqn:E; [|discriminate].
    inversion H; subst. constructor; [reflexivity|eauto].
Qed.

Lemma emit_rects_geometry (vertices : list GLfloat) (n : nat) :
  forall (verts : Z) (k : list Call),
    emit_rects vertices verts n = Some k ->
    Forall (fun c => is_geometry_call c = true) k.
Proof.
  induction n as [|n IH]; intros verts k H; cbn [emit_rects] in H.
  - inversion H. constructor.
  - destruct (read vertices verts); [|discriminate].
    destruct (read vertices (verts + 1)); [|discriminate].
    destruct (read vertices (verts + 2)); [|discriminate].
    destruct (read vertices (verts + 3)); [|discriminate].
    destruct (emit_rects vertices (verts + 4) n) eqn:E; [|discriminate].
    inversion H; subst. constructor; [reflexivity|eauto].
Qed.

Lemma open_endpoint_geometry (P : Platform) (vertices : list GLfloat)
    (verts count : Z) (k : list Call) :
  open_endpoint P vertices verts count = Some k ->
  Forall (fun c => is_geometry_call c = true) k.
Proof.
  unfold open_endpoint. intros H.
  destruct (MACOSX P || WIN32 P).
  - destruct (read vertices (verts + (count - 1) * 2)); [|discriminate].
    destruct (read vertices (verts + (count * 2 - 1))); [|discriminate].
    inversion H; subst. all_geometry.
  - destruct (read_int vertices verts) as [x1|]; [|discriminate].
    destruct (read_int vertices (verts + 1)) as [y1|]; [|discriminate].
    destruct (read_int vertices (verts + (count - 1) * 2)) as [x2|];
      [|discriminate].
    destruct (read_int vertices (verts + (count * 2 - 1))) as [y2|];
      [|discriminate].
    inversion H; subst. apply Forall_app; split.
    + destruct (x1 >? x2); [all_geometry|].
      destruct (x2 >? x1); all_geometry.
    + destruct (y1 >? y2); [all_geometry|].
      destruct (y2 >? y1); all_geometry.
Qed.

Lemma draw_lines_geometry (P : Platform) (vertices : list GLfloat)
    (verts count : Z) (k : list Call) :
  draw_lines P vertices verts count = Some k ->
  Forall (fun c => is_geometry_call c = true) k.
Proof.
  unfold draw_lines. intros H.
  destruct (closes_loop vertices verts count) as [[|]|]; [| |discriminate].
  - destruct (emit_vertices vertices verts (Z.to_nat (count - 1))) eqn:E;
      [|discriminate].
    inversion H; subst. apply emit_vertices_geometry in E.
    all_geometry.
  - destruct (emit_vertices vertices verts (Z.to_nat count)) eqn:E;
      [|discriminate].
    destruct (open_endpoint P vertices (verts + 2 * count) count) eqn:E';
      [|discriminate].
    inversion H; subst. apply emit_vertices_geometry in E.
    apply open_endpoint_geometry in E'.
    all_geometry.
Qed.

(** What [SetDrawState] does with each cached field. *)
Lemma SetDrawState_elision (P : Platform) (data : GL_RenderData)
    (d : DrawCommand) (sh : GL_Shader) (c c' : StateCache) (k : list Call) :
  valid_textype data ->
  SetDrawState P data d sh c = (c', k) ->
  (draw_color c' = color_of d
   /\ count_calls is_color_call k
      = if color_of d =? draw_color c then 0%nat else 1%nat)
  /\ (blend c' = draw_blend d
      /\ count_calls is_blend_switch k
         = (if draw_blend d =? blend c then 0%nat else 1%nat)
      /\ existsb is_blend_call k = negb (draw_blend d =? blend c))
  /\ (shader c' = (if shaders data then sh else shader c)
      /\ count_calls is_shader_call k
         = if shaders data && negb (GL_Shader_eqb sh (shader c))
           then 1%nat else 0%nat)
  /\ count_calls (is_texturing_call (textype data)) k
     = (if Bool.eqb (negb (draw_texture d =? 0)) (texturing c)
        then 0%nat else 1%nat)
  /\ (bound_texture c' = bound_texture c /\ existsb is_bind_call k = false).
Proof.
  intros Htt H. unfold SetDrawState in H.
  unfold SetDrawState_color, SetDrawState_blend, SetDrawState_shader,
    SetDrawState_texturing, glColor4f_bytes, color4 in H.
  fold (color_of d) in H.
  destruct (Z.eqb_spec (color_of d) (draw_color c)) as [Ec|Ec];
  destruct (Z.eqb_spec (draw_blend d) (blend c)) as [Eb|Eb];
  destruct (shaders data);
  destruct (GL_Shader_eqb sh (shader c)) eqn:Es;
  destruct (Bool.eqb (negb (draw_texture d =? 0)) (texturing c));
  destruct (draw_blend d =? 0);
  destruct (draw_texture d =? 0);
  cbn [negb andb] in H; inversion H; subst c' k; clear H;
  destruct Htt as [-> | ->];
  cbn; repeat split; auto;
  try (destruct sh, (shader c); (discriminate || reflexivity)).
Qed.

Lemma GL_Shader_eqb_refl (s : GL_Shader) : GL_Shader_eqb s s = true.
Proof. destruct s; reflexivity. Qed.

Lemma SetCopyState_elision (P : Platform) (renderer : SDL_Renderer)
    (data : GL_RenderData) (d : DrawCommand) (c c' : StateCache)
    (k : list Call) :
  valid_textype data ->
  SetCopyState P renderer data d c = Some (c', k) ->
  exists sh,
    (draw_color c' = color_of d
     /\ count_calls is_color_call k
        = if color_of d =? draw_color c then 0%nat else 1%nat)
    /\ (blend c' = draw_blend d
        /\ count_calls is_blend_switch k
           = (if draw_blend d =? blend c then 0%nat else 1%nat)
        /\ existsb is_blend_call k = negb (draw_blend d =? blend c))
    /\ (shader c' = (if shaders data then sh else shader c)
        /\ count_calls is_shader_call k
           = if shaders data && negb (GL_Shader_eqb sh (shader c))
             then 1%nat else 0%nat)
    /\ count_calls (is_texturing_call (textype data)) k
       = (if Bool.eqb (negb (draw_texture d =? 0)) (texturing c)
          then 0%nat else 1%nat)
    /\ (bound_texture c' = draw_texture d
        /\ existsb is_bind_call k
           = negb (draw_texture d =? bound_texture c)).
Proof.
  intros Htt H. unfold SetCopyState in H.
  destruct (textures renderer (draw_texture d)) as [tex|]; [|discriminate].
  destruct (driverdata tex) as [texturedata|]; [|discriminate].
  destruct (SetDrawState P data d
              (SetCopyState_shader P data tex texturedata) c)
    as [c1 k1] eqn:E1.
  destruct (SetDrawState_elision P data d _ c c1 k1 Htt E1)
    as ((Hc & Hcc) & (Hb & Hbs & Hbc) & (Hs & Hsc) & Ht & (Hbt & Hbk)).
  exists (SetCopyState_shader P data tex texturedata).
  unfold SetCopyState_bind in H. rewrite Hbt in H.
  assert (Hgeom : forall f,
            (forall x, is_bind_call x = true -> f x = false) ->
            forall k2,
              Forall (fun x => is_bind_call x = true) k2 ->
              count_calls f k2 = 0%nat /\ existsb f k2 = false).
  { intros f Hf k2 Hk2. unfold count_calls.
    induction Hk2 as [|x k2 Hx Hk2 IH]; [split; reflexivity|].
    cbn. rewrite (Hf x Hx). exact IH. }
  destruct (Z.eqb_spec (draw_texture d) (bound_texture c)) as [Et|Et];
    cbn [negb] in H; inversion H; subst c' k; clear H;
    cbn [draw_color blend shader bound_texture texturing].
  - rewrite app_nil_r. repeat split; auto.
  - set (k2 := _ ++ _ ++ [glActiveTextureARB GL_TEXTURE0_ARB; _]).
    assert (Hk2 : Forall (fun x => is_bind_call x = true) k2).
    { unfold k2. destruct (yuv texturedata), (nv12 texturedata);
        repeat first [ apply Forall_nil | apply Forall_cons; [reflexivity|] ]. }
    rewrite !count_calls_app, !existsb_app.
    destruct (Hgeom is_color_call ltac:(intros [] ; cbn; congruence) k2 Hk2)
      as [-> _].
    destruct (Hgeom is_blend_switch ltac:(intros [] ; cbn; congruence) k2 Hk2)
      as [-> _].
    destruct (Hgeom is_blend_call ltac:(intros [] ; cbn; congruence) k2 Hk2)
      as [_ ->].
    destruct (Hgeom is_shader_call ltac:(intros [] ; cbn; congruence) k2 Hk2)
      as [-> _].
    destruct (Hgeom (is_texturing_call (textype data))
                ltac:(intros [] ; cbn; congruence) k2 Hk2) as [-> _].
    rewrite !Nat.add_0_r, !orb_false_r, Hbk.
    repeat split; auto.
    unfold k2. rewrite !existsb_app. cbn. now rewrite !orb_true_r.
Qed.

Lemma elides_draw (data : GL_RenderData) (cmd : SDL_RenderCommand)
    (d : DrawCommand) (sh : GL_Shader) (c c' : StateCache)
    (k geom : list Call) (copy : bool) :
  valid_textype data ->
  draw_of cmd = Some d ->
  Forall (fun x => is_geometry_call x = true) geom ->
  (draw_color c' = color_of d
   /\ count_calls is_color_call k
      = if color_of d =? draw_color c then 0%nat else 1%nat) ->
  (blend c' = draw_blend d
   /\ count_calls is_blend_switch k
      = (if draw_blend d =? blend c then 0%nat else 1%nat)
   /\ existsb is_blend_call k = negb (draw_blend d =? blend c)) ->
  (shader c' = (if shaders data then sh else shader c)
   /\ count_calls is_shader_call k
      = if shaders data && negb (GL_Shader_eqb sh (shader c))
        then 1%nat else 0%nat) ->
  count_calls (is_texturing_call (textype data)) k
  = (if Bool.eqb (negb (draw_texture d =? 0)) (texturing c)
     then 0%nat else 1%nat) ->
  (bound_texture c' = (if copy then draw_texture d else bound_texture c)
   /\ existsb is_bind_call k
      = if copy then negb (draw_texture d =? bound_texture c) else false) ->
  elides data cmd c c' (k ++ geom).
Proof.
  intros Htt Hd Hg (Hc & Hcc) (Hb & Hbs & Hbc) (Hs & Hsc) Ht (Hbt & Hbk).
  unfold elides. rewrite Hd, !count_calls_app, !existsb_app.
  destruct (geometry_not_counted is_color_call geom
              ltac:(intros []; cbn; congruence) Hg) as [-> _].
  destruct (geometry_not_counted is_blend_switch geom
              ltac:(intros []; cbn; congruence) Hg) as [-> _].
  destruct (geometry_not_counted is_blend_call geom
              ltac:(intros []; cbn; congruence) Hg) as [_ ->].
  destruct (geometry_not_counted is_shader_call geom
              ltac:(intros []; cbn; congruence) Hg) as [-> _].
  destruct (geometry_not_counted is_bind_call geom
              ltac:(intros []; cbn; congruence) Hg) as [_ ->].
  destruct (geometry_not_counted (is_texturing_call (textype data)) geom
              ltac:(intros []; cbn; congruence) Hg) as [-> _].
  rewrite !Nat.add_0_r, !orb_false_r, Hc, Hb, Hs, Hbt, Hcc, Hbs, Hbc, Hsc, Ht, Hbk.
  repeat split; auto.
  - destruct (shaders data); cbn [andb].
    + destruct (GL_Shader_eqb sh (shader c)); reflexivity.
    + now rewrite GL_Shader_eqb_refl.
  - destruct copy; [reflexivity|]. now rewrite Z.eqb_refl.
  - inversion H; subst; reflexivity.
  - inversion H; subst; reflexivity.
Qed.

Lemma elides_other (data : GL_RenderData) (cmd : SDL_RenderCommand)
    (c c' : StateCache) (k : list Call) :
  draw_of cmd = None ->
  draw_color c' = draw_color c -> blend c' = blend c ->
  shader c' = shader c -> bound_texture c' = bound_texture c ->
  count_calls is_color_call k = 0%nat ->
  count_calls is_blend_switch k = 0%nat ->
  existsb is_blend_call k = false ->
  count_calls is_shader_call k = 0%nat ->
  existsb is_bind_call k = false ->
  count_calls (is_texturing_call (textype data)) k = 0%nat ->
  elides data cmd c c' k.
Proof.
  intros Hd Hc Hb Hs Ht K1 K2 K3 K4 K5 K6. unfold elides.
  rewrite Hd, Hc, Hb, Hs, Ht, K1, K2, K3, K4, K5, K6.
  rewrite !Z.eqb_refl, GL_Shader_eqb_refl.
  repeat split; try reflexivity; discriminate.
Qed.

Lemma GL_RunCommandQueue_cmd_elides (P : Platform) (renderer : SDL_Renderer)
    (data : GL_RenderData) (vertices : list GLfloat) (drawableh : Z)
    (cmd : SDL_RenderCommand) (c c' : StateCache) (k : list Call) :
  valid_textype data ->
  GL_RunCommandQueue_cmd P renderer data vertices drawableh cmd c
  = Some (c', k) ->
  elides data cmd c c' k.
Proof.
  intros Htt H. destruct cmd as [|rect|enabled rect|r g b a|r g b a|d|d|d|d|d];
    cbn [GL_RunCommandQueue_cmd] in H.
  - inversion H; subst. apply elides_other; reflexivity.
  - destruct (negb (SDL_Rect_eqb rect (viewport c))); inversion H; subst;
      apply elides_other; try reflexivity;
      unfold viewport_calls;
      destruct (negb (rw rect =? 0) && negb (rh rect =? 0));
      destruct (negb (target renderer =? 0));
      try reflexivity; destruct Htt as [E | E]; rewrite E; reflexivity.
  - destruct (enabled && negb (SDL_Rect_eqb (cliprect c) rect));
      inversion H; subst; apply elides_other; try reflexivity;
      destruct (negb (Bool.eqb (cliprect_enabled c) enabled)), enabled;
      try reflexivity; destruct Htt as [E | E]; rewrite E; reflexivity.
  - inversion H; subst. apply elides_other; reflexivity.
  - unfold glClearColor_bytes, color4 in H.
    destruct (negb (pack_color r g b a =? clear_color c));
      inversion H; subst; apply elides_other; try reflexivity;
      destruct (clipping_enabled renderer);
      try reflexivity; destruct Htt as [E | E]; rewrite E; reflexivity.
  - destruct (SetDrawState P data d SHADER_SOLID c) as [c1 k1] eqn:E.
    destruct (verts_of d) as [verts|]; [|discriminate].
    destruct (emit_vertices vertices verts (Z.to_nat (wrap_size_t (count d))))
      as [kv|] eqn:Ev; [|discriminate].
    inversion H; subst c' k. apply emit_vertices_geometry in Ev.
    destruct (SetDrawState_elision P data d _ c c1 k1 Htt E)
      as (H1 & H2 & H3 & H4 & H5).
    eapply (elides_draw data _ d SHADER_SOLID c c1 k1 _ false); eauto.
    all_geometry.
  - destruct (SetDrawState P data d SHADER_SOLID c) as [c1 k1] eqn:E.
    destruct (verts_of d) as [verts|]; [|discriminate].
    destruct (draw_lines P vertices verts (wrap_size_t (count d)))
      as [kv|] eqn:Ev; [|discriminate].
    inversion H; subst c' k. apply draw_lines_geometry in Ev.
    destruct (SetDrawState_elision P data d _ c c1 k1 Htt E)
      as (H1 & H2 & H3 & H4 & H5).
    eapply (elides_draw data _ d SHADER_SOLID c c1 k1 _ false); eauto.
  - destruct (SetDrawState P data d SHADER_SOLID c) as [c1 k1] eqn:E.
    destruct (verts_of d) as [verts|]; [|discriminate].
    destruct (emit_rects vertices verts (Z.to_nat (wrap_size_t (count d))))
      as [kv|] eqn:Ev; [|discriminate].
    inversion H; subst c' k. apply emit_rects_geometry in Ev.
    destruct (SetDrawState_elision P data d _ c c1 k1 Htt E)
      as (H1 & H2 & H3 & H4 & H5).
    eapply (elides_draw data _ d SHADER_SOLID c c1 k1 _ false); eauto.
  - destruct (verts_of d) as [verts|]; [|discriminate].
    destruct (read_n vertices verts 8)
      as [[|? [|? [|? [|? [|? [|? [|? [|? [|? ?]]]]]]]]]|]; try discriminate.
    destruct (SetCopyState P renderer data d c) as [[c1 k1]|] eqn:E;
      [|discriminate].
    inversion H; subst c' k.
    destruct (SetCopyState_elision P renderer data d c c1 k1 Htt E)
      as (sh & H1 & H2 & H3 & H4 & H5).
    eapply (elides_draw data _ d sh c c1 k1 _ true); eauto.
    unfold textured_quad. all_geometry.
  - destruct (verts_of d) as [verts|]; [|discriminate].
    destruct (read_n vertices verts 11)
      as [[|? [|? [|? [|? [|? [|? [|? [|? [|? [|? [|? [|? ?]]]]]]]]]]]]|];
      try discriminate.
    destruct (SetCopyState P renderer data d c) as [[c1 k1]|] eqn:E;
      [|discriminate].
    inversion H; subst c' k.
    destruct (SetCopyState_elision P renderer data d c c1 k1 Htt E)
      as (sh & H1 & H2 & H3 & H4 & H5).
    eapply (elides_draw data _ d sh c c1 k1 _ true); eauto.
    unfold textured_quad. all_geometry.
Qed.

Lemma bound_names_app (k1 k2 : list Call) :
  bound_names (k1 ++ k2) = bound_names k1 ++ bound_names k2.
Proof. unfold bound_names. apply flat_map_app. Qed.

Lemma geometry_binds_nothing (k : list Call) :
  Forall (fun c => is_geometry_call c = true) k -> bound_names k = [].
Proof.
  induction 1 as [|c k Hc Hk IH]; [reflexivity|].
  change (bound_names (c :: k))
    with ((match c with glBindTexture _ n => [n] | _ => [] end)
          ++ bound_names k).
  rewrite IH. destruct c; try discriminate; reflexivity.
Qed.

Lemma SetDrawState_binds_nothing (P : Platform) (data : GL_RenderData)
    (d : DrawCommand) (sh : GL_Shader) (c : StateCache) :
  bound_names (snd (SetDrawState P data d sh c)) = [].
Proof.
  unfold SetDrawState, SetDrawState_color, SetDrawState_blend,
    SetDrawState_shader, SetDrawState_texturing, glColor4f_bytes, color4.
  destruct (negb (_ =? draw_color c)), (negb (draw_blend d =? blend c)),
    (draw_blend d =? SDL_BLENDMODE_NONE),
    (shaders data && negb (GL_Shader_eqb sh (shader c))),
    (negb (Bool.eqb (negb (draw_texture d =? 0)) (texturing c))),
    (draw_texture d =? 0); reflexivity.
Qed.

(** The four fields across [SetDrawState]. *)
Lemma SetDrawState_programs (P : Platform) (data : GL_RenderData)
    (d : DrawCommand) (sh : GL_Shader) (c c' : StateCache) (k : list Call) :
  valid_textype data ->
  SetDrawState P data d sh c = (c', k) ->
  programmed_when_differs Z.eqb (Some (color_of d)) (draw_color c)
    (draw_color c') (count_calls is_color_call k)
  /\ programmed_when_differs Z.eqb (Some (draw_blend d)) (blend c) (blend c')
       (count_calls is_blend_switch k)
  /\ existsb is_blend_call k = negb (draw_blend d =? blend c)
  /\ programmed_when_differs GL_Shader_eqb
       (if shaders data then Some sh else None) (shader c) (shader c')
       (count_calls is_shader_call k)
  /\ bound_texture c' = bound_texture c
  /\ existsb is_bind_call k = false
  /\ bound_names k = [].
Proof.
  intros Htt H.
  pose proof (SetDrawState_binds_nothing P data d sh c) as Hn.
  rewrite H in Hn. cbn [snd] in Hn.
  destruct (SetDrawState_elision P data d sh c c' k Htt H)
    as ((Hc & Hcc) & (Hb & Hbs & Hbc) & (Hs & Hsc) & _ & (Hbt & Hbk)).
  unfold programmed_when_differs.
  repeat split; try assumption.
  - destruct (shaders data); cbn [andb] in *; [|split; assumption].
    split; [exact Hs|]. rewrite Hsc.
    destruct (GL_Shader_eqb sh (shader c)); reflexivity.
Qed.

Lemma SetCopyState_programs (P : Platform) (renderer : SDL_Renderer)
    (data : GL_RenderData) (d : DrawCommand) (c c' : StateCache)
    (k : list Call) :
  valid_textype data ->
  SetCopyState P renderer data d c = Some (c', k) ->
  exists tex texturedata,
    textures renderer (draw_texture d) = Some tex
    /\ driverdata tex = Some texturedata
    /\ programmed_when_differs Z.eqb (Some (color_of d)) (draw_color c)
         (draw_color c') (count_calls is_color_call k)
    /\ programmed_when_differs Z.eqb (Some (draw_blend d)) (blend c) (blend c')
         (count_calls is_blend_switch k)
    /\ existsb is_blend_call k = negb (draw_blend d =? blend c)
    /\ programmed_when_differs GL_Shader_eqb
         (if shaders data
          then Some (SetCopyState_shader P data tex texturedata) else None)
         (shader c) (shader c') (count_calls is_shader_call k)
    /\ bound_texture c' = draw_texture d
    /\ existsb is_bind_call k = negb (draw_texture d =? bound_texture c)
    /\ bound_names k
       = (if draw_texture d =? bound_texture c then []
          else texture_objects texturedata).
Proof.
  intros Htt H. unfold SetCopyState in H.
  destruct (textures renderer (draw_texture d)) as [tex|] eqn:Etex;
    [|discriminate].
  destruct (driverdata tex) as [texturedata|] eqn:Edata; [|discriminate].
  exists tex, texturedata. split; [reflexivity|]. split; [exact Edata|].
  destruct (SetDrawState P data d
              (SetCopyState_shader P data tex texturedata) c)
    as [c1 k1] eqn:E1.
  destruct (SetDrawState_programs P data d _ c c1 k1 Htt E1)
    as (Hc & Hb & Hbc & Hs & Hbt & Hbk & Hbn).
  unfold SetCopyState_bind in H. rewrite Hbt in H.
  destruct (Z.eqb_spec (draw_texture d) (bound_texture c)) as [Et|Et];
    cbn [negb] in H; inversion H; subst c' k; clear H;
    cbn [draw_color blend shader bound_texture].
  - rewrite app_nil_r. repeat (split; [assumption|]).
    split; [symmetry; exact Et|]. split; assumption.
  - set (k2 := _ ++ _ ++ [glActiveTextureARB GL_TEXTURE0_ARB; _]).
    assert (Hk2 : Forall (fun x => is_bind_call x = true) k2).
    { unfold k2. destruct (yuv texturedata), (nv12 texturedata);
        repeat first [ apply Forall_nil | apply Forall_cons; [reflexivity|] ]. }
    assert (Hcount : forall f,
              (forall x, is_bind_call x = true -> f x = false) ->
              count_calls f k2 = 0%nat /\ existsb f k2 = false).
    { intros f Hf. unfold count_calls. clear - Hk2 Hf.
      induction Hk2 as [|x k2 Hx Hk2 IH]; [split; reflexivity|].
      cbn. rewrite (Hf x Hx). exact IH. }
    rewrite !count_calls_app, !existsb_app, bound_names_app, Hbn.
    destruct (Hcount is_color_call ltac:(intros []; cbn; congruence))
      as [-> _].
    destruct (Hcount is_blend_switch ltac:(intros []; cbn; congruence))
      as [-> _].
    destruct (Hcount is_blend_call ltac:(intros []; cbn; congruence))
      as [_ ->].
    destruct (Hcount is_shader_call ltac:(intros []; cbn; congruence))
      as [-> _].
    rewrite !Nat.add_0_r, !orb_false_r, Hbk.
    repeat (split; [assumption|]). split; [reflexivity|]. split.
    + unfold k2. rewrite !existsb_app. cbn. now rewrite !orb_true_r.
    + unfold k2, texture_objects.
      destruct (yuv texturedata), (nv12 texturedata); reflexivity.
Qed.

Lemma draw_command_programs (P : Platform) (renderer : SDL_Renderer)
    (data : GL_RenderData) (cmd : SDL_RenderCommand) (d : DrawCommand)
    (c c' : StateCache) (k geom : list Call) :
  draw_of cmd = Some d ->
  texture_of renderer cmd = None ->
  shader_of P renderer data cmd
  = (if shaders data then Some SHADER_SOLID else None) ->
  Forall (fun x => is_geometry_call x = true) geom ->
  valid_textype data ->
  SetDrawState P data d SHADER_SOLID c = (c', k) ->
  programmed_when_differs Z.eqb (option_map color_of (draw_of cmd))
    (draw_color c) (draw_color c') (count_calls is_color_call (k ++ geom))
  /\ programmed_when_differs Z.eqb (option_map draw_blend (draw_of cmd))
       (blend c) (blend c') (count_calls is_blend_switch (k ++ geom))
  /\ existsb is_blend_call (k ++ geom) = negb (blend c' =? blend c)
  /\ programmed_when_differs GL_Shader_eqb (shader_of P renderer data cmd)
       (shader c) (shader c') (count_calls is_shader_call (k ++ geom))
  /\ match texture_of renderer cmd with
     | Some (t, _, texturedata) =>
         bound_texture c' = t
         /\ bound_names (k ++ geom)
            = (if t =? bound_texture c then []
               else texture_objects texturedata)
     | None => bound_texture c' = bound_texture c
               /\ bound_names (k ++ geom) = []
     end
  /\ existsb is_bind_call (k ++ geom)
     = negb (bound_texture c' =? bound_texture c).
Proof.
  intros Hd Ht Hsh Hg Htt H.
  destruct (SetDrawState_programs P data d _ c c' k Htt H)
    as (Hc & Hb & Hbc & Hs & Hbt & Hbk & Hbn).
  rewrite Hd, Ht, Hsh, !count_calls_app, !existsb_app, bound_names_app.
  destruct (geometry_not_counted is_color_call geom
              ltac:(intros []; cbn; congruence) Hg) as [-> _].
  destruct (geometry_not_counted is_blend_switch geom
              ltac:(intros []; cbn; congruence) Hg) as [-> _].
  destruct (geometry_not_counted is_blend_call geom
              ltac:(intros []; cbn; congruence) Hg) as [_ ->].
  destruct (geometry_not_counted is_shader_call geom
              ltac:(intros []; cbn; congruence) Hg) as [-> _].
  destruct (geometry_not_counted is_bind_call geom
              ltac:(intros []; cbn; congruence) Hg) as [_ ->].
  rewrite (geometry_binds_nothing geom Hg).
  rewrite !Nat.add_0_r, !orb_false_r, Hbk, Hbn, Hbt, Z.eqb_refl.
  cbn [option_map negb].
  split; [exact Hc|]. split; [exact Hb|]. split.
  { rewrite Hbc. now rewrite (proj1 Hb). }
  split; [exact Hs|]. repeat split.
Qed.

Lemma copy_command_programs (P : Platform) (renderer : SDL_Renderer)
    (data : GL_RenderData) (cmd : SDL_RenderCommand) (d : DrawCommand)
    (c c' : StateCache) (k geom : list Call) :
  cmd = SDL_RENDERCMD_COPY d \/ cmd = SDL_RENDERCMD_COPY_EX d ->
  Forall (fun x => is_geometry_call x = true) geom ->
  valid_textype data ->
  SetCopyState P renderer data d c = Some (c', k) ->
  programmed_when_differs Z.eqb (option_map color_of (draw_of cmd))
    (draw_color c) (draw_color c') (count_calls is_color_call (k ++ geom))
  /\ programmed_when_differs Z.eqb (option_map draw_blend (draw_of cmd))
       (blend c) (blend c') (count_calls is_blend_switch (k ++ geom))
  /\ existsb is_blend_call (k ++ geom) = negb (blend c' =? blend c)
  /\ programmed_when_differs GL_Shader_eqb (shader_of P renderer data cmd)
       (shader c) (shader c') (count_calls is_shader_call (k ++ geom))
  /\ match texture_of renderer cmd with
     | Some (t, _, texturedata) =>
         bound_texture c' = t
         /\ bound_names (k ++ geom)
            = (if t =? bound_texture c then []
               else texture_objects texturedata)
     | None => bound_texture c' = bound_texture c
               /\ bound_names (k ++ geom) = []
     end
  /\ existsb is_bind_call (k ++ geom)
     = negb (bound_texture c' =? bound_texture c).
Proof.
  intros Hcmd Hg Htt H.
  destruct (SetCopyState_programs P renderer data d c c' k Htt H)
    as (tex & texturedata & Etex & Edata & Hc & Hb & Hbc & Hs & Hbt & Hbk
        & Hbn).
  assert (Hd : draw_of cmd = Some d) by (destruct Hcmd; subst; reflexivity).
  assert (Ht : texture_of renderer cmd
               = Some (draw_texture d, tex, texturedata)).
  { destruct Hcmd; subst; cbn [texture_of]; rewrite Etex, Edata;
      reflexivity. }
  assert (Hsh : shader_of P renderer data cmd
                = if shaders data
                  then Some (SetCopyState_shader P data tex texturedata)
                  else None).
  { unfold shader_of. destruct (shaders data); [|reflexivity].
    rewrite Ht. destruct Hcmd; subst; reflexivity. }
  rewrite Hd, Ht, Hsh, !count_calls_app, !existsb_app, bound_names_app.
  destruct (geometry_not_counted is_color_call geom
              ltac:(intros []; cbn; congruence) Hg) as [-> _].
  destruct (geometry_not_counted is_blend_switch geom
              ltac:(intros []; cbn; congruence) Hg) as [-> _].
  destruct (geometry_not_counted is_blend_call geom
              ltac:(intros []; cbn; congruence) Hg) as [_ ->].
  destruct (geometry_not_counted is_shader_call geom
              ltac:(intros []; cbn; congruence) Hg) as [-> _].
  destruct (geometry_not_counted is_bind_call geom
              ltac:(intros []; cbn; congruence) Hg) as [_ ->].
  rewrite (geometry_binds_nothing geom Hg), app_nil_r.
  rewrite !Nat.add_0_r, !orb_false_r, Hbk, Hbn, Hbt.
  cbn [option_map].
  split; [exact Hc|]. split; [exact Hb|]. split.
  { rewrite Hbc. now rewrite (proj1 Hb). }
  split; [exact Hs|]. repeat split.
Qed.

Lemma GL_RunCommandQueue_cmd_programs (P : Platform) (renderer : SDL_Renderer)
    (data : GL_RenderData) (vertices : list GLfloat) (drawableh : Z)
    (cmd : SDL_RenderCommand) (c c' : StateCache) (k : list Call) :
  valid_textype data ->
  GL_RunCommandQueue_cmd P renderer data vertices drawableh cmd c
  = Some (c', k) ->
  programmed_when_differs Z.eqb (option_map color_of (draw_of cmd))
    (draw_color c) (draw_color c') (count_calls is_color_call k)
  /\ programmed_when_differs Z.eqb (option_map draw_blend (draw_of cmd))
       (blend c) (blend c') (count_calls is_blend_switch k)
  /\ existsb is_blend_call k = negb (blend c' =? blend c)
  /\ programmed_when_differs GL_Shader_eqb (shader_of P renderer data cmd)
       (shader c) (shader c') (count_calls is_shader_call k)
  /\ match texture_of renderer cmd with
     | Some (t, _, texturedata) =>
         bound_texture c' = t
         /\ bound_names k
            = (if t =? bound_texture c then []
               else texture_objects texturedata)
     | None => bound_texture c' = bound_texture c /\ bound_names k = []
     end
  /\ existsb is_bind_call k = negb (bound_texture c' =? bound_texture c).
Proof.
  intros Htt H.
  assert (Hother : forall k0 c0,
            draw_of cmd = None -> texture_of renderer cmd = None ->
            shader_of P renderer data cmd = None ->
            Some (c0, k0) = Some (c', k) ->
            count_calls is_color_call k0 = 0%nat ->
            count_calls is_blend_switch k0 = 0%nat ->
            existsb is_blend_call k0 = false ->
            count_calls is_shader_call k0 = 0%nat ->
            existsb is_bind_call k0 = false ->
            bound_names k0 = [] ->
            draw_color c0 = draw_color c -> blend c0 = blend c ->
            shader c0 = shader c -> bound_texture c0 = bound_texture c ->
            programmed_when_differs Z.eqb (option_map color_of (draw_of cmd))
              (draw_color c) (draw_color c') (count_calls is_color_call k)
            /\ programmed_when_differs Z.eqb
                 (option_map draw_blend (draw_of cmd))
                 (blend c) (blend c') (count_calls is_blend_switch k)
            /\ existsb is_blend_call k = negb (blend c' =? blend c)
            /\ programmed_when_differs GL_Shader_eqb
                 (shader_of P renderer data cmd)
                 (shader c) (shader c') (count_calls is_shader_call k)
            /\ match texture_of renderer cmd with
               | Some (t, _, texturedata) =>
                   bound_texture c' = t
                   /\ bound_names k
                      = (if t =? bound_texture c then []
                         else texture_objects texturedata)
               | None => bound_texture c' = bound_texture c
                         /\ bound_names k = []
               end
            /\ existsb is_bind_call k
               = negb (bound_texture c' =? bound_texture c)).
  { intros k0 c0 Hd Ht Hs E K1 K2 K3 K4 K5 K6 Hc Hb Hsh Hbt.
    inversion E; subst c0 k0. rewrite Hd, Ht, Hs. cbn [option_map].
    unfold programmed_when_differs.
    rewrite Hb, Hbt, !Z.eqb_refl. cbn [negb].
    repeat split; assumption. }
  destruct cmd as [|rect|enabled rect|r g b a|r g b a|d|d|d|d|d];
    cbn [GL_RunCommandQueue_cmd] in H.
  - apply (Hother [] c); try reflexivity; try assumption.
    unfold shader_of. destruct (shaders data); reflexivity.
  - assert (Hs : shader_of P renderer data (SDL_RENDERCMD_SETVIEWPORT rect)
                 = None)
      by (unfold shader_of; destruct (shaders data); reflexivity).
    destruct (negb (SDL_Rect_eqb rect (viewport c)));
      [apply (Hother (viewport_calls renderer (negb (target renderer =? 0))
                        drawableh rect) (set_viewport c rect))
      |apply (Hother [] c)]; try reflexivity; try assumption;
      unfold viewport_calls;
      destruct (negb (rw rect =? 0) && negb (rh rect =? 0));
      destruct (negb (target renderer =? 0)); reflexivity.
  - assert (Hs : shader_of P renderer data
                   (SDL_RENDERCMD_SETCLIPRECT enabled rect) = None)
      by (unfold shader_of; destruct (shaders data); reflexivity).
    destruct (enabled && negb (SDL_Rect_eqb (cliprect c) rect));
      eapply Hother; try exact H; try reflexivity; try assumption;
      destruct (negb (Bool.eqb (cliprect_enabled c) enabled)), enabled;
      reflexivity.
  - apply (Hother [] c); try reflexivity; try assumption.
    unfold shader_of. destruct (shaders data); reflexivity.
  - assert (Hs : shader_of P renderer data (SDL_RENDERCMD_CLEAR r g b a)
                 = None)
      by (unfold shader_of; destruct (shaders data); reflexivity).
    unfold glClearColor_bytes, color4 in H.
    destruct (negb (pack_color r g b a =? clear_color c));
      eapply Hother; try exact H; try reflexivity; try assumption;
      destruct (clipping_enabled renderer); reflexivity.
  - destruct (SetDrawState P data d SHADER_SOLID c) as [c1 k1] eqn:E.
    destruct (verts_of d) as [verts|]; [|discriminate].
    destruct (emit_vertices vertices verts (Z.to_nat (wrap_size_t (count d))))
      as [kv|] eqn:Ev; [|discriminate].
    inversion H; subst c' k. apply emit_vertices_geometry in Ev.
    apply (draw_command_programs P renderer data _ d c c1 k1);
      try reflexivity; try assumption.
    all_geometry.
  - destruct (SetDrawState P data d SHADER_SOLID c) as [c1 k1] eqn:E.
    destruct (verts_of d) as [verts|]; [|discriminate].
    destruct (draw_lines P vertices verts (wrap_size_t (count d)))
      as [kv|] eqn:Ev; [|discriminate].
    inversion H; subst c' k. apply draw_lines_geometry in Ev.
    apply (draw_command_programs P renderer data _ d c c1 k1);
      try reflexivity; try assumption.
  - destruct (SetDrawState P data d SHADER_SOLID c) as [c1 k1] eqn:E.
    destruct (verts_of d) as [verts|]; [|discriminate].
    destruct (emit_rects vertices verts (Z.to_nat (wrap_size_t (count d))))
      as [kv|] eqn:Ev; [|discriminate].
    inversion H; subst c' k. apply emit_rects_geometry in Ev.
    apply (draw_command_programs P renderer data _ d c c1 k1);
      try reflexivity; try assumption.
  - destruct (verts_of d) as [verts|]; [|discriminate].
    destruct (read_n vertices verts 8)
      as [[|? [|? [|? [|? [|? [|? [|? [|? [|? ?]]]]]]]]]|]; try discriminate.
    destruct (SetCopyState P renderer data d c) as [[c1 k1]|] eqn:E;
      [|discriminate].
    inversion H; subst c' k.
    apply (copy_command_programs P renderer data _ d c c1 k1);
      try assumption; [left; reflexivity|].
    unfold textured_quad. all_geometry.
  - destruct (verts_of d) as [verts|]; [|discriminate].
    destruct (read_n vertices verts 11)
      as [[|? [|? [|? [|? [|? [|? [|? [|? [|? [|? [|? [|? ?]]]]]]]]]]]]|];
      try discriminate.
    destruct (SetCopyState P renderer data d c) as [[c1 k1]|] eqn:E;
      [|discriminate].
    inversion H; subst c' k.
    apply (copy_command_programs P renderer data _ d c c1 k1);
      try assumption; [right; reflexivity|].
    unfold textured_quad. all_geometry.
Qed.

(** C1 (amended).  For every command the executor processes, whatever the
    cache holds on entry: the draw colour, the blend mode, the shader and the
    bound texture are each programmed only when the value the command asks
    for differs from the cached one, and then once, and the cache then holds
    the value of the command.  The command asks for a shader only on a
    renderer that has shaders, and for a texture only when it is a Copy or a
    CopyEx, and each object of that texture is then bound once.  Two
    consecutive FillRects commands with the same colour and blend mode
    program each of colour and blend mode at most once: the second command
    never, the first exactly when the value differs from the cache it is
    entered with. *)
Theorem state_cache_elision (P : Platform) (renderer : SDL_Renderer)
    (data : GL_RenderData) (vertices : list GLfloat) (drawableh : Z) :
  valid_textype data ->
  (forall cmd c c' k,
     GL_RunCommandQueue_cmd P renderer data vertices drawableh cmd c
     = Some (c', k) ->
     programmed_when_differs Z.eqb (option_map color_of (draw_of cmd))
       (draw_color c) (draw_color c') (count_calls is_color_call k)
     /\ programmed_when_differs Z.eqb (option_map draw_blend (draw_of cmd))
          (blend c) (blend c') (count_calls is_blend_switch k)
     /\ existsb is_blend_call k = negb (blend c' =? blend c)
     /\ programmed_when_differs GL_Shader_eqb (shader_of P renderer data cmd)
          (shader c) (shader c') (count_calls is_shader_call k)
     /\ match texture_of renderer cmd with
        | Some (t, _, texturedata) =>
            bound_texture c' = t
            /\ bound_names k
               = (if t =? bound_texture c then []
                  else texture_objects texturedata)
        | None => bound_texture c' = bound_texture c /\ bound_names k = []
        end
     /\ existsb is_bind_call k = negb (bound_texture c' =? bound_texture c))
  /\ (forall d1 d2 c0 c2 k,
        color_of d1 = color_of d2 -> draw_blend d1 = draw_blend d2 ->
        GL_RunCommandQueue_loop P renderer data vertices drawableh
          [SDL_RENDERCMD_FILL_RECTS d1; SDL_RENDERCMD_FILL_RECTS d2] c0
        = Some (c2, k) ->
        exists c1 k1 k2,
          GL_RunCommandQueue_cmd P renderer data vertices drawableh
            (SDL_RENDERCMD_FILL_RECTS d1) c0 = Some (c1, k1)
          /\ GL_RunCommandQueue_cmd P renderer data vertices drawableh
               (SDL_RENDERCMD_FILL_RECTS d2) c1 = Some (c2, k2)
          /\ k = k1 ++ k2
          /\ count_calls is_color_call k1
             = (if color_of d1 =? draw_color c0 then 0%nat else 1%nat)
          /\ count_calls is_blend_switch k1
             = (if draw_blend d1 =? blend c0 then 0%nat else 1%nat)
          /\ count_calls is_color_call k2 = 0%nat
          /\ existsb is_blend_call k2 = false).
Proof.
  intros Htt. split.
  - intros cmd c c' k H.
    exact (GL_RunCommandQueue_cmd_programs P renderer data vertices drawableh
             cmd c c' k Htt H).
  - intros d1 d2 c0 c2 k Hc Hb H.
    cbn [GL_RunCommandQueue_loop] in H.
    destruct (GL_RunCommandQueue_cmd P renderer data vertices drawableh
                (SDL_RENDERCMD_FILL_RECTS d1) c0) as [[c1 k1]|] eqn:E1;
      [|discriminate].
    destruct (GL_RunCommandQueue_cmd P renderer data vertices drawableh
                (SDL_RENDERCMD_FILL_RECTS d2) c1) as [[c2' k2]|] eqn:E2;
      [|discriminate].
    inversion H; subst c2' k. rewrite app_nil_r in *.
    exists c1, k1, k2.
    destruct (GL_RunCommandQueue_cmd_programs P renderer data vertices
                drawableh _ c0 c1 k1 Htt E1)
      as ((Ac & A1) & (Ab & A2) & _).
    destruct (GL_RunCommandQueue_cmd_programs P renderer data vertices
                drawableh _ c1 c2 k2 Htt E2)
      as ((Bc & B1) & (Bb & _) & B3 & _).
    cbn [draw_of option_map] in *.
    rewrite Ac, <- Hc, Z.eqb_refl in B1.
    rewrite Bb, Ab, Hb, Z.eqb_refl in B3.
    repeat split; assumption.
Qed.

Lemma state_cache_elision_witness :
  valid_textype (sample_renderdata true false)
  /\ (exists c' k,
        GL_RunCommandQueue_cmd sample_platform sample_renderer_with_texture
          (sample_renderdata true false)
          [f32_zero; f32_zero; f32_one; f32_one;
           f32_zero; f32_one; f32_zero; f32_one] 480
          (SDL_RENDERCMD_COPY
             (mkDraw 0 1 255 0 0 255 SDL_BLENDMODE_NONE 7))
          (initial_cache sample_renderer_with_texture) = Some (c', k)
        /\ (draw_color c' = pack_color 255 0 0 255
            /\ count_calls is_color_call k = 1%nat)
        /\ (shader c' = SHADER_RGB /\ count_calls is_shader_call k = 1%nat)
        /\ (bound_texture c' = 7 /\ bound_names k = [1]))
  /\ exists c2 k c1 k1 k2,
       GL_RunCommandQueue_loop sample_platform (sample_renderer 0 false)
         (sample_renderdata true false)
         [f32_zero; f32_zero; f32_one; f32_one] 480
         [SDL_RENDERCMD_FILL_RECTS (mkDraw 0 1 255 0 0 255 SDL_BLENDMODE_NONE 0);
          SDL_RENDERCMD_FILL_RECTS (mkDraw 0 1 255 0 0 255 SDL_BLENDMODE_NONE 0)]
         (initial_cache (sample_renderer 0 false))
       = Some (c2, k)
       /\ k = k1 ++ k2
       /\ GL_RunCommandQueue_cmd sample_platform (sample_renderer 0 false)
            (sample_renderdata true false)
            [f32_zero; f32_zero; f32_one; f32_one] 480
            (SDL_RENDERCMD_FILL_RECTS
               (mkDraw 0 1 255 0 0 255 SDL_BLENDMODE_NONE 0))
            (initial_cache (sample_renderer 0 false)) = Some (c1, k1)
       /\ count_calls is_color_call k1 = 1%nat
       /\ count_calls is_blend_switch k1 = 1%nat
       /\ count_calls is_color_call k2 = 0%nat
       /\ existsb is_blend_call k2 = false.
Proof.
  assert (Htt : valid_textype (sample_renderdata true false))
    by (left; reflexivity).
  split; [exact Htt|]. split.
  - pose (d := mkDraw 0 1 255 0 0 255 SDL_BLENDMODE_NONE 7).
    pose (c := initial_cache sample_renderer_with_texture).
    pose (run := GL_RunCommandQueue_cmd sample_platform
                   sample_renderer_with_texture (sample_renderdata true false)
                   [f32_zero; f32_zero; f32_one; f32_one;
                    f32_zero; f32_one; f32_zero; f32_one] 480
                   (SDL_RENDERCMD_COPY d) c).
    pose (c' := match run with Some (c', _) => c' | None => c end).
    pose (k := match run with Some (_, k) => k | None => [] end).
    assert (Hrun : run = Some (c', k)) by (vm_compute; reflexivity).
    destruct (state_cache_elision sample_platform sample_renderer_with_texture
                (sample_renderdata true false)
                [f32_zero; f32_zero; f32_one; f32_one;
                 f32_zero; f32_one; f32_zero; f32_one] 480 Htt) as [Hcmd _].
    destruct (Hcmd (SDL_RENDERCMD_COPY d) c c' k Hrun)
      as (A & _ & _ & B & C & _).
    exists c', k. split; [exact Hrun|]. split; [exact A|].
    split; [exact B|exact C].
  - pose (d := mkDraw 0 1 255 0 0 255 SDL_BLENDMODE_NONE 0).
    pose (run := GL_RunCommandQueue_loop sample_platform
           (sample_renderer 0 false) (sample_renderdata true false)
           [f32_zero; f32_zero; f32_one; f32_one] 480
           [SDL_RENDERCMD_FILL_RECTS d; SDL_RENDERCMD_FILL_RECTS d]
           (initial_cache (sample_renderer 0 false))).
    pose (c2 := match run with Some (c, _) => c
                | None => initial_cache (sample_renderer 0 false) end).
    pose (k := match run with Some (_, k) => k | None => [] end).
    assert (Hrun : run = Some (c2, k)) by (vm_compute; reflexivity).
    destruct (state_cache_elision sample_platform (sample_renderer 0 false)
                (sample_renderdata true false)
                [f32_zero; f32_zero; f32_one; f32_one] 480 Htt) as [_ Hpair].
    destruct (Hpair d d (initial_cache (sample_renderer 0 false)) c2 k
                eq_refl eq_refl Hrun)
      as (c1 & k1 & k2 & E1 & E2 & Ek & A1 & A2 & B1 & B2).
    exists c2, k, c1, k1, k2.
    split; [exact Hrun|]. split; [exact Ek|]. split; [exact E1|].
    split; [exact A1|]. split; [exact A2|]. split; [exact B1|exact B2].
Defined.

(** The FillRects pair of C1 after a DrawPoints command that has left their
    colour and blend mode in the cache: the pair programs neither, and the
    only [glColor4f] of the run are that of the prologue and that of the
    DrawPoints command. *)
Lemma FillRects_pair_programs_nothing_counterexample :
  exists c1 k1 c3 k23,
    GL_RunCommandQueue_cmd sample_platform (sample_renderer 0 false)
      (sample_renderdata false false)
      [f32_half; f32_half; f32_zero; f32_zero; f32_one; f32_one] 480
      (SDL_RENDERCMD_DRAW_POINTS (mkDraw 0 1 255 0 0 255 SDL_BLENDMODE_NONE 0))
      (initial_cache (sample_renderer 0 false)) = Some (c1, k1)
    /\ GL_RunCommandQueue_loop sample_platform (sample_renderer 0 false)
         (sample_renderdata false false)
         [f32_half; f32_half; f32_zero; f32_zero; f32_one; f32_one] 480
         [SDL_RENDERCMD_FILL_RECTS (mkDraw 8 1 255 0 0 255 SDL_BLENDMODE_NONE 0);
          SDL_RENDERCMD_FILL_RECTS (mkDraw 8 1 255 0 0 255 SDL_BLENDMODE_NONE 0)]
         c1 = Some (c3, k23)
    /\ k23 = [glRectf f32_zero f32_zero f32_one f32_one;
              glRectf f32_zero f32_zero f32_one f32_one]
    /\ count_calls is_color_call k23 = 0%nat
    /\ count_calls is_blend_switch k23 = 0%nat
    /\ existsb is_blend_call k23 = false
    /\ count_calls is_color_call
         (prologue (sample_renderer 0 false) (sample_renderdata false false) 480
          ++ k1 ++ k23) = 2%nat.
Proof.
  eexists. eexists. eexists. eexists.
  split; [vm_compute; reflexivity|].
  split; [vm_compute; reflexivity|].
  repeat split; vm_compute; reflexivity.
Qed.

(** ** Lines *)

Lemma read_n_two (vertices : list GLfloat) (verts : Z) (n : nat)
    (x y : GLfloat) (l : list GLfloat) :
  read_n vertices verts (S (S n)) = Some (x :: y :: l) ->
  read vertices verts = Some x /\ read vertices (verts + 1) = Some y
  /\ read_n vertices (verts + 2) n = Some l.
Proof.
  cbn [read_n]. replace (verts + 1 + 1) with (verts + 2) by lia.
  destruct (read vertices verts); [|discriminate].
  destruct (read vertices (verts + 1)); [|discriminate].
  destruct (read_n vertices (verts + 2) n); [|discriminate].
  intros H; inversion H; auto.
Qed.

Lemma emit_vertices_queued (vertices : list GLfloat)
    (pts : list (GLfloat * GLfloat)) :
  forall verts,
    read_n vertices verts (2 * length pts) = Some (flat_vertices pts) ->
    emit_vertices vertices verts (length pts) = Some (map vertex_call pts).
Proof.
  induction pts as [|[x y] pts IH]; intros verts H; [reflexivity|].
  change (2 * length ((x, y) :: pts))%nat with (2 * S (length pts))%nat in H.
  replace (2 * S (length pts))%nat with (S (S (2 * length pts))) in H by lia.
  change (flat_vertices ((x, y) :: pts)) with (x :: y :: flat_vertices pts) in H.
  apply read_n_two in H. destruct H as (Hx & Hy & Hr).
  cbn [length emit_vertices map]. rewrite Hx, Hy, (IH _ Hr). reflexivity.
Qed.

Lemma queued_removelast (vertices : list GLfloat)
    (pts : list (GLfloat * GLfloat)) :
  forall verts,
    read_n vertices verts (2 * length pts) = Some (flat_vertices pts) ->
    read_n vertices verts (2 * length (removelast pts))
    = Some (flat_vertices (removelast pts)).
Proof.
  induction pts as [|[x y] pts IH]; intros verts H; [reflexivity|].
  destruct pts as [|q pts]; [reflexivity|].
  change (2 * length ((x, y) :: q :: pts))%nat
    with (2 * S (length (q :: pts)))%nat in H.
  replace (2 * S (length (q :: pts)))%nat
    with (S (S (2 * length (q :: pts)))) in H by lia.
  change (flat_vertices ((x, y) :: q :: pts))
    with (x :: y :: flat_vertices (q :: pts)) in H.
  apply read_n_two in H. destruct H as (Hx & Hy & Hr).
  change (removelast ((x, y) :: q :: pts))
    with ((x, y) :: removelast (q :: pts)).
  change (flat_vertices ((x, y) :: removelast (q :: pts)))
    with (x :: y :: flat_vertices (removelast (q :: pts))).
  change (length ((x, y) :: removelast (q :: pts)))
    with (S (length (removelast (q :: pts)))).
  replace (2 * S (length (removelast (q :: pts))))%nat
    with (S (S (2 * length (removelast (q :: pts))))) by lia.
  cbn [read_n]. replace (verts + 1 + 1) with (verts + 2) by lia.
  rewrite Hx, Hy, (IH _ Hr). reflexivity.
Qed.

Lemma queued_nth (vertices : list GLfloat) (pts : list (GLfloat * GLfloat))
    (d : GLfloat * GLfloat) :
  forall verts i,
    read_n vertices verts (2 * length pts) = Some (flat_vertices pts) ->
    (i < length pts)%nat ->
    read vertices (verts + 2 * Z.of_nat i) = Some (fst (nth i pts d))
    /\ read vertices (verts + 2 * Z.of_nat i + 1) = Some (snd (nth i pts d)).
Proof.
  induction pts as [|[x y] pts IH]; intros verts i H Hi; [cbn in Hi; lia|].
  change (2 * length ((x, y) :: pts))%nat with (2 * S (length pts))%nat in H.
  replace (2 * S (length pts))%nat with (S (S (2 * length pts))) in H by lia.
  change (flat_vertices ((x, y) :: pts)) with (x :: y :: flat_vertices pts) in H.
  apply read_n_two in H. destruct H as (Hx & Hy & Hr).
  destruct i as [|i].
  - cbn [nth fst snd]. replace (verts + 2 * Z.of_nat 0) with verts by lia.
    auto.
  - cbn [nth]. cbn [length] in Hi.
    destruct (IH (verts + 2) i Hr ltac:(lia)) as [A B].
    replace (verts + 2 * Z.of_nat (S i)) with (verts + 2 + 2 * Z.of_nat i)
      by lia.
    auto.
Qed.

Lemma closes_loop_queued (vertices : list GLfloat)
    (pts : list (GLfloat * GLfloat)) (verts : Z) :
  read_n vertices verts (2 * length pts) = Some (flat_vertices pts) ->
  closes_loop vertices verts (Z.of_nat (length pts))
  = Some ((2 <? Z.of_nat (length pts))
          && coincide (first_vertex pts) (last_vertex pts)).
Proof.
  intros H. unfold closes_loop.
  rewrite Z.gtb_ltb.
  destruct (2 <? Z.of_nat (length pts)) eqn:E; [|reflexivity].
  apply Z.ltb_lt in E.
  destruct (queued_nth vertices pts (f32_zero, f32_zero) verts 0 H ltac:(lia))
    as [A0 B0].
  destruct (queued_nth vertices pts (f32_zero, f32_zero) verts
              (length pts - 1) H ltac:(lia)) as [An Bn].
  replace (verts + 2 * Z.of_nat 0) with verts in * by lia.
  replace (verts + 2 * Z.of_nat (length pts - 1))
    with (verts + (Z.of_nat (length pts) - 1) * 2) in * by lia.
  replace (verts + (Z.of_nat (length pts) - 1) * 2 + 1)
    with (verts + (Z.of_nat (length pts) * 2 - 1)) in * by lia.
  rewrite A0, An, B0, Bn. unfold coincide, first_vertex, last_vertex.
  cbn [andb].
  destruct (f32_eqb (fst (nth 0 pts (f32_zero, f32_zero)))
              (fst (nth (length pts - 1) pts (f32_zero, f32_zero))));
    reflexivity.
Qed.

Lemma open_endpoint_vertices (P : Platform) (vertices : list GLfloat)
    (verts count : Z) (extra : list Call) :
  open_endpoint P vertices verts count = Some extra ->
  forallb is_glVertex2f extra = true
  /\ (length extra <= 2)%nat
  /\ (MACOSX P || WIN32 P = true -> length extra = 1%nat).
Proof.
  unfold open_endpoint. destruct (MACOSX P || WIN32 P).
  - destruct (read vertices (verts + (count - 1) * 2)); [|discriminate].
    destruct (read vertices (verts + (count * 2 - 1))); [|discriminate].
    intros H; inversion H; subst. cbn. auto.
  - destruct (read_int vertices verts) as [x1|]; [|discriminate].
    destruct (read_int vertices (verts + 1)) as [y1|]; [|discriminate].
    destruct (read_int vertices (verts + (count - 1) * 2)) as [x2|];
      [|discriminate].
    destruct (read_int vertices (verts + (count * 2 - 1))) as [y2|];
      [|discriminate].
    intros H; inversion H; subst.
    destruct (x1 >? x2), (x2 >? x1), (y1 >? y2), (y2 >? y1); cbn;
      repeat split; try lia; discriminate.
Qed.

Lemma emit_vertices_progress_finished (vertices : list GLfloat) (n : nat) :
  forall (verts : Z) (k : list Call),
    emit_vertices vertices verts n = Some k ->
    emit_vertices_progress vertices verts n = (k, true).
Proof.
  induction n as [|n IH]; intros verts k H;
    cbn [emit_vertices emit_vertices_progress] in *.
  - inversion H. reflexivity.
  - destruct (read vertices verts); [|discriminate].
    destruct (read vertices (verts + 1)); [|discriminate].
    destruct (emit_vertices vertices (verts + 2) n) as [k'|] eqn:E;
      [|discriminate].
    rewrite (IH _ _ E). inversion H. reflexivity.
Qed.

Lemma emit_vertices_progress_stopped (vertices : list GLfloat) (n : nat) :
  forall verts : Z,
    emit_vertices vertices verts n = None ->
    snd (emit_vertices_progress vertices verts n) = false.
Proof.
  induction n as [|n IH]; intros verts H;
    cbn [emit_vertices emit_vertices_progress] in *; [discriminate|].
  destruct (read vertices verts); [|reflexivity].
  destruct (read vertices (verts + 1)); [|reflexivity].
  destruct (emit_vertices vertices (verts + 2) n) as [k'|] eqn:E;
    [discriminate|].
  specialize (IH _ E).
  destruct (emit_vertices_progress vertices (verts + 2) n). exact IH.
Qed.

(** The executor returns from a DrawLines command exactly when the command
    comes to its end, with the calls made on the way. *)
Lemma draw_lines_progress_spec (P : Platform) (vertices : list GLfloat)
    (verts count : Z) :
  match draw_lines P vertices verts count with
  | Some k => draw_lines_progress P vertices verts count = (k, true)
  | None => snd (draw_lines_progress P vertices verts count) = false
  end.
Proof.
  unfold draw_lines, draw_lines_progress.
  destruct (closes_loop vertices verts count) as [[|]|]; [| |reflexivity].
  - destruct (emit_vertices vertices verts (Z.to_nat (count - 1)))
      as [k|] eqn:E.
    + rewrite (emit_vertices_progress_finished _ _ _ _ E). reflexivity.
    + apply emit_vertices_progress_stopped in E.
      destruct (emit_vertices_progress vertices verts (Z.to_nat (count - 1))).
      exact E.
  - destruct (emit_vertices vertices verts (Z.to_nat count)) as [k|] eqn:E.
    + rewrite (emit_vertices_progress_finished _ _ _ _ E).
      destruct (open_endpoint P vertices (verts + 2 * count) count);
        reflexivity.
    + apply emit_vertices_progress_stopped in E.
      destruct (emit_vertices_progress vertices verts (Z.to_nat count))
        as [k fin]. cbn [snd] in E. subst fin. reflexivity.
Qed.

Lemma DrawLines_progress_spec (P : Platform) (renderer : SDL_Renderer)
    (data : GL_RenderData) (vertices : list GLfloat) (drawableh : Z)
    (d : DrawCommand) (c : StateCache) :
  match GL_RunCommandQueue_cmd P renderer data vertices drawableh
          (SDL_RENDERCMD_DRAW_LINES d) c with
  | Some (c', k) =>
      c' = fst (SetDrawState P data d SHADER_SOLID c)
      /\ DrawLines_progress P data vertices d c = (k, true)
  | None => snd (DrawLines_progress P data vertices d c) = false
  end.
Proof.
  cbn [GL_RunCommandQueue_cmd]. unfold DrawLines_progress.
  destruct (SetDrawState P data d SHADER_SOLID c) as [c1 k1]. cbn [fst].
  destruct (verts_of d) as [verts|]; [|reflexivity].
  pose proof (draw_lines_progress_spec P vertices verts
                (wrap_size_t (count d))) as H.
  destruct (draw_lines P vertices verts (wrap_size_t (count d))) as [k|].
  - rewrite H. auto.
  - destruct (draw_lines_progress P vertices verts (wrap_size_t (count d))).
    exact H.
Qed.

(** C7 (amended).  For a DrawLines command of the points [pts], run with any
    cache: when there are more than two points and the first and the last
    compare equal, the executor makes one [GL_LINE_LOOP] of all the points but
    the last.  Otherwise it makes one [GL_LINE_STRIP] of all the points and
    then opens one [GL_POINTS] block, whatever the vertex array holds after
    the points; the executor returns from the command exactly when it comes
    to the end of that block, which then holds at most two vertices, one on
    Mac OS X and Windows. *)
Theorem DrawLines_loop_or_strip (P : Platform) (renderer : SDL_Renderer)
    (data : GL_RenderData) (vertices : list GLfloat) (drawableh : Z)
    (d : DrawCommand) (c : StateCache) (verts : Z)
    (pts : list (GLfloat * GLfloat)) :
  verts_of d = Some verts ->
  wrap_size_t (count d) = Z.of_nat (length pts) ->
  read_n vertices verts (2 * length pts) = Some (flat_vertices pts) ->
  if (2 <? Z.of_nat (length pts))
     && coincide (first_vertex pts) (last_vertex pts)
  then
    GL_RunCommandQueue_cmd P renderer data vertices drawableh
      (SDL_RENDERCMD_DRAW_LINES d) c
    = Some (fst (SetDrawState P data d SHADER_SOLID c),
            snd (SetDrawState P data d SHADER_SOLID c)
            ++ [glBegin GL_LINE_LOOP]
            ++ map vertex_call (removelast pts)
            ++ [glEnd])
  else
    exists (extra : list Call) (finished : bool),
      DrawLines_progress P data vertices d c
      = (snd (SetDrawState P data d SHADER_SOLID c)
         ++ [glBegin GL_LINE_STRIP]
         ++ map vertex_call pts
         ++ [glEnd; glBegin GL_POINTS]
         ++ extra ++ (if finished then [glEnd] else []),
         finished)
      /\ GL_RunCommandQueue_cmd P renderer data vertices drawableh
           (SDL_RENDERCMD_DRAW_LINES d) c
         = (if finished
            then Some (fst (SetDrawState P data d SHADER_SOLID c),
                       fst (DrawLines_progress P data vertices d c))
            else None)
      /\ forallb is_glVertex2f extra = true
      /\ (length extra <= 2)%nat
      /\ (finished = false -> extra = [])
      /\ (finished = true -> MACOSX P || WIN32 P = true ->
          length extra = 1%nat).
Proof.
  intros Hv Hn Hq.
  cbn [GL_RunCommandQueue_cmd]. unfold DrawLines_progress.
  destruct (SetDrawState P data d SHADER_SOLID c) as [c1 k1].
  cbn [fst snd]. rewrite Hv, Hn.
  unfold draw_lines, draw_lines_progress.
  rewrite (closes_loop_queued vertices pts verts Hq).
  destruct ((2 <? Z.of_nat (length pts))
            && coincide (first_vertex pts) (last_vertex pts)) eqn:E.
  - apply andb_prop in E. destruct E as [E _].
    apply Z.ltb_lt in E.
    replace (Z.to_nat (Z.of_nat (length pts) - 1))
      with (length (removelast pts)).
    + rewrite (emit_vertices_queued vertices (removelast pts) verts
                 (queued_removelast vertices pts verts Hq)).
      reflexivity.
    + destruct pts as [|p pts]; [cbn in E; lia|].
      rewrite (removelast_firstn_len (p :: pts)), length_firstn.
      cbn [length Nat.pred]. lia.
  - rewrite Nat2Z.id.
    pose proof (emit_vertices_queued vertices pts verts Hq) as Hs.
    rewrite (emit_vertices_progress_finished _ _ _ _ Hs), Hs.
    destruct (open_endpoint P vertices (verts + 2 * Z.of_nat (length pts))
                (Z.of_nat (length pts))) as [extra|] eqn:Ee.
    + destruct (open_endpoint_vertices P vertices _ _ extra Ee)
        as (Hx1 & Hx2 & Hx3).
      exists extra, true. cbn [fst].
      split; [reflexivity|]. split; [reflexivity|].
      split; [exact Hx1|]. split; [exact Hx2|].
      split; [discriminate|]. intros _. exact Hx3.
    + exists [], false. cbn [fst app].
      split; [reflexivity|]. split; [reflexivity|].
      split; [reflexivity|]. split; [cbn; lia|].
      split; [reflexivity|discriminate].
Qed.

Lemma DrawLines_loop_or_strip_witness :
  (verts_of (mkDraw 0 4 255 0 0 255 SDL_BLENDMODE_NONE 0) = Some 0
   /\ wrap_size_t 4 = 4
   /\ read_n [f32_zero; f32_zero; f32_one; f32_zero; f32_one; f32_one;
              f32_zero; f32_zero] 0 8
      = Some (flat_vertices [(f32_zero, f32_zero); (f32_one, f32_zero);
                             (f32_one, f32_one); (f32_zero, f32_zero)])
   /\ GL_RunCommandQueue_cmd sample_platform (sample_renderer 0 false)
        (sample_renderdata false false)
        [f32_zero; f32_zero; f32_one; f32_zero; f32_one; f32_one;
         f32_zero; f32_zero] 480
        (SDL_RENDERCMD_DRAW_LINES (mkDraw 0 4 255 0 0 255 SDL_BLENDMODE_NONE 0))
        (initial_cache (sample_renderer 0 false))
      = Some (fst (SetDrawState sample_platform (sample_renderdata false false)
                     (mkDraw 0 4 255 0 0 255 SDL_BLENDMODE_NONE 0) SHADER_SOLID
                     (initial_cache (sample_renderer 0 false))),
              snd (SetDrawState sample_platform (sample_renderdata false false)
                     (mkDraw 0 4 255 0 0 255 SDL_BLENDMODE_NONE 0) SHADER_SOLID
                     (initial_cache (sample_renderer 0 false)))
              ++ [glBegin GL_LINE_LOOP;
                  glVertex2f f32_zero f32_zero; glVertex2f f32_one f32_zero;
                  glVertex2f f32_one f32_one;
                  glEnd]))
  /\ (verts_of (mkDraw 0 3 255 0 0 255 SDL_BLENDMODE_NONE 0) = Some 0
      /\ wrap_size_t 3 = 3
      /\ read_n [f32_zero; f32_zero; f32_one; f32_zero; f32_one; f32_one] 0 6
         = Some (flat_vertices [(f32_zero, f32_zero); (f32_one, f32_zero);
                                (f32_one, f32_one)])
      /\ DrawLines_progress sample_platform (sample_renderdata false false)
           [f32_zero; f32_zero; f32_one; f32_zero; f32_one; f32_one]
           (mkDraw 0 3 255 0 0 255 SDL_BLENDMODE_NONE 0)
           (initial_cache (sample_renderer 0 false))
         = (snd (SetDrawState sample_platform (sample_renderdata false false)
                   (mkDraw 0 3 255 0 0 255 SDL_BLENDMODE_NONE 0) SHADER_SOLID
                   (initial_cache (sample_renderer 0 false)))
            ++ [glBegin GL_LINE_STRIP;
                glVertex2f f32_zero f32_zero; glVertex2f f32_one f32_zero;
                glVertex2f f32_one f32_one;
                glEnd; glBegin GL_POINTS],
            false)).
Proof.
  split.
  - assert (Hv : verts_of (mkDraw 0 4 255 0 0 255 SDL_BLENDMODE_NONE 0)
                 = Some 0) by reflexivity.
    assert (Hn : wrap_size_t
                   (count (mkDraw 0 4 255 0 0 255 SDL_BLENDMODE_NONE 0))
                 = Z.of_nat (length [(f32_zero, f32_zero); (f32_one, f32_zero);
                                     (f32_one, f32_one); (f32_zero, f32_zero)]))
      by reflexivity.
    assert (Hq : read_n [f32_zero; f32_zero; f32_one; f32_zero; f32_one;
                         f32_one; f32_zero; f32_zero] 0
                   (2 * length [(f32_zero, f32_zero); (f32_one, f32_zero);
                                (f32_one, f32_one); (f32_zero, f32_zero)])
                 = Some (flat_vertices
                           [(f32_zero, f32_zero); (f32_one, f32_zero);
                            (f32_one, f32_one); (f32_zero, f32_zero)]))
      by reflexivity.
    split; [exact Hv|]. split; [reflexivity|]. split; [exact Hq|].
    exact (DrawLines_loop_or_strip sample_platform (sample_renderer 0 false)
             (sample_renderdata false false) _ 480 _
             (initial_cache (sample_renderer 0 false)) 0 _ Hv Hn Hq).
  - assert (Hv : verts_of (mkDraw 0 3 255 0 0 255 SDL_BLENDMODE_NONE 0)
                 = Some 0) by reflexivity.
    assert (Hn : wrap_size_t
                   (count (mkDraw 0 3 255 0 0 255 SDL_BLENDMODE_NONE 0))
                 = Z.of_nat (length [(f32_zero, f32_zero); (f32_one, f32_zero);
                                     (f32_one, f32_one)]))
      by reflexivity.
    assert (Hq : read_n [f32_zero; f32_zero; f32_one; f32_zero; f32_one;
                         f32_one] 0
                   (2 * length [(f32_zero, f32_zero); (f32_one, f32_zero);
                                (f32_one, f32_one)])
                 = Some (flat_vertices
                           [(f32_zero, f32_zero); (f32_one, f32_zero);
                            (f32_one, f32_one)]))
      by reflexivity.
    split; [exact Hv|]. split; [reflexivity|]. split; [exact Hq|].
    destruct (DrawLines_loop_or_strip sample_platform (sample_renderer 0 false)
                (sample_renderdata false false) _ 480 _
                (initial_cache (sample_renderer 0 false)) 0 _ Hv Hn Hq)
      as (extra & finished & Hp & Hr & _ & _ & Hstop & _).
    assert (Hf : finished = false).
    { destruct finished; [|reflexivity]. vm_compute in Hr. discriminate. }
    subst finished. rewrite (Hstop eq_refl) in Hp. exact Hp.
Defined.

(** Two points that coincide: the executor makes a line strip of both and a
    [GL_POINTS] block, not a loop of one vertex; the block holds what the
    vertex array has after the two points. *)
Lemma DrawLines_two_equal_points_counterexample :
  coincide (first_vertex [(f32_one, f32_one); (f32_one, f32_one)])
           (last_vertex [(f32_one, f32_one); (f32_one, f32_one)]) = true
  /\ read_n [f32_one; f32_one; f32_one; f32_one;
             f32_zero; f32_zero; f32_of_int 5; f32_of_int 5] 0 4
     = Some (flat_vertices [(f32_one, f32_one); (f32_one, f32_one)])
  /\ GL_RunCommandQueue_cmd sample_platform (sample_renderer 0 false)
       (sample_renderdata false false)
       [f32_one; f32_one; f32_one; f32_one;
        f32_zero; f32_zero; f32_of_int 5; f32_of_int 5] 480
       (SDL_RENDERCMD_DRAW_LINES (mkDraw 0 2 255 0 0 255 SDL_BLENDMODE_NONE 0))
       (initial_cache (sample_renderer 0 false))
     = Some (fst (SetDrawState sample_platform (sample_renderdata false false)
                    (mkDraw 0 2 255 0 0 255 SDL_BLENDMODE_NONE 0) SHADER_SOLID
                    (initial_cache (sample_renderer 0 false))),
             snd (SetDrawState sample_platform (sample_renderdata false false)
                    (mkDraw 0 2 255 0 0 255 SDL_BLENDMODE_NONE 0) SHADER_SOLID
                    (initial_cache (sample_renderer 0 false)))
             ++ [glBegin GL_LINE_STRIP;
                 glVertex2f f32_one f32_one; glVertex2f f32_one f32_one;
                 glEnd;
                 glBegin GL_POINTS;
                 glVertex2f (f32_of_int 5) (f32_of_int 5);
                 glVertex2f (f32_of_int 5) (f32_of_int 5);
                 glEnd]).
Proof.
  split; [reflexivity|]. split; [reflexivity|]. vm_compute. reflexivity.
Qed.

(** ** Viewport and clear *)

(** C5.  A SetViewport command of 320x240 in a run of a window renderer whose
    [renderer->viewport] is 640x480: the viewport is programmed for the
    rectangle of the command, flipped with the drawable height, but the
    orthographic projection takes the extents of [renderer->viewport], 640
    and 480. *)
Lemma SetViewport_projection_of_renderer_viewport :
  GL_RunCommandQueue_cmd sample_platform (sample_renderer 0 false)
    (sample_renderdata false false) [] 480
    (SDL_RENDERCMD_SETVIEWPORT (mkRect 0 0 320 240))
    (initial_cache (sample_renderer 0 false))
  = Some (set_viewport (initial_cache (sample_renderer 0 false))
                       (mkRect 0 0 320 240),
          [glMatrixMode GL_PROJECTION; glLoadIdentity;
           glViewport 0 240 320 240;
           glOrtho 0 640 480 0;
           glMatrixMode GL_MODELVIEW]).
Proof. vm_compute. reflexivity. Qed.

(** C6.  A Clear command after a SetClipRect command that has disabled
    clipping, in a run entered with [renderer->clipping_enabled] set: the
    scissor test is off before the Clear and on after it, while the cache
    still holds it as off. *)
Lemma Clear_enables_scissor_test :
  exists c1 k1 c2 k2,
    GL_RunCommandQueue_cmd sample_platform (sample_renderer 0 true)
      (sample_renderdata false false) [] 480
      (SDL_RENDERCMD_SETCLIPRECT false (mkRect 0 0 0 0))
      (initial_cache (sample_renderer 0 true)) = Some (c1, k1)
    /\ GL_RunCommandQueue_cmd sample_platform (sample_renderer 0 true)
         (sample_renderdata false false) [] 480
         (SDL_RENDERCMD_CLEAR 0 0 0 255) c1 = Some (c2, k2)
    /\ k1 = [glDisable GL_SCISSOR_TEST]
    /\ k2 = [glDisable GL_SCISSOR_TEST; glClear GL_COLOR_BUFFER_BIT;
             glEnable GL_SCISSOR_TEST]
    /\ scissor_test_after false
         (prologue (sample_renderer 0 true) (sample_renderdata false false) 480
          ++ k1) = false
    /\ scissor_test_after false
         (prologue (sample_renderer 0 true) (sample_renderdata false false) 480
          ++ k1 ++ k2) = true
    /\ cliprect_enabled c1 = false
    /\ cliprect_enabled c2 = false.
Proof.
  eexists. eexists. eexists. eexists.
  split; [vm_compute; reflexivity|].
  split; [vm_compute; reflexivity|].
  repeat split; vm_compute; reflexivity.
Qed.

(** ** Further properties of the executor and of the texture manager *)

Lemma SetDrawState_texturing_false (P : Platform) (data : GL_RenderData)
    (d : DrawCommand) (sh : GL_Shader) (c : StateCache) :
  texturing c = false ->
  texturing (fst (SetDrawState P data d sh c)) = false.
Proof.
  intros H. unfold SetDrawState.
  destruct (SetDrawState_color d (draw_color c)) as [color' k1].
  destruct (SetDrawState_blend P d (blend c)) as [blend' k2].
  destruct (SetDrawState_shader data sh (shader c)) as [shader' k3].
  unfold SetDrawState_texturing. rewrite H.
  destruct (negb (Bool.eqb (negb (draw_texture d =? 0)) false));
    [destruct (draw_texture d =? 0)|]; reflexivity.
Qed.

Lemma SetCopyState_texturing_false (P : Platform) (renderer : SDL_Renderer)
    (data : GL_RenderData) (d : DrawCommand) (c c' : StateCache)
    (k : list Call) :
  texturing c = false ->
  SetCopyState P renderer data d c = Some (c', k) ->
  texturing c' = false.
Proof.
  intros H E. unfold SetCopyState in E.
  destruct (textures renderer (draw_texture d)) as [tex|]; [|discriminate].
  destruct (driverdata tex) as [texturedata|]; [|discriminate].
  pose proof (SetDrawState_texturing_false P data d
                (SetCopyState_shader P data tex texturedata) c H) as Ht.
  destruct (SetDrawState P data d
              (SetCopyState_shader P data tex texturedata) c) as [c1 k1].
  destruct (SetCopyState_bind data d texturedata (bound_texture c1))
    as [bound' k2].
  inversion E; subst. exact Ht.
Qed.

(** The texturing flag of the cache is false when the loop is entered and no
    command sets it: [SetDrawState] stores [SDL_FALSE] in both branches.  So
    every command with a texture enables the texture target, whether or not
    the command before it had one. *)
Theorem texturing_flag_never_set (P : Platform) (renderer : SDL_Renderer)
    (data : GL_RenderData) (vertices : list GLfloat) (drawableh : Z)
    (cmd : SDL_RenderCommand) (c c' : StateCache) (k : list Call) :
  valid_textype data ->
  texturing c = false ->
  GL_RunCommandQueue_cmd P renderer data vertices drawableh cmd c
  = Some (c', k) ->
  texturing c' = false
  /\ (forall d, draw_of cmd = Some d ->
        count_calls (is_texturing_call (textype data)) k
        = if draw_texture d =? 0 then 0%nat else 1%nat).
Proof.
  intros Htt Hc H. split.
  - destruct cmd as [|rect|enabled rect|r g b a|r g b a|d|d|d|d|d];
      cbn [GL_RunCommandQueue_cmd] in H.
    + inversion H; subst; exact Hc.
    + destruct (negb (SDL_Rect_eqb rect (viewport c))); inversion H; subst;
        exact Hc.
    + destruct (enabled && negb (SDL_Rect_eqb (cliprect c) rect));
        inversion H; subst; exact Hc.
    + inversion H; subst; exact Hc.
    + destruct (negb (pack_color r g b a =? clear_color c));
        inversion H; subst; exact Hc.
    + pose proof (SetDrawState_texturing_false P data d SHADER_SOLID c Hc) as Ht.
      destruct (SetDrawState P data d SHADER_SOLID c) as [c1 k1].
      destruct (verts_of d) as [verts|]; [|discriminate].
      destruct (emit_vertices vertices verts
                  (Z.to_nat (wrap_size_t (count d)))); [|discriminate].
      inversion H; subst; exact Ht.
    + pose proof (SetDrawState_texturing_false P data d SHADER_SOLID c Hc) as Ht.
      destruct (SetDrawState P data d SHADER_SOLID c) as [c1 k1].
      destruct (verts_of d) as [verts|]; [|discriminate].
      destruct (draw_lines P vertices verts (wrap_size_t (count d)));
        [|discriminate].
      inversion H; subst; exact Ht.
    + pose proof (SetDrawState_texturing_false P data d SHADER_SOLID c Hc) as Ht.
      destruct (SetDrawState P data d SHADER_SOLID c) as [c1 k1].
      destruct (verts_of d) as [verts|]; [|discriminate].
      destruct (emit_rects vertices verts
                  (Z.to_nat (wrap_size_t (count d)))); [|discriminate].
      inversion H; subst; exact Ht.
    + destruct (verts_of d) as [verts|]; [|discriminate].
      destruct (read_n vertices verts 8)
        as [[|? [|? [|? [|? [|? [|? [|? [|? [|? ?]]]]]]]]]|]; try discriminate.
      destruct (SetCopyState P renderer data d c) as [[c1 k1]|] eqn:E;
        [|discriminate].
      inversion H; subst.
      exact (SetCopyState_texturing_false P renderer data d c c' k1 Hc E).
    + destruct (verts_of d) as [verts|]; [|discriminate].
      destruct (read_n vertices verts 11)
        as [[|? [|? [|? [|? [|? [|? [|? [|? [|? [|? [|? [|? ?]]]]]]]]]]]]|];
        try discriminate.
      destruct (SetCopyState P renderer data d c) as [[c1 k1]|] eqn:E;
        [|discriminate].
      inversion H; subst.
      exact (SetCopyState_texturing_false P renderer data d c c' k1 Hc E).
  - intros d Hd.
    destruct (GL_RunCommandQueue_cmd_elides P renderer data vertices drawableh
                cmd c c' k Htt H) as (_ & _ & _ & _ & _ & Ht & _).
    rewrite Ht, Hd, Hc. destruct (draw_texture d =? 0); reflexivity.
Qed.

Lemma texturing_flag_never_set_witness :
  exists c' k,
    GL_RunCommandQueue_cmd sample_platform
      (mkRenderer 0 0 0 0 255 (mkRect 0 0 640 480) (mkRect 0 0 0 0) false
         (640, 480)
         (fun t => if t =? 7
                   then Some (mkTexture SDL_PIXELFORMAT_ARGB8888
                                SDL_TEXTUREACCESS_STATIC 4 4 1
                                (Some (mkTextureData 1 f32_one f32_one GL_BGRA
                                         GL_UNSIGNED_INT_8_8_8_8_REV None 0
                                         (mkRect 0 0 0 0) false false 0 0
                                         None)))
                   else None))
      (sample_renderdata true false)
      [f32_zero; f32_zero; f32_one; f32_one;
       f32_zero; f32_one; f32_zero; f32_one] 480
      (SDL_RENDERCMD_COPY (mkDraw 0 1 255 255 255 255 SDL_BLENDMODE_NONE 7))
      (mkCache (mkRect 0 0 640 480) 7 SDL_BLENDMODE_NONE SHADER_RGB false
               (mkRect 0 0 0 0) 0 (pack_color 255 255 255 255) false)
    = Some (c', k)
    /\ texturing c' = false
    /\ count_calls (is_texturing_call (textype (sample_renderdata true false))) k
       = 1%nat.
Proof.
  pose (renderer :=
          mkRenderer 0 0 0 0 255 (mkRect 0 0 640 480) (mkRect 0 0 0 0) false
            (640, 480)
            (fun t => if t =? 7
                      then Some (mkTexture SDL_PIXELFORMAT_ARGB8888
                                   SDL_TEXTUREACCESS_STATIC 4 4 1
                                   (Some (mkTextureData 1 f32_one f32_one GL_BGRA
                                            GL_UNSIGNED_INT_8_8_8_8_REV None 0
                                            (mkRect 0 0 0 0) false false 0 0
                                            None)))
                      else None)).
  pose (d := mkDraw 0 1 255 255 255 255 SDL_BLENDMODE_NONE 7).
  pose (c := mkCache (mkRect 0 0 640 480) 7 SDL_BLENDMODE_NONE SHADER_RGB false
                     (mkRect 0 0 0 0) 0 (pack_color 255 255 255 255) false).
  pose (run := GL_RunCommandQueue_cmd sample_platform renderer
                 (sample_renderdata true false)
                 [f32_zero; f32_zero; f32_one; f32_one;
                  f32_zero; f32_one; f32_zero; f32_one] 480
                 (SDL_RENDERCMD_COPY d) c).
  pose (c' := match run with Some (c', _) => c' | None => c end).
  pose (k := match run with Some (_, k) => k | None => [] end).
  assert (Hrun : run = Some (c', k)) by (vm_compute; reflexivity).
  exists c', k. split; [exact Hrun|].
  destruct (texturing_flag_never_set sample_platform renderer
              (sample_renderdata true false) _ 480 (SDL_RENDERCMD_COPY d)
              c c' k (or_introl eq_refl) eq_refl Hrun) as [Ht Hk].
  split; [exact Ht|]. exact (Hk d eq_refl).
Defined.

(** [GL_DestroyTexture] returns, and an NV12 or NV21 texture keeps the
    texture object of its UV plane: only [data->texture] is deleted, the
    deletion of [data->utexture] being under [data->yuv]. *)
Theorem GL_DestroyTexture_returns (P : Platform) (tex : SDL_Texture)
    (s : GLState) :
  exists tex1 s1 k,
    GL_DestroyTexture P tex s = Some (tex1, s1)
    /\ log s1 = log s ++ k
    /\ filter is_glDeleteTextures k
       = match driverdata tex with
         | None => []
         | Some data =>
             (if negb (texture data =? 0)
              then [glDeleteTextures (texture data)] else [])
             ++ (if yuv data
                 then [glDeleteTextures (utexture data);
                       glDeleteTextures (vtexture data)]
                 else [])
         end.
Proof.
  unfold GL_DestroyTexture. unfold bind at 1.
  destruct (GL_ActivateRenderer_effect P s) as (r & s0 & k0 & -> & _ & Hl & Hf).
  destruct (driverdata tex) as [data|].
  - unfold bind, ret, call.
    destruct (negb (texture data =? 0)), (yuv data); cbn [log];
      eexists; eexists; eexists; (split; [reflexivity|]);
      rewrite Hl, <- ?app_assoc;
      (split; [reflexivity|]);
      rewrite ?filter_app, Hf; reflexivity.
  - exists tex, s0, k0. unfold ret. auto.
Qed.

(** ** Error checks and activation *)

Lemma real_errors_head (l rest : list GLenum) (e : GLenum) :
  real_errors l = e :: rest -> (e =? GL_NO_ERROR) = false /\ real_errors rest = rest.
Proof.
  intros E. split.
  - assert (Hin : In e (real_errors l)) by (rewrite E; left; auto).
    unfold real_errors in Hin. apply filter_In in Hin.
    apply Bool.negb_true_iff. tauto.
  - pose proof (real_errors_idem l) as Hi. rewrite E in Hi.
    unfold real_errors in Hi. cbn [filter] in Hi.
    destruct (negb (e =? 0)); inversion Hi.
    + unfold real_errors. now rewrite H0.
    + assert (Hl := filter_length_le (fun e0 => negb (e0 =? 0)) rest).
      rewrite H0 in Hl. cbn in Hl. lia.
Qed.

(** The [for (;;)] loop of [GL_CheckAllErrors] is left after one
    [glGetError] per pending flag and one more; it answers -1 when it has
    seen a flag and the [ret] it was entered with otherwise. *)
Lemma GL_CheckAllErrors_loop_effect (fuel : nat) :
  forall (r : Z) (s : GLState),
    (length (real_errors (gl_errors s)) < fuel)%nat ->
    GL_CheckAllErrors_loop fuel r s
    = Some (match real_errors (gl_errors s) with [] => r | _ :: _ => -1 end,
            mkState (renderdata s) (current_context s) [] (next_name s)
                    (log s ++ repeat glGetError
                                (S (length (real_errors (gl_errors s)))))).
Proof.
  induction fuel as [|fuel IH]; intros r s Hf; [lia|].
  change (GL_CheckAllErrors_loop (S fuel) r)
    with (bind get_error
            (fun e => if negb (e =? GL_NO_ERROR)
                      then GL_CheckAllErrors_loop fuel (-1)
                      else ret r)).
  unfold bind, get_error.
  destruct (real_errors (gl_errors s)) as [|e rest] eqn:E.
  - reflexivity.
  - destruct (real_errors_head _ _ _ E) as [He Hrest]. rewrite He. cbn [negb].
    rewrite IH; cbn [gl_errors renderdata current_context next_name log].
    + rewrite Hrest. rewrite <- app_assoc. cbn [length].
      destruct rest; reflexivity.
    + rewrite Hrest. cbn [length] in Hf. lia.
Qed.

Lemma GL_CheckError_effect (s : GLState) :
  exists r s',
    GL_CheckError s = Some (r, s')
    /\ next_name s' = next_name s
    /\ current_context s' = current_context s
    /\ (r = 0 \/ r = -1)
    /\ (debug_enabled (renderdata s) = false -> r = 0 /\ s' = s)
    /\ (debug_enabled (renderdata s) = true ->
        GL_ARB_debug_output_supported (renderdata s) = false ->
        (r = -1 <-> real_errors (gl_errors s) <> [])
        /\ gl_errors s' = []
        /\ renderdata s' = renderdata s
        /\ log s'
           = log s ++ repeat glGetError
                        (S (length (real_errors (gl_errors s)))))
    /\ (debug_enabled (renderdata s) = true ->
        GL_ARB_debug_output_supported (renderdata s) = true ->
        (r = -1 <-> error_messages (renderdata s) <> [])
        /\ error_messages (renderdata s') = []
        /\ gl_errors s' = gl_errors s
        /\ log s' = log s).
Proof.
  unfold GL_CheckError, bind, get_data.
  destruct (debug_enabled (renderdata s)) eqn:Ed; cbn [negb].
  - destruct (GL_ARB_debug_output_supported (renderdata s)) eqn:Ea.
    + destruct (error_messages (renderdata s)) as [|m ms] eqn:Em.
      * exists 0, s. unfold ret. split; [reflexivity|].
        split; [reflexivity|]. split; [reflexivity|]. split; [auto|].
        split; [discriminate|]. split; [discriminate|]. intros _ _.
        repeat split; auto; try discriminate. intros H; now elim H.
      * unfold GL_ClearErrors, bind, get_data. rewrite Ed, Ea, Em. cbn [negb].
        unfold set_data, ret. eexists; eexists. split; [reflexivity|].
        split; [reflexivity|]. split; [reflexivity|].
        split; [auto|]. split; [discriminate|]. split; [discriminate|].
        intros _ _. cbn. repeat split; auto. discriminate.
    + rewrite GL_CheckAllErrors_loop_effect
        by (pose proof (real_errors_length (gl_errors s)); lia).
      eexists; eexists. split; [reflexivity|].
      split; [reflexivity|]. split; [reflexivity|].
      split; [destruct (real_errors (gl_errors s)); auto|].
      split; [discriminate|]. split; [|discriminate]. intros _ _. cbn.
      repeat split; auto.
      * destruct (real_errors (gl_errors s)); [discriminate|]. discriminate.
      * destruct (real_errors (gl_errors s)); [intros H; now elim H|reflexivity].
  - exists 0, s. unfold ret. split; [reflexivity|].
    split; [reflexivity|]. split; [reflexivity|]. split; [auto|].
    split; [auto|]. split; discriminate.
Qed.

(** [GL_CheckError] (the macro over [GL_CheckAllErrors]) always returns, 0 or
    -1.  Without the debug flag it returns 0 and does nothing, whatever is
    pending.  With the flag and without debug output it returns -1 exactly
    when an error flag is pending, after one [glGetError] per flag and one
    more, and leaves no flag.  With debug output it returns -1 exactly when
    a message has been recorded, and forgets the messages without a call. *)
Theorem GL_CheckError_reports (s : GLState) :
  exists r s',
    GL_CheckError s = Some (r, s')
    /\ (r = 0 \/ r = -1)
    /\ (debug_enabled (renderdata s) = false -> r = 0 /\ s' = s)
    /\ (debug_enabled (renderdata s) = true ->
        GL_ARB_debug_output_supported (renderdata s) = false ->
        (r = -1 <-> real_errors (gl_errors s) <> [])
        /\ gl_errors s' = []
        /\ renderdata s' = renderdata s
        /\ log s'
           = log s ++ repeat glGetError
                        (S (length (real_errors (gl_errors s)))))
    /\ (debug_enabled (renderdata s) = true ->
        GL_ARB_debug_output_supported (renderdata s) = true ->
        (r = -1 <-> error_messages (renderdata s) <> [])
        /\ error_messages (renderdata s') = []
        /\ gl_errors s' = gl_errors s
        /\ log s' = log s).
Proof.
  destruct (GL_CheckError_effect s)
    as (r & s' & E & _ & _ & Hr & Hoff & Hflags & Hmsgs).
  exists r, s'. split; [exact E|]. split; [exact Hr|].
  split; [exact Hoff|]. split; [exact Hflags|exact Hmsgs].
Qed.

Lemma GL_ActivateRenderer_outcome (P : Platform) (s : GLState) :
  exists r s' k,
    GL_ActivateRenderer P s = Some (r, s')
    /\ log s' = log s ++ k
    /\ (r = -1 <->
        current_context s <> context (renderdata s)
        /\ make_current_ok P = false)
    /\ (r = -1 ->
        forget_log s' = forget_log s
        /\ k = [SDL_GL_MakeCurrent (context (renderdata s))])
    /\ (r <> -1 ->
        r = 0
        /\ current_context s' = context (renderdata s')
        /\ forget_log s' = forget_log (activated P s)
        /\ exists n,
             k = (if current_context s =? context (renderdata s) then []
                  else [SDL_GL_MakeCurrent (context (renderdata s))])
                 ++ repeat glGetError n).
Proof.
  unfold GL_ActivateRenderer, activated. unfold bind at 1. unfold get_data.
  unfold bind.
  destruct (Z.eqb_spec (current_context s) (context (renderdata s))) as [Ec|Ec];
    cbn [negb orb].
  - unfold ret at 1. cbn [Z.ltb Z.compare].
    destruct (GL_ClearErrors_effect s) as (n & s' & -> & Hf & Hl).
    exists 0, s', (repeat glGetError n). unfold ret.
    split; [reflexivity|]. split; [exact Hl|].
    split; [split; [discriminate|intros [H _]; now elim H]|].
    split; [discriminate|]. intros _. split; [reflexivity|].
    assert (Hs : forget_log s' = forget_log (errors_cleared
                   (mkState (renderdata s) (context (renderdata s))
                            (gl_errors s) (next_name s) (log s)))).
    { rewrite Hf. apply errors_cleared_forget.
      unfold forget_log. cbn. now rewrite Ec. }
    split; [|split; [exact Hs|exists n; reflexivity]].
    assert (Hc : current_context (forget_log s')
                 = context (renderdata (forget_log s'))) by
      (rewrite Hs; cbn;
       match goal with
       | |- context [errors_cleared ?t] =>
           destruct (context_errors_cleared t) as [-> ->]
       end; reflexivity).
    exact Hc.
  - unfold make_current.
    destruct (make_current_ok P); cbn [Z.ltb Z.compare Z.opp].
    + match goal with
      | |- context [GL_ClearErrors ?t] =>
          destruct (GL_ClearErrors_effect t) as (n & s' & -> & Hf & Hl);
          destruct (context_errors_cleared t) as [Hc1 Hc2]
      end.
      exists 0, s', (SDL_GL_MakeCurrent (context (renderdata s))
                     :: repeat glGetError n). unfold ret.
      split; [reflexivity|]. split.
      { rewrite Hl. cbn [log]. now rewrite <- app_assoc. }
      split; [split; [discriminate|intros [_ H]; discriminate H]|].
      split; [discriminate|]. intros _. split; [reflexivity|].
      split; [|split; [|exists n; reflexivity]].
      * assert (Hc : current_context (forget_log s')
                     = context (renderdata (forget_log s'))) by
          (rewrite Hf; cbn; rewrite Hc1, Hc2; reflexivity).
        exact Hc.
      * rewrite Hf. apply errors_cleared_forget. reflexivity.
    + eexists. eexists. exists [SDL_GL_MakeCurrent (context (renderdata s))].
      unfold ret. split; [reflexivity|]. split; [reflexivity|].
      split; [split; auto|]. split; [auto|]. intros H; now elim H.
Qed.

(** [GL_ActivateRenderer] always returns.  It returns -1 exactly when the
    renderer's context is not current and cannot be made current, and then
    it has only tried [SDL_GL_MakeCurrent]; otherwise it returns 0 with the
    context current and the errors cleared as [GL_ClearErrors] does, and it
    calls [SDL_GL_MakeCurrent] only when the context was not current. *)
Theorem GL_ActivateRenderer_result (P : Platform) (s : GLState) :
  exists r s' k,
    GL_ActivateRenderer P s = Some (r, s')
    /\ log s' = log s ++ k
    /\ (r = -1 <->
        current_context s <> context (renderdata s)
        /\ make_current_ok P = false)
    /\ (r = -1 ->
        forget_log s' = forget_log s
        /\ k = [SDL_GL_MakeCurrent (context (renderdata s))])
    /\ (r <> -1 ->
        r = 0
        /\ current_context s' = context (renderdata s')
        /\ forget_log s' = forget_log (activated P s)
        /\ exists n,
             k = (if current_context s =? context (renderdata s) then []
                  else [SDL_GL_MakeCurrent (context (renderdata s))])
                 ++ repeat glGetError n).
Proof. exact (GL_ActivateRenderer_outcome P s). Qed.

(** ** The list of framebuffer objects *)

Lemma find_FBO_some (l : list GL_FBOList) (w h : Uint32) (f : GL_FBOList) :
  find_FBO l w h = Some f -> In f l /\ fbo_w f = w /\ fbo_h f = h.
Proof.
  induction l as [|r l IH]; cbn [find_FBO]; [discriminate|].
  destruct (Z.eqb_spec (fbo_w r) w) as [Ew|Ew];
    destruct (Z.eqb_spec (fbo_h r) h) as [Eh|Eh]; cbn [negb orb];
    try (intros H; destruct (IH H) as (? & ? & ?); repeat split; auto;
         right; assumption).
  intros H; inversion H; subst. repeat split; auto. left; reflexivity.
Qed.

Lemma find_FBO_none (l : list GL_FBOList) (w h : Uint32) :
  find_FBO l w h = None <-> ~ In (w, h) (map fbo_size l).
Proof.
  induction l as [|r l IH]; cbn [find_FBO map In]; [tauto|].
  unfold fbo_size at 1.
  destruct (Z.eqb_spec (fbo_w r) w) as [Ew|Ew];
    destruct (Z.eqb_spec (fbo_h r) h) as [Eh|Eh]; cbn [negb orb].
  - subst. split; [discriminate|]. intros H. exfalso. apply H. left; reflexivity.
  - rewrite IH. split; [|tauto]. intros H [E|E]; [inversion E; tauto|tauto].
  - rewrite IH. split; [|tauto]. intros H [E|E]; [inversion E; tauto|tauto].
  - rewrite IH. split; [|tauto]. intros H [E|E]; [inversion E; tauto|tauto].
Qed.

Lemma GL_GetFBO_effect (P : Platform) (w h : Uint32) (s : GLState) :
  exists r s' k,
    GL_GetFBO P w h s = Some (r, s')
    /\ log s' = log s ++ k
    /\ (forall f, find_FBO (framebuffers (renderdata s)) w h = Some f ->
          r = Some f /\ s' = s /\ k = [])
    /\ (find_FBO (framebuffers (renderdata s)) w h = None ->
        if alloc_ok P Alloc_FBOList
        then r = Some (mkFBO w h (next_name s))
             /\ k = [glGenFramebuffersEXT (next_name s)]
             /\ framebuffers (renderdata s')
                = mkFBO w h (next_name s) :: framebuffers (renderdata s)
             /\ next_name s' = next_name s + 1
        else r = None /\ s' = s /\ k = []).
Proof.
  unfold GL_GetFBO. unfold bind at 1. unfold get_data.
  destruct (find_FBO (framebuffers (renderdata s)) w h) as [f0|] eqn:Ef.
  - exists (Some f0), s, []. unfold ret.
    split; [reflexivity|]. split; [now rewrite app_nil_r|].
    split; [intros f H; inversion H; auto|discriminate].
  - destruct (alloc_ok P Alloc_FBOList) eqn:Ea.
    + unfold bind, fresh_name, call, get_data, set_data, ret.
      cbn [renderdata current_context gl_errors next_name log].
      eexists; eexists; exists [glGenFramebuffersEXT (next_name s)].
      split; [reflexivity|]. cbn [log renderdata next_name].
      split; [reflexivity|]. split; [discriminate|].
      intros _. repeat split.
      destruct (debug_enabled (renderdata s)
                && GL_ARB_debug_output_supported (renderdata s)); reflexivity.
    + exists None, s, []. unfold ret.
      split; [reflexivity|]. split; [now rewrite app_nil_r|].
      split; [discriminate|auto].
Qed.

Lemma find_FBO_head (w h : Uint32) (n : GLuint) (l : list GL_FBOList) :
  find_FBO (mkFBO w h n :: l) w h = Some (mkFBO w h n).
Proof. cbn [find_FBO fbo_w fbo_h]. now rewrite !Z.eqb_refl. Qed.

(** [GL_GetFBO] keeps one framebuffer object per size.  A size that is in the
    list is answered with its node, without a call and without a change; a
    new size gets a node with a fresh framebuffer object, put at the head of
    the list, or the null pointer when the node cannot be allocated.  A node
    that was returned is what the next request for the same size returns,
    and the sizes in the list stay distinct. *)
Theorem GL_GetFBO_one_per_size (P : Platform) (w h : Uint32) (s : GLState) :
  exists r s' k,
    GL_GetFBO P w h s = Some (r, s')
    /\ log s' = log s ++ k
    /\ (forall f, find_FBO (framebuffers (renderdata s)) w h = Some f ->
          r = Some f /\ s' = s /\ k = [])
    /\ (find_FBO (framebuffers (renderdata s)) w h = None ->
        if alloc_ok P Alloc_FBOList
        then r = Some (mkFBO w h (next_name s))
             /\ k = [glGenFramebuffersEXT (next_name s)]
             /\ framebuffers (renderdata s')
                = mkFBO w h (next_name s) :: framebuffers (renderdata s)
             /\ next_name s' = next_name s + 1
        else r = None /\ s' = s /\ k = [])
    /\ (forall f, r = Some f ->
          fbo_w f = w /\ fbo_h f = h
          /\ In f (framebuffers (renderdata s'))
          /\ GL_GetFBO P w h s' = Some (Some f, s'))
    /\ (NoDup (map fbo_size (framebuffers (renderdata s))) ->
        NoDup (map fbo_size (framebuffers (renderdata s')))).
Proof.
  destruct (GL_GetFBO_effect P w h s) as (r & s' & k & E & L & Hold & Hnew).
  exists r, s', k. split; [exact E|]. split; [exact L|].
  split; [exact Hold|]. split; [exact Hnew|].
  destruct (find_FBO (framebuffers (renderdata s)) w h) as [f0|] eqn:Ef.
  - destruct (Hold f0 eq_refl) as (-> & -> & _).
    destruct (find_FBO_some _ _ _ _ Ef) as (Hin & Hw & Hh).
    split; [|auto].
    intros f H; inversion H; subst f0. repeat split; auto.
  - specialize (Hnew eq_refl). destruct (alloc_ok P Alloc_FBOList).
    + destruct Hnew as (-> & _ & Hfb & _). split.
      * intros f H; inversion H; subst f. cbn [fbo_w fbo_h].
        split; [reflexivity|]. split; [reflexivity|].
        split; [rewrite Hfb; left; reflexivity|].
        unfold GL_GetFBO. unfold bind at 1. unfold get_data.
        rewrite Hfb, find_FBO_head. reflexivity.
      * intros Hnd. rewrite Hfb. cbn [map]. constructor; [|exact Hnd].
        apply find_FBO_none. exact Ef.
    + destruct Hnew as (-> & -> & _). split; [discriminate|auto].
Qed.

(** ** Failure and success of texture creation *)

Lemma caps_flags (d d' : GL_RenderData) :
  caps d = caps d' ->
  debug_enabled d = debug_enabled d'
  /\ GL_EXT_framebuffer_object_supported d
     = GL_EXT_framebuffer_object_supported d'
  /\ textype d = textype d'.
Proof. unfold caps. intros H. inversion H. auto. Qed.

Lemma creation_refused_caps (P : Platform) (d d' : GL_RenderData)
    (tex : SDL_Texture) :
  caps d = caps d' -> creation_refused P d tex = creation_refused P d' tex.
Proof.
  intros H. apply caps_flags in H. destruct H as (_ & H & _).
  unfold creation_refused. now rewrite H.
Qed.

Ltac gl_run E := unfold bind at 1; rewrite E; cbv beta iota.

(** A request that [GL_CreateTexture] turns down costs nothing: the function
    returns -1 in the state [GL_ActivateRenderer] has left, with no OpenGL
    call, no framebuffer object and no object name used, and the texture as
    it was. *)
Theorem GL_CreateTexture_refused (P : Platform) (fuel : nat)
    (tex : SDL_Texture) (s : GLState) :
  creation_refused P (renderdata s) tex = true ->
  exists r0 s0,
    GL_ActivateRenderer P s = Some (r0, s0)
    /\ GL_CreateTexture P fuel tex s = Some ((-1, tex), s0).
Proof.
  intros Href.
  destruct (GL_ActivateRenderer_effect P s) as (r0 & s0 & k0 & E0 & _).
  exists r0, s0. split; [exact E0|].
  destruct (GL_ActivateRenderer_step _ _ _ _ E0) as (k & [_ Hc] & _).
  rewrite (creation_refused_caps P _ _ tex (eq_sym Hc)) in Href.
  unfold GL_CreateTexture. gl_run E0.
  unfold bind at 1. unfold get_data at 1. cbv beta iota zeta.
  unfold creation_refused in Href.
  destruct ((tex_access tex =? 2)
            && negb (GL_EXT_framebuffer_object_supported (renderdata s0)));
    [reflexivity|].
  destruct (convert_format (MACOSX P) (tex_format tex))
    as [[[internalFormat fmt] type]|]; [|reflexivity].
  destruct (negb (alloc_ok P Alloc_TextureData)); [reflexivity|].
  cbn [orb] in Href. rewrite Href. reflexivity.
Qed.

Lemma GL_CreateTexture_refused_witness :
  creation_refused sample_platform (renderdata (sample_state false false))
    (sample_texture SDL_PIXELFORMAT_UYVY SDL_TEXTUREACCESS_STATIC 4 4) = true
  /\ exists r0 s0,
       GL_ActivateRenderer sample_platform (sample_state false false)
       = Some (r0, s0)
       /\ GL_CreateTexture sample_platform 32
            (sample_texture SDL_PIXELFORMAT_UYVY SDL_TEXTUREACCESS_STATIC 4 4)
            (sample_state false false)
          = Some ((-1, sample_texture SDL_PIXELFORMAT_UYVY
                         SDL_TEXTUREACCESS_STATIC 4 4), s0).
Proof.
  split; [reflexivity|].
  exact (GL_CreateTexture_refused sample_platform 32
           (sample_texture SDL_PIXELFORMAT_UYVY SDL_TEXTUREACCESS_STATIC 4 4)
           (sample_state false false) eq_refl).
Defined.

(** *** Runs without the debug flag *)

Lemma call_nodebug (P : Platform) (c : Call) (s : GLState) :
  debug_enabled (renderdata s) = false ->
  exists s', call P c s = Some (tt, s')
             /\ renderdata s' = renderdata s
             /\ next_name s' = next_name s
             /\ log s' = log s ++ [c].
Proof.
  intros Hd. unfold call. rewrite Hd. cbn [andb]. eexists.
  split; [reflexivity|]. auto.
Qed.

Lemma calls_nodebug (P : Platform) (l : list Call) :
  forall s : GLState,
    debug_enabled (renderdata s) = false ->
    exists s', calls P l s = Some (tt, s')
               /\ renderdata s' = renderdata s
               /\ next_name s' = next_name s
               /\ log s' = log s ++ l.
Proof.
  induction l as [|c l IH]; intros s Hd.
  - exists s. unfold calls, ret. rewrite app_nil_r. auto.
  - change (calls P (c :: l)) with (bind (call P c) (fun _ => calls P l)).
    destruct (call_nodebug P c s Hd) as (s1 & E1 & R1 & N1 & L1).
    gl_run E1.
    destruct (IH s1) as (s2 & E2 & R2 & N2 & L2); [now rewrite R1|].
    exists s2. split; [exact E2|]. rewrite R2, N2, L2, R1, N1, L1.
    rewrite <- app_assoc. auto.
Qed.

Lemma gen_texture_nodebug (P : Platform) (s : GLState) :
  debug_enabled (renderdata s) = false ->
  exists s', gen_texture P s = Some (next_name s, s')
             /\ renderdata s' = renderdata s
             /\ next_name s' = next_name s + 1
             /\ log s' = log s ++ [glGenTextures (next_name s)].
Proof.
  intros Hd. unfold gen_texture, bind, fresh_name, call, ret.
  cbn [renderdata current_context gl_errors next_name log]. rewrite Hd.
  cbn [andb]. eexists. split; [reflexivity|]. auto.
Qed.

Lemma GL_CheckError_nodebug (s : GLState) :
  debug_enabled (renderdata s) = false -> GL_CheckError s = Some (0, s).
Proof.
  intros Hd. unfold GL_CheckError, bind, get_data. rewrite Hd. reflexivity.
Qed.

Lemma GL_ActivateRenderer_nodebug (P : Platform) (s : GLState) :
  debug_enabled (renderdata s) = false ->
  exists r0 s0,
    GL_ActivateRenderer P s = Some (r0, s0)
    /\ renderdata s0 = renderdata s /\ next_name s0 = next_name s.
Proof.
  intros Hd. unfold GL_ActivateRenderer. unfold bind at 1. unfold get_data.
  unfold bind, make_current, GL_ClearErrors, bind, get_data, ret.
  destruct (negb (current_context s =? context (renderdata s)));
    [destruct (make_current_ok P)|];
    cbn [Z.ltb Z.compare Z.opp renderdata]; rewrite ?Hd; cbn [negb];
    eexists; eexists; (split; [reflexivity|]); auto.
Qed.

Lemma create_yuv_planes_nodebug (P : Platform) (textype scaleMode : GLenum)
    (internalFormat half_w half_h : Z) (fmt type : GLenum) (s : GLState) :
  debug_enabled (renderdata s) = false ->
  exists s',
    create_yuv_planes P textype scaleMode internalFormat half_w half_h fmt type s
    = Some ((next_name s, next_name s + 1), s')
    /\ renderdata s' = renderdata s
    /\ next_name s' = next_name s + 2.
Proof.
  intros Hd. unfold create_yuv_planes.
  destruct (gen_texture_nodebug P s Hd) as (s1 & E1 & R1 & N1 & _).
  gl_run E1.
  destruct (gen_texture_nodebug P s1) as (s2 & E2 & R2 & N2 & _);
    [now rewrite R1|].
  gl_run E2.
  unfold plane_parameters.
  change (calls P ?l) with (calls P l).
  repeat match goal with
  | |- context [bind (call P ?c) _ ?t] =>
      let s' := fresh "s" in
      let E := fresh "E" in
      let R := fresh "R" in
      let N := fresh "N" in
      destruct (call_nodebug P c t) as (s' & E & R & N & _);
      [congruence|]; unfold bind at 1; rewrite E; cbv beta iota
  | |- context [bind (calls P ?l) _ ?t] =>
      let s' := fresh "s" in
      let E := fresh "E" in
      let R := fresh "R" in
      let N := fresh "N" in
      destruct (calls_nodebug P l t) as (s' & E & R & N & _);
      [congruence|]; unfold bind at 1; rewrite E; cbv beta iota
  end.
  eexists. unfold ret. rewrite N1. split; [reflexivity|].
  split; [congruence|lia].
Qed.

Lemma create_nv12_plane_nodebug (P : Platform) (textype scaleMode : GLenum)
    (half_w half_h : Z) (s : GLState) :
  debug_enabled (renderdata s) = false ->
  exists s',
    create_nv12_plane P textype scaleMode half_w half_h s
    = Some (next_name s, s')
    /\ renderdata s' = renderdata s
    /\ next_name s' = next_name s + 1.
Proof.
  intros Hd. unfold create_nv12_plane.
  destruct (gen_texture_nodebug P s Hd) as (s1 & E1 & R1 & N1 & _).
  gl_run E1.
  repeat match goal with
  | |- context [bind (call P ?c) _ ?t] =>
      let s' := fresh "s" in
      let E := fresh "E" in
      let R := fresh "R" in
      let N := fresh "N" in
      destruct (call_nodebug P c t) as (s' & E & R & N & _);
      [congruence|]; unfold bind at 1; rewrite E; cbv beta iota
  | |- context [bind (calls P ?l) _ ?t] =>
      let s' := fresh "s" in
      let E := fresh "E" in
      let R := fresh "R" in
      let N := fresh "N" in
      destruct (calls_nodebug P l t) as (s' & E & R & N & _);
      [congruence|]; unfold bind at 1; rewrite E; cbv beta iota
  end.
  eexists. unfold ret. split; [reflexivity|]. split; [congruence|lia].
Qed.

Lemma GL_CreateTexture_nodebug (P : Platform) (fuel : nat)
    (tex : SDL_Texture) (s : GLState) :
  debug_enabled (renderdata s) = false ->
  creation_refused P (renderdata s) tex = false ->
  (32 <= fuel)%nat -> tex_w tex <= 2 ^ 30 -> tex_h tex <= 2 ^ 30 ->
  exists tex' s' data,
    GL_CreateTexture P fuel tex s = Some ((0, tex'), s')
    /\ tex' = with_driverdata tex (Some data)
    /\ caps (renderdata s') = caps (renderdata s)
    /\ next_name s <= texture data < next_name s'
    /\ fbo data
       = (if tex_access tex =? SDL_TEXTUREACCESS_TARGET
          then find_FBO (framebuffers (renderdata s'))
                        (wrap_Uint32 (tex_w tex)) (wrap_Uint32 (tex_h tex))
          else None)
    /\ (tex_access tex = SDL_TEXTUREACCESS_TARGET ->
        alloc_ok P Alloc_FBOList = true -> fbo data <> None)
    /\ (forall f,
          find_FBO (framebuffers (renderdata s))
                   (wrap_Uint32 (tex_w tex)) (wrap_Uint32 (tex_h tex)) = Some f ->
          framebuffers (renderdata s') = framebuffers (renderdata s))
    /\ (alloc_ok P Alloc_FBOList = false ->
        framebuffers (renderdata s') = framebuffers (renderdata s)).
Proof.
  intros Hd Href Hf Hw Hh.
  destruct (GL_ActivateRenderer_nodebug P s Hd) as (r0 & s0 & E0 & R0 & N0).
  unfold GL_CreateTexture. gl_run E0.
  unfold bind at 1. unfold get_data at 1. cbv beta iota zeta.
  rewrite R0. unfold creation_refused in Href.
  destruct ((tex_access tex =? 2)
            && negb (GL_EXT_framebuffer_object_supported (renderdata s)));
    [discriminate Href|].
  destruct (convert_format (MACOSX P) (tex_format tex))
    as [[[internalFormat fmt] type]|]; [|discriminate Href].
  destruct (negb (alloc_ok P Alloc_TextureData)); [discriminate Href|].
  cbn [orb] in Href. rewrite Href.
  (* the framebuffer object *)
  set (w := wrap_Uint32 (tex_w tex)). set (h := wrap_Uint32 (tex_h tex)).
  assert (Hfbo : exists r1 s1,
             (if tex_access tex =? 2 then GL_GetFBO P w h else ret None) s0
             = Some (r1, s1)
             /\ caps (renderdata s1) = caps (renderdata s)
             /\ next_name s <= next_name s1
             /\ r1 = (if tex_access tex =? 2
                      then find_FBO (framebuffers (renderdata s1)) w h
                      else None)
             /\ (tex_access tex = 2 -> alloc_ok P Alloc_FBOList = true ->
                 r1 <> None)
             /\ (forall f, find_FBO (framebuffers (renderdata s)) w h = Some f ->
                   framebuffers (renderdata s1) = framebuffers (renderdata s))
             /\ (alloc_ok P Alloc_FBOList = false ->
                 framebuffers (renderdata s1) = framebuffers (renderdata s))).
  { destruct (Z.eqb_spec (tex_access tex) 2) as [Et|Et].
    - destruct (GL_GetFBO_effect P w h s0)
        as (r1 & s1 & k1 & E1 & L1 & Hold & Hnew).
      exists r1, s1. split; [exact E1|].
      destruct (GL_GetFBO_step _ _ _ _ _ _ E1) as (k & [_ Hc] & _).
      rewrite R0 in Hc, Hold, Hnew.
      split; [exact Hc|].
      destruct (find_FBO (framebuffers (renderdata s)) w h) as [f0|] eqn:Ef.
      + destruct (Hold f0 eq_refl) as (-> & -> & _).
        rewrite R0, Ef. rewrite N0.
        split; [lia|]. split; [reflexivity|].
        split; [discriminate|]. split; reflexivity.
      + specialize (Hnew eq_refl).
        destruct (alloc_ok P Alloc_FBOList).
        * destruct Hnew as (-> & _ & Hfb & Hn). rewrite Hfb, find_FBO_head.
          rewrite Hn, N0. split; [lia|]. split; [reflexivity|].
          split; [discriminate|]. split; discriminate.
        * destruct Hnew as (-> & -> & _). rewrite R0, Ef, N0.
          split; [lia|]. split; [reflexivity|].
          split; [intros _ E; discriminate E|]. split; [discriminate|].
          reflexivity.
    - exists None, s0. unfold ret. rewrite R0, N0.
      split; [reflexivity|]. split; [reflexivity|]. split; [lia|].
      split; [reflexivity|]. split; [intros E; now elim Et|].
      split; reflexivity. }
  destruct Hfbo as (r1 & s1 & E1 & C1 & N1 & Hr1 & Hsome & Hkeep & Hlist).
  gl_run E1.
  assert (D1 : debug_enabled (renderdata s1) = false)
    by (apply caps_flags in C1; destruct C1 as (-> & _); exact Hd).
  gl_run (GL_CheckError_nodebug s1 D1).
  destruct (gen_texture_nodebug P s1 D1) as (s2 & E2 & R2 & N2 & _).
  gl_run E2.
  assert (D2 : debug_enabled (renderdata s2) = false) by now rewrite R2.
  gl_run (GL_CheckError_nodebug s2 D2).
  cbn [Z.ltb Z.compare].
  destruct (texture_dimensions_returns fuel (renderdata s) tex Hf Hw Hh)
    as [[[[tw th] sw] sh] Hdim].
  rewrite Hdim. cbv beta iota zeta.
  match goal with
  | |- context [bind (calls P ?l) _ s2] =>
      destruct (calls_nodebug P l s2 D2) as (s3 & E3 & R3 & N3 & _)
  end.
  gl_run E3.
  assert (D3 : debug_enabled (renderdata s3) = false) by now rewrite R3, R2.
  gl_run (GL_CheckError_nodebug s3 D3).
  cbn [Z.ltb Z.compare]. cbv beta iota zeta.
  match goal with
  | |- context [bind ?m _ s3] =>
      assert (Hyuv : exists uv s4,
                 m s3 = Some (uv, s4)
                 /\ renderdata s4 = renderdata s3
                 /\ next_name s3 <= next_name s4)
  end.
  { destruct (is_YV12_or_IYUV (tex_format tex)).
    - match goal with
      | |- context [create_yuv_planes P ?a ?b ?c ?d ?e ?f ?g s3] =>
          destruct (create_yuv_planes_nodebug P a b c d e f g s3 D3)
            as (s4 & E4 & R4 & N4)
      end.
      eexists; exists s4. split; [exact E4|]. split; [exact R4|lia].
    - exists (0, 0), s3. split; [reflexivity|]. split; [reflexivity|lia]. }
  destruct Hyuv as (uv & s4 & E4 & R4 & N4).
  gl_run E4.
  assert (D4 : debug_enabled (renderdata s4) = false) by now rewrite R4.
  match goal with
  | |- context [bind ?m _ s4] =>
      assert (Hnv : exists u s5,
                 m s4 = Some (u, s5)
                 /\ renderdata s5 = renderdata s4
                 /\ next_name s4 <= next_name s5)
  end.
  { destruct (is_NV12_or_NV21 (tex_format tex)).
    - match goal with
      | |- context [create_nv12_plane P ?a ?b ?c ?d s4] =>
          destruct (create_nv12_plane_nodebug P a b c d s4 D4)
            as (s5 & E5 & R5 & N5)
      end.
      eexists; exists s5. split; [exact E5|]. split; [exact R5|lia].
    - exists (fst uv), s4. split; [reflexivity|]. split; [reflexivity|lia]. }
  destruct Hnv as (u & s5 & E5 & R5 & N5).
  gl_run E5.
  assert (D5 : debug_enabled (renderdata s5) = false) by now rewrite R5.
  gl_run (GL_CheckError_nodebug s5 D5).
  unfold ret.
  eexists; exists s5; eexists. split; [reflexivity|].
  split; [reflexivity|]. cbn [texture fbo].
  assert (R51 : renderdata s5 = renderdata s1) by congruence.
  rewrite R51.
  split; [exact C1|].
  split; [lia|].
  split; [exact Hr1|]. split; [exact Hsome|]. split; [exact Hkeep|exact Hlist].
Qed.


(** Without the debug flag no OpenGL error makes [GL_CreateTexture] fail: a
    request that is not turned down returns 0 with the driver data in place,
    whatever the driver reports (given a size for which [power_of_2]
    returns).  The [fbo] of the texture is the node of the framebuffer list
    for its size when the texture is a render target, and null otherwise;
    the node of a size that was in the list stays the node of that size. *)
Theorem GL_CreateTexture_without_debug (P : Platform) (fuel : nat)
    (tex : SDL_Texture) (s : GLState) :
  debug_enabled (renderdata s) = false ->
  creation_refused P (renderdata s) tex = false ->
  (32 <= fuel)%nat -> tex_w tex <= 2 ^ 30 -> tex_h tex <= 2 ^ 30 ->
  exists tex' s' data,
    GL_CreateTexture P fuel tex s = Some ((0, tex'), s')
    /\ driverdata tex' = Some data
    /\ fbo data
       = (if tex_access tex =? SDL_TEXTUREACCESS_TARGET
          then find_FBO (framebuffers (renderdata s'))
                        (wrap_Uint32 (tex_w tex)) (wrap_Uint32 (tex_h tex))
          else None)
    /\ (forall f,
          find_FBO (framebuffers (renderdata s))
                   (wrap_Uint32 (tex_w tex)) (wrap_Uint32 (tex_h tex)) = Some f ->
          find_FBO (framebuffers (renderdata s'))
                   (wrap_Uint32 (tex_w tex)) (wrap_Uint32 (tex_h tex)) = Some f).
Proof.
  intros Hd Href Hf Hw Hh.
  destruct (GL_CreateTexture_nodebug P fuel tex s Hd Href Hf Hw Hh)
    as (tex' & s' & data & E & -> & _ & _ & Hfbo & _ & Hkeep & _).
  exists (with_driverdata tex (Some data)), s', data.
  split; [exact E|]. split; [reflexivity|]. split; [exact Hfbo|].
  intros f Hfind. rewrite (Hkeep f Hfind). exact Hfind.
Qed.

Lemma GL_CreateTexture_without_debug_witness :
  debug_enabled (renderdata (sample_state false false)) = false
  /\ creation_refused sample_platform (renderdata (sample_state false false))
       (sample_texture SDL_PIXELFORMAT_ARGB8888 SDL_TEXTUREACCESS_TARGET 100 60)
     = false
  /\ (32 <= 32)%nat /\ 100 <= 2 ^ 30 /\ 60 <= 2 ^ 30
  /\ exists tex' s' data,
       GL_CreateTexture sample_platform 32
         (sample_texture SDL_PIXELFORMAT_ARGB8888 SDL_TEXTUREACCESS_TARGET 100 60)
         (sample_state false false)
       = Some ((0, tex'), s')
       /\ driverdata tex' = Some data
       /\ fbo data
          = find_FBO (framebuffers (renderdata s')) (wrap_Uint32 100)
                     (wrap_Uint32 60).
Proof.
  assert (Hd : debug_enabled (renderdata (sample_state false false)) = false)
    by reflexivity.
  assert (Href : creation_refused sample_platform
                   (renderdata (sample_state false false))
                   (sample_texture SDL_PIXELFORMAT_ARGB8888
                      SDL_TEXTUREACCESS_TARGET 100 60) = false)
    by reflexivity.
  assert (Hf : (32 <= 32)%nat) by lia.
  assert (Hw : 100 <= 2 ^ 30) by lia.
  assert (Hh : 60 <= 2 ^ 30) by lia.
  split; [exact Hd|]. split; [exact Href|]. split; [exact Hf|].
  split; [exact Hw|]. split; [exact Hh|].
  destruct (GL_CreateTexture_without_debug sample_platform 32
              (sample_texture SDL_PIXELFORMAT_ARGB8888
                 SDL_TEXTUREACCESS_TARGET 100 60)
              (sample_state false false) Hd Href Hf Hw Hh)
    as (tex' & s' & data & E & Hdd & Hfbo & _).
  exists tex', s', data. split; [exact E|]. split; [exact Hdd|exact Hfbo].
Defined.

(** Two render-target textures of the same size, created one after the
    other, get the same framebuffer object and different texture objects
    (without the debug flag, when the list node can be allocated). *)
Theorem target_textures_share_framebuffer (P : Platform) (fuel : nat)
    (tex1 tex2 : SDL_Texture) (s : GLState) :
  debug_enabled (renderdata s) = false ->
  tex_access tex1 = SDL_TEXTUREACCESS_TARGET ->
  tex_access tex2 = SDL_TEXTUREACCESS_TARGET ->
  tex_w tex2 = tex_w tex1 -> tex_h tex2 = tex_h tex1 ->
  creation_refused P (renderdata s) tex1 = false ->
  creation_refused P (renderdata s) tex2 = false ->
  alloc_ok P Alloc_FBOList = true ->
  (32 <= fuel)%nat -> tex_w tex1 <= 2 ^ 30 -> tex_h tex1 <= 2 ^ 30 ->
  exists tex1' s1 tex2' s2 data1 data2 f,
    GL_CreateTexture P fuel tex1 s = Some ((0, tex1'), s1)
    /\ GL_CreateTexture P fuel tex2 s1 = Some ((0, tex2'), s2)
    /\ driverdata tex1' = Some data1
    /\ driverdata tex2' = Some data2
    /\ fbo data1 = Some f
    /\ fbo data2 = Some f
    /\ fbo_size f = (wrap_Uint32 (tex_w tex1), wrap_Uint32 (tex_h tex1))
    /\ texture data1 <> texture data2.
Proof.
  intros Hd Ht1 Ht2 Ew Eh Hr1 Hr2 Ha Hf Hw Hh.
  destruct (GL_CreateTexture_nodebug P fuel tex1 s Hd Hr1 Hf Hw Hh)
    as (tex1' & s1 & data1 & E1 & -> & C1 & N1 & Hfbo1 & Hsome1 & _).
  assert (Hd1 : debug_enabled (renderdata s1) = false).
  { destruct (caps_flags _ _ C1) as (-> & _). exact Hd. }
  rewrite <- (creation_refused_caps P _ _ tex2 C1) in Hr2.
  destruct (GL_CreateTexture_nodebug P fuel tex2 s1 Hd1 Hr2 Hf
              ltac:(rewrite Ew; exact Hw) ltac:(rewrite Eh; exact Hh))
    as (tex2' & s2 & data2 & E2 & -> & C2 & N2 & Hfbo2 & _ & Hkeep2 & _).
  rewrite Ht1 in Hfbo1. rewrite Ht2, Ew, Eh in Hfbo2. rewrite Ew, Eh in Hkeep2.
  cbn [Z.eqb Pos.eqb] in Hfbo1, Hfbo2.
  destruct (fbo data1) as [f|] eqn:Ef; [|now elim (Hsome1 Ht1 Ha)].
  exists (with_driverdata tex1 (Some data1)), s1,
         (with_driverdata tex2 (Some data2)), s2, data1, data2, f.
  split; [exact E1|]. split; [exact E2|].
  split; [reflexivity|]. split; [reflexivity|]. split; [exact Ef|].
  symmetry in Hfbo1.
  split; [rewrite Hfbo2, (Hkeep2 f Hfbo1); exact Hfbo1|].
  split; [|lia].
  destruct (find_FBO_some _ _ _ _ Hfbo1) as (_ & Hfw & Hfh).
  unfold fbo_size. now rewrite Hfw, Hfh.
Qed.

Lemma target_textures_share_framebuffer_witness :
  exists tex1' s1 tex2' s2 data1 data2 f,
    GL_CreateTexture sample_platform 32
      (sample_texture SDL_PIXELFORMAT_ARGB8888 SDL_TEXTUREACCESS_TARGET 100 60)
      (sample_state false false) = Some ((0, tex1'), s1)
    /\ GL_CreateTexture sample_platform 32
         (sample_texture SDL_PIXELFORMAT_ARGB8888 SDL_TEXTUREACCESS_TARGET
            100 60) s1
       = Some ((0, tex2'), s2)
    /\ driverdata tex1' = Some data1
    /\ driverdata tex2' = Some data2
    /\ fbo data1 = Some f
    /\ fbo data2 = Some f
    /\ fbo_size f = (wrap_Uint32 100, wrap_Uint32 60)
    /\ texture data1 <> texture data2.
Proof.
  exact (target_textures_share_framebuffer sample_platform 32
           (sample_texture SDL_PIXELFORMAT_ARGB8888 SDL_TEXTUREACCESS_TARGET
              100 60)
           (sample_texture SDL_PIXELFORMAT_ARGB8888 SDL_TEXTUREACCESS_TARGET
              100 60)
           (sample_state false false)
           eq_refl eq_refl eq_refl eq_refl eq_refl eq_refl eq_refl eq_refl
           (le_n 32) ltac:(cbv; discriminate) ltac:(cbv; discriminate)).
Defined.

(** ** Texture objects from creation to destruction *)

Lemma next_name_activated (P : Platform) (s : GLState) :
  next_name (activated P s) = next_name s.
Proof.
  unfold activated, errors_cleared.
  destruct ((current_context s =? context (renderdata s)) || make_current_ok P);
    [|reflexivity].
  cbn [renderdata].
  destruct (debug_enabled (renderdata s));
    [destruct (GL_ARB_debug_output_supported (renderdata s))|]; reflexivity.
Qed.

Lemma GL_ActivateRenderer_next_name (P : Platform) (s s' : GLState) (r : Z) :
  GL_ActivateRenderer P s = Some (r, s') -> next_name s' = next_name s.
Proof.
  intros H.
  destruct (GL_ActivateRenderer_effect P s) as (r0 & s0 & k & E & Hf & _).
  rewrite H in E. inversion E; subst r0 s0.
  change (next_name (forget_log s') = next_name s).
  rewrite Hf. cbn [forget_log next_name]. apply next_name_activated.
Qed.

Lemma GL_CheckError_next_name (s s' : GLState) (r : Z) :
  GL_CheckError s = Some (r, s') -> next_name s' = next_name s.
Proof.
  intros H. destruct (GL_CheckError_effect s) as (r0 & s0 & E & Hn & _).
  rewrite H in E. inversion E; subst. exact Hn.
Qed.

Lemma GL_GetFBO_next_name (P : Platform) (w h : Uint32) (s s' : GLState)
    (r : option GL_FBOList) :
  GL_GetFBO P w h s = Some (r, s') -> next_name s <= next_name s'.
Proof.
  intros H.
  destruct (GL_GetFBO_effect P w h s) as (r0 & s0 & k & E & _ & Hold & Hnew).
  rewrite H in E. inversion E; subst r0 s0.
  destruct (find_FBO (framebuffers (renderdata s)) w h) as [f|].
  - destruct (Hold f eq_refl) as (_ & -> & _). lia.
  - specialize (Hnew eq_refl). destruct (alloc_ok P Alloc_FBOList).
    + destruct Hnew as (_ & _ & _ & ->). lia.
    + destruct Hnew as (_ & -> & _). lia.
Qed.

(** The name of the texture object of a created texture is one the driver
    handed out during the call. *)
Lemma GL_CreateTexture_name (P : Platform) (fuel : nat)
    (tex tex' : SDL_Texture) (s s' : GLState) :
  GL_CreateTexture P fuel tex s = Some ((0, tex'), s') ->
  exists data, driverdata tex' = Some data /\ next_name s <= texture data.
Proof.
  unfold GL_CreateTexture. intros H.
  gl_bind H. apply GL_ActivateRenderer_next_name in Hm.
  gl_bind H. inversion Hm0; subst a0 s1; clear Hm0.
  destruct ((tex_access tex =? 2)
            && negb (GL_EXT_framebuffer_object_supported (renderdata s0)));
    [gl_fail H|].
  destruct (convert_format (MACOSX P) (tex_format tex))
    as [[[internalFormat fmt] type]|]; [|gl_fail H].
  destruct (negb (alloc_ok P Alloc_TextureData)); [gl_fail H|].
  cbv zeta in H.
  destruct ((tex_access tex =? 1)
            && negb (alloc_ok P (Alloc_pixels (streaming_size P tex))));
    [gl_fail H|].
  gl_bind H.
  assert (Hfbo : next_name s0 <= next_name s1).
  { destruct (tex_access tex =? 2).
    - eapply GL_GetFBO_next_name; eauto.
    - apply ret_inv in Hm0. destruct Hm0 as [_ ->]. lia. }
  clear Hm0.
  apply bind_inv in H. destruct H as (c1 & s2 & Hc1 & H).
  apply GL_CheckError_next_name in Hc1.
  apply bind_inv in H. destruct H as (name & s3 & Hg & H).
  unfold gen_texture in Hg.
  apply bind_inv in Hg. destruct Hg as (n & s3a & Hfresh & Hg).
  apply fresh_name_step in Hfresh. destruct Hfresh as [_ Hname].
  apply bind_inv in Hg. destruct Hg as (u & s3b & _ & Hg).
  apply ret_inv in Hg. destruct Hg as [-> _].
  apply bind_inv in H. destruct H as (c2 & s4 & _ & H).
  destruct (c2 <? 0); [gl_fail H|].
  destruct (texture_dimensions fuel (renderdata s0) tex)
    as [[[[tw th] tw_scale] th_scale]|]; [|discriminate H].
  apply bind_inv in H. destruct H as (u1 & s5 & _ & H).
  apply bind_inv in H. destruct H as (c3 & s6 & _ & H).
  destruct (c3 <? 0); [gl_fail H|].
  apply bind_inv in H. destruct H as (uv & s7 & _ & H).
  apply bind_inv in H. destruct H as (u2 & s8 & _ & H).
  apply bind_inv in H. destruct H as (c4 & s9 & _ & H).
  apply ret_inv in H. destruct H as [H _]. inversion H; subst.
  eexists. split; [reflexivity|]. cbn [texture]. lia.
Qed.

Lemma generated_textures_app (k1 k2 : list Call) :
  generated_textures (k1 ++ k2) = generated_textures k1 ++ generated_textures k2.
Proof. apply flat_map_app. Qed.

Lemma generated_textures_texture_calls (k : list Call) :
  generated_textures (texture_calls k) = generated_textures k.
Proof.
  unfold generated_textures, texture_calls.
  induction k as [|c k IH]; [reflexivity|].
  destruct c; cbn; rewrite ?IH; reflexivity.
Qed.

Lemma deleted_textures_filter (k : list Call) :
  deleted_textures (filter is_glDeleteTextures k) = deleted_textures k.
Proof.
  unfold deleted_textures.
  induction k as [|c k IH]; [reflexivity|].
  destruct c; cbn; rewrite ?IH; reflexivity.
Qed.

Lemma GL_DestroyTexture_deletes (P : Platform) (tex : SDL_Texture)
    (s : GLState) :
  exists tex1 s1 k,
    GL_DestroyTexture P tex s = Some (tex1, s1)
    /\ driverdata tex1 = None
    /\ log s1 = log s ++ k
    /\ deleted_textures k
       = match driverdata tex with
         | None => []
         | Some data =>
             (if negb (texture data =? 0) then [texture data] else [])
             ++ (if yuv data then [utexture data; vtexture data] else [])
         end.
Proof.
  unfold GL_DestroyTexture. unfold bind at 1.
  destruct (GL_ActivateRenderer_effect P s) as (r & s0 & k0 & -> & _ & Hl & Hf).
  assert (Hd0 : deleted_textures k0 = []).
  { rewrite <- deleted_textures_filter, Hf. reflexivity. }
  destruct (driverdata tex) as [data|] eqn:Ed.
  - unfold bind, ret, call.
    destruct (negb (texture data =? 0)), (yuv data); cbn [log];
      eexists; eexists; eexists; (split; [reflexivity|]);
      (split; [reflexivity|]);
      rewrite Hl, <- ?app_assoc;
      (split; [reflexivity|]);
      unfold deleted_textures in *; rewrite ?flat_map_app, Hd0; reflexivity.
  - exists tex, s0, k0. unfold ret. auto.
Qed.

(** What [GL_CreateTexture] generates, [GL_DestroyTexture] deletes: the
    destruction of a created texture hands to [glDeleteTextures] the names
    the creation got from [glGenTextures], in the same order, and leaves the
    texture without driver data.  The exception is a two-plane texture
    (NV12, NV21): the texture object of its UV plane is generated and never
    deleted. *)
Theorem GL_DestroyTexture_balances_creation (P : Platform) (fuel : nat)
    (tex tex' : SDL_Texture) (s s' t : GLState) :
  0 < next_name s ->
  GL_CreateTexture P fuel tex s = Some ((0, tex'), s') ->
  exists data tex'' t' k,
    driverdata tex' = Some data
    /\ GL_DestroyTexture P tex' t = Some (tex'', t')
    /\ driverdata tex'' = None
    /\ log t' = log t ++ k
    /\ generated_textures (log s')
       = generated_textures (log s) ++ deleted_textures k
         ++ (if is_NV12_or_NV21 (tex_format tex) then [utexture data] else []).
Proof.
  intros Hpos Hrun.
  destruct (GL_CreateTexture_name _ _ _ _ _ _ Hrun) as (data0 & Hd0 & Hname).
  destruct (GL_CreateTexture_created _ _ _ _ _ _ Hrun)
    as (data & tw & th & ifmt & cp & -> & _ & _ & _ & Hyuv & Hnv & Hlog).
  cbn [driverdata with_driverdata] in Hd0. inversion Hd0; subst data0.
  destruct (GL_DestroyTexture_deletes P (with_driverdata tex (Some data)) t)
    as (tex'' & t' & k & E & Hnone & Hl & Hdel).
  exists data, tex'', t', k.
  split; [reflexivity|]. split; [exact E|]. split; [exact Hnone|].
  split; [exact Hl|].
  rewrite <- (generated_textures_texture_calls (log s')), Hlog.
  rewrite !generated_textures_app, generated_textures_texture_calls.
  rewrite Hdel. cbn [driverdata with_driverdata].
  assert (Hnz : negb (texture data =? 0) = true).
  { apply Bool.negb_true_iff. apply Z.eqb_neq. lia. }
  rewrite Hnz, Hyuv.
  destruct (is_YV12_or_IYUV (tex_format tex)) eqn:Ey;
    destruct (is_NV12_or_NV21 (tex_format tex)) eqn:En; reflexivity.
Qed.

Lemma GL_DestroyTexture_balances_creation_witness :
  0 < next_name (sample_state false false)
  /\ exists tex' s' data tex'' t' k,
       GL_CreateTexture sample_platform 32
         (sample_texture SDL_PIXELFORMAT_YV12 SDL_TEXTUREACCESS_STREAMING 5 3)
         (sample_state false false) = Some ((0, tex'), s')
       /\ driverdata tex' = Some data
       /\ GL_DestroyTexture sample_platform tex' s' = Some (tex'', t')
       /\ driverdata tex'' = None
       /\ log t' = log s' ++ k
       /\ generated_textures (log s')
          = generated_textures (log (sample_state false false))
            ++ deleted_textures k
            ++ (if is_NV12_or_NV21
                     (tex_format
                        (sample_texture SDL_PIXELFORMAT_YV12
                           SDL_TEXTUREACCESS_STREAMING 5 3))
                then [utexture data] else []).
Proof.
  assert (Hpos : 0 < next_name (sample_state false false)) by reflexivity.
  split; [exact Hpos|].
  pose (tex := sample_texture SDL_PIXELFORMAT_YV12
                 SDL_TEXTUREACCESS_STREAMING 5 3).
  pose (run := GL_CreateTexture sample_platform 32 tex
                 (sample_state false false)).
  pose (tex' := match run with
                | Some ((_, t), _) => t
                | None => tex
                end).
  pose (s' := match run with
              | Some (_, s) => s
              | None => sample_state false false
              end).
  assert (Hrun : run = Some ((0, tex'), s')) by (vm_compute; reflexivity).
  destruct (GL_DestroyTexture_balances_creation sample_platform 32 tex tex'
              (sample_state false false) s' s' Hpos Hrun)
    as (data & tex'' & t' & k & Hd & E & Hn & Hl & Hg).
  exists tex', s', data, tex'', t', k.
  split; [exact Hrun|]. split; [exact Hd|]. split; [exact E|].
  split; [exact Hn|]. split; [exact Hl|exact Hg].
Defined.

(** ** From the queue to the executor *)

Lemma store_all_fills (values : list GLfloat) :
  forall pre block post : list GLfloat,
    length block = length values ->
    store_all (pre ++ block ++ post) (length pre) values
    = pre ++ values ++ post.
Proof.
  induction values as [|v values IH]; intros pre block post Hlen.
  - destruct block; [reflexivity|discriminate].
  - destruct block as [|b block]; [discriminate|].
    cbn [store_all app]. rewrite store_app.
    replace (pre ++ v :: block ++ post) with ((pre ++ [v]) ++ block ++ post)
      by (now rewrite <- app_assoc).
    replace (S (length pre)) with (length (pre ++ [v]))
      by (rewrite length_app; cbn; lia).
    rewrite IH by (cbn in Hlen; lia).
    now rewrite <- app_assoc.
Qed.

Lemma GL_QueueFillRects_loop_store_all (rects : list SDL_FRect) :
  forall (verts : nat) (l : list GLfloat),
    GL_QueueFillRects_loop rects verts l
    = store_all l verts (rect_vertices rects).
Proof.
  induction rects as [|r rects IH]; intros verts l; [reflexivity|].
  cbn [GL_QueueFillRects_loop rect_vertices flat_map app store_all].
  rewrite IH. reflexivity.
Qed.

Lemma rect_vertices_length (rects : list SDL_FRect) :
  length (rect_vertices rects) = (4 * length rects)%nat.
Proof.
  induction rects as [|r rects IH]; [reflexivity|].
  cbn [rect_vertices flat_map app length] in *.
  unfold rect_vertices in IH. rewrite IH. lia.
Qed.

Lemma read_app (pre l : list GLfloat) (i : nat) :
  read (pre ++ l) (Z.of_nat (length pre + i)) = nth_error l i.
Proof.
  unfold read. destruct (Z.ltb_spec (Z.of_nat (length pre + i)) 0); [lia|].
  rewrite Nat2Z.id, nth_error_app2 by lia.
  f_equal. lia.
Qed.

Lemma read_n_app (l : list GLfloat) :
  forall (pre post : list GLfloat),
    read_n (pre ++ l ++ post) (Z.of_nat (length pre)) (length l) = Some l.
Proof.
  induction l as [|x l IH]; intros pre post; [reflexivity|].
  cbn [length read_n].
  replace (Z.of_nat (length pre)) with (Z.of_nat (length pre + 0))
    at 1 by (f_equal; lia).
  rewrite read_app. cbn [nth_error app].
  replace (pre ++ x :: l ++ post) with ((pre ++ [x]) ++ l ++ post)
    by (now rewrite <- app_assoc).
  replace (Z.of_nat (length pre) + 1) with (Z.of_nat (length (pre ++ [x])))
    by (rewrite length_app; cbn; lia).
  rewrite IH. reflexivity.
Qed.

Lemma emit_rects_queued (vertices : list GLfloat) (rects : list SDL_FRect) :
  forall verts,
    read_n vertices verts (4 * length rects) = Some (rect_vertices rects) ->
    emit_rects vertices verts (length rects) = Some (map rect_call rects).
Proof.
  induction rects as [|r rects IH]; intros verts H; [reflexivity|].
  change (4 * length (r :: rects))%nat with (4 * S (length rects))%nat in H.
  replace (4 * S (length rects))%nat
    with (S (S (S (S (4 * length rects))))) in H by lia.
  change (rect_vertices (r :: rects))
    with (frx r :: fry r :: f32_add (frx r) (frw r)
          :: f32_add (fry r) (frh r) :: rect_vertices rects) in H.
  apply read_n_two in H. destruct H as (Hx & Hy & H).
  apply read_n_two in H. destruct H as (Hx2 & Hy2 & H).
  replace (verts + 2 + 1) with (verts + 3) in Hy2 by lia.
  replace (verts + 2 + 2) with (verts + 4) in H by lia.
  cbn [length emit_rects map]. rewrite Hx, Hy, Hx2, Hy2, (IH _ H).
  reflexivity.
Qed.

Lemma snapped_vertices_flat (points : list SDL_FPoint) :
  snapped_vertices points = flat_vertices (map snapped points).
Proof.
  induction points as [|p points IH]; [reflexivity|].
  change (snapped_vertices (p :: points))
    with (f32_add f32_half (fx p) :: f32_add f32_half (fy p)
          :: snapped_vertices points).
  rewrite IH. reflexivity.
Qed.

Lemma verts_of_aligned (cmd : DrawCommand) (i : nat) (n : Z) :
  verts_of (with_first_count cmd (4 * Z.of_nat i) n) = Some (Z.of_nat i).
Proof.
  unfold verts_of. cbn [first with_first_count].
  replace (4 * Z.of_nat i) with (Z.of_nat i * 4) by lia.
  rewrite Z.rem_mul, Z.quot_mul by lia.
  destruct (Z.leb_spec 0 (Z.of_nat i * 4)); [reflexivity|lia].
Qed.

Lemma SDL_AllocateRenderVertices_floats (P : Platform)
    (vertex_data : list GLfloat) (n : nat) :
  alloc_ok P (Alloc_vertices (4 * Z.of_nat n)) = true ->
  SDL_AllocateRenderVertices P vertex_data (4 * Z.of_nat n)
  = Some (4 * Z.of_nat (length vertex_data),
          vertex_data ++ repeat f32_zero n).
Proof.
  intros Ha. unfold SDL_AllocateRenderVertices. rewrite Ha.
  replace (4 * Z.of_nat n / 4) with (Z.of_nat n)
    by (rewrite Z.mul_comm, Z.div_mul by lia; reflexivity).
  now rewrite Nat2Z.id.
Qed.

Lemma first_index (i : nat) : Z.to_nat (4 * Z.of_nat i / 4) = i.
Proof. rewrite Z.mul_comm, Z.div_mul by lia. apply Nat2Z.id. Qed.

Lemma store_all_appended (vertex_data values : list GLfloat) :
  store_all (vertex_data ++ repeat f32_zero (length values))
            (length vertex_data) values
  = vertex_data ++ values.
Proof.
  pose proof (store_all_fills values vertex_data
                (repeat f32_zero (length values)) []) as H.
  rewrite !app_nil_r in H. apply H. apply repeat_length.
Qed.

Lemma SetDrawState_with_first_count (P : Platform) (data : GL_RenderData)
    (cmd : DrawCommand) (f n : Z) (sh : GL_Shader) (c : StateCache) :
  SetDrawState P data (with_first_count cmd f n) sh c
  = SetDrawState P data cmd sh c.
Proof. reflexivity. Qed.

Lemma GL_QueueDrawPoints_appends (P : Platform) (vertex_data : list GLfloat)
    (cmd : DrawCommand) (points : list SDL_FPoint) :
  Z.of_nat (length points) < 2 ^ 30 ->
  alloc_ok P (Alloc_vertices (8 * Z.of_nat (length points))) = true ->
  GL_QueueDrawPoints P vertex_data cmd points
  = (0,
     with_first_count cmd (4 * Z.of_nat (length vertex_data))
                      (Z.of_nat (length points)),
     vertex_data ++ snapped_vertices points).
Proof.
  intros Hcount Halloc.
  assert (Hbytes : wrap_size_t (int_mul (Z.of_nat (length points)) 2 * 4)
                   = 4 * Z.of_nat (2 * length points)).
  { unfold int_mul. rewrite wrap_int_small by lia.
    rewrite wrap_size_t_small by lia. lia. }
  unfold GL_QueueDrawPoints. rewrite Hbytes.
  rewrite SDL_AllocateRenderVertices_floats
    by (replace (4 * Z.of_nat (2 * length points))
          with (8 * Z.of_nat (length points)) by lia; exact Halloc).
  rewrite first_index. f_equal.
  pose proof (GL_QueueDrawPoints_loop_fills points vertex_data
                (repeat f32_zero (2 * length points)) []) as H.
  rewrite !app_nil_r in H. apply H. apply repeat_length.
Qed.

(** The points [GL_QueueDrawPoints] has queued are the points the executor
    draws: the DrawPoints command it has filled, run on the vertex data it
    has left (whatever later commands have appended to it), makes one
    [GL_POINTS] block with one vertex per point, each coordinate moved by
    one half, after the state changes of [SetDrawState]; no read leaves the
    vertex data. *)
Theorem QueueDrawPoints_then_run (P : Platform) (renderer : SDL_Renderer)
    (data : GL_RenderData) (drawableh : Z) (vertex_data : list GLfloat)
    (cmd : DrawCommand) (points : list SDL_FPoint) (c : StateCache) :
  Z.of_nat (length points) < 2 ^ 30 ->
  alloc_ok P (Alloc_vertices (8 * Z.of_nat (length points))) = true ->
  exists cmd' vertex_data',
    GL_QueueDrawPoints P vertex_data cmd points = (0, cmd', vertex_data')
    /\ forall later,
         GL_RunCommandQueue_cmd P renderer data (vertex_data' ++ later)
           drawableh (SDL_RENDERCMD_DRAW_POINTS cmd') c
         = Some (fst (SetDrawState P data cmd SHADER_SOLID c),
                 snd (SetDrawState P data cmd SHADER_SOLID c)
                 ++ [glBegin GL_POINTS]
                 ++ map vertex_call (map snapped points)
                 ++ [glEnd]).
Proof.
  intros Hcount Halloc.
  eexists; eexists.
  split; [exact (GL_QueueDrawPoints_appends P vertex_data cmd points
                   Hcount Halloc)|].
  intros later. cbn [GL_RunCommandQueue_cmd].
  rewrite SetDrawState_with_first_count.
  destruct (SetDrawState P data cmd SHADER_SOLID c) as [c1 k1]. cbn [fst snd].
  rewrite verts_of_aligned. cbn [count with_first_count].
  rewrite wrap_size_t_small by lia. rewrite Nat2Z.id.
  replace (length points) with (length (map snapped points))
    by apply length_map.
  rewrite emit_vertices_queued; [reflexivity|].
  rewrite <- snapped_vertices_flat, <- app_assoc.
  replace (2 * length (map snapped points))%nat
    with (length (snapped_vertices points))
    by (rewrite snapped_vertices_length, length_map; reflexivity).
  apply read_n_app.
Qed.

Lemma QueueDrawPoints_then_run_witness :
  Z.of_nat (length [mkFPoint f32_one f32_zero]) < 2 ^ 30
  /\ alloc_ok sample_platform
       (Alloc_vertices (8 * Z.of_nat (length [mkFPoint f32_one f32_zero])))
     = true
  /\ exists cmd' vertex_data',
       GL_QueueDrawPoints sample_platform [f32_one; f32_one]
         (mkDraw 0 0 255 0 0 255 SDL_BLENDMODE_NONE 0)
         [mkFPoint f32_one f32_zero]
       = (0, cmd', vertex_data')
       /\ forall later,
            GL_RunCommandQueue_cmd sample_platform (sample_renderer 0 false)
              (sample_renderdata false false) (vertex_data' ++ later) 480
              (SDL_RENDERCMD_DRAW_POINTS cmd')
              (initial_cache (sample_renderer 0 false))
            = Some (fst (SetDrawState sample_platform
                           (sample_renderdata false false)
                           (mkDraw 0 0 255 0 0 255 SDL_BLENDMODE_NONE 0)
                           SHADER_SOLID
                           (initial_cache (sample_renderer 0 false))),
                    snd (SetDrawState sample_platform
                           (sample_renderdata false false)
                           (mkDraw 0 0 255 0 0 255 SDL_BLENDMODE_NONE 0)
                           SHADER_SOLID
                           (initial_cache (sample_renderer 0 false)))
                    ++ [glBegin GL_POINTS]
                    ++ map vertex_call
                         (map snapped [mkFPoint f32_one f32_zero])
                    ++ [glEnd]).
Proof.
  assert (H1 : Z.of_nat (length [mkFPoint f32_one f32_zero]) < 2 ^ 30)
    by reflexivity.
  assert (H2 : alloc_ok sample_platform
                 (Alloc_vertices
                    (8 * Z.of_nat (length [mkFPoint f32_one f32_zero])))
               = true) by reflexivity.
  split; [exact H1|]. split; [exact H2|].
  exact (QueueDrawPoints_then_run sample_platform (sample_renderer 0 false)
           (sample_renderdata false false) 480 [f32_one; f32_one]
           (mkDraw 0 0 255 0 0 255 SDL_BLENDMODE_NONE 0)
           [mkFPoint f32_one f32_zero]
           (initial_cache (sample_renderer 0 false)) H1 H2).
Defined.

Lemma GL_QueueFillRects_appends (P : Platform) (vertex_data : list GLfloat)
    (cmd : DrawCommand) (rects : list SDL_FRect) :
  Z.of_nat (length rects) < 2 ^ 29 ->
  alloc_ok P (Alloc_vertices (16 * Z.of_nat (length rects))) = true ->
  GL_QueueFillRects P vertex_data cmd rects
  = (0,
     with_first_count cmd (4 * Z.of_nat (length vertex_data))
                      (Z.of_nat (length rects)),
     vertex_data ++ rect_vertices rects).
Proof.
  intros Hcount Halloc.
  assert (Hbytes : wrap_size_t (int_mul (Z.of_nat (length rects)) 4 * 4)
                   = 4 * Z.of_nat (4 * length rects)).
  { unfold int_mul. rewrite wrap_int_small by lia.
    rewrite wrap_size_t_small by lia. lia. }
  unfold GL_QueueFillRects. rewrite Hbytes.
  rewrite SDL_AllocateRenderVertices_floats
    by (replace (4 * Z.of_nat (4 * length rects))
          with (16 * Z.of_nat (length rects)) by lia; exact Halloc).
  rewrite first_index. f_equal.
  rewrite GL_QueueFillRects_loop_store_all.
  rewrite <- rect_vertices_length. apply store_all_appended.
Qed.

(** [GL_QueueFillRects] appends four floats per rectangle, x, y, x + w and
    y + h (single-precision sums), and records the offset of the block and
    the count; the FillRects command it has filled, run on that vertex data
    (whatever later commands have appended), makes one [glRectf] per
    rectangle, in order, with those corners. *)
Theorem QueueFillRects_then_run (P : Platform) (renderer : SDL_Renderer)
    (data : GL_RenderData) (drawableh : Z) (vertex_data : list GLfloat)
    (cmd : DrawCommand) (rects : list SDL_FRect) (c : StateCache) :
  Z.of_nat (length rects) < 2 ^ 29 ->
  alloc_ok P (Alloc_vertices (16 * Z.of_nat (length rects))) = true ->
  GL_QueueFillRects P vertex_data cmd rects
  = (0,
     with_first_count cmd (4 * Z.of_nat (length vertex_data))
                      (Z.of_nat (length rects)),
     vertex_data ++ rect_vertices rects)
  /\ forall later,
       GL_RunCommandQueue_cmd P renderer data
         (vertex_data ++ rect_vertices rects ++ later) drawableh
         (SDL_RENDERCMD_FILL_RECTS
            (with_first_count cmd (4 * Z.of_nat (length vertex_data))
                              (Z.of_nat (length rects)))) c
       = Some (fst (SetDrawState P data cmd SHADER_SOLID c),
               snd (SetDrawState P data cmd SHADER_SOLID c)
               ++ map rect_call rects).
Proof.
  intros Hcount Halloc.
  split; [exact (GL_QueueFillRects_appends P vertex_data cmd rects
                   Hcount Halloc)|].
  intros later. cbn [GL_RunCommandQueue_cmd].
  rewrite SetDrawState_with_first_count.
  destruct (SetDrawState P data cmd SHADER_SOLID c) as [c1 k1]. cbn [fst snd].
  rewrite verts_of_aligned. cbn [count with_first_count].
  rewrite wrap_size_t_small by lia. rewrite Nat2Z.id.
  rewrite emit_rects_queued; [reflexivity|].
  rewrite <- rect_vertices_length. apply read_n_app.
Qed.

Lemma QueueFillRects_then_run_witness :
  Z.of_nat (length [mkFRect f32_one f32_zero f32_one f32_half]) < 2 ^ 29
  /\ alloc_ok sample_platform
       (Alloc_vertices
          (16 * Z.of_nat (length [mkFRect f32_one f32_zero f32_one f32_half])))
     = true
  /\ GL_QueueFillRects sample_platform [f32_one; f32_one]
       (mkDraw 0 0 255 0 0 255 SDL_BLENDMODE_NONE 0)
       [mkFRect f32_one f32_zero f32_one f32_half]
     = (0,
        with_first_count (mkDraw 0 0 255 0 0 255 SDL_BLENDMODE_NONE 0)
          (4 * Z.of_nat (length [f32_one; f32_one]))
          (Z.of_nat (length [mkFRect f32_one f32_zero f32_one f32_half])),
        [f32_one; f32_one]
        ++ rect_vertices [mkFRect f32_one f32_zero f32_one f32_half]).
Proof.
  assert (H1 : Z.of_nat (length [mkFRect f32_one f32_zero f32_one f32_half])
               < 2 ^ 29) by reflexivity.
  assert (H2 : alloc_ok sample_platform
                 (Alloc_vertices
                    (16 * Z.of_nat
                            (length [mkFRect f32_one f32_zero f32_one f32_half])))
               = true) by reflexivity.
  split; [exact H1|]. split; [exact H2|].
  exact (proj1 (QueueFillRects_then_run sample_platform
                  (sample_renderer 0 false) (sample_renderdata false false)
                  480 [f32_one; f32_one]
                  (mkDraw 0 0 255 0 0 255 SDL_BLENDMODE_NONE 0)
                  [mkFRect f32_one f32_zero f32_one f32_half]
                  (initial_cache (sample_renderer 0 false)) H1 H2)).
Defined.

Lemma SetCopyState_with_first_count (P : Platform) (renderer : SDL_Renderer)
    (data : GL_RenderData) (cmd : DrawCommand) (f n : Z) (c : StateCache) :
  SetCopyState P renderer data (with_first_count cmd f n) c
  = SetCopyState P renderer data cmd c.
Proof. reflexivity. Qed.

Lemma SetCopyState_returns (P : Platform) (renderer : SDL_Renderer)
    (data : GL_RenderData) (cmd : DrawCommand) (c : StateCache)
    (tex : SDL_Texture) (texturedata : GL_TextureData) :
  textures renderer (draw_texture cmd) = Some tex ->
  driverdata tex = Some texturedata ->
  exists c' k, SetCopyState P renderer data cmd c = Some (c', k).
Proof.
  intros Ht Hd. unfold SetCopyState. rewrite Ht, Hd.
  destruct (SetDrawState P data cmd
              (SetCopyState_shader P data tex texturedata) c) as [c1 k1].
  destruct (SetCopyState_bind data cmd texturedata (bound_texture c1))
    as [b k2].
  eexists; eexists; reflexivity.
Qed.

(** The quad [GL_QueueCopy] has queued is the quad the executor draws: the
    Copy command, run on the vertex data the function has left (whatever
    later commands have appended), makes the state changes of
    [SetCopyState] and one triangle strip over the corners of the
    destination rectangle, with the texture coordinates of the source
    rectangle; no read leaves the vertex data. *)
Theorem QueueCopy_then_run (P : Platform) (renderer : SDL_Renderer)
    (data : GL_RenderData) (drawableh : Z) (vertex_data : list GLfloat)
    (cmd : DrawCommand) (tex : SDL_Texture) (texturedata : GL_TextureData)
    (srcrect : SDL_Rect) (dstrect : SDL_FRect) (c : StateCache)
    (minu maxu minv maxv : GLfloat) :
  alloc_ok P (Alloc_vertices 32) = true ->
  driverdata tex = Some texturedata ->
  textures renderer (draw_texture cmd) = Some tex ->
  texture_coordinates tex texturedata srcrect = (minu, maxu, minv, maxv) ->
  exists cmd' vertex_data' c' k,
    GL_QueueCopy P vertex_data cmd tex srcrect dstrect
    = Some (0, cmd', vertex_data')
    /\ count cmd' = 1
    /\ length vertex_data' = (length vertex_data + 8)%nat
    /\ SetCopyState P renderer data cmd c = Some (c', k)
    /\ forall later,
         GL_RunCommandQueue_cmd P renderer data (vertex_data' ++ later)
           drawableh (SDL_RENDERCMD_COPY cmd') c
         = Some (c', k ++ textured_quad
                            (frx dstrect) (fry dstrect)
                            (f32_add (frx dstrect) (frw dstrect))
                            (f32_add (fry dstrect) (frh dstrect))
                            minu maxu minv maxv).
Proof.
  intros Halloc Hd Ht Htc.
  destruct (SetCopyState_returns P renderer data cmd c tex texturedata Ht Hd)
    as (c' & k & Hs).
  unfold GL_QueueCopy.
  change (wrap_size_t (8 * 4)) with (4 * Z.of_nat 8).
  rewrite SDL_AllocateRenderVertices_floats by exact Halloc.
  rewrite Hd, Htc, first_index.
  change 8%nat with (length [frx dstrect; fry dstrect;
                             f32_add (frx dstrect) (frw dstrect);
                             f32_add (fry dstrect) (frh dstrect);
                             minu; maxu; minv; maxv]) at 1.
  rewrite store_all_appended.
  eexists; eexists; exists c', k. split; [reflexivity|].
  split; [reflexivity|]. split; [rewrite length_app; reflexivity|].
  split; [exact Hs|].
  intros later. cbn [GL_RunCommandQueue_cmd].
  rewrite verts_of_aligned, SetCopyState_with_first_count, Hs.
  rewrite <- app_assoc.
  change 8%nat with (length [frx dstrect; fry dstrect;
                             f32_add (frx dstrect) (frw dstrect);
                             f32_add (fry dstrect) (frh dstrect);
                             minu; maxu; minv; maxv]).
  rewrite read_n_app. reflexivity.
Qed.

(** [GL_QueueCopyEx] queues the quad relative to the centre of rotation,
    with [minx] and [maxx] exchanged for a horizontal flip and [miny] and
    [maxy] for a vertical one, then the translation and the angle; the
    CopyEx command, run on that vertex data, translates to the centre,
    rotates by the angle (rounded to single precision) and draws that quad
    between [glPushMatrix] and [glPopMatrix]. *)
Theorem QueueCopyEx_then_run (P : Platform) (renderer : SDL_Renderer)
    (data : GL_RenderData) (drawableh : Z) (vertex_data : list GLfloat)
    (cmd : DrawCommand) (tex : SDL_Texture) (texturedata : GL_TextureData)
    (srcrect : SDL_Rect) (dstrect : SDL_FRect) (angle : GLdouble)
    (center : SDL_FPoint) (flip : Z) (c : StateCache)
    (minu maxu minv maxv : GLfloat) :
  alloc_ok P (Alloc_vertices 44) = true ->
  driverdata tex = Some texturedata ->
  textures renderer (draw_texture cmd) = Some tex ->
  texture_coordinates tex texturedata srcrect = (minu, maxu, minv, maxv) ->
  exists cmd' vertex_data' c' k,
    GL_QueueCopyEx P vertex_data cmd tex srcrect dstrect angle center flip
    = Some (0, cmd', vertex_data')
    /\ count cmd' = 1
    /\ length vertex_data' = (length vertex_data + 11)%nat
    /\ SetCopyState P renderer data cmd c = Some (c', k)
    /\ forall later,
         GL_RunCommandQueue_cmd P renderer data (vertex_data' ++ later)
           drawableh (SDL_RENDERCMD_COPY_EX cmd') c
         = Some (c',
                 k ++ [ glPushMatrix;
                        glTranslatef (f32_add (frx dstrect) (fx center))
                                     (f32_add (fry dstrect) (fy center))
                                     f32_zero;
                        glRotated (f32_of_double angle) ]
                   ++ textured_quad
                        (if Z.testbit flip 0
                         then f32_sub (frw dstrect) (fx center)
                         else f32_opp (fx center))
                        (if Z.testbit flip 1
                         then f32_sub (frh dstrect) (fy center)
                         else f32_opp (fy center))
                        (if Z.testbit flip 0
                         then f32_opp (fx center)
                         else f32_sub (frw dstrect) (fx center))
                        (if Z.testbit flip 1
                         then f32_opp (fy center)
                         else f32_sub (frh dstrect) (fy center))
                        minu maxu minv maxv
                   ++ [ glPopMatrix ]).
Proof.
  intros Halloc Hd Ht Htc.
  destruct (SetCopyState_returns P renderer data cmd c tex texturedata Ht Hd)
    as (c' & k & Hs).
  assert (H0 : negb (Z.land flip 1 =? 0) = Z.testbit flip 0).
  { change (Z.land flip 1) with (Z.land flip (Z.ones 1)).
    rewrite Z.land_ones by lia.
    rewrite Z.bit0_odd. change (2 ^ 1) with 2.
    rewrite Zmod_odd. destruct (Z.odd flip); reflexivity. }
  assert (H1 : negb (Z.land flip 2 =? 0) = Z.testbit flip 1).
  { destruct (Z.testbit flip 1) eqn:E.
    - apply Bool.negb_true_iff, Z.eqb_neq. intros Hz.
      assert (Hb : Z.testbit (Z.land flip 2) 1 = true)
        by (rewrite Z.land_spec, E; reflexivity).
      rewrite Hz in Hb. discriminate Hb.
    - apply Bool.negb_false_iff, Z.eqb_eq. apply Z.bits_inj'. intros n Hn.
      rewrite Z.land_spec, Z.bits_0.
      destruct (Z.eq_dec n 1) as [->|Hne]; [rewrite E; reflexivity|].
      replace (Z.testbit 2 n) with false; [apply andb_false_r|].
      symmetry. change 2 with (2 ^ 1). apply Z.pow2_bits_false. lia. }
  unfold GL_QueueCopyEx.
  change (wrap_size_t (11 * 4)) with (4 * Z.of_nat 11).
  rewrite SDL_AllocateRenderVertices_floats by exact Halloc.
  rewrite Hd, Htc, first_index, H0, H1.
  set (minx := if Z.testbit flip 0 then f32_sub (frw dstrect) (fx center)
               else f32_opp (fx center)).
  set (maxx := if Z.testbit flip 0 then f32_opp (fx center)
               else f32_sub (frw dstrect) (fx center)).
  set (miny := if Z.testbit flip 1 then f32_sub (frh dstrect) (fy center)
               else f32_opp (fy center)).
  set (maxy := if Z.testbit flip 1 then f32_opp (fy center)
               else f32_sub (frh dstrect) (fy center)).
  assert (Ex : (if Z.testbit flip 0
                then (f32_sub (frw dstrect) (fx center), f32_opp (fx center))
                else (f32_opp (fx center), f32_sub (frw dstrect) (fx center)))
               = (minx, maxx))
    by (unfold minx, maxx; destruct (Z.testbit flip 0); reflexivity).
  assert (Ey : (if Z.testbit flip 1
                then (f32_sub (frh dstrect) (fy center), f32_opp (fy center))
                else (f32_opp (fy center), f32_sub (frh dstrect) (fy center)))
               = (miny, maxy))
    by (unfold miny, maxy; destruct (Z.testbit flip 1); reflexivity).
  rewrite Ex, Ey.
  set (values := [minx; miny; maxx; maxy; minu; maxu; minv; maxv;
                  f32_add (frx dstrect) (fx center);
                  f32_add (fry dstrect) (fy center);
                  f32_of_double angle]).
  change 11%nat with (length values) at 1.
  rewrite store_all_appended.
  eexists; eexists; exists c', k. split; [reflexivity|].
  split; [reflexivity|]. split; [rewrite length_app; reflexivity|].
  split; [exact Hs|].
  intros later. cbn [GL_RunCommandQueue_cmd].
  rewrite verts_of_aligned, SetCopyState_with_first_count, Hs.
  rewrite <- app_assoc.
  change 11%nat with (length values).
  rewrite read_n_app. reflexivity.
Qed.

Lemma QueueCopy_then_run_witness :
  alloc_ok sample_platform (Alloc_vertices 32) = true
  /\ driverdata sample_created_texture = Some sample_texturedata
  /\ textures sample_renderer_with_texture
       (draw_texture (mkDraw 0 0 255 255 255 255 SDL_BLENDMODE_NONE 7))
     = Some sample_created_texture
  /\ texture_coordinates sample_created_texture sample_texturedata
       (mkRect 0 0 4 4) = (f32_zero, f32_one, f32_zero, f32_one)
  /\ exists cmd' vertex_data' c' k,
       GL_QueueCopy sample_platform [] 
         (mkDraw 0 0 255 255 255 255 SDL_BLENDMODE_NONE 7)
         sample_created_texture (mkRect 0 0 4 4)
         (mkFRect f32_zero f32_zero f32_one f32_one)
       = Some (0, cmd', vertex_data')
       /\ count cmd' = 1
       /\ length vertex_data' = (length (@nil GLfloat) + 8)%nat
       /\ SetCopyState sample_platform sample_renderer_with_texture
            (sample_renderdata true false)
            (mkDraw 0 0 255 255 255 255 SDL_BLENDMODE_NONE 7)
            (initial_cache sample_renderer_with_texture) = Some (c', k)
       /\ forall later,
            GL_RunCommandQueue_cmd sample_platform
              sample_renderer_with_texture (sample_renderdata true false)
              (vertex_data' ++ later) 480 (SDL_RENDERCMD_COPY cmd')
              (initial_cache sample_renderer_with_texture)
            = Some (c', k ++ textured_quad
                               (frx (mkFRect f32_zero f32_zero f32_one f32_one))
                               (fry (mkFRect f32_zero f32_zero f32_one f32_one))
                               (f32_add
                                  (frx (mkFRect f32_zero f32_zero f32_one f32_one))
                                  (frw (mkFRect f32_zero f32_zero f32_one f32_one)))
                               (f32_add
                                  (fry (mkFRect f32_zero f32_zero f32_one f32_one))
                                  (frh (mkFRect f32_zero f32_zero f32_one f32_one)))
                               f32_zero f32_one f32_zero f32_one).
Proof.
  assert (H1 : alloc_ok sample_platform (Alloc_vertices 32) = true)
    by reflexivity.
  assert (H2 : driverdata sample_created_texture = Some sample_texturedata)
    by reflexivity.
  assert (H3 : textures sample_renderer_with_texture
                 (draw_texture (mkDraw 0 0 255 255 255 255 SDL_BLENDMODE_NONE 7))
               = Some sample_created_texture) by reflexivity.
  assert (H4 : texture_coordinates sample_created_texture sample_texturedata
                 (mkRect 0 0 4 4) = (f32_zero, f32_one, f32_zero, f32_one))
    by (vm_compute; reflexivity).
  split; [exact H1|]. split; [exact H2|]. split; [exact H3|].
  split; [exact H4|].
  exact (QueueCopy_then_run sample_platform sample_renderer_with_texture
           (sample_renderdata true false) 480 []
           (mkDraw 0 0 255 255 255 255 SDL_BLENDMODE_NONE 7)
           sample_created_texture sample_texturedata (mkRect 0 0 4 4)
           (mkFRect f32_zero f32_zero f32_one f32_one)
           (initial_cache sample_renderer_with_texture)
           f32_zero f32_one f32_zero f32_one H1 H2 H3 H4).
Defined.

Lemma QueueCopyEx_then_run_witness :
  alloc_ok sample_platform (Alloc_vertices 44) = true
  /\ driverdata sample_created_texture = Some sample_texturedata
  /\ textures sample_renderer_with_texture
       (draw_texture (mkDraw 0 0 255 255 255 255 SDL_BLENDMODE_NONE 7))
     = Some sample_created_texture
  /\ texture_coordinates sample_created_texture sample_texturedata
       (mkRect 0 0 4 4) = (f32_zero, f32_one, f32_zero, f32_one)
  /\ exists cmd' vertex_data' c' k,
       GL_QueueCopyEx sample_platform []
         (mkDraw 0 0 255 255 255 255 SDL_BLENDMODE_NONE 7)
         sample_created_texture (mkRect 0 0 4 4)
         (mkFRect f32_zero f32_zero f32_one f32_one)
         (S754_finite false 4503599627370496 (-52))
         (mkFPoint f32_half f32_half) SDL_FLIP_HORIZONTAL
       = Some (0, cmd', vertex_data')
       /\ count cmd' = 1
       /\ length vertex_data' = (length (@nil GLfloat) + 11)%nat
       /\ SetCopyState sample_platform sample_renderer_with_texture
            (sample_renderdata true false)
            (mkDraw 0 0 255 255 255 255 SDL_BLENDMODE_NONE 7)
            (initial_cache sample_renderer_with_texture) = Some (c', k).
Proof.
  assert (H1 : alloc_ok sample_platform (Alloc_vertices 44) = true)
    by reflexivity.
  assert (H2 : driverdata sample_created_texture = Some sample_texturedata)
    by reflexivity.
  assert (H3 : textures sample_renderer_with_texture
                 (draw_texture (mkDraw 0 0 255 255 255 255 SDL_BLENDMODE_NONE 7))
               = Some sample_created_texture) by reflexivity.
  assert (H4 : texture_coordinates sample_created_texture sample_texturedata
                 (mkRect 0 0 4 4) = (f32_zero, f32_one, f32_zero, f32_one))
    by (vm_compute; reflexivity).
  split; [exact H1|]. split; [exact H2|]. split; [exact H3|].
  split; [exact H4|].
  destruct (QueueCopyEx_then_run sample_platform sample_renderer_with_texture
              (sample_renderdata true false) 480 []
              (mkDraw 0 0 255 255 255 255 SDL_BLENDMODE_NONE 7)
              sample_created_texture sample_texturedata (mkRect 0 0 4 4)
              (mkFRect f32_zero f32_zero f32_one f32_one)
              (S754_finite false 4503599627370496 (-52))
              (mkFPoint f32_half f32_half) SDL_FLIP_HORIZONTAL
              (initial_cache sample_renderer_with_texture)
              f32_zero f32_one f32_zero f32_one H1 H2 H3 H4)
    as (cmd' & vd' & c' & k & E & Hc & Hl & Hs & _).
  exists cmd', vd', c', k.
  split; [exact E|]. split; [exact Hc|]. split; [exact Hl|exact Hs].
Defined.

(** ** Whole runs of the executor *)

Lemma GL_RunCommandQueue_loop_app (P : Platform) (renderer : SDL_Renderer)
    (data : GL_RenderData) (vertices : list GLfloat) (drawableh : Z)
    (cmds1 cmds2 : list SDL_RenderCommand) :
  forall c,
    GL_RunCommandQueue_loop P renderer data vertices drawableh
      (cmds1 ++ cmds2) c
    = match GL_RunCommandQueue_loop P renderer data vertices drawableh
              cmds1 c with
      | None => None
      | Some (c1, k1) =>
          match GL_RunCommandQueue_loop P renderer data vertices drawableh
                  cmds2 c1 with
          | None => None
          | Some (c2, k2) => Some (c2, k1 ++ k2)
          end
      end.
Proof.
  induction cmds1 as [|cmd cmds1 IH]; intros c.
  - cbn [app GL_RunCommandQueue_loop].
    destruct (GL_RunCommandQueue_loop P renderer data vertices drawableh
                cmds2 c) as [[c2 k2]|]; reflexivity.
  - cbn [app GL_RunCommandQueue_loop].
    destruct (GL_RunCommandQueue_cmd P renderer data vertices drawableh cmd c)
      as [[c1 k1]|]; [|reflexivity].
    rewrite IH.
    destruct (GL_RunCommandQueue_loop P renderer data vertices drawableh
                cmds1 c1) as [[c2 k2]|]; [|reflexivity].
    destruct (GL_RunCommandQueue_loop P renderer data vertices drawableh
                cmds2 c2) as [[c3 k3]|]; [|reflexivity].
    now rewrite app_assoc.
Qed.

(** A property of the calls of every command is a property of the calls of
    a queue, when it is kept by concatenation. *)
Lemma GL_RunCommandQueue_loop_ind (P : Platform) (renderer : SDL_Renderer)
    (data : GL_RenderData) (vertices : list GLfloat) (drawableh : Z)
    (Q : list Call -> Prop) :
  Q [] ->
  (forall k1 k2, Q k1 -> Q k2 -> Q (k1 ++ k2)) ->
  (forall cmd c c' k,
     GL_RunCommandQueue_cmd P renderer data vertices drawableh cmd c
     = Some (c', k) -> Q k) ->
  forall cmds c c' k,
    GL_RunCommandQueue_loop P renderer data vertices drawableh cmds c
    = Some (c', k) -> Q k.
Proof.
  intros Hnil Happ Hcmd cmds.
  induction cmds as [|cmd cmds IH]; intros c c' k H;
    cbn [GL_RunCommandQueue_loop] in H.
  - inversion H; subst. exact Hnil.
  - destruct (GL_RunCommandQueue_cmd P renderer data vertices drawableh cmd c)
      as [[c1 k1]|] eqn:E1; [|discriminate].
    destruct (GL_RunCommandQueue_loop P renderer data vertices drawableh
                cmds c1) as [[c2 k2]|] eqn:E2; [|discriminate].
    inversion H; subst. apply Happ; eauto.
Qed.

Lemma well_bracketed_app (k1 k2 : list Call) :
  forall b,
    well_bracketed b k1 = true -> well_bracketed false k2 = true ->
    well_bracketed b (k1 ++ k2) = true.
Proof.
  induction k1 as [|c k1 IH]; intros b H1 H2.
  - destruct b; [discriminate H1|exact H2].
  - cbn [app well_bracketed] in *.
    destruct c; apply andb_prop in H1; destruct H1 as [Ha Hb];
      rewrite Ha; cbn [andb]; apply IH; assumption.
Qed.

Lemma well_bracketed_state_calls (k : list Call) :
  forallb (fun c => negb (is_block_call c)) k = true ->
  well_bracketed false k = true.
Proof.
  induction k as [|c k IH]; [reflexivity|].
  cbn [forallb]. intros H. apply andb_prop in H. destruct H as [Hc Hk].
  destruct c; try discriminate Hc; cbn [well_bracketed negb andb]; auto.
Qed.

Lemma emit_vertices_are_vertices (vertices : list GLfloat) (n : nat) :
  forall verts kv,
    emit_vertices vertices verts n = Some kv ->
    forallb is_glVertex2f kv = true.
Proof.
  induction n as [|n IH]; intros verts kv H; cbn [emit_vertices] in H.
  - inversion H; reflexivity.
  - destruct (read vertices verts); [|discriminate].
    destruct (read vertices (verts + 1)); [|discriminate].
    destruct (emit_vertices vertices (verts + 2) n) eqn:E; [|discriminate].
    inversion H; subst. cbn [forallb is_glVertex2f andb]. eapply IH; eauto.
Qed.

Lemma well_bracketed_vertices (kv rest : list Call) :
  forallb is_glVertex2f kv = true ->
  well_bracketed true (kv ++ rest) = well_bracketed true rest.
Proof.
  induction kv as [|c kv IH]; [reflexivity|].
  cbn [forallb]. intros H. apply andb_prop in H. destruct H as [Hc Hk].
  destruct c; try discriminate Hc. cbn [app well_bracketed andb]. auto.
Qed.

Lemma matrix_depth_app (k1 k2 : list Call) :
  forall d,
    matrix_depth d (k1 ++ k2)
    = match matrix_depth d k1 with
      | Some d1 => matrix_depth d1 k2
      | None => None
      end.
Proof.
  induction k1 as [|c k1 IH]; intros d; [reflexivity|].
  destruct c; cbn [app matrix_depth]; try apply IH.
  destruct d; [reflexivity|apply IH].
Qed.

Lemma matrix_depth_other_calls (k : list Call) :
  forallb (fun c => negb (is_matrix_stack_call c)) k = true ->
  forall d, matrix_depth d k = Some d.
Proof.
  induction k as [|c k IH]; [reflexivity|].
  cbn [forallb]. intros H d. apply andb_prop in H. destruct H as [Hc Hk].
  destruct c; try discriminate Hc; cbn [matrix_depth]; auto.
Qed.

Lemma forallb_weaken {A : Type} (f g : A -> bool) (l : list A) :
  (forall a, f a = true -> g a = true) ->
  forallb f l = true -> forallb g l = true.
Proof.
  intros Hfg H. rewrite forallb_forall in *. auto.
Qed.

Lemma vertices_no_matrix (k : list Call) :
  forallb is_glVertex2f k = true ->
  forallb (fun c => negb (is_matrix_stack_call c)) k = true.
Proof.
  apply forallb_weaken. intros []; cbn; congruence.
Qed.

Lemma state_calls_split (k : list Call) :
  forallb (fun x => negb (is_block_call x) && negb (is_matrix_stack_call x)) k
  = true ->
  forallb (fun c => negb (is_block_call c)) k = true
  /\ forallb (fun c => negb (is_matrix_stack_call c)) k = true.
Proof.
  intros H. split; revert H; apply forallb_weaken; intros a Ha;
    apply andb_prop in Ha; tauto.
Qed.

Lemma emit_rects_state_calls (vertices : list GLfloat) (n : nat) :
  forall verts k,
    emit_rects vertices verts n = Some k ->
    forallb (fun c => negb (is_block_call c) && negb (is_matrix_stack_call c)) k
    = true.
Proof.
  induction n as [|n IH]; intros verts k H; cbn [emit_rects] in H.
  - inversion H; reflexivity.
  - destruct (read vertices verts); [|discriminate].
    destruct (read vertices (verts + 1)); [|discriminate].
    destruct (read vertices (verts + 2)); [|discriminate].
    destruct (read vertices (verts + 3)); [|discriminate].
    destruct (emit_rects vertices (verts + 4) n) eqn:E; [|discriminate].
    inversion H; subst. cbn [forallb is_block_call is_matrix_stack_call negb andb].
    eapply IH; eauto.
Qed.

Lemma SetDrawState_state_calls (P : Platform) (data : GL_RenderData)
    (d : DrawCommand) (sh : GL_Shader) (c : StateCache) :
  forallb (fun x => negb (is_block_call x) && negb (is_matrix_stack_call x))
          (snd (SetDrawState P data d sh c)) = true.
Proof.
  unfold SetDrawState, SetDrawState_color, SetDrawState_blend,
    SetDrawState_shader, SetDrawState_texturing, glColor4f_bytes, color4.
  destruct (negb (pack_color (draw_r d) (draw_g d) (draw_b d) (draw_a d)
                  =? draw_color c));
  destruct (negb (draw_blend d =? blend c));
  destruct (draw_blend d =? 0);
  destruct (shaders data && negb (GL_Shader_eqb sh (shader c)));
  destruct (negb (Bool.eqb (negb (draw_texture d =? 0)) (texturing c)));
  destruct (draw_texture d =? 0); reflexivity.
Qed.

Lemma SetCopyState_state_calls (P : Platform) (renderer : SDL_Renderer)
    (data : GL_RenderData) (d : DrawCommand) (c c' : StateCache)
    (k : list Call) :
  SetCopyState P renderer data d c = Some (c', k) ->
  forallb (fun x => negb (is_block_call x) && negb (is_matrix_stack_call x)) k
  = true.
Proof.
  unfold SetCopyState. intros H.
  destruct (textures renderer (draw_texture d)) as [tex|]; [|discriminate].
  destruct (driverdata tex) as [texturedata|]; [|discriminate].
  pose proof (SetDrawState_state_calls P data d
                (SetCopyState_shader P data tex texturedata) c) as Hs.
  destruct (SetDrawState P data d
              (SetCopyState_shader P data tex texturedata) c) as [c1 k1].
  cbn [snd] in Hs.
  unfold SetCopyState_bind in H.
  destruct (negb (draw_texture d =? bound_texture c1));
    inversion H; subst; rewrite forallb_app, Hs; [|reflexivity].
  destruct (yuv texturedata), (nv12 texturedata); reflexivity.
Qed.

Lemma disciplined_app (k1 k2 : list Call) :
  well_bracketed false k1 = true /\ (forall d, matrix_depth d k1 = Some d) ->
  well_bracketed false k2 = true /\ (forall d, matrix_depth d k2 = Some d) ->
  well_bracketed false (k1 ++ k2) = true
  /\ (forall d, matrix_depth d (k1 ++ k2) = Some d).
Proof.
  intros [W1 M1] [W2 M2]. split.
  - now apply well_bracketed_app.
  - intros d. now rewrite matrix_depth_app, M1.
Qed.

Lemma disciplined_state_calls (k : list Call) :
  forallb (fun x => negb (is_block_call x) && negb (is_matrix_stack_call x)) k
  = true ->
  well_bracketed false k = true /\ (forall d, matrix_depth d k = Some d).
Proof.
  intros H. apply state_calls_split in H. destruct H as [H1 H2]. split.
  - now apply well_bracketed_state_calls.
  - now apply matrix_depth_other_calls.
Qed.

Lemma disciplined_block (mode : GLenum) (kv : list Call) :
  forallb is_glVertex2f kv = true ->
  well_bracketed false ([glBegin mode] ++ kv ++ [glEnd]) = true
  /\ (forall d, matrix_depth d ([glBegin mode] ++ kv ++ [glEnd]) = Some d).
Proof.
  intros H. split.
  - cbn [app well_bracketed negb andb]. now rewrite well_bracketed_vertices.
  - intros d. cbn [app matrix_depth]. rewrite matrix_depth_app.
    rewrite (matrix_depth_other_calls kv (vertices_no_matrix kv H)).
    reflexivity.
Qed.

Lemma GL_RunCommandQueue_cmd_disciplined (P : Platform)
    (renderer : SDL_Renderer) (data : GL_RenderData)
    (vertices : list GLfloat) (drawableh : Z) (cmd : SDL_RenderCommand)
    (c c' : StateCache) (k : list Call) :
  GL_RunCommandQueue_cmd P renderer data vertices drawableh cmd c
  = Some (c', k) ->
  well_bracketed false k = true /\ (forall d, matrix_depth d k = Some d).
Proof.
  intros H. destruct cmd as [|rect|enabled rect|r g b a|r g b a|d|d|d|d|d];
    cbn [GL_RunCommandQueue_cmd] in H.
  - inversion H; subst. split; reflexivity.
  - apply disciplined_state_calls.
    destruct (negb (SDL_Rect_eqb rect (viewport c))); inversion H; subst;
      [|reflexivity].
    unfold viewport_calls.
    destruct (negb (rw rect =? 0) && negb (rh rect =? 0)); reflexivity.
  - apply disciplined_state_calls.
    destruct (enabled && negb (SDL_Rect_eqb (cliprect c) rect));
      inversion H; subst;
      destruct (negb (Bool.eqb (cliprect_enabled c) enabled)), enabled;
      reflexivity.
  - inversion H; subst. split; reflexivity.
  - apply disciplined_state_calls.
    unfold glClearColor_bytes, color4 in H.
    destruct (negb (pack_color r g b a =? clear_color c));
      inversion H; subst; destruct (clipping_enabled renderer); reflexivity.
  - pose proof (SetDrawState_state_calls P data d SHADER_SOLID c) as Hs.
    destruct (SetDrawState P data d SHADER_SOLID c) as [c1 k1]. cbn [snd] in Hs.
    destruct (verts_of d) as [verts|]; [|discriminate].
    destruct (emit_vertices vertices verts (Z.to_nat (wrap_size_t (count d))))
      as [kv|] eqn:Ev; [|discriminate].
    inversion H; subst c' k. apply emit_vertices_are_vertices in Ev.
    apply disciplined_app; [now apply disciplined_state_calls|].
    now apply disciplined_block.
  - pose proof (SetDrawState_state_calls P data d SHADER_SOLID c) as Hs.
    destruct (SetDrawState P data d SHADER_SOLID c) as [c1 k1]. cbn [snd] in Hs.
    destruct (verts_of d) as [verts|]; [|discriminate].
    destruct (draw_lines P vertices verts (wrap_size_t (count d)))
      as [kl|] eqn:El; [|discriminate].
    inversion H; subst c' k.
    apply disciplined_app; [now apply disciplined_state_calls|].
    unfold draw_lines in El.
    destruct (closes_loop vertices verts (wrap_size_t (count d)))
      as [[|]|]; [| |discriminate].
    + destruct (emit_vertices vertices verts
                  (Z.to_nat (wrap_size_t (count d) - 1))) as [kv|] eqn:Ev;
        [|discriminate].
      inversion El; subst. apply emit_vertices_are_vertices in Ev.
      now apply disciplined_block.
    + destruct (emit_vertices vertices verts
                  (Z.to_nat (wrap_size_t (count d)))) as [kv|] eqn:Ev;
        [|discriminate].
      destruct (open_endpoint P vertices
                  (verts + 2 * wrap_size_t (count d))
                  (wrap_size_t (count d))) as [extra|] eqn:Ee;
        [|discriminate].
      inversion El; subst. apply emit_vertices_are_vertices in Ev.
      apply open_endpoint_vertices in Ee. destruct Ee as [Ee _].
      match goal with
      | |- well_bracketed false ?l = true /\ _ =>
          replace l
            with (([glBegin GL_LINE_STRIP] ++ kv ++ [glEnd])
                  ++ ([glBegin GL_POINTS] ++ extra ++ [glEnd]))
            by (cbn [app]; rewrite <- app_assoc; reflexivity)
      end.
      apply disciplined_app; now apply disciplined_block.
  - pose proof (SetDrawState_state_calls P data d SHADER_SOLID c) as Hs.
    destruct (SetDrawState P data d SHADER_SOLID c) as [c1 k1]. cbn [snd] in Hs.
    destruct (verts_of d) as [verts|]; [|discriminate].
    destruct (emit_rects vertices verts (Z.to_nat (wrap_size_t (count d))))
      as [kr|] eqn:Er; [|discriminate].
    inversion H; subst c' k. apply emit_rects_state_calls in Er.
    apply disciplined_app; now apply disciplined_state_calls.
  - destruct (verts_of d) as [verts|]; [|discriminate].
    destruct (read_n vertices verts 8)
      as [[|? [|? [|? [|? [|? [|? [|? [|? [|? ?]]]]]]]]]|]; try discriminate.
    destruct (SetCopyState P renderer data d c) as [[c1 k1]|] eqn:E;
      [|discriminate].
    inversion H; subst c' k. apply SetCopyState_state_calls in E.
    apply disciplined_app; [now apply disciplined_state_calls|].
    split; reflexivity.
  - destruct (verts_of d) as [verts|]; [|discriminate].
    destruct (read_n vertices verts 11)
      as [[|? [|? [|? [|? [|? [|? [|? [|? [|? [|? [|? [|? ?]]]]]]]]]]]]|];
      try discriminate.
    destruct (SetCopyState P renderer data d c) as [[c1 k1]|] eqn:E;
      [|discriminate].
    inversion H; subst c' k. apply SetCopyState_state_calls in E.
    apply disciplined_app; [now apply disciplined_state_calls|].
    split; reflexivity.
Qed.

(** Whatever the queue, the calls of a run of the executor keep the
    discipline of immediate mode: in the prologue and the commands together
    every [glBegin] is closed by a [glEnd] before the next one, vertices and
    texture coordinates are given only inside such a block and nothing else
    is called there; and every [glPushMatrix] is undone by a [glPopMatrix],
    so that the matrix stack is left at the depth it was found at. *)
Theorem GL_RunCommandQueue_keeps_discipline (P : Platform)
    (renderer : SDL_Renderer) (data : GL_RenderData)
    (vertices : list GLfloat) (drawableh : Z)
    (cmds : list SDL_RenderCommand) (c c' : StateCache) (k : list Call) :
  GL_RunCommandQueue_loop P renderer data vertices drawableh cmds c
  = Some (c', k) ->
  well_bracketed false (prologue renderer data drawableh ++ k) = true
  /\ (forall d,
        matrix_depth d (prologue renderer data drawableh ++ k) = Some d).
Proof.
  intros H. apply disciplined_app.
  - apply disciplined_state_calls. unfold prologue, viewport_calls.
    destruct (negb (rw (renderer_viewport renderer) =? 0)
              && negb (rh (renderer_viewport renderer) =? 0));
      destruct (clipping_enabled renderer); reflexivity.
  - revert cmds c c' k H.
    apply (GL_RunCommandQueue_loop_ind P renderer data vertices drawableh
             (fun k => well_bracketed false k = true
                       /\ (forall d, matrix_depth d k = Some d))).
    + split; reflexivity.
    + intros k1 k2. apply disciplined_app.
    + intros cmd c c' k.
      apply GL_RunCommandQueue_cmd_disciplined.
Qed.

Lemma GL_RunCommandQueue_keeps_discipline_witness :
  exists c' k,
    GL_RunCommandQueue_loop sample_platform sample_renderer_with_texture
      (sample_renderdata true false)
      [f32_zero; f32_zero; f32_one; f32_one; f32_zero; f32_one; f32_zero;
       f32_one; f32_half; f32_half; f32_zero; f32_zero; f32_zero]
      480
      [SDL_RENDERCMD_COPY_EX
         (mkDraw 0 1 255 255 255 255 SDL_BLENDMODE_NONE 7);
       SDL_RENDERCMD_DRAW_LINES
         (mkDraw 0 2 255 0 0 255 SDL_BLENDMODE_NONE 0)]
      (initial_cache sample_renderer_with_texture) = Some (c', k)
    /\ well_bracketed false
         (prologue sample_renderer_with_texture (sample_renderdata true false)
                   480 ++ k) = true
    /\ (forall d,
          matrix_depth d
            (prologue sample_renderer_with_texture
                      (sample_renderdata true false) 480 ++ k) = Some d).
Proof.
  pose (run := GL_RunCommandQueue_loop sample_platform
                 sample_renderer_with_texture (sample_renderdata true false)
                 [f32_zero; f32_zero; f32_one; f32_one; f32_zero; f32_one;
                  f32_zero; f32_one; f32_half; f32_half; f32_zero; f32_zero;
                  f32_zero]
                 480
                 [SDL_RENDERCMD_COPY_EX
                    (mkDraw 0 1 255 255 255 255 SDL_BLENDMODE_NONE 7);
                  SDL_RENDERCMD_DRAW_LINES
                    (mkDraw 0 2 255 0 0 255 SDL_BLENDMODE_NONE 0)]
                 (initial_cache sample_renderer_with_texture)).
  pose (c' := match run with
              | Some (c, _) => c
              | None => initial_cache sample_renderer_with_texture
              end).
  pose (k := match run with Some (_, k) => k | None => [] end).
  assert (Hrun : run = Some (c', k)) by (vm_compute; reflexivity).
  exists c', k. split; [exact Hrun|].
  exact (GL_RunCommandQueue_keeps_discipline sample_platform
           sample_renderer_with_texture (sample_renderdata true false) _ 480
           _ _ c' k Hrun).
Defined.

(** *** Shaders *)

Lemma SetDrawState_without_shaders (P : Platform) (data : GL_RenderData)
    (d : DrawCommand) (sh : GL_Shader) (c : StateCache) :
  shaders data = false ->
  shader (fst (SetDrawState P data d sh c)) = shader c
  /\ forallb (fun x => negb (is_shader_call x))
             (snd (SetDrawState P data d sh c)) = true.
Proof.
  intros Hs.
  unfold SetDrawState, SetDrawState_color, SetDrawState_blend,
    SetDrawState_shader, SetDrawState_texturing, glColor4f_bytes, color4.
  rewrite Hs. cbn [andb].
  destruct (negb (pack_color (draw_r d) (draw_g d) (draw_b d) (draw_a d)
                  =? draw_color c));
  destruct (negb (draw_blend d =? blend c));
  destruct (draw_blend d =? 0);
  destruct (negb (Bool.eqb (negb (draw_texture d =? 0)) (texturing c)));
  destruct (draw_texture d =? 0); split; reflexivity.
Qed.

Lemma SetCopyState_without_shaders (P : Platform) (renderer : SDL_Renderer)
    (data : GL_RenderData) (d : DrawCommand) (c c' : StateCache)
    (k : list Call) :
  shaders data = false ->
  SetCopyState P renderer data d c = Some (c', k) ->
  shader c' = shader c
  /\ forallb (fun x => negb (is_shader_call x)) k = true.
Proof.
  intros Hs H. unfold SetCopyState in H.
  destruct (textures renderer (draw_texture d)) as [tex|]; [|discriminate].
  destruct (driverdata tex) as [texturedata|]; [|discriminate].
  destruct (SetDrawState_without_shaders P data d
              (SetCopyState_shader P data tex texturedata) c Hs) as [H1 H2].
  destruct (SetDrawState P data d
              (SetCopyState_shader P data tex texturedata) c) as [c1 k1].
  cbn [fst snd] in H1, H2.
  unfold SetCopyState_bind in H.
  destruct (negb (draw_texture d =? bound_texture c1));
    inversion H; subst; cbn [shader]; (split; [exact H1|]);
    rewrite forallb_app, H2; [|reflexivity].
  destruct (yuv texturedata), (nv12 texturedata); reflexivity.
Qed.

Lemma geometry_no_shader (k : list Call) :
  Forall (fun x => is_geometry_call x = true) k ->
  forallb (fun x => negb (is_shader_call x)) k = true.
Proof.
  intros H. apply forallb_forall. rewrite Forall_forall in H.
  intros x Hx. specialize (H x Hx). destruct x; try discriminate H; reflexivity.
Qed.

Lemma GL_RunCommandQueue_cmd_without_shaders (P : Platform)
    (renderer : SDL_Renderer) (data : GL_RenderData)
    (vertices : list GLfloat) (drawableh : Z) (cmd : SDL_RenderCommand)
    (c c' : StateCache) (k : list Call) :
  shaders data = false ->
  GL_RunCommandQueue_cmd P renderer data vertices drawableh cmd c
  = Some (c', k) ->
  shader c' = shader c
  /\ forallb (fun x => negb (is_shader_call x)) k = true.
Proof.
  intros Hs H. destruct cmd as [|rect|enabled rect|r g b a|r g b a|d|d|d|d|d];
    cbn [GL_RunCommandQueue_cmd] in H.
  - inversion H; subst. split; reflexivity.
  - destruct (negb (SDL_Rect_eqb rect (viewport c))); inversion H; subst;
      (split; [reflexivity|]); [|reflexivity].
    unfold viewport_calls.
    destruct (negb (rw rect =? 0) && negb (rh rect =? 0)); reflexivity.
  - destruct (enabled && negb (SDL_Rect_eqb (cliprect c) rect));
      inversion H; subst; (split; [reflexivity|]);
      destruct (negb (Bool.eqb (cliprect_enabled c) enabled)), enabled;
      reflexivity.
  - inversion H; subst. split; reflexivity.
  - unfold glClearColor_bytes, color4 in H.
    destruct (negb (pack_color r g b a =? clear_color c));
      inversion H; subst; (split; [reflexivity|]);
      destruct (clipping_enabled renderer); reflexivity.
  - destruct (SetDrawState_without_shaders P data d SHADER_SOLID c Hs)
      as [H1 H2].
    destruct (SetDrawState P data d SHADER_SOLID c) as [c1 k1].
    cbn [fst snd] in H1, H2.
    destruct (verts_of d) as [verts|]; [|discriminate].
    destruct (emit_vertices vertices verts (Z.to_nat (wrap_size_t (count d))))
      as [kv|] eqn:Ev; [|discriminate].
    inversion H; subst c' k. split; [exact H1|].
    apply emit_vertices_geometry in Ev.
    rewrite forallb_app, H2. apply geometry_no_shader. all_geometry.
  - destruct (SetDrawState_without_shaders P data d SHADER_SOLID c Hs)
      as [H1 H2].
    destruct (SetDrawState P data d SHADER_SOLID c) as [c1 k1].
    cbn [fst snd] in H1, H2.
    destruct (verts_of d) as [verts|]; [|discriminate].
    destruct (draw_lines P vertices verts (wrap_size_t (count d)))
      as [kl|] eqn:El; [|discriminate].
    inversion H; subst c' k. split; [exact H1|].
    apply draw_lines_geometry in El.
    rewrite forallb_app, H2. now apply geometry_no_shader.
  - destruct (SetDrawState_without_shaders P data d SHADER_SOLID c Hs)
      as [H1 H2].
    destruct (SetDrawState P data d SHADER_SOLID c) as [c1 k1].
    cbn [fst snd] in H1, H2.
    destruct (verts_of d) as [verts|]; [|discriminate].
    destruct (emit_rects vertices verts (Z.to_nat (wrap_size_t (count d))))
      as [kr|] eqn:Er; [|discriminate].
    inversion H; subst c' k. split; [exact H1|].
    apply emit_rects_geometry in Er.
    rewrite forallb_app, H2. now apply geometry_no_shader.
  - destruct (verts_of d) as [verts|]; [|discriminate].
    destruct (read_n vertices verts 8)
      as [[|? [|? [|? [|? [|? [|? [|? [|? [|? ?]]]]]]]]]|]; try discriminate.
    destruct (SetCopyState P renderer data d c) as [[c1 k1]|] eqn:E;
      [|discriminate].
    inversion H; subst c' k.
    destruct (SetCopyState_without_shaders P renderer data d c c1 k1 Hs E)
      as [H1 H2].
    split; [exact H1|]. rewrite forallb_app, H2. reflexivity.
  - destruct (verts_of d) as [verts|]; [|discriminate].
    destruct (read_n vertices verts 11)
      as [[|? [|? [|? [|? [|? [|? [|? [|? [|? [|? [|? [|? ?]]]]]]]]]]]]|];
      try discriminate.
    destruct (SetCopyState P renderer data d c) as [[c1 k1]|] eqn:E;
      [|discriminate].
    inversion H; subst c' k.
    destruct (SetCopyState_without_shaders P renderer data d c c1 k1 Hs E)
      as [H1 H2].
    split; [exact H1|]. rewrite forallb_app, H2. reflexivity.
Qed.

(** On a renderer without a shader context ([data->shaders] null) a run of
    the executor never calls [GL_SelectShader], whatever the queue holds,
    YUV textures included, and the cached shader stays what it was. *)
Theorem run_without_shaders_selects_none (P : Platform)
    (renderer : SDL_Renderer) (data : GL_RenderData)
    (vertices : list GLfloat) (drawableh : Z)
    (cmds : list SDL_RenderCommand) :
  shaders data = false ->
  forall (c c' : StateCache) (k : list Call),
    GL_RunCommandQueue_loop P renderer data vertices drawableh cmds c
    = Some (c', k) ->
    shader c' = shader c
    /\ count_calls is_shader_call (prologue renderer data drawableh ++ k)
       = 0%nat.
Proof.
  intros Hs.
  induction cmds as [|cmd cmds IH]; intros c c' k H;
    cbn [GL_RunCommandQueue_loop] in H.
  - inversion H; subst. split; [reflexivity|].
    unfold prologue, viewport_calls.
    destruct (negb (rw (renderer_viewport renderer) =? 0)
              && negb (rh (renderer_viewport renderer) =? 0));
      destruct (clipping_enabled renderer); reflexivity.
  - destruct (GL_RunCommandQueue_cmd P renderer data vertices drawableh cmd c)
      as [[c1 k1]|] eqn:E1; [|discriminate].
    destruct (GL_RunCommandQueue_loop P renderer data vertices drawableh
                cmds c1) as [[c2 k2]|] eqn:E2; [|discriminate].
    inversion H; subst c' k.
    destruct (GL_RunCommandQueue_cmd_without_shaders _ _ _ _ _ _ _ _ _ Hs E1)
      as [S1 F1].
    destruct (IH c1 c2 k2 E2) as [S2 F2].
    split; [congruence|].
    rewrite count_calls_app in *. 
    assert (Hk1 : count_calls is_shader_call k1 = 0%nat).
    { unfold count_calls. clear - F1.
      induction k1 as [|x k1 IHk]; [reflexivity|].
      cbn [forallb] in F1. apply andb_prop in F1. destruct F1 as [Hx Hr].
      cbn [filter]. apply Bool.negb_true_iff in Hx. rewrite Hx. auto. }
    rewrite count_calls_app, Hk1. lia.
Qed.

Lemma run_without_shaders_selects_none_witness :
  shaders (mkRenderData 1 false false [] GL_TEXTURE_2D true false true []
                        false) = false
  /\ exists c' k,
       GL_RunCommandQueue_loop sample_platform sample_renderer_with_texture
         (mkRenderData 1 false false [] GL_TEXTURE_2D true false true [] false)
         [f32_zero; f32_zero; f32_one; f32_one; f32_zero; f32_one; f32_zero;
          f32_one]
         480
         [SDL_RENDERCMD_COPY (mkDraw 0 1 255 255 255 255 SDL_BLENDMODE_NONE 7)]
         (initial_cache sample_renderer_with_texture) = Some (c', k)
       /\ shader c' = shader (initial_cache sample_renderer_with_texture)
       /\ count_calls is_shader_call
            (prologue sample_renderer_with_texture
               (mkRenderData 1 false false [] GL_TEXTURE_2D true false true []
                             false) 480 ++ k) = 0%nat.
Proof.
  pose (data := mkRenderData 1 false false [] GL_TEXTURE_2D true false true []
                             false).
  assert (Hs : shaders data = false) by reflexivity.
  split; [exact Hs|].
  pose (run := GL_RunCommandQueue_loop sample_platform
                 sample_renderer_with_texture data
                 [f32_zero; f32_zero; f32_one; f32_one; f32_zero; f32_one;
                  f32_zero; f32_one]
                 480
                 [SDL_RENDERCMD_COPY
                    (mkDraw 0 1 255 255 255 255 SDL_BLENDMODE_NONE 7)]
                 (initial_cache sample_renderer_with_texture)).
  pose (c' := match run with
              | Some (c, _) => c
              | None => initial_cache sample_renderer_with_texture
              end).
  pose (k := match run with Some (_, k) => k | None => [] end).
  assert (Hrun : run = Some (c', k)) by (vm_compute; reflexivity).
  exists c', k. split; [exact Hrun|].
  exact (run_without_shaders_selects_none sample_platform
           sample_renderer_with_texture data _ 480 _ Hs
           (initial_cache sample_renderer_with_texture) c' k Hrun).
Defined.

(** *** The scissor test *)

Lemma scissor_test_after_app (b : bool) (k1 k2 : list Call) :
  scissor_test_after b (k1 ++ k2)
  = scissor_test_after (scissor_test_after b k1) k2.
Proof. apply fold_left_app. Qed.

Lemma scissor_test_untouched (k : list Call) :
  forallb (fun c => match c with
                    | glEnable cap | glDisable cap =>
                        negb (cap =? GL_SCISSOR_TEST)
                    | _ => true
                    end) k = true ->
  forall b, scissor_test_after b k = b.
Proof.
  induction k as [|c k IH]; [reflexivity|].
  cbn [forallb]. intros H b. apply andb_prop in H. destruct H as [Hc Hk].
  unfold scissor_test_after in *. cbn [fold_left].
  destruct c; try apply (IH Hk);
    apply Bool.negb_true_iff in Hc; rewrite Hc; apply (IH Hk).
Qed.

Lemma geometry_no_scissor (k : list Call) :
  Forall (fun x => is_geometry_call x = true) k ->
  forall b, scissor_test_after b k = b.
Proof.
  intros H. apply scissor_test_untouched. apply forallb_forall.
  rewrite Forall_forall in H. intros x Hx. specialize (H x Hx).
  destruct x; try discriminate H; reflexivity.
Qed.

Lemma SetDrawState_no_scissor (P : Platform) (data : GL_RenderData)
    (d : DrawCommand) (sh : GL_Shader) (c : StateCache) :
  valid_textype data ->
  cliprect_enabled (fst (SetDrawState P data d sh c)) = cliprect_enabled c
  /\ forall b, scissor_test_after b (snd (SetDrawState P data d sh c)) = b.
Proof.
  intros Htt.
  unfold SetDrawState, SetDrawState_color, SetDrawState_blend,
    SetDrawState_shader, SetDrawState_texturing, glColor4f_bytes, color4.
  destruct (negb (pack_color (draw_r d) (draw_g d) (draw_b d) (draw_a d)
                  =? draw_color c));
  destruct (negb (draw_blend d =? blend c));
  destruct (draw_blend d =? 0);
  destruct (shaders data && negb (GL_Shader_eqb sh (shader c)));
  destruct (negb (Bool.eqb (negb (draw_texture d =? 0)) (texturing c)));
  destruct (draw_texture d =? 0);
  (split; [reflexivity|]); intros b;
  try reflexivity; destruct Htt as [E|E]; rewrite E; reflexivity.
Qed.

Lemma SetCopyState_no_scissor (P : Platform) (renderer : SDL_Renderer)
    (data : GL_RenderData) (d : DrawCommand) (c c' : StateCache)
    (k : list Call) :
  valid_textype data ->
  SetCopyState P renderer data d c = Some (c', k) ->
  cliprect_enabled c' = cliprect_enabled c
  /\ forall b, scissor_test_after b k = b.
Proof.
  intros Htt H. unfold SetCopyState in H.
  destruct (textures renderer (draw_texture d)) as [tex|]; [|discriminate].
  destruct (driverdata tex) as [texturedata|]; [|discriminate].
  destruct (SetDrawState_no_scissor P data d
              (SetCopyState_shader P data tex texturedata) c Htt) as [H1 H2].
  destruct (SetDrawState P data d
              (SetCopyState_shader P data tex texturedata) c) as [c1 k1].
  cbn [fst snd] in H1, H2.
  unfold SetCopyState_bind in H.
  destruct (negb (draw_texture d =? bound_texture c1));
    inversion H; subst; cbn [cliprect_enabled]; (split; [exact H1|]);
    intros b; rewrite scissor_test_after_app, H2; [|reflexivity].
  destruct (yuv texturedata), (nv12 texturedata); reflexivity.
Qed.

Lemma GL_RunCommandQueue_cmd_scissor (P : Platform)
    (renderer : SDL_Renderer) (data : GL_RenderData)
    (vertices : list GLfloat) (drawableh : Z) (cmd : SDL_RenderCommand)
    (c c' : StateCache) (k : list Call) :
  valid_textype data ->
  is_clear cmd = false \/ clipping_enabled renderer = false ->
  GL_RunCommandQueue_cmd P renderer data vertices drawableh cmd c
  = Some (c', k) ->
  scissor_test_after (cliprect_enabled c) k = cliprect_enabled c'.
Proof.
  intros Htt Hclear H.
  destruct cmd as [|rect|enabled rect|r g b a|r g b a|d|d|d|d|d];
    cbn [GL_RunCommandQueue_cmd] in H.
  - inversion H; subst. reflexivity.
  - destruct (negb (SDL_Rect_eqb rect (viewport c))); inversion H; subst;
      [|reflexivity].
    unfold viewport_calls.
    destruct (negb (rw rect =? 0) && negb (rh rect =? 0)); reflexivity.
  - destruct (enabled && negb (SDL_Rect_eqb (cliprect c) rect));
      inversion H; subst; cbn [cliprect_enabled set_cliprect];
      destruct (cliprect_enabled c), enabled; reflexivity.
  - inversion H; subst. reflexivity.
  - destruct Hclear as [Hc|Hc]; [discriminate Hc|]. rewrite Hc in H.
    unfold glClearColor_bytes, color4 in H.
    destruct (negb (pack_color r g b a =? clear_color c));
      inversion H; subst; reflexivity.
  - destruct (SetDrawState_no_scissor P data d SHADER_SOLID c Htt) as [H1 H2].
    destruct (SetDrawState P data d SHADER_SOLID c) as [c1 k1].
    cbn [fst snd] in H1, H2.
    destruct (verts_of d) as [verts|]; [|discriminate].
    destruct (emit_vertices vertices verts (Z.to_nat (wrap_size_t (count d))))
      as [kv|] eqn:Ev; [|discriminate].
    inversion H; subst c' k. apply emit_vertices_geometry in Ev.
    rewrite scissor_test_after_app, H2, H1.
    apply geometry_no_scissor. all_geometry.
  - destruct (SetDrawState_no_scissor P data d SHADER_SOLID c Htt) as [H1 H2].
    destruct (SetDrawState P data d SHADER_SOLID c) as [c1 k1].
    cbn [fst snd] in H1, H2.
    destruct (verts_of d) as [verts|]; [|discriminate].
    destruct (draw_lines P vertices verts (wrap_size_t (count d)))
      as [kl|] eqn:El; [|discriminate].
    inversion H; subst c' k. apply draw_lines_geometry in El.
    rewrite scissor_test_after_app, H2, H1.
    now apply geometry_no_scissor.
  - destruct (SetDrawState_no_scissor P data d SHADER_SOLID c Htt) as [H1 H2].
    destruct (SetDrawState P data d SHADER_SOLID c) as [c1 k1].
    cbn [fst snd] in H1, H2.
    destruct (verts_of d) as [verts|]; [|discriminate].
    destruct (emit_rects vertices verts (Z.to_nat (wrap_size_t (count d))))
      as [kr|] eqn:Er; [|discriminate].
    inversion H; subst c' k. apply emit_rects_geometry in Er.
    rewrite scissor_test_after_app, H2, H1.
    now apply geometry_no_scissor.
  - destruct (verts_of d) as [verts|]; [|discriminate].
    destruct (read_n vertices verts 8)
      as [[|? [|? [|? [|? [|? [|? [|? [|? [|? ?]]]]]]]]]|]; try discriminate.
    destruct (SetCopyState P renderer data d c) as [[c1 k1]|] eqn:E;
      [|discriminate].
    inversion H; subst c' k.
    destruct (SetCopyState_no_scissor P renderer data d c c1 k1 Htt E)
      as [H1 H2].
    rewrite scissor_test_after_app, H2, H1. reflexivity.
  - destruct (verts_of d) as [verts|]; [|discriminate].
    destruct (read_n vertices verts 11)
      as [[|? [|? [|? [|? [|? [|? [|? [|? [|? [|? [|? [|? ?]]]]]]]]]]]]|];
      try discriminate.
    destruct (SetCopyState P renderer data d c) as [[c1 k1]|] eqn:E;
      [|discriminate].
    inversion H; subst c' k.
    destruct (SetCopyState_no_scissor P renderer data d c c1 k1 Htt E)
      as [H1 H2].
    rewrite scissor_test_after_app, H2, H1. reflexivity.
Qed.

(** In a run whose queue holds no Clear command, or that is entered with
    [renderer->clipping_enabled] false, the cached [cliprect_enabled] tells
    the truth: after the prologue and any number of commands the scissor
    test is enabled exactly when the cache says so, whatever its state was
    before the run. *)
Theorem scissor_test_follows_cache (P : Platform) (renderer : SDL_Renderer)
    (data : GL_RenderData) (vertices : list GLfloat) (drawableh : Z)
    (cmds : list SDL_RenderCommand) (c' : StateCache) (k : list Call)
    (before : bool) :
  valid_textype data ->
  forallb (fun cmd => negb (is_clear cmd)) cmds = true
  \/ clipping_enabled renderer = false ->
  GL_RunCommandQueue_loop P renderer data vertices drawableh cmds
    (initial_cache renderer) = Some (c', k) ->
  scissor_test_after before (prologue renderer data drawableh ++ k)
  = cliprect_enabled c'.
Proof.
  intros Htt Hclear H.
  rewrite scissor_test_after_app.
  assert (Hp : scissor_test_after before (prologue renderer data drawableh)
               = cliprect_enabled (initial_cache renderer)).
  { unfold prologue, viewport_calls, initial_cache. cbn [cliprect_enabled].
    destruct (negb (rw (renderer_viewport renderer) =? 0)
              && negb (rh (renderer_viewport renderer) =? 0));
      destruct (clipping_enabled renderer);
      destruct Htt as [E|E]; rewrite E; reflexivity. }
  rewrite Hp. clear Hp. revert H.
  generalize (initial_cache renderer) as c. revert c' k.
  induction cmds as [|cmd cmds IH]; intros c' k c H;
    cbn [GL_RunCommandQueue_loop] in H.
  - inversion H; subst. reflexivity.
  - destruct (GL_RunCommandQueue_cmd P renderer data vertices drawableh cmd c)
      as [[c1 k1]|] eqn:E1; [|discriminate].
    destruct (GL_RunCommandQueue_loop P renderer data vertices drawableh
                cmds c1) as [[c2 k2]|] eqn:E2; [|discriminate].
    inversion H; subst c' k.
    rewrite scissor_test_after_app.
    rewrite (GL_RunCommandQueue_cmd_scissor P renderer data vertices drawableh
               cmd c c1 k1 Htt); [| |exact E1].
    + apply IH; [|exact E2].
      destruct Hclear as [Hc|Hc]; [left|right; exact Hc].
      cbn [forallb] in Hc. apply andb_prop in Hc. tauto.
    + destruct Hclear as [Hc|Hc]; [left|right; exact Hc].
      cbn [forallb] in Hc. apply andb_prop in Hc.
      destruct Hc as [Hc _]. now apply Bool.negb_true_iff in Hc.
Qed.

Lemma scissor_test_follows_cache_witness :
  valid_textype (sample_renderdata false false)
  /\ exists c' k,
       GL_RunCommandQueue_loop sample_platform (sample_renderer 0 false)
         (sample_renderdata false false)
         [f32_zero; f32_zero; f32_one; f32_one] 480
         [SDL_RENDERCMD_SETCLIPRECT true (mkRect 10 10 100 100);
          SDL_RENDERCMD_FILL_RECTS
            (mkDraw 0 1 255 0 0 255 SDL_BLENDMODE_NONE 0)]
         (initial_cache (sample_renderer 0 false)) = Some (c', k)
       /\ scissor_test_after false
            (prologue (sample_renderer 0 false) (sample_renderdata false false)
                      480 ++ k)
          = cliprect_enabled c'.
Proof.
  assert (Htt : valid_textype (sample_renderdata false false))
    by (left; reflexivity).
  split; [exact Htt|].
  pose (cmds := [SDL_RENDERCMD_SETCLIPRECT true (mkRect 10 10 100 100);
                 SDL_RENDERCMD_FILL_RECTS
                   (mkDraw 0 1 255 0 0 255 SDL_BLENDMODE_NONE 0)]).
  pose (run := GL_RunCommandQueue_loop sample_platform (sample_renderer 0 false)
                 (sample_renderdata false false)
                 [f32_zero; f32_zero; f32_one; f32_one] 480 cmds
                 (initial_cache (sample_renderer 0 false))).
  pose (c' := match run with
              | Some (c, _) => c
              | None => initial_cache (sample_renderer 0 false)
              end).
  pose (k := match run with Some (_, k) => k | None => [] end).
  assert (Hrun : run = Some (c', k)) by (vm_compute; reflexivity).
  exists c', k. split; [exact Hrun|].
  exact (scissor_test_follows_cache sample_platform (sample_renderer 0 false)
           (sample_renderdata false false) _ 480 cmds c' k false Htt
           (or_introl eq_refl) Hrun).
Defined.

(** *** Commands that only set state *)

Lemma SDL_Rect_eqb_refl (r : SDL_Rect) : SDL_Rect_eqb r r = true.
Proof. unfold SDL_Rect_eqb. now rewrite !Z.eqb_refl. Qed.

(** SetViewport and SetClipRect are idempotent: the same command run a
    second time makes no call and leaves the cache as it is.  A second
    Clear with the same colour clears again without a [glClearColor]. *)
Theorem state_commands_are_idempotent (P : Platform)
    (renderer : SDL_Renderer) (data : GL_RenderData)
    (vertices : list GLfloat) (drawableh : Z) (cmd : SDL_RenderCommand)
    (c c1 : StateCache) (k1 : list Call) :
  GL_RunCommandQueue_cmd P renderer data vertices drawableh cmd c
  = Some (c1, k1) ->
  match cmd with
  | SDL_RENDERCMD_SETVIEWPORT _ | SDL_RENDERCMD_SETCLIPRECT _ _ =>
      GL_RunCommandQueue_cmd P renderer data vertices drawableh cmd c1
      = Some (c1, [])
  | SDL_RENDERCMD_CLEAR _ _ _ _ =>
      exists k2,
        GL_RunCommandQueue_cmd P renderer data vertices drawableh cmd c1
        = Some (c1, k2)
        /\ count_calls is_glClearColor k2 = 0%nat
        /\ In (glClear GL_COLOR_BUFFER_BIT) k2
  | _ => True
  end.
Proof.
  intros H. destruct cmd as [|rect|enabled rect|r g b a|r g b a|d|d|d|d|d];
    try exact I; cbn [GL_RunCommandQueue_cmd] in *.
  - destruct (negb (SDL_Rect_eqb rect (viewport c))) eqn:E;
      inversion H; subst; cbn [viewport set_viewport].
    + now rewrite SDL_Rect_eqb_refl.
    + now rewrite E.
  - destruct (enabled && negb (SDL_Rect_eqb (cliprect c) rect)) eqn:E;
      inversion H; subst; cbn [cliprect cliprect_enabled set_cliprect].
    + rewrite SDL_Rect_eqb_refl, Bool.eqb_reflx. cbn [negb andb].
      now rewrite andb_false_r.
    + rewrite E, Bool.eqb_reflx. reflexivity.
  - unfold glClearColor_bytes, color4 in *.
    destruct (negb (pack_color r g b a =? clear_color c)) eqn:E;
      inversion H; subst; cbn [clear_color set_clear_color];
      rewrite ?Z.eqb_refl, ?E; cbn [negb]; eexists;
      (split; [reflexivity|]);
      destruct (clipping_enabled renderer); cbn; auto.
Qed.

Lemma state_commands_are_idempotent_witness :
  exists c1 k1,
    GL_RunCommandQueue_cmd sample_platform (sample_renderer 0 false)
      (sample_renderdata false false) [] 480
      (SDL_RENDERCMD_SETCLIPRECT true (mkRect 10 10 100 100))
      (initial_cache (sample_renderer 0 false)) = Some (c1, k1)
    /\ k1 = [glEnable GL_SCISSOR_TEST; glScissor 10 370 100 100]
    /\ GL_RunCommandQueue_cmd sample_platform (sample_renderer 0 false)
         (sample_renderdata false false) [] 480
         (SDL_RENDERCMD_SETCLIPRECT true (mkRect 10 10 100 100)) c1
       = Some (c1, []).
Proof.
  pose (cmd := SDL_RENDERCMD_SETCLIPRECT true (mkRect 10 10 100 100)).
  pose (run := GL_RunCommandQueue_cmd sample_platform (sample_renderer 0 false)
                 (sample_renderdata false false) [] 480 cmd
                 (initial_cache (sample_renderer 0 false))).
  pose (c1 := match run with
              | Some (c, _) => c
              | None => initial_cache (sample_renderer 0 false)
              end).
  pose (k1 := match run with Some (_, k) => k | None => [] end).
  assert (Hrun : run = Some (c1, k1)) by (vm_compute; reflexivity).
  exists c1, k1. split; [exact Hrun|]. split; [vm_compute; reflexivity|].
  exact (state_commands_are_idempotent sample_platform (sample_renderer 0 false)
           (sample_renderdata false false) [] 480 cmd
           (initial_cache (sample_renderer 0 false)) c1 k1 Hrun).
Defined.

(** *** The entry point *)

Lemma calls_log (P : Platform) (l : list Call) (s : GLState) :
  exists s', calls P l s = Some (tt, s') /\ log s' = log s ++ l.
Proof.
  destruct (calls_total P l s) as [s' E]. exists s'. split; [exact E|].
  apply calls_step in E. apply E.
Qed.

(** [GL_RunCommandQueue] makes no OpenGL call when the context cannot be
    made current: it returns -1 in the state [GL_ActivateRenderer] has left,
    whatever the queue holds, without reading a vertex.  Otherwise it makes
    the calls of the prologue and of the commands, in this order, then
    checks for errors, and returns 0 or -1. *)
Theorem GL_RunCommandQueue_entry (P : Platform) (renderer : SDL_Renderer)
    (cmds : list SDL_RenderCommand) (vertices : list GLfloat) (s : GLState) :
  exists r0 s0,
    GL_ActivateRenderer P s = Some (r0, s0)
    /\ (r0 = -1 <->
        current_context s <> context (renderdata s)
        /\ make_current_ok P = false)
    /\ (r0 = -1 ->
        GL_RunCommandQueue P renderer cmds vertices s = Some (-1, s0)
        /\ log s0 = log s ++ [SDL_GL_MakeCurrent (context (renderdata s))])
    /\ (r0 <> -1 ->
        forall c' k,
          GL_RunCommandQueue_loop P renderer (renderdata s0) vertices
            (if negb (target renderer =? 0) then 0
             else snd (drawable renderer))
            cmds (initial_cache renderer) = Some (c', k) ->
          exists r s' n,
            GL_RunCommandQueue P renderer cmds vertices s = Some (r, s')
            /\ (r = 0 \/ r = -1)
            /\ log s'
               = log s0
                 ++ prologue renderer (renderdata s0)
                      (if negb (target renderer =? 0) then 0
                       else snd (drawable renderer))
                 ++ k ++ repeat glGetError n).
Proof.
  destruct (GL_ActivateRenderer_outcome P s)
    as (r0 & s0 & k0 & E0 & L0 & Hiff & Hfail & Hok).
  exists r0, s0. split; [exact E0|]. split; [exact Hiff|].
  unfold GL_RunCommandQueue. split.
  - intros ->. destruct (Hfail eq_refl) as [_ ->].
    split; [|exact L0].
    unfold bind at 1. rewrite E0. reflexivity.
  - intros Hr. destruct (Hok Hr) as (-> & _).
    intros c' k Hloop.
    unfold bind at 1. rewrite E0. cbv beta iota.
    cbn [Z.ltb Z.compare].
    unfold bind at 1. unfold get_data at 1. cbv beta iota zeta.
    destruct (calls_log P
                (prologue renderer (renderdata s0)
                   (if negb (target renderer =? 0) then 0
                    else snd (drawable renderer))) s0) as (s1 & E1 & L1).
    unfold bind at 1. rewrite E1. cbv beta iota.
    rewrite Hloop.
    destruct (calls_log P k s1) as (s2 & E2 & L2).
    unfold bind at 1. rewrite E2. cbv beta iota.
    destruct (GL_CheckError_effect s2) as (r & s3 & E3 & _ & _ & Hr3 & _).
    destruct (GL_CheckError_step _ _ _ E3) as (n & [L3 _]).
    exists r, s3, n. split; [exact E3|]. split; [exact Hr3|].
    rewrite L3, L2, L1. now rewrite <- !app_assoc.
Qed.

(** *** An open polyline at the end of the vertex data *)

Lemma read_past_end (vertices : list GLfloat) (i : Z) :
  Z.of_nat (length vertices) <= i -> read vertices i = None.
Proof.
  intros H. unfold read. destruct (Z.ltb_spec i 0); [reflexivity|].
  apply nth_error_None. lia.
Qed.

(** The extra point of a line strip is looked for past the command's own
    vertices: for a DrawLines command that [GL_QueueDrawPoints] has queued
    last in the vertex data, and that is not drawn as a loop, the executor
    reads a vertex at an index past the end of the queued data (the run has
    no result in the model), on every platform. *)
Theorem open_polyline_queued_last_reads_past_the_end (P : Platform)
    (renderer : SDL_Renderer) (data : GL_RenderData) (drawableh : Z)
    (vertex_data : list GLfloat) (cmd : DrawCommand)
    (points : list SDL_FPoint) (c : StateCache) :
  (0 < length points)%nat ->
  Z.of_nat (length points) < 2 ^ 30 ->
  alloc_ok P (Alloc_vertices (8 * Z.of_nat (length points))) = true ->
  (2 <? Z.of_nat (length points))
  && coincide (first_vertex (map snapped points))
              (last_vertex (map snapped points)) = false ->
  exists cmd' vertex_data',
    GL_QueueDrawPoints P vertex_data cmd points = (0, cmd', vertex_data')
    /\ GL_RunCommandQueue_cmd P renderer data vertex_data' drawableh
         (SDL_RENDERCMD_DRAW_LINES cmd') c = None.
Proof.
  intros Hpos Hcount Halloc Hopen.
  eexists; eexists.
  split; [exact (GL_QueueDrawPoints_appends P vertex_data cmd points
                   Hcount Halloc)|].
  cbn [GL_RunCommandQueue_cmd].
  destruct (SetDrawState P data
              (with_first_count cmd (4 * Z.of_nat (length vertex_data))
                 (Z.of_nat (length points))) SHADER_SOLID c) as [c1 k1].
  rewrite verts_of_aligned. cbn [count with_first_count].
  rewrite wrap_size_t_small by lia.
  set (pts := map snapped points) in *.
  assert (Hlen : length pts = length points) by apply length_map.
  assert (Hq : read_n (vertex_data ++ snapped_vertices points)
                 (Z.of_nat (length vertex_data)) (2 * length pts)
               = Some (flat_vertices pts)).
  { unfold pts. rewrite <- snapped_vertices_flat.
    replace (2 * length (map snapped points))%nat
      with (length (snapped_vertices points))
      by (rewrite snapped_vertices_length, length_map; reflexivity).
    pose proof (read_n_app (snapped_vertices points) vertex_data []) as H.
    now rewrite app_nil_r in H. }
  unfold draw_lines. rewrite <- Hlen.
  rewrite (closes_loop_queued _ pts _ Hq).
  rewrite Hlen, Hopen, <- Hlen, Nat2Z.id.
  rewrite (emit_vertices_queued _ pts _ Hq).
  assert (Hend : Z.of_nat (length (vertex_data ++ snapped_vertices points))
                 = Z.of_nat (length vertex_data) + 2 * Z.of_nat (length pts)).
  { rewrite length_app, snapped_vertices_length, Hlen. lia. }
  unfold open_endpoint, read_int.
  destruct (MACOSX P || WIN32 P).
  - rewrite read_past_end by lia. reflexivity.
  - rewrite read_past_end by lia. reflexivity.
Qed.

Lemma open_polyline_queued_last_reads_past_the_end_witness :
  (0 < length [mkFPoint f32_zero f32_zero; mkFPoint f32_one f32_zero])%nat
  /\ exists cmd' vertex_data',
       GL_QueueDrawPoints sample_platform []
         (mkDraw 0 0 255 0 0 255 SDL_BLENDMODE_NONE 0)
         [mkFPoint f32_zero f32_zero; mkFPoint f32_one f32_zero]
       = (0, cmd', vertex_data')
       /\ GL_RunCommandQueue_cmd sample_platform (sample_renderer 0 false)
            (sample_renderdata false false) vertex_data' 480
            (SDL_RENDERCMD_DRAW_LINES cmd')
            (initial_cache (sample_renderer 0 false)) = None.
Proof.
  assert (H1 : (0 < length [mkFPoint f32_zero f32_zero;
                            mkFPoint f32_one f32_zero])%nat) by (cbn; lia).
  split; [exact H1|].
  exact (open_polyline_queued_last_reads_past_the_end sample_platform
           (sample_renderer 0 false) (sample_renderdata false false) 480 []
           (mkDraw 0 0 255 0 0 255 SDL_BLENDMODE_NONE 0)
           [mkFPoint f32_zero f32_zero; mkFPoint f32_one f32_zero]
           (initial_cache (sample_renderer 0 false))
           H1 eq_refl eq_refl eq_refl).
Defined.

(** ** Runs that use the rest of the function table *)

Lemma bindx_inv {A B : Type} (m : GLX A) (k : A -> GLX B) (x : Session)
    (r : B * Session) :
  bindx m k x = Some r -> exists a x1, m x = Some (a, x1) /\ k a x1 = Some r.
Proof.
  unfold bindx. destruct (m x) as [[a x1] |]; [| discriminate].
  intros H. exists a, x1. split; [reflexivity | exact H].
Qed.

Lemma skipn_length_app {A : Type} (l k : list A) :
  skipn (length l) (l ++ k) = k.
Proof.
  induction l as [| a l IH]; [reflexivity | exact IH].
Qed.

(** A [GL] run that has appended [k] to the log appends [map gl k] to the
    trace. *)
Lemma lift_run {A : Type} (m : GL A) (x : Session) (a : A) (s' : GLState)
    (k : list Call) :
  m (gl_state x) = Some (a, s') -> log s' = log (gl_state x) ++ k ->
  lift m x = Some (a, mkSession s' (trace x ++ map gl k)).
Proof.
  intros Hm Hk. unfold lift. rewrite Hm, Hk, skipn_length_app. reflexivity.
Qed.

Lemma lift_get_data (x : Session) :
  lift get_data x = Some (renderdata (gl_state x), x).
Proof.
  unfold lift, get_data. cbn. rewrite skipn_all, app_nil_r.
  destruct x; reflexivity.
Qed.


Lemma glcall_after (D : Driver) (c : Call) (x : Session) :
  glcall D c x = Some (tt, after1 D x (gl c)).
Proof.
  unfold glcall, lift, call, after1, raised. cbn [gl_state log].
  rewrite skipn_length_app. reflexivity.
Qed.

Lemma bindx_glcall {B : Type} (D : Driver) (c : Call) (k : unit -> GLX B)
    (x : Session) :
  bindx (glcall D c) k x = k tt (after1 D x (gl c)).
Proof. unfold bindx. rewrite glcall_after. reflexivity. Qed.

Lemma after_cons (D : Driver) (o : Op) (k : list Op) (x : Session) :
  after D (o :: k) x = after D k (after1 D x o).
Proof. reflexivity. Qed.

Lemma after_app (D : Driver) (k1 k2 : list Op) (x : Session) :
  after D (k1 ++ k2) x = after D k2 (after D k1 x).
Proof. unfold after. apply fold_left_app. Qed.

Lemma after_trace (D : Driver) (k : list Op) :
  forall x, trace (after D k x) = trace x ++ k.
Proof.
  induction k as [| o k IH]; intros x.
  - cbn. symmetry. apply app_nil_r.
  - rewrite after_cons, IH. cbn [after1 trace].
    rewrite <- app_assoc. reflexivity.
Qed.

Lemma after_caps (D : Driver) (k : list Op) :
  forall x,
    caps (renderdata (gl_state (after D k x)))
    = caps (renderdata (gl_state x)).
Proof.
  induction k as [| o k IH]; intros x; [reflexivity |].
  rewrite after_cons, IH. cbn [after1 gl_state renderdata].
  destruct (debug_enabled (renderdata (gl_state x))
            && GL_ARB_debug_output_supported (renderdata (gl_state x)));
    reflexivity.
Qed.

Lemma after_errors (D : Driver) (k : list Op) :
  forall x,
    gl_errors (gl_state (after D k x))
    = gl_errors (gl_state x) ++ flat_map (raised D) k.
Proof.
  induction k as [| o k IH]; intros x.
  - cbn. symmetry. apply app_nil_r.
  - rewrite after_cons, IH. cbn [after1 gl_state gl_errors flat_map].
    rewrite <- app_assoc. reflexivity.
Qed.

Lemma after_nodebug (D : Driver) (k : list Op) :
  forall x,
    debug_enabled (renderdata (gl_state x)) = false ->
    renderdata (gl_state (after D k x)) = renderdata (gl_state x).
Proof.
  induction k as [| o k IH]; intros x Hd; [reflexivity |].
  rewrite after_cons, IH.
  - cbn [after1 gl_state renderdata]. rewrite Hd. reflexivity.
  - cbn [after1 gl_state renderdata]. rewrite Hd. exact Hd.
Qed.

Lemma after_names (D : Driver) (k : list Op) :
  forall x,
    next_name (gl_state (after D k x)) = next_name (gl_state x)
    /\ current_context (gl_state (after D k x))
       = current_context (gl_state x)
    /\ framebuffers (renderdata (gl_state (after D k x)))
       = framebuffers (renderdata (gl_state x)).
Proof.
  induction k as [| o k IH]; intros x; [repeat split |].
  rewrite after_cons.
  destruct (IH (after1 D x o)) as (E1 & E2 & E3).
  rewrite E1, E2, E3. cbn [after1 gl_state renderdata next_name
                            current_context].
  destruct (debug_enabled (renderdata (gl_state x))
            && GL_ARB_debug_output_supported (renderdata (gl_state x)));
    repeat split.
Qed.

(** What [GL_ActivateRenderer] does to a session. *)
Lemma lift_GL_ActivateRenderer (P : Platform) (x : Session) :
  exists r x' k,
    lift (GL_ActivateRenderer P) x = Some (r, x')
    /\ GL_ActivateRenderer P (gl_state x) = Some (r, gl_state x')
    /\ trace x' = trace x ++ map gl k
    /\ log (gl_state x') = log (gl_state x) ++ k
    /\ caps (renderdata (gl_state x')) = caps (renderdata (gl_state x))
    /\ forallb (fun c => match c with
                         | SDL_GL_MakeCurrent _ | glGetError => true
                         | _ => false
                         end) k = true.
Proof.
  destruct (GL_ActivateRenderer_outcome P (gl_state x))
    as (r & s' & k & E & Hk & Hr & Hf & Hs).
  exists r, (mkSession s' (trace x ++ map gl k)), k.
  split; [exact (lift_run _ x r s' k E Hk) |].
  split; [exact E |]. split; [reflexivity |]. split; [exact Hk |].
  split.
  - destruct (GL_ActivateRenderer_step P _ _ _ E) as (k' & [_ Hc] & _).
    exact Hc.
  - destruct (Z.eq_dec r (-1)) as [-> | Hn].
    + destruct (Hf eq_refl) as [_ ->]. reflexivity.
    + destruct (Hs Hn) as (_ & _ & _ & n & ->).
      rewrite forallb_app. apply andb_true_intro. split.
      * destruct (current_context (gl_state x)
                  =? context (renderdata (gl_state x))); reflexivity.
      * clear. induction n as [| n IH]; [reflexivity | exact IH].
Qed.

(** What [GL_CheckError] does to a session. *)
Lemma lift_GL_CheckError (x : Session) :
  exists r x' n,
    lift GL_CheckError x = Some (r, x')
    /\ GL_CheckError (gl_state x) = Some (r, gl_state x')
    /\ trace x' = trace x ++ map gl (repeat glGetError n)
    /\ (r = 0 \/ r = -1)
    /\ (debug_enabled (renderdata (gl_state x)) = false -> r = 0 /\ x' = x).
Proof.
  destruct (GL_CheckError_effect (gl_state x))
    as (r & s' & E & _ & _ & Hr & Hoff & _).
  destruct (GL_CheckError_step _ _ _ E) as (n & Hk & _).
  exists r, (mkSession s' (trace x ++ map gl (repeat glGetError n))), n.
  split; [exact (lift_run _ x r s' _ E Hk) |].
  split; [exact E |]. split; [reflexivity |]. split; [exact Hr |].
  intros Hd. destruct (Hoff Hd) as [Hr0 Hs]. subst r s'.
  split; [reflexivity |].
  assert (Hn : repeat glGetError n = []).
  { rewrite <- (app_nil_r (log (gl_state x))) in Hk at 1.
    apply app_inv_head in Hk. symmetry. exact Hk. }
  rewrite Hn. cbn. rewrite app_nil_r. destruct x; reflexivity.
Qed.

Lemma op_after (D : Driver) (o : Op) (x : Session) :
  match o with gl _ => False | _ => True end ->
  op D o x = Some (tt, after1 D x o).
Proof. destruct o; intros H; try reflexivity. destruct H. Qed.

Lemma bindx_op {B : Type} (D : Driver) (o : Op) (k : unit -> GLX B)
    (x : Session) :
  match o with gl _ => False | _ => True end ->
  bindx (op D o) k x = k tt (after1 D x o).
Proof. intros H. unfold bindx. rewrite (op_after D o x H). reflexivity. Qed.

Lemma bindx_assoc {A B C : Type} (m : GLX A) (f : A -> GLX B)
    (g : B -> GLX C) (x : Session) :
  bindx (bindx m f) g x = bindx m (fun a => bindx (f a) g) x.
Proof. unfold bindx. destruct (m x) as [[a x'] |]; reflexivity. Qed.

Lemma bindx_retx {A B : Type} (a : A) (k : A -> GLX B) (x : Session) :
  bindx (retx a) k x = k a x.
Proof. reflexivity. Qed.

Ltac xsteps :=
  repeat first
    [ rewrite bindx_assoc
    | rewrite bindx_glcall
    | rewrite bindx_op by exact I
    | rewrite bindx_retx
    | progress cbv beta zeta ].

(** [GL_UpdateTexture] is the activation, the operations of [update_ops]
    and the error check. *)
Lemma GL_UpdateTexture_run (D : Driver) (tex : SDL_Texture)
    (data : GL_TextureData) (rect : SDL_Rect) (pixels : Address) (pitch : Z)
    (x : Session) :
  driverdata tex = Some data ->
  SDL_BYTESPERPIXEL (platform D) (tex_format tex) <> 0 ->
  exists r0 x0,
    lift (GL_ActivateRenderer (platform D)) x = Some (r0, x0)
    /\ GL_UpdateTexture D tex rect pixels pitch x
       = lift GL_CheckError
           (after D (update_ops (platform D)
                       (textype (renderdata (gl_state x))) tex data rect
                       pixels pitch) x0).
Proof.
  intros Hdata Hbpp.
  destruct (lift_GL_ActivateRenderer (platform D) x)
    as (r0 & x0 & k0 & E0 & _).
  exists r0, x0. split; [exact E0 |].
  unfold GL_UpdateTexture.
  unfold bindx at 1. rewrite lift_get_data. cbv beta iota zeta.
  unfold bindx at 1. rewrite E0. cbv beta iota. rewrite Hdata.
  apply Z.eqb_neq in Hbpp. rewrite Hbpp.
  unfold update_ops, update_yuv_planes, update_nv12_plane.
  destruct (yuv data), (nv12 data); xsteps; apply f_equal;
    unfold after, tex_sub_image, second_plane, third_plane, half_rect;
    cbn [app fold_left rx ry rw rh]; reflexivity.
Qed.

(** [GL_UpdateTextureYUV] is the activation, the operations of
    [update_yuv_ops] and the error check. *)
Lemma GL_UpdateTextureYUV_run (D : Driver) (tex : SDL_Texture)
    (data : GL_TextureData) (rect : SDL_Rect) (Yplane : Address) (Ypitch : Z)
    (Uplane : Address) (Upitch : Z) (Vplane : Address) (Vpitch : Z)
    (x : Session) :
  driverdata tex = Some data ->
  exists r0 x0,
    lift (GL_ActivateRenderer (platform D)) x = Some (r0, x0)
    /\ GL_UpdateTextureYUV D tex rect Yplane Ypitch Uplane Upitch
         Vplane Vpitch x
       = lift GL_CheckError
           (after D (update_yuv_ops (textype (renderdata (gl_state x))) data
                       rect Yplane Ypitch Uplane Upitch Vplane Vpitch) x0).
Proof.
  intros Hdata.
  destruct (lift_GL_ActivateRenderer (platform D) x)
    as (r0 & x0 & k0 & E0 & _).
  exists r0, x0. split; [exact E0 |].
  unfold GL_UpdateTextureYUV.
  unfold bindx at 1. rewrite lift_get_data. cbv beta iota zeta.
  unfold bindx at 1. rewrite E0. cbv beta iota. rewrite Hdata.
  unfold update_yuv_ops. xsteps. apply f_equal.
  unfold after, tex_sub_image, half_rect.
  cbn [app fold_left rx ry rw rh]. reflexivity.
Qed.

Lemma real_errors_app (a b : list GLenum) :
  real_errors (a ++ b) = real_errors a ++ real_errors b.
Proof. apply filter_app. Qed.

Lemma raised_real (D : Driver) (o : Op) :
  real_errors (raised D o) = raised D o.
Proof. destruct o; apply real_errors_idem. Qed.

Lemma raised_all_real (D : Driver) (k : list Op) :
  real_errors (flat_map (raised D) k) = flat_map (raised D) k.
Proof.
  induction k as [| o k IH]; [reflexivity |].
  cbn [flat_map]. rewrite real_errors_app, raised_real, IH. reflexivity.
Qed.

Lemma after_messages (D : Driver) (k : list Op) :
  forall x,
    debug_enabled (renderdata (gl_state x)) = true ->
    GL_ARB_debug_output_supported (renderdata (gl_state x)) = true ->
    error_messages (renderdata (gl_state (after D k x)))
    = error_messages (renderdata (gl_state x)) ++ flat_map (raised D) k.
Proof.
  induction k as [| o k IH]; intros x Hd Ha.
  - cbn. symmetry. apply app_nil_r.
  - rewrite after_cons, IH.
    + cbn [after1 gl_state renderdata flat_map]. rewrite Hd, Ha.
      cbn [andb set_error_messages error_messages].
      rewrite <- app_assoc. reflexivity.
    + cbn [after1 gl_state renderdata]. rewrite Hd, Ha. exact Hd.
    + cbn [after1 gl_state renderdata]. rewrite Hd, Ha. exact Ha.
Qed.

Lemma caps_debug_output (d d' : GL_RenderData) :
  caps d = caps d' ->
  debug_enabled d = debug_enabled d'
  /\ GL_ARB_debug_output_supported d = GL_ARB_debug_output_supported d'
  /\ context d = context d'.
Proof. unfold caps. intros H. inversion H. auto. Qed.


(** A function that activates the renderer, makes the operations [body] and
    returns what [GL_CheckError] returns: without the debug flag it returns
    0; with the flag, on a context that is current or can be made current,
    it returns -1 exactly when the driver has raised an error for one of
    the operations. *)
Lemma activate_body_check (D : Driver) (body : list Op) (x : Session) :
  exists r0 x0 k0 r x' n,
    lift (GL_ActivateRenderer (platform D)) x = Some (r0, x0)
    /\ lift GL_CheckError (after D body x0) = Some (r, x')
    /\ trace x' = trace x ++ map gl k0 ++ body
                   ++ map gl (repeat glGetError n)
    /\ forallb is_activation_call k0 = true
    /\ caps (renderdata (gl_state x')) = caps (renderdata (gl_state x))
    /\ (r = 0 \/ r = -1)
    /\ (debug_enabled (renderdata (gl_state x)) = false -> r = 0)
    /\ (debug_enabled (renderdata (gl_state x)) = true ->
        current_context (gl_state x) = context (renderdata (gl_state x))
        \/ make_current_ok (platform D) = true ->
        (r = -1 <-> flat_map (raised D) body <> [])).
Proof.
  destruct (GL_ActivateRenderer_outcome (platform D) (gl_state x))
    as (r0 & s0 & k0 & E0 & Hk0 & Hr0 & Hfail & Hok).
  pose (x0 := mkSession s0 (trace x ++ map gl k0)).
  assert (Ex0 : lift (GL_ActivateRenderer (platform D)) x = Some (r0, x0))
    by exact (lift_run _ x r0 s0 k0 E0 Hk0).
  destruct (lift_GL_ActivateRenderer (platform D) x)
    as (r0' & x0' & k0' & E0' & _ & Ht' & Hl' & Hc0 & Hn0).
  rewrite Ex0 in E0'. injection E0' as <- <-.
  cbn [x0 gl_state] in Hl'. rewrite Hk0 in Hl'. apply app_inv_head in Hl'.
  subst k0'. cbn [x0 gl_state] in Hc0.
  destruct (GL_CheckError_effect (gl_state (after D body x0)))
    as (r & s' & E & _ & _ & Hr & Hoff & Hflags & Hmsgs).
  destruct (GL_CheckError_step _ _ _ E) as (n & Hk & Hc).
  exists r0, x0, k0, r,
    (mkSession s' (trace (after D body x0) ++ map gl (repeat glGetError n))),
    n.
  pose proof (after_caps D body x0) as Hca. cbn [x0 gl_state] in Hca.
  destruct (caps_debug_output _ _ Hca) as (Hd1 & Ha1 & _).
  destruct (caps_debug_output _ _ Hc0) as (Hd0 & Ha0 & Hctx0).
  split; [exact Ex0 |].
  split; [exact (lift_run _ _ r s' _ E Hk) |].
  split.
  { cbn [trace]. rewrite after_trace. cbn [x0 trace].
    rewrite <- !app_assoc. reflexivity. }
  split; [exact Hn0 |].
  split.
  { cbn [gl_state]. rewrite Hc, Hca. exact Hc0. }
  split; [exact Hr |].
  split.
  { intros Hd. apply Hoff. cbn [x0 gl_state] in Hd1 |- *.
    rewrite Hd1, Hd0. exact Hd. }
  intros Hd Hcur.
  assert (Hne : r0 <> -1).
  { intros ->. destruct Hr0 as [Hr0 _]. destruct (Hr0 eq_refl) as [Hx Hm].
    destruct Hcur as [Hcur | Hcur]; [exact (Hx Hcur) | congruence]. }
  destruct (Hok Hne) as (_ & _ & Hact & _).
  assert (Hdx0 : debug_enabled (renderdata s0) = true) by congruence.
  assert (Hactive :
            (current_context (gl_state x)
             =? context (renderdata (gl_state x)))
            || make_current_ok (platform D) = true).
  { destruct Hcur as [Hcur | Hcur]; [| rewrite Hcur; apply orb_true_r].
    apply Z.eqb_eq in Hcur. rewrite Hcur. reflexivity. }
  destruct (GL_ARB_debug_output_supported (renderdata (gl_state x)))
    eqn:Harb.
  - assert (Hm0 : error_messages (renderdata s0) = []).
    { assert (H := f_equal (fun s => error_messages (renderdata s)) Hact).
      cbn [forget_log renderdata] in H. rewrite H.
      unfold activated. rewrite Hactive. unfold errors_cleared.
      cbn [renderdata]. rewrite Hd, Harb. reflexivity. }
    destruct Hmsgs as (Hiff & _).
    { cbn [x0 gl_state] in Hd1 |- *. congruence. }
    { cbn [x0 gl_state] in Ha1 |- *. congruence. }
    rewrite Hiff.
    rewrite (after_messages D body x0); cbn [x0 gl_state];
      [| exact Hdx0 | congruence].
    rewrite Hm0. reflexivity.
  - assert (He0 : gl_errors s0 = []).
    { assert (H := f_equal gl_errors Hact).
      cbn [forget_log gl_errors] in H. rewrite H.
      unfold activated. rewrite Hactive. unfold errors_cleared.
      cbn [renderdata]. rewrite Hd, Harb. reflexivity. }
    destruct Hflags as (Hiff & _).
    { cbn [x0 gl_state] in Hd1 |- *. congruence. }
    { cbn [x0 gl_state] in Ha1 |- *. congruence. }
    rewrite Hiff, after_errors. cbn [x0 gl_state]. rewrite He0.
    cbn [app]. rewrite raised_all_real. reflexivity.
Qed.


(** ** Uploads of texture updates *)

Lemma uploads_activation (k0 : list Call) (k : list Op) :
  forallb is_activation_call k0 = true ->
  forall b l, uploads b l (map gl k0 ++ k) = uploads b l k.
Proof.
  induction k0 as [| c k0 IH]; intros H b l; [reflexivity |].
  cbn [forallb] in H. apply andb_prop in H. destruct H as [Hc H].
  cbn [map app]. destruct c; try discriminate Hc; cbn [uploads];
    apply IH; exact H.
Qed.

Lemma uploads_check (n : nat) :
  forall b l, uploads b l (map gl (repeat glGetError n)) = [].
Proof. induction n as [| n IH]; intros b l; [reflexivity | exact (IH b l)]. Qed.

Lemma uploads_then_check (k : list Op) (n : nat) :
  forall b l,
    uploads b l (k ++ map gl (repeat glGetError n)) = uploads b l k.
Proof.
  induction k as [| o k IH]; intros b l; [apply uploads_check |].
  cbn [app]. destruct o as [c | | | | | | | | | |];
    try (cbn [uploads]; rewrite ?IH; reflexivity).
  destruct c; cbn [uploads]; rewrite ?IH; reflexivity.
Qed.

(** [GL_UpdateTexture] of a texture that has its driver data returns,
    0 or -1, and 0 when the debug flag is off.  It uploads the rectangle of
    the primary plane from [pixels] with a row length of [pitch] divided by
    the bytes per pixel; for a YV12 or IYUV texture it then uploads the
    halved rectangle twice with a row length of [(pitch + 1) / 2], from the
    address [rect->h * pitch] bytes further and from the one
    [((rect->h + 1) / 2) * ((pitch + 1) / 2)] bytes after that, to the V
    texture first for YV12 and to the U texture first for IYUV; for an NV12
    or NV21 texture it uploads the halved rectangle once, as
    [GL_LUMINANCE_ALPHA], to the U texture from [rect->h * pitch] bytes
    further. *)
Theorem GL_UpdateTexture_uploads (D : Driver) (tex : SDL_Texture)
    (data : GL_TextureData) (rect : SDL_Rect) (pixels : Address) (pitch : Z)
    (x : Session) :
  driverdata tex = Some data ->
  SDL_BYTESPERPIXEL (platform D) (tex_format tex) <> 0 ->
  exists r x' k,
    GL_UpdateTexture D tex rect pixels pitch x = Some (r, x')
    /\ trace x' = trace x ++ k
    /\ (r = 0 \/ r = -1)
    /\ (debug_enabled (renderdata (gl_state x)) = false -> r = 0)
    /\ forall b l,
         uploads b l k
         = mkUpload (texture data)
             (int_div pitch (SDL_BYTESPERPIXEL (platform D) (tex_format tex)))
             rect (format data) (formattype data) pixels
           :: (if yuv data
               then [ mkUpload
                        (if tex_format tex =? SDL_PIXELFORMAT_YV12
                         then vtexture data else utexture data)
                        (int_div (int_add pitch 1) 2) (half_rect rect)
                        (format data) (formattype data)
                        (advance pixels (int_mul (rh rect) pitch));
                      mkUpload
                        (if tex_format tex =? SDL_PIXELFORMAT_YV12
                         then utexture data else vtexture data)
                        (int_div (int_add pitch 1) 2) (half_rect rect)
                        (format data) (formattype data)
                        (advance
                           (advance pixels (int_mul (rh rect) pitch))
                           (int_mul (int_div (int_add (rh rect) 1) 2)
                                    (int_div (int_add pitch 1) 2))) ]
               else [])
           ++ (if nv12 data
               then [ mkUpload (utexture data)
                        (int_div (int_add pitch 1) 2) (half_rect rect)
                        GL_LUMINANCE_ALPHA GL_UNSIGNED_BYTE
                        (advance
                           (if yuv data
                            then advance
                                   (advance pixels
                                      (int_mul (rh rect) pitch))
                                   (int_mul
                                      (int_div (int_add (rh rect) 1) 2)
                                      (int_div (int_add pitch 1) 2))
                            else pixels)
                           (int_mul (rh rect) pitch)) ]
               else []).
Proof.
  intros Hdata Hbpp.
  destruct (GL_UpdateTexture_run D tex data rect pixels pitch x Hdata Hbpp)
    as (r0 & x0 & E0 & Erun).
  destruct (activate_body_check D
              (update_ops (platform D) (textype (renderdata (gl_state x)))
                 tex data rect pixels pitch) x)
    as (r0' & x0' & k0 & r & x' & n & E0' & E & Ht & Hn0 & _ & Hr & Hoff & _).
  rewrite E0 in E0'. injection E0' as <- <-.
  exists r, x', (map gl k0
                 ++ update_ops (platform D)
                      (textype (renderdata (gl_state x))) tex data rect
                      pixels pitch
                 ++ map gl (repeat glGetError n)).
  split; [rewrite Erun; exact E |]. split; [exact Ht |].
  split; [exact Hr |]. split; [exact Hoff |].
  intros b l. rewrite (uploads_activation k0 _ Hn0), uploads_then_check.
  unfold update_ops, tex_sub_image, second_plane, third_plane.
  destruct (yuv data), (nv12 data); cbn [app uploads Z.eqb Pos.eqb];
    destruct rect; reflexivity.
Qed.

Lemma GL_UpdateTexture_uploads_witness :
  exists r x' k,
    GL_UpdateTexture sample_driver
      (sample_planar_texture SDL_PIXELFORMAT_YV12) (mkRect 0 0 4 4)
      (mkAddress (Some 24) 0) 4 sample_session = Some (r, x')
    /\ trace x' = trace sample_session ++ k
    /\ r = 0
    /\ uploads 0 0 k
       = [ mkUpload 1 4 (mkRect 0 0 4 4) GL_LUMINANCE GL_UNSIGNED_BYTE
             (mkAddress (Some 24) 0);
           mkUpload 3 2 (mkRect 0 0 2 2) GL_LUMINANCE GL_UNSIGNED_BYTE
             (mkAddress (Some 24) 16);
           mkUpload 2 2 (mkRect 0 0 2 2) GL_LUMINANCE GL_UNSIGNED_BYTE
             (mkAddress (Some 24) 20) ].
Proof.
  pose (data := mkTextureData 1 f32_one f32_one GL_LUMINANCE GL_UNSIGNED_BYTE
                  (Some 24) 4 (mkRect 0 0 0 0) true false 2 3 None).
  assert (Hdata : driverdata (sample_planar_texture SDL_PIXELFORMAT_YV12)
                  = Some data) by reflexivity.
  assert (Hbpp : SDL_BYTESPERPIXEL (platform sample_driver)
                   (tex_format (sample_planar_texture SDL_PIXELFORMAT_YV12))
                 <> 0) by (vm_compute; discriminate).
  destruct (GL_UpdateTexture_uploads sample_driver
              (sample_planar_texture SDL_PIXELFORMAT_YV12) data
              (mkRect 0 0 4 4) (mkAddress (Some 24) 0) 4 sample_session
              Hdata Hbpp)
    as (r & x' & k & E & Ht & _ & Hoff & Hup).
  exists r, x', k. split; [exact E |]. split; [exact Ht |].
  split; [exact (Hoff eq_refl) |]. exact (Hup 0 0).
Defined.

(** On a planar texture (YV12, IYUV) [GL_UpdateTexture] makes the
    three uploads that [GL_UpdateTextureYUV] makes when it is handed the
    planes where the packed image has them: the Y plane at [pixels] with
    [pitch], then the V plane and the U plane for YV12, the U plane and the
    V plane for IYUV, with a pitch of [(pitch + 1) / 2].  The uploads go to
    the same texture objects from the same addresses with the same row
    lengths; for YV12 the order of the two chroma uploads is exchanged. *)
Theorem GL_UpdateTextureYUV_agrees (D : Driver) (tex : SDL_Texture)
    (data : GL_TextureData) (rect : SDL_Rect) (pixels : Address) (pitch : Z)
    (x : Session) :
  driverdata tex = Some data ->
  yuv data = true -> nv12 data = false ->
  SDL_BYTESPERPIXEL (platform D) (tex_format tex) = 1 ->
  exists r1 x1 k1 r2 x2 k2 y c1 c2,
    GL_UpdateTexture D tex rect pixels pitch x = Some (r1, x1)
    /\ trace x1 = trace x ++ k1
    /\ GL_UpdateTextureYUV D tex rect pixels pitch
         (if tex_format tex =? SDL_PIXELFORMAT_YV12
          then third_plane rect pixels pitch
          else second_plane rect pixels pitch)
         (int_div (int_add pitch 1) 2)
         (if tex_format tex =? SDL_PIXELFORMAT_YV12
          then second_plane rect pixels pitch
          else third_plane rect pixels pitch)
         (int_div (int_add pitch 1) 2) x = Some (r2, x2)
    /\ trace x2 = trace x ++ k2
    /\ forall b l,
         uploads b l k1 = [y; c1; c2]
         /\ uploads b l k2
            = (if tex_format tex =? SDL_PIXELFORMAT_YV12
               then [y; c2; c1] else [y; c1; c2]).
Proof.
  intros Hdata Hyuv Hnv Hbpp.
  assert (Hbpp0 : SDL_BYTESPERPIXEL (platform D) (tex_format tex) <> 0)
    by (rewrite Hbpp; discriminate).
  destruct (GL_UpdateTexture_run D tex data rect pixels pitch x Hdata Hbpp0)
    as (r0 & x0 & E0 & Erun).
  destruct (activate_body_check D
              (update_ops (platform D) (textype (renderdata (gl_state x)))
                 tex data rect pixels pitch) x)
    as (r0' & x0' & k0 & r1 & x1 & n1 & E0' & E1 & Ht1 & Hn0 & _).
  rewrite E0 in E0'. injection E0' as <- <-.
  set (U := if tex_format tex =? SDL_PIXELFORMAT_YV12
            then third_plane rect pixels pitch
            else second_plane rect pixels pitch).
  set (V := if tex_format tex =? SDL_PIXELFORMAT_YV12
            then second_plane rect pixels pitch
            else third_plane rect pixels pitch).
  destruct (GL_UpdateTextureYUV_run D tex data rect pixels pitch U
              (int_div (int_add pitch 1) 2) V (int_div (int_add pitch 1) 2)
              x Hdata)
    as (r0'' & x0'' & E0'' & Erun2).
  rewrite E0 in E0''. injection E0'' as <- <-.
  destruct (activate_body_check D
              (update_yuv_ops (textype (renderdata (gl_state x))) data rect
                 pixels pitch U (int_div (int_add pitch 1) 2) V
                 (int_div (int_add pitch 1) 2)) x)
    as (r0' & x0' & k0' & r2 & x2 & n2 & E0' & E2 & Ht2 & Hn0' & _).
  rewrite E0 in E0'. injection E0' as <- <-.
  eexists r1, x1, _, r2, x2, _,
    (mkUpload (texture data) pitch rect (format data) (formattype data)
       pixels),
    (mkUpload (if tex_format tex =? SDL_PIXELFORMAT_YV12
               then vtexture data else utexture data)
       (int_div (int_add pitch 1) 2) (half_rect rect) (format data)
       (formattype data) (second_plane rect pixels pitch)),
    (mkUpload (if tex_format tex =? SDL_PIXELFORMAT_YV12
               then utexture data else vtexture data)
       (int_div (int_add pitch 1) 2) (half_rect rect) (format data)
       (formattype data) (third_plane rect pixels pitch)).
  split; [rewrite Erun; exact E1 |]. split; [exact Ht1 |].
  split; [rewrite Erun2; exact E2 |]. split; [exact Ht2 |].
  intros b l.
  rewrite (uploads_activation k0 _ Hn0), (uploads_activation k0' _ Hn0'),
    !uploads_then_check.
  unfold update_ops, update_yuv_ops, tex_sub_image, U, V.
  rewrite Hyuv, Hnv, Hbpp.
  destruct (tex_format tex =? SDL_PIXELFORMAT_YV12);
    cbn [app uploads Z.eqb Pos.eqb half_rect rx ry rw rh];
    change (int_div pitch 1) with (Z.quot pitch 1); rewrite Z.quot_1_r;
    destruct rect as [x_ y_ w_ h_]; cbn [rx ry rw rh]; split; reflexivity.
Qed.

Lemma GL_UpdateTextureYUV_agrees_witness :
  exists r1 x1 k1 r2 x2 k2,
    GL_UpdateTexture sample_driver
      (sample_planar_texture SDL_PIXELFORMAT_YV12) (mkRect 0 0 4 4)
      (mkAddress (Some 24) 0) 4 sample_session = Some (r1, x1)
    /\ trace x1 = trace sample_session ++ k1
    /\ GL_UpdateTextureYUV sample_driver
         (sample_planar_texture SDL_PIXELFORMAT_YV12) (mkRect 0 0 4 4)
         (mkAddress (Some 24) 0) 4 (mkAddress (Some 24) 20) 2
         (mkAddress (Some 24) 16) 2 sample_session = Some (r2, x2)
    /\ trace x2 = trace sample_session ++ k2
    /\ exists y c1 c2,
         uploads 0 0 k1 = [y; c1; c2] /\ uploads 0 0 k2 = [y; c2; c1].
Proof.
  pose (data := mkTextureData 1 f32_one f32_one GL_LUMINANCE GL_UNSIGNED_BYTE
                  (Some 24) 4 (mkRect 0 0 0 0) true false 2 3 None).
  assert (Hdata : driverdata (sample_planar_texture SDL_PIXELFORMAT_YV12)
                  = Some data) by reflexivity.
  assert (Hyuv : yuv data = true) by reflexivity.
  assert (Hnv : nv12 data = false) by reflexivity.
  assert (Hbpp : SDL_BYTESPERPIXEL (platform sample_driver)
                   (tex_format (sample_planar_texture SDL_PIXELFORMAT_YV12))
                 = 1) by reflexivity.
  destruct (GL_UpdateTextureYUV_agrees sample_driver
              (sample_planar_texture SDL_PIXELFORMAT_YV12) data
              (mkRect 0 0 4 4) (mkAddress (Some 24) 0) 4 sample_session
              Hdata Hyuv Hnv Hbpp)
    as (r1 & x1 & k1 & r2 & x2 & k2 & y & c1 & c2 & E1 & Ht1 & E2 & Ht2 & Hup).
  exists r1, x1, k1, r2, x2, k2.
  split; [exact E1 |]. split; [exact Ht1 |]. split; [exact E2 |].
  split; [exact Ht2 |]. exists y, c1, c2. exact (Hup 0 0).
Defined.

Lemma flat_map_nonempty {A B : Type} (f : A -> list B) (l : list A) :
  flat_map f l <> [] <-> exists a, In a l /\ f a <> [].
Proof.
  induction l as [| a l IH]; cbn [flat_map In].
  - split; [intros H; exfalso; apply H; reflexivity
           | intros (a & [] & _)].
  - split.
    + intros H. destruct (f a) as [| b fa] eqn:Ea.
      * cbn [app] in H. apply IH in H. destruct H as (a' & Hin & Hf).
        exists a'. split; [right; exact Hin | exact Hf].
      * exists a. split; [left; reflexivity | rewrite Ea; discriminate].
    + intros (a' & [<- | Hin] & Hf).
      * destruct (f a); [exfalso; apply Hf; reflexivity | discriminate].
      * intros H. apply app_eq_nil in H. destruct H as [_ H].
        revert H. apply IH. exists a'. split; assumption.
Qed.

(** With the debug flag on, on a context that is current or can be
    made current, [GL_UpdateTexture] returns -1 exactly when the driver
    raises an error for one of the operations it makes between the
    activation and the final check (the operations of [update_ops], which
    the trace shows between the calls of the activation and the
    [glGetError]s of the check), and 0 otherwise: errors that were pending
    before the call do not make it fail. *)
Theorem GL_UpdateTexture_reports_driver_errors (D : Driver)
    (tex : SDL_Texture) (data : GL_TextureData) (rect : SDL_Rect)
    (pixels : Address) (pitch : Z) (x : Session) :
  driverdata tex = Some data ->
  SDL_BYTESPERPIXEL (platform D) (tex_format tex) <> 0 ->
  debug_enabled (renderdata (gl_state x)) = true ->
  current_context (gl_state x) = context (renderdata (gl_state x))
  \/ make_current_ok (platform D) = true ->
  exists r x' k0 n,
    GL_UpdateTexture D tex rect pixels pitch x = Some (r, x')
    /\ forallb is_activation_call k0 = true
    /\ trace x'
       = trace x ++ map gl k0
         ++ update_ops (platform D) (textype (renderdata (gl_state x)))
              tex data rect pixels pitch
         ++ map gl (repeat glGetError n)
    /\ (r = 0 \/ r = -1)
    /\ (r = -1 <->
        exists o,
          In o (update_ops (platform D) (textype (renderdata (gl_state x)))
                  tex data rect pixels pitch)
          /\ raised D o <> []).
Proof.
  intros Hdata Hbpp Hd Hcur.
  destruct (GL_UpdateTexture_run D tex data rect pixels pitch x Hdata Hbpp)
    as (r0 & x0 & E0 & Erun).
  destruct (activate_body_check D
              (update_ops (platform D) (textype (renderdata (gl_state x)))
                 tex data rect pixels pitch) x)
    as (r0' & x0' & k0 & r & x' & n & E0' & E & Ht & Hn0 & _ & Hr & _ & Hon).
  rewrite E0 in E0'. injection E0' as <- <-.
  exists r, x', k0, n. split; [rewrite Erun; exact E |].
  split; [exact Hn0 |]. split; [exact Ht |]. split; [exact Hr |].
  rewrite (Hon Hd Hcur). apply flat_map_nonempty.
Qed.


Lemma GL_UpdateTexture_reports_driver_errors_witness :
  exists x',
    GL_UpdateTexture sample_failing_driver
      (sample_planar_texture SDL_PIXELFORMAT_IYUV) (mkRect 0 0 4 4)
      (mkAddress (Some 24) 0) 4 sample_debug_session = Some (-1, x')
  /\ exists x'',
    GL_UpdateTexture sample_driver
      (sample_planar_texture SDL_PIXELFORMAT_IYUV) (mkRect 0 0 4 4)
      (mkAddress (Some 24) 0) 4 sample_debug_session = Some (0, x'').
Proof.
  pose (tex := sample_planar_texture SDL_PIXELFORMAT_IYUV).
  pose (data := mkTextureData 1 f32_one f32_one GL_LUMINANCE GL_UNSIGNED_BYTE
                  (Some 24) 4 (mkRect 0 0 0 0) true false 2 3 None).
  assert (Hdata : driverdata tex = Some data) by reflexivity.
  assert (Hbpp : SDL_BYTESPERPIXEL sample_platform (tex_format tex) <> 0)
    by (vm_compute; discriminate).
  assert (Hd : debug_enabled (renderdata (gl_state sample_debug_session))
               = true) by reflexivity.
  assert (Hcur : current_context (gl_state sample_debug_session)
                 = context (renderdata (gl_state sample_debug_session))
                 \/ make_current_ok sample_platform = true)
    by (left; reflexivity).
  destruct (GL_UpdateTexture_reports_driver_errors sample_failing_driver tex
              data (mkRect 0 0 4 4) (mkAddress (Some 24) 0) 4
              sample_debug_session Hdata Hbpp Hd Hcur)
    as (r & x' & k0 & n & E & _ & _ & _ & Hiff).
  destruct (GL_UpdateTexture_reports_driver_errors sample_driver tex
              data (mkRect 0 0 4 4) (mkAddress (Some 24) 0) 4
              sample_debug_session Hdata Hbpp Hd Hcur)
    as (r2 & x'' & k0' & n' & E2 & _ & _ & Hr2 & Hiff2).
  assert (Hr : r = -1).
  { apply Hiff.
    exists (tex_sub_image GL_TEXTURE_2D (mkRect 0 0 4 4) GL_LUMINANCE
              GL_UNSIGNED_BYTE (mkAddress (Some 24) 0)).
    split; [do 4 right; left; reflexivity | discriminate]. }
  assert (Hr0 : r2 = 0).
  { destruct Hr2 as [H | H]; [exact H | exfalso].
    apply Hiff2 in H. destruct H as (o & _ & Ho). apply Ho.
    destruct o; reflexivity. }
  subst r r2. exists x'. split; [exact E |]. exists x''. exact E2.
Defined.


(** ** Locking and unlocking *)

(** The format and type [GL_CreateTexture] stores are those of
    [convert_format]; no rectangle is locked. *)
Lemma GL_CreateTexture_format (P : Platform) (fuel : nat)
    (tex tex' : SDL_Texture) (s s' : GLState) :
  GL_CreateTexture P fuel tex s = Some ((0, tex'), s') ->
  exists data ifmt,
    tex' = with_driverdata tex (Some data)
    /\ convert_format (MACOSX P) (tex_format tex)
       = Some (ifmt, format data, formattype data).
Proof.
  unfold GL_CreateTexture. intros H.
  apply bind_inv in H. destruct H as (a0 & s0 & _ & H).
  apply bind_inv in H. destruct H as (d & s1 & _ & H).
  destruct ((tex_access tex =? 2)
            && negb (GL_EXT_framebuffer_object_supported d));
    [gl_fail H |].
  destruct (convert_format (MACOSX P) (tex_format tex))
    as [[[internalFormat fmt] type] |]; [| gl_fail H].
  destruct (negb (alloc_ok P Alloc_TextureData)); [gl_fail H |].
  cbv zeta in H.
  destruct ((tex_access tex =? 1)
            && negb (alloc_ok P (Alloc_pixels (streaming_size P tex))));
    [gl_fail H |].
  apply bind_inv in H. destruct H as (f & s2 & _ & H).
  apply bind_inv in H. destruct H as (r3 & s3 & _ & H).
  apply bind_inv in H. destruct H as (name & s4 & _ & H).
  apply bind_inv in H. destruct H as (r5 & s5 & _ & H).
  destruct (r5 <? 0); [gl_fail H |].
  destruct (texture_dimensions fuel d tex)
    as [[[[tw th] tw_scale] th_scale] |]; [| discriminate H].
  apply bind_inv in H. destruct H as (u6 & s6 & _ & H).
  apply bind_inv in H. destruct H as (r7 & s7 & _ & H).
  destruct (r7 <? 0); [gl_fail H |].
  apply bind_inv in H. destruct H as (uv & s8 & _ & H).
  apply bind_inv in H. destruct H as (u & s9 & _ & H).
  apply bind_inv in H. destruct H as (r10 & s10 & _ & H).
  apply ret_inv in H. destruct H as [H _]. inversion H; subst.
  eexists. exists internalFormat. split; reflexivity.
Qed.

Lemma int_mul_0_l (z : Z) : int_mul 0 z = 0.
Proof. reflexivity. Qed.

Lemma int_mul_small (a b : Z) :
  - 2 ^ 31 <= a * b < 2 ^ 31 -> int_mul a b = a * b.
Proof. intros H. unfold int_mul. apply wrap_int_small. exact H. Qed.

(** The block [GL_CreateTexture] allocates for a streaming texture is
    the block [GL_UnlockTexture] uploads from.  For a texture that has been
    created (ARGB8888 or one of the planar formats, with the bytes per pixel
    SDL gives them, of a size whose byte counts fit an [int]), locking the
    whole texture gives the start of the block
    and the pitch of the texture, and unlocking it uploads the planes one
    after the other out of the block: the first plane begins at the start
    of the block, each plane begins where the one before it ends, and the
    last one ends exactly where the block ends. *)
Theorem unlock_uploads_tile_the_block (D : Driver) (fuel : nat)
    (tex tex' : SDL_Texture) (s s' : GLState) (x : Session) :
  GL_CreateTexture (platform D) fuel tex s = Some ((0, tex'), s') ->
  tex_access tex = SDL_TEXTUREACCESS_STREAMING ->
  tex_format tex <> SDL_PIXELFORMAT_UYVY ->
  SDL_BYTESPERPIXEL (platform D) (tex_format tex)
  = (if tex_format tex =? SDL_PIXELFORMAT_ARGB8888 then 4 else 1) ->
  0 < tex_w tex -> 0 < tex_h tex ->
  12 * (tex_w tex * tex_h tex) < 2 ^ 31 ->
  exists tex'' size pitch x' k,
    GL_LockTexture (platform D) tex'
      (mkRect 0 0 (tex_w tex) (tex_h tex))
    = Some (0, tex'', mkAddress (Some size) 0, pitch)
    /\ pitch = tex_w tex * SDL_BYTESPERPIXEL (platform D) (tex_format tex)
    /\ GL_UnlockTexture D tex'' x = Some (tt, x')
    /\ trace x' = trace x ++ k
    /\ forall b l,
         tiles size 0 (uploads b l k)
         /\ length (uploads b l k)
            = S (auxiliary_planes (tex_format tex)).
Proof.
  intros Hcreate Hacc Hfmt Hbpp Hw Hh Hsize.
  pose proof (ceil_div_2_bounds (tex_h tex) Hh) as Hch.
  assert (Hbpos : 0 < SDL_BYTESPERPIXEL (platform D) (tex_format tex) <= 4).
  { rewrite Hbpp. destruct (tex_format tex =? 372645892); lia. }
  set (bpp := SDL_BYTESPERPIXEL (platform D) (tex_format tex)) in *.
  assert (Hwb : 0 < tex_w tex * bpp <= tex_w tex * 4) by nia.
  pose proof (ceil_div_2_bounds (tex_w tex * bpp) (proj1 Hwb)) as Hcw.
  assert (Hrange :
            tex_h tex * (tex_w tex * bpp)
            + 2 * (ceil_div (tex_h tex) 2 * ceil_div (tex_w tex * bpp) 2)
            < 2 ^ 31) by nia.
  destruct (streaming_size_value (platform D) tex Hw Hh (proj1 Hbpos) Hrange)
    as [Hpitch Hsz].
  fold bpp in Hpitch, Hsz.
  destruct (GL_CreateTexture_created _ _ _ _ _ _ Hcreate)
    as (data & tw & th & ifmt & cp & Htex' & _ & Hpix & Hpit & Hyuv & Hnv & _).
  destruct (GL_CreateTexture_format _ _ _ _ _ _ Hcreate)
    as (data' & ifmt' & Htex'' & Hcf).
  rewrite Htex' in Htex''.
  assert (data' = data).
  { assert (H := f_equal driverdata Htex''). cbn in H. congruence. }
  subst data'. clear Htex''.
  rewrite Hacc in Hpix, Hpit. cbn [Z.eqb Pos.eqb] in Hpix, Hpit.
  rewrite Hpitch in Hpit. rewrite Hsz in Hpix.
  set (rect := mkRect 0 0 (tex_w tex) (tex_h tex)).
  set (size := tex_h tex * (tex_w tex * bpp)
               + (if is_YV12_or_IYUV (tex_format tex)
                     || is_NV12_or_NV21 (tex_format tex)
                  then 2 * (ceil_div (tex_h tex) 2
                            * ceil_div (tex_w tex * bpp) 2)
                  else 0)) in *.
  set (tex'' := with_driverdata tex' (Some (with_locked_rect data rect))).
  assert (Hdd : driverdata tex' = Some data) by (rewrite Htex'; reflexivity).
  assert (Hdd'' : driverdata tex'' = Some (with_locked_rect data rect))
    by reflexivity.
  assert (Hf'' : tex_format tex'' = tex_format tex)
    by (unfold tex''; rewrite Htex'; reflexivity).
  assert (Hbpp0 : SDL_BYTESPERPIXEL (platform D) (tex_format tex'') <> 0)
    by (rewrite Hf''; fold bpp; lia).
  destruct (GL_UpdateTexture_run D tex'' (with_locked_rect data rect) rect
              (mkAddress (Some size) 0) (tex_w tex * bpp) x Hdd'' Hbpp0)
    as (r0 & x0 & E0 & Erun).
  destruct (activate_body_check D
              (update_ops (platform D) (textype (renderdata (gl_state x)))
                 tex'' (with_locked_rect data rect) rect
                 (mkAddress (Some size) 0) (tex_w tex * bpp)) x)
    as (r0' & x0' & k0 & r & x' & n & E0' & E & Ht & Hn0 & _).
  rewrite E0 in E0'. injection E0' as <- <-.
  exists tex'', size, (tex_w tex * bpp), x'. eexists.
  split.
  { unfold GL_LockTexture. rewrite Hdd. unfold locked_pixels, advance.
    cbn [block offset rect rx ry]. rewrite Hpix, Hpit, !int_mul_0_l.
    reflexivity. }
  split; [reflexivity |].
  split.
  { unfold GL_UnlockTexture. rewrite Hdd''.
    cbn [with_locked_rect locked_rect pitch pixels].
    unfold locked_pixels, advance.
    cbn [block offset rect rx ry with_locked_rect pitch pixels].
    rewrite Hpix, Hpit, !int_mul_0_l. cbn [Z.add].
    unfold bindx. fold rect. rewrite Erun, E. reflexivity. }
  split; [exact Ht |].
  intros b l. rewrite (uploads_activation k0 _ Hn0), uploads_then_check.
  assert (Hhalf_h : int_div (int_add (tex_h tex) 1) 2 = ceil_div (tex_h tex) 2)
    by (apply int_half_up; lia).
  assert (Hhalf_p : int_div (int_add (tex_w tex * bpp) 1) 2
                    = ceil_div (tex_w tex * bpp) 2)
    by (apply int_half_up; lia).
  assert (Hmul1 : int_mul (tex_h tex) (tex_w tex * bpp)
                  = tex_h tex * (tex_w tex * bpp))
    by (apply int_mul_small; nia).
  assert (Hmul2 : int_mul (ceil_div (tex_h tex) 2)
                          (ceil_div (tex_w tex * bpp) 2)
                  = ceil_div (tex_h tex) 2 * ceil_div (tex_w tex * bpp) 2)
    by (apply int_mul_small; nia).
  unfold update_ops.
  cbn [with_locked_rect yuv nv12 texture utexture vtexture format
       formattype].
  rewrite Hyuv, Hnv, Hf''. try fold bpp.
  unfold auxiliary_planes, size.
  unfold convert_format in Hcf.
  destruct (tex_format tex =? 372645892) eqn:Eargb.
  - apply Z.eqb_eq in Eargb. rewrite Eargb in Hcf |- *.
    injection Hcf as _ Hfo _.
    cbn [is_YV12_or_IYUV is_NV12_or_NV21 Z.eqb Pos.eqb orb app].
    unfold tex_sub_image. cbn [uploads Z.eqb Pos.eqb].
    unfold tiles, plane_bytes, bytes_per_pixel.
    cbn [up_pixels up_rect up_row_length up_format rh rect length].
    rewrite <- Hfo. cbn [Z.eqb Pos.eqb].
    assert (Hb4 : bpp = 4) by exact Hbpp.
    rewrite Hb4. unfold int_div. rewrite Z.quot_mul by lia.
    split; [split; [reflexivity | lia] | reflexivity].
  - assert (Hb1 : bpp = 1) by exact Hbpp.
    rewrite Hb1 in *. rewrite !Z.mul_1_r in *.
    unfold int_div at 1. rewrite Z.quot_1_r.
    destruct (is_YV12_or_IYUV (tex_format tex)) eqn:Ey;
      destruct (is_NV12_or_NV21 (tex_format tex)) eqn:En.
    + exfalso. unfold is_YV12_or_IYUV, is_NV12_or_NV21 in *. lia.
    + assert (Hfo : format data = GL_LUMINANCE).
      { unfold is_YV12_or_IYUV in Ey. apply orb_prop in Ey.
        destruct Ey as [Ey | Ey]; apply Z.eqb_eq in Ey; rewrite Ey in Hcf;
          injection Hcf as _ Hfo _; symmetry; exact Hfo. }
      cbn [orb app].
      unfold tex_sub_image, third_plane; unfold second_plane, advance, half_rect.
      cbn [uploads Z.eqb Pos.eqb block offset rect rx ry rw rh].
      rewrite Hhalf_h, Hhalf_p, Hmul1, Hmul2.
      unfold tiles, plane_bytes, bytes_per_pixel.
      cbn [up_pixels up_rect up_row_length up_format rh length].
      rewrite Hfo. cbn [Z.eqb Pos.eqb].
      repeat split; try reflexivity; try (f_equal; lia); lia.
    + assert (Hfo : format data = GL_LUMINANCE).
      { unfold is_NV12_or_NV21 in En. apply orb_prop in En.
        destruct En as [En | En]; apply Z.eqb_eq in En; rewrite En in Hcf;
          injection Hcf as _ Hfo _; symmetry; exact Hfo. }
      cbn [orb app].
      unfold tex_sub_image, third_plane; unfold second_plane, advance, half_rect.
      cbn [uploads Z.eqb Pos.eqb block offset rect rx ry rw rh].
      rewrite Hhalf_h, Hhalf_p, Hmul1.
      unfold tiles, plane_bytes, bytes_per_pixel.
      cbn [up_pixels up_rect up_row_length up_format rh length].
      rewrite Hfo. cbn [Z.eqb Pos.eqb].
      repeat split; try reflexivity; try (f_equal; lia); lia.
    + exfalso.
      unfold is_YV12_or_IYUV, is_NV12_or_NV21 in *.
      apply orb_false_elim in Ey. apply orb_false_elim in En.
      destruct Ey as [E1 E2], En as [E3 E4].
      apply Z.eqb_neq in Eargb, E1, E2, E3, E4.
      destruct (MACOSX (platform D));
        repeat match type of Hcf with
               | match ?z with _ => _ end = _ =>
                   destruct z; try discriminate Hcf; try lia
               end.
Qed.

Lemma unlock_uploads_tile_the_block_witness :
  exists tex' s' tex'' size pitch x' k,
    GL_CreateTexture (platform sample_driver) 32
      (sample_texture SDL_PIXELFORMAT_YV12 SDL_TEXTUREACCESS_STREAMING 4 4)
      (sample_state true false) = Some ((0, tex'), s')
    /\ GL_LockTexture (platform sample_driver) tex' (mkRect 0 0 4 4)
       = Some (0, tex'', mkAddress (Some size) 0, pitch)
    /\ GL_UnlockTexture sample_driver tex'' sample_session = Some (tt, x')
    /\ trace x' = trace sample_session ++ k
    /\ tiles size 0 (uploads 0 0 k)
    /\ length (uploads 0 0 k) = 3%nat.
Proof.
  pose (tex := sample_texture SDL_PIXELFORMAT_YV12
                 SDL_TEXTUREACCESS_STREAMING 4 4).
  pose (run := GL_CreateTexture (platform sample_driver) 32 tex
                 (sample_state true false)).
  pose (tex' := match run with Some ((_, t), _) => t | None => tex end).
  pose (s' := match run with
              | Some (_, s) => s
              | None => sample_state true false
              end).
  assert (Hrun : run = Some ((0, tex'), s')) by (vm_compute; reflexivity).
  assert (Hacc : tex_access tex = SDL_TEXTUREACCESS_STREAMING) by reflexivity.
  assert (Hfmt : tex_format tex <> SDL_PIXELFORMAT_UYVY)
    by (vm_compute; discriminate).
  assert (Hbpp : SDL_BYTESPERPIXEL (platform sample_driver) (tex_format tex)
                 = (if tex_format tex =? SDL_PIXELFORMAT_ARGB8888
                    then 4 else 1)) by reflexivity.
  assert (Hw : 0 < tex_w tex) by reflexivity.
  assert (Hh : 0 < tex_h tex) by reflexivity.
  assert (Hsize : 12 * (tex_w tex * tex_h tex) < 2 ^ 31) by reflexivity.
  destruct (unlock_uploads_tile_the_block sample_driver 32 tex tex'
              (sample_state true false) s' sample_session
              Hrun Hacc Hfmt Hbpp Hw Hh Hsize)
    as (tex'' & size & pitch & x' & k & Hlock & _ & Hunlock & Ht & Hup).
  exists tex', s', tex'', size, pitch, x', k.
  split; [exact Hrun |]. split; [exact Hlock |]. split; [exact Hunlock |].
  split; [exact Ht |]. exact (Hup 0 0).
Defined.

(** ** Render targets *)

Lemma GL_SetRenderTarget_run (D : Driver) (tex : option SDL_Texture)
    (x : Session) :
  exists r0 x0 k0,
    lift (GL_ActivateRenderer (platform D)) x = Some (r0, x0)
    /\ trace x0 = trace x ++ map gl k0
    /\ forallb is_activation_call k0 = true
    /\ GL_SetRenderTarget D tex x
       = if negb (GL_EXT_framebuffer_object_supported
                    (renderdata (gl_state x)))
         then Some (-1, x0)
         else
           match tex with
           | None => Some (0, after D [glBindFramebufferEXT 0] x0)
           | Some t =>
               match driverdata t with
               | None => None
               | Some texturedata =>
                   match fbo texturedata with
                   | None => None
                   | Some f =>
                       Some (if negb (framebuffer_status D (FBO f)
                                        (texture texturedata)
                                      =? GL_FRAMEBUFFER_COMPLETE_EXT)
                             then -1 else 0,
                             after D
                               [ glBindFramebufferEXT (FBO f);
                                 glFramebufferTexture2DEXT
                                   (textype (renderdata (gl_state x)))
                                   (texture texturedata);
                                 glCheckFramebufferStatusEXT ] x0)
                   end
               end
           end.
Proof.
  destruct (lift_GL_ActivateRenderer (platform D) x)
    as (r0 & x0 & k0 & E0 & _ & Ht & _ & Hc & Hn).
  exists r0, x0, k0. split; [exact E0 |]. split; [exact Ht |].
  split; [exact Hn |].
  destruct (caps_flags _ _ Hc) as (_ & Hfbo & Htt).
  unfold GL_SetRenderTarget.
  unfold bindx at 1. rewrite E0. cbv beta iota.
  unfold bindx at 1. rewrite lift_get_data. cbv beta iota.
  rewrite Hfbo, Htt.
  destruct (negb (GL_EXT_framebuffer_object_supported
                    (renderdata (gl_state x)))); [reflexivity |].
  destruct tex as [t |]; [| xsteps; reflexivity].
  destruct (driverdata t) as [texturedata |]; [| reflexivity].
  destruct (fbo texturedata) as [f |]; [| reflexivity].
  xsteps.
  destruct (negb (framebuffer_status D (FBO f) (texture texturedata)
                  =? GL_FRAMEBUFFER_COMPLETE_EXT)); reflexivity.
Qed.

(** A render-target texture that [GL_CreateTexture] has created (debug flag
    off, sides up to 2^30) can be made the render target, and the window
    again after it:
    [GL_SetRenderTarget] binds the framebuffer object of the texture's
    size, attaches the texture object and returns 0 when the driver finds
    the framebuffer complete, -1 otherwise; with the null texture it binds
    framebuffer 0 and returns 0.  The exception is a texture created while
    the node of the framebuffer list could not be allocated:
    [GL_CreateTexture] has returned 0 for it all the same, its [fbo] is
    null, and [GL_SetRenderTarget] dereferences it. *)
Theorem created_target_texture_as_render_target (D : Driver) (fuel : nat)
    (tex : SDL_Texture) (s : GLState) (tr : list Op) :
  debug_enabled (renderdata s) = false ->
  tex_access tex = SDL_TEXTUREACCESS_TARGET ->
  creation_refused (platform D) (renderdata s) tex = false ->
  (32 <= fuel)%nat -> tex_w tex <= 2 ^ 30 -> tex_h tex <= 2 ^ 30 ->
  exists tex' s' data,
    GL_CreateTexture (platform D) fuel tex s = Some ((0, tex'), s')
    /\ driverdata tex' = Some data
    /\ (fbo data = None <->
        find_FBO (framebuffers (renderdata s))
                 (wrap_Uint32 (tex_w tex)) (wrap_Uint32 (tex_h tex)) = None
        /\ alloc_ok (platform D) Alloc_FBOList = false)
    /\ (fbo data = None ->
        GL_SetRenderTarget D (Some tex') (mkSession s' tr) = None)
    /\ (forall f, fbo data = Some f ->
        fbo_size f = (wrap_Uint32 (tex_w tex), wrap_Uint32 (tex_h tex))
        /\ exists x' k0,
             GL_SetRenderTarget D (Some tex') (mkSession s' tr)
             = Some (if framebuffer_status D (FBO f) (texture data)
                        =? GL_FRAMEBUFFER_COMPLETE_EXT
                     then 0 else -1, x')
             /\ forallb is_activation_call k0 = true
             /\ trace x'
                = tr ++ map gl k0
                  ++ [ glBindFramebufferEXT (FBO f);
                       glFramebufferTexture2DEXT (textype (renderdata s))
                         (texture data);
                       glCheckFramebufferStatusEXT ])
    /\ exists x' k0,
         GL_SetRenderTarget D None (mkSession s' tr) = Some (0, x')
         /\ forallb is_activation_call k0 = true
         /\ trace x' = tr ++ map gl k0 ++ [glBindFramebufferEXT 0].
Proof.
  intros Hd Hacc Href Hf Hw Hh.
  destruct (GL_CreateTexture_nodebug (platform D) fuel tex s Hd Href Hf Hw Hh)
    as (tex' & s' & data & E & Htex & Hc & _ & Hfbo & Hsome & Hkeep & Hlist).
  exists tex', s', data. split; [exact E |].
  assert (Hdd : driverdata tex' = Some data) by (rewrite Htex; reflexivity).
  split; [exact Hdd |].
  rewrite Hacc in Hfbo. cbn [Z.eqb Pos.eqb] in Hfbo.
  set (w := wrap_Uint32 (tex_w tex)) in *.
  set (h := wrap_Uint32 (tex_h tex)) in *.
  assert (Hsup : GL_EXT_framebuffer_object_supported (renderdata s) = true).
  { unfold creation_refused in Href. rewrite Hacc in Href.
    cbn [Z.eqb Pos.eqb andb] in Href.
    destruct (GL_EXT_framebuffer_object_supported (renderdata s));
      [reflexivity | discriminate Href]. }
  destruct (caps_flags _ _ Hc) as (_ & Hsup' & Htt).
  split.
  { split.
    - intros Hnone.
      destruct (find_FBO (framebuffers (renderdata s)) w h) as [f0 |] eqn:Ef.
      + exfalso. rewrite (Hkeep f0 eq_refl), Ef, Hnone in Hfbo.
        discriminate Hfbo.
      + split; [reflexivity |].
        destruct (alloc_ok (platform D) Alloc_FBOList) eqn:Ea;
          [| reflexivity].
        exfalso. exact (Hsome Hacc eq_refl Hnone).
    - intros [Ef Ea]. rewrite Hfbo, (Hlist Ea). exact Ef. }
  split.
  { intros Hnone.
    destruct (GL_SetRenderTarget_run D (Some tex') (mkSession s' tr))
      as (r0 & x0 & k0 & _ & _ & _ & ->).
    cbn [gl_state]. rewrite Hsup', Hsup, Hdd, Hnone. reflexivity. }
  split.
  { intros f Hsomef. split.
    - rewrite Hfbo in Hsomef. clear - Hsomef.
      induction (framebuffers (renderdata s')) as [| r l IH];
        [discriminate Hsomef |].
      cbn [find_FBO] in Hsomef.
      destruct (negb (fbo_w r =? w) || negb (fbo_h r =? h)) eqn:Et;
        [exact (IH Hsomef) |].
      injection Hsomef as <-. apply orb_false_elim in Et.
      destruct Et as [E1 E2]. apply negb_false_iff in E1, E2.
      apply Z.eqb_eq in E1, E2. unfold fbo_size. rewrite E1, E2. reflexivity.
    - destruct (GL_SetRenderTarget_run D (Some tex') (mkSession s' tr))
        as (r0 & x0 & k0 & _ & Ht0 & Hn0 & ->).
      cbn [gl_state]. rewrite Hsup', Hsup, Hdd, Hsomef. cbn [negb].
      eexists. exists k0. split.
      + destruct (framebuffer_status D (FBO f) (texture data) =? 36053);
          reflexivity.
      + split; [exact Hn0 |]. rewrite after_trace, Ht0, Htt.
        cbn [trace]. rewrite <- app_assoc. reflexivity. }
  destruct (GL_SetRenderTarget_run D None (mkSession s' tr))
    as (r0 & x0 & k0 & _ & Ht0 & Hn0 & ->).
  cbn [gl_state]. rewrite Hsup', Hsup. cbn [negb].
  eexists. exists k0. split; [reflexivity |]. split; [exact Hn0 |].
  rewrite after_trace, Ht0. cbn [trace]. rewrite <- app_assoc. reflexivity.
Qed.

Lemma created_target_texture_as_render_target_witness :
  exists tex' s' data x1 x2,
    GL_CreateTexture (platform sample_driver) 32
      (sample_texture SDL_PIXELFORMAT_ARGB8888 SDL_TEXTUREACCESS_TARGET
         100 60)
      (sample_state false false) = Some ((0, tex'), s')
    /\ driverdata tex' = Some data
    /\ GL_SetRenderTarget sample_driver (Some tex') (mkSession s' [])
       = Some (0, x1)
    /\ GL_SetRenderTarget sample_driver None (mkSession s' [])
       = Some (0, x2).
Proof.
  pose (tex := sample_texture SDL_PIXELFORMAT_ARGB8888
                 SDL_TEXTUREACCESS_TARGET 100 60).
  assert (Hd : debug_enabled (renderdata (sample_state false false)) = false)
    by reflexivity.
  assert (Hacc : tex_access tex = SDL_TEXTUREACCESS_TARGET) by reflexivity.
  assert (Href : creation_refused (platform sample_driver)
                   (renderdata (sample_state false false)) tex = false)
    by reflexivity.
  assert (Hf : (32 <= 32)%nat) by lia.
  assert (Hw : tex_w tex <= 2 ^ 30) by (cbn; lia).
  assert (Hh : tex_h tex <= 2 ^ 30) by (cbn; lia).
  destruct (created_target_texture_as_render_target sample_driver 32 tex
              (sample_state false false) [] Hd Hacc Href Hf Hw Hh)
    as (tex' & s' & data & E & Hdd & Hiff & _ & Hset & x2 & k2 & Hwin & _).
  destruct (fbo data) as [f |] eqn:Ef.
  - destruct (Hset f eq_refl) as (_ & x1 & k1 & E1 & _).
    exists tex', s', data, x1, x2.
    split; [exact E |]. split; [exact Hdd |]. split; [exact E1 | exact Hwin].
  - exfalso. destruct Hiff as [Hiff _]. destruct (Hiff eq_refl) as [_ Ha].
    discriminate Ha.
Defined.

(** ** The end of the renderer *)

Lemma lift_set_data (d : GL_RenderData) (x : Session) :
  lift (set_data d) x
  = Some (tt, mkSession (mkState d (current_context (gl_state x))
                                 (gl_errors (gl_state x))
                                 (next_name (gl_state x))
                                 (log (gl_state x)))
                        (trace x)).
Proof.
  unfold lift, set_data. cbn [log]. rewrite skipn_all, app_nil_r.
  reflexivity.
Qed.

Lemma framebuffers_errors_cleared (s : GLState) :
  framebuffers (renderdata (errors_cleared s)) = framebuffers (renderdata s).
Proof.
  unfold errors_cleared.
  destruct (debug_enabled (renderdata s));
    [destruct (GL_ARB_debug_output_supported (renderdata s)) |]; reflexivity.
Qed.

Lemma framebuffers_activated (P : Platform) (s : GLState) :
  framebuffers (renderdata (activated P s)) = framebuffers (renderdata s).
Proof.
  unfold activated.
  destruct ((current_context s =? context (renderdata s))
            || make_current_ok P); [| reflexivity].
  rewrite framebuffers_errors_cleared. reflexivity.
Qed.

(** [GL_ClearErrors], [GL_CheckError] and [GL_ActivateRenderer] leave the
    list of framebuffer objects alone and call nothing but [glGetError]
    and [SDL_GL_MakeCurrent]. *)
Lemma GL_ClearErrors_framebuffers (s : GLState) :
  exists n s',
    GL_ClearErrors s = Some (tt, s')
    /\ log s' = log s ++ repeat glGetError n
    /\ framebuffers (renderdata s') = framebuffers (renderdata s)
    /\ caps (renderdata s') = caps (renderdata s).
Proof.
  destruct (GL_ClearErrors_effect s) as (n & s' & E & Hf & Hl).
  exists n, s'. split; [exact E |]. split; [exact Hl |].
  assert (Hr : renderdata s' = renderdata (errors_cleared s))
    by exact (f_equal renderdata Hf).
  split.
  - rewrite Hr. apply framebuffers_errors_cleared.
  - destruct (GL_ClearErrors_step _ _ _ E) as (k & _ & Hc). exact Hc.
Qed.

Lemma GL_CheckError_framebuffers (s : GLState) :
  exists r s' n,
    GL_CheckError s = Some (r, s')
    /\ log s' = log s ++ repeat glGetError n
    /\ framebuffers (renderdata s') = framebuffers (renderdata s)
    /\ caps (renderdata s') = caps (renderdata s).
Proof.
  destruct (GL_CheckError_effect s)
    as (r & s' & E & _ & _ & _ & Hoff & Hflags & Hmsgs).
  destruct (GL_CheckError_step _ _ _ E) as (n & Hl & Hc).
  exists r, s', n. split; [exact E |]. split; [exact Hl |].
  split; [| exact Hc].
  destruct (debug_enabled (renderdata s)) eqn:Hd.
  - destruct (GL_ARB_debug_output_supported (renderdata s)) eqn:Ha.
    + unfold GL_CheckError in E. unfold bind at 1 in E.
      unfold get_data in E. cbv beta iota in E. rewrite Hd, Ha in E.
      cbn [negb] in E.
      destruct (error_messages (renderdata s)) as [| m ms] eqn:Em.
      * injection E as _ <-. reflexivity.
      * unfold bind in E.
        destruct (GL_ClearErrors_framebuffers s) as (n1 & s1 & E1 & _ & Hf & _).
        rewrite E1 in E. injection E as _ <-. exact Hf.
    + destruct (Hflags eq_refl eq_refl) as (_ & _ & Hr & _).
      rewrite Hr. reflexivity.
  - destruct (Hoff eq_refl) as [_ ->]. reflexivity.
Qed.

Lemma GL_ActivateRenderer_framebuffers (P : Platform) (s : GLState) :
  exists r s' k,
    GL_ActivateRenderer P s = Some (r, s')
    /\ log s' = log s ++ k
    /\ forallb is_activation_call k = true
    /\ framebuffers (renderdata s') = framebuffers (renderdata s)
    /\ caps (renderdata s') = caps (renderdata s).
Proof.
  destruct (GL_ActivateRenderer_outcome P s)
    as (r & s' & k & E & Hl & _ & Hfail & Hok).
  exists r, s', k. split; [exact E |]. split; [exact Hl |].
  destruct (GL_ActivateRenderer_step _ _ _ _ E) as (k' & [_ Hc] & _).
  destruct (Z.eq_dec r (-1)) as [-> | Hn].
  - destruct (Hfail eq_refl) as [Hf ->]. split; [reflexivity |].
    split; [| exact Hc].
    exact (f_equal (fun s => framebuffers (renderdata s)) Hf).
  - destruct (Hok Hn) as (_ & _ & Hf & n & ->).
    split.
    { rewrite forallb_app. apply andb_true_intro. split.
      - destruct (current_context s =? context (renderdata s)); reflexivity.
      - clear. induction n as [| n IH]; [reflexivity | exact IH]. }
    split; [| exact Hc].
    rewrite <- (framebuffers_activated P s).
    exact (f_equal (fun s => framebuffers (renderdata s)) Hf).
Qed.

Lemma bindx_eq {A B : Type} (m : GLX A) (k : A -> GLX B) (x x' : Session)
    (a : A) :
  m x = Some (a, x') -> bindx m k x = k a x'.
Proof. intros E. unfold bindx. rewrite E. reflexivity. Qed.

Lemma deleted_framebuffers_app (k1 k2 : list Op) :
  deleted_framebuffers (k1 ++ k2)
  = deleted_framebuffers k1 ++ deleted_framebuffers k2.
Proof. apply flat_map_app. Qed.

Lemma deleted_framebuffers_gl (k : list Call) :
  deleted_framebuffers (map gl k) = [].
Proof. induction k as [| c k IH]; [reflexivity | exact IH]. Qed.

(** The loop of [GL_DestroyRenderer] deletes the framebuffer objects of the
    list, in the order of the list, and leaves the list empty. *)
Lemma GL_DestroyRenderer_loop_run (D : Driver) :
  forall (l : list GL_FBOList) (fuel : nat) (x : Session),
    framebuffers (renderdata (gl_state x)) = l ->
    (length l < fuel)%nat ->
    exists x' k,
      GL_DestroyRenderer_loop D fuel x = Some (tt, x')
      /\ trace x' = trace x ++ k
      /\ deleted_framebuffers k = map FBO l
      /\ framebuffers (renderdata (gl_state x')) = []
      /\ caps (renderdata (gl_state x')) = caps (renderdata (gl_state x)).
Proof.
  induction l as [| node nextnode IH]; intros fuel x Hl Hfuel;
    (destruct fuel as [| fuel]; [cbn [length] in Hfuel; lia |]);
    cbn [GL_DestroyRenderer_loop];
    rewrite (bindx_eq _ _ _ _ _ (lift_get_data x)); rewrite Hl.
  - exists x, []. split; [reflexivity |]. split; [symmetry; apply app_nil_r |].
    split; [reflexivity |]. split; [exact Hl | reflexivity].
  - rewrite bindx_op by exact I.
    set (x1 := after1 D x (glDeleteFramebuffersEXT (FBO node))).
    destruct (GL_CheckError_framebuffers (gl_state x1))
      as (r & s2 & n & E2 & Hl2 & Hf2 & Hc2).
    rewrite (bindx_eq _ _ _ _ _ (lift_run _ x1 r s2 _ E2 Hl2)).
    set (x2 := mkSession s2 (trace x1 ++ map gl (repeat glGetError n))).
    rewrite (bindx_eq _ _ _ _ _ (lift_get_data x2)).
    rewrite (bindx_eq _ _ _ _ _ (lift_set_data _ x2)).
    match goal with
    | |- context [GL_DestroyRenderer_loop D fuel ?y] => set (x3 := y)
    end.
    destruct (IH fuel x3) as (x' & k & E & Ht & Hdel & Hempty & Hc).
    { reflexivity. }
    { cbn [length] in Hfuel. lia. }
    exists x', (glDeleteFramebuffersEXT (FBO node)
                :: map gl (repeat glGetError n) ++ k).
    split; [exact E |].
    split.
    { rewrite Ht. cbn [x3 x2 x1 trace after1]. rewrite <- !app_assoc.
      reflexivity. }
    split.
    { change (glDeleteFramebuffersEXT (FBO node)
              :: map gl (repeat glGetError n) ++ k)
        with ([glDeleteFramebuffersEXT (FBO node)]
              ++ map gl (repeat glGetError n) ++ k).
      rewrite !deleted_framebuffers_app, deleted_framebuffers_gl, Hdel.
      reflexivity. }
    split; [exact Hempty |].
    rewrite Hc. cbn [x3 x2 gl_state renderdata].
    transitivity (caps (renderdata s2)); [reflexivity |].
    rewrite Hc2. cbn [x1 after1 gl_state renderdata].
    destruct (debug_enabled (renderdata (gl_state x))
              && GL_ARB_debug_output_supported (renderdata (gl_state x)));
      reflexivity.
Qed.

Lemma GL_DestroyRenderer_deletes_the_framebuffers_aux (D : Driver)
    (x : Session) :
  exists x' k,
       GL_DestroyRenderer D true x = Some (tt, x')
       /\ trace x'
          = trace x ++ k
            ++ (if context (renderdata (gl_state x)) =? 0 then []
                else [SDL_GL_DeleteContext
                        (context (renderdata (gl_state x)))])
       /\ deleted_framebuffers k
          = (if context (renderdata (gl_state x)) =? 0 then []
             else map FBO (framebuffers (renderdata (gl_state x))))
       /\ framebuffers (renderdata (gl_state x'))
          = (if context (renderdata (gl_state x)) =? 0
             then framebuffers (renderdata (gl_state x))
             else []).
Proof.
  unfold GL_DestroyRenderer.
  rewrite (bindx_eq _ _ _ _ _ (lift_get_data x)).
  (* the activation *)
  assert (Hact : exists x1 k1,
             (if negb (context (renderdata (gl_state x)) =? 0)
              then bindx (lift (GL_ActivateRenderer (platform D)))
                         (fun _ => retx tt)
              else retx tt) x = Some (tt, x1)
             /\ trace x1 = trace x ++ map gl k1
             /\ framebuffers (renderdata (gl_state x1))
                = framebuffers (renderdata (gl_state x))
             /\ caps (renderdata (gl_state x1))
                = caps (renderdata (gl_state x))).
  { destruct (negb (context (renderdata (gl_state x)) =? 0)).
    - destruct (GL_ActivateRenderer_framebuffers (platform D) (gl_state x))
        as (r & s1 & k1 & E1 & Hl1 & _ & Hf1 & Hc1).
      exists (mkSession s1 (trace x ++ map gl k1)), k1.
      rewrite (bindx_eq _ _ _ _ _ (lift_run _ x r s1 k1 E1 Hl1)).
      split; [reflexivity |]. split; [reflexivity |].
      split; [exact Hf1 | exact Hc1].
    - exists x, []. split; [reflexivity |].
      split; [symmetry; apply app_nil_r |]. split; reflexivity. }
  destruct Hact as (x1 & k1 & E1 & Ht1 & Hf1 & Hc1).
  rewrite (bindx_eq _ _ _ _ _ E1).
  (* the errors *)
  destruct (GL_ClearErrors_framebuffers (gl_state x1))
    as (n2 & s2 & E2 & Hl2 & Hf2 & Hc2).
  rewrite (bindx_eq _ _ _ _ _ (lift_run _ x1 tt s2 _ E2 Hl2)).
  set (x2 := mkSession s2 (trace x1 ++ map gl (repeat glGetError n2))).
  rewrite (bindx_eq _ _ _ _ _ (lift_get_data x2)).
  assert (Hc : caps (renderdata (gl_state x2))
               = caps (renderdata (gl_state x)))
    by (cbn [x2 gl_state]; rewrite Hc2; exact Hc1).
  assert (Hctx : context (renderdata (gl_state x2))
                 = context (renderdata (gl_state x)))
    by (unfold caps in Hc; inversion Hc; reflexivity).
  (* the callback and the shaders *)
  set (k3 := (if GL_ARB_debug_output_supported (renderdata (gl_state x2))
              then [glDebugMessageCallbackARB] else [])
             ++ (if shaders (renderdata (gl_state x2))
                 then [GL_DestroyShaderContext] else [])).
  assert (E3 : forall (B : Type) (k : unit -> GLX B),
             bindx (if GL_ARB_debug_output_supported
                         (renderdata (gl_state x2))
                    then op D glDebugMessageCallbackARB else retx tt)
               (fun _ =>
                  bindx (if shaders (renderdata (gl_state x2))
                         then op D GL_DestroyShaderContext else retx tt) k)
               x2
             = k tt (after D k3 x2)).
  { intros B k. unfold k3.
    destruct (GL_ARB_debug_output_supported (renderdata (gl_state x2))),
      (shaders (renderdata (gl_state x2))); xsteps; reflexivity. }
  rewrite E3. rewrite Hctx.
  set (x3 := after D k3 x2).
  assert (Hf3 : framebuffers (renderdata (gl_state x3))
                = framebuffers (renderdata (gl_state x))).
  { unfold x3. destruct (after_names D k3 x2) as (_ & _ & ->).
    cbn [x2 gl_state]. rewrite Hf2. exact Hf1. }
  assert (Hdel3 : deleted_framebuffers k3 = []).
  { unfold k3.
    destruct (GL_ARB_debug_output_supported (renderdata (gl_state x2))),
      (shaders (renderdata (gl_state x2))); reflexivity. }
  assert (Ht3 : trace x3
                = trace x ++ map gl k1 ++ map gl (repeat glGetError n2)
                  ++ k3).
  { unfold x3. rewrite after_trace. cbn [x2 trace]. rewrite Ht1.
    rewrite <- !app_assoc. reflexivity. }
  destruct (context (renderdata (gl_state x)) =? 0) eqn:Ectx; cbn [negb].
  - exists x3, (map gl k1 ++ map gl (repeat glGetError n2) ++ k3).
    split; [reflexivity |].
    split; [rewrite Ht3, app_nil_r; reflexivity |].
    split; [| exact Hf3].
    rewrite !deleted_framebuffers_app, !deleted_framebuffers_gl, Hdel3.
    reflexivity.
  - destruct (GL_DestroyRenderer_loop_run D
                (framebuffers (renderdata (gl_state x3)))
                (S (length (framebuffers (renderdata (gl_state x3))))) x3
                eq_refl (Nat.lt_succ_diag_r _))
      as (x4 & k4 & E4 & Ht4 & Hdel4 & Hempty & _).
    unfold bindx at 1. cbv beta. rewrite E4.
    rewrite (op_after D (SDL_GL_DeleteContext
                           (context (renderdata (gl_state x)))) x4 I).
    eexists.
    exists (map gl k1 ++ map gl (repeat glGetError n2) ++ k3 ++ k4).
    split; [reflexivity |].
    split.
    { cbn [after1 trace]. rewrite Ht4, Ht3. rewrite <- !app_assoc.
      reflexivity. }
    split.
    { rewrite !deleted_framebuffers_app, !deleted_framebuffers_gl, Hdel3,
        Hdel4, Hf3. reflexivity. }
    cbn [after1 gl_state renderdata].
    destruct (debug_enabled (renderdata (gl_state x4))
              && GL_ARB_debug_output_supported (renderdata (gl_state x4)));
      exact Hempty.
Qed.

(** [GL_DestroyRenderer] always returns.  On a renderer with a context it
    hands every framebuffer object of the list to [glDeleteFramebuffersEXT],
    once, in the order of the list, leaves the list empty and deletes the
    context last; on a renderer whose context is null it deletes nothing
    and leaves the list as it is.  Without driver data it does nothing. *)
Theorem GL_DestroyRenderer_deletes_the_framebuffers (D : Driver)
    (x : Session) :
  GL_DestroyRenderer D false x = Some (tt, x)
  /\ exists x' k,
       GL_DestroyRenderer D true x = Some (tt, x')
       /\ trace x'
          = trace x ++ k
            ++ (if context (renderdata (gl_state x)) =? 0 then []
                else [SDL_GL_DeleteContext
                        (context (renderdata (gl_state x)))])
       /\ deleted_framebuffers k
          = (if context (renderdata (gl_state x)) =? 0 then []
             else map FBO (framebuffers (renderdata (gl_state x))))
       /\ framebuffers (renderdata (gl_state x'))
          = (if context (renderdata (gl_state x)) =? 0
             then framebuffers (renderdata (gl_state x))
             else []).
Proof.
  split; [reflexivity |].
  exact (GL_DestroyRenderer_deletes_the_framebuffers_aux D x).
Qed.


(** ** Framebuffer objects from their generation to the end of the renderer *)

Lemma quiet_refl (s : GLState) : quiet s s.
Proof. split; reflexivity. Qed.

Lemma quiet_trans (s1 s2 s3 : GLState) :
  quiet s1 s2 -> quiet s2 s3 -> quiet s1 s3.
Proof. intros [H1 H2] [H3 H4]. split; congruence. Qed.

Lemma quiet_tracked (s s' : GLState) :
  framebuffers_tracked s -> quiet s s' -> framebuffers_tracked s'.
Proof.
  unfold framebuffers_tracked. intros H [H1 H2]. rewrite H1, H2. exact H.
Qed.

Lemma generated_framebuffers_app (k1 k2 : list Call) :
  generated_framebuffers (k1 ++ k2)
  = generated_framebuffers k1 ++ generated_framebuffers k2.
Proof. apply flat_map_app. Qed.

Lemma quiet_log (s s' : GLState) (k : list Call) :
  framebuffers (renderdata s') = framebuffers (renderdata s) ->
  log s' = log s ++ k -> generated_framebuffers k = [] -> quiet s s'.
Proof.
  intros Hf Hl Hk. split; [exact Hf |].
  rewrite Hl, generated_framebuffers_app, Hk. apply app_nil_r.
Qed.

Lemma call_keeps_framebuffers (P : Platform) (c : Call) (s s' : GLState) (u : unit) :
  generated_framebuffers [c] = [] ->
  call P c s = Some (u, s') -> quiet s s'.
Proof.
  intros Hc H. unfold call in H. injection H as _ Hs. subst s'.
  apply (quiet_log _ _ [c]); [| reflexivity | exact Hc].
  cbn [renderdata].
  destruct (debug_enabled (renderdata s)
            && GL_ARB_debug_output_supported (renderdata s)); reflexivity.
Qed.

Lemma calls_keep_framebuffers (P : Platform) (l : list Call) :
  generated_framebuffers l = [] ->
  forall (s s' : GLState) (u : unit),
    calls P l s = Some (u, s') -> quiet s s'.
Proof.
  induction l as [| c l IH]; intros Hl s s' u H.
  - injection H as _ Hs. subst s'. apply quiet_refl.
  - cbn [calls] in H. apply bind_inv in H.
    destruct H as (u1 & s1 & H1 & H).
    change (c :: l) with ([c] ++ l) in Hl.
    rewrite generated_framebuffers_app in Hl. apply app_eq_nil in Hl.
    destruct Hl as [Hc Hl].
    eapply quiet_trans; [exact (call_keeps_framebuffers P c s s1 u1 Hc H1) |].
    exact (IH Hl s1 s' u H).
Qed.

Lemma gen_texture_quiet (P : Platform) (s s' : GLState) (n : GLuint) :
  gen_texture P s = Some (n, s') -> quiet s s'.
Proof.
  unfold gen_texture. intros H.
  apply bind_inv in H. destruct H as (a & s1 & H1 & H).
  apply bind_inv in H. destruct H as (u & s2 & H2 & H).
  apply ret_inv in H. destruct H as [_ ->].
  unfold fresh_name in H1. injection H1 as _ <-.
  eapply call_keeps_framebuffers in H2; [| reflexivity]. exact H2.
Qed.

Lemma GL_CheckError_quiet (s s' : GLState) (r : Z) :
  GL_CheckError s = Some (r, s') -> quiet s s'.
Proof.
  intros H.
  destruct (GL_CheckError_framebuffers s) as (r1 & s1 & n & E & Hl & Hf & _).
  rewrite E in H. injection H as _ <-.
  apply (quiet_log _ _ _ Hf Hl).
  clear. induction n as [| n IH]; [reflexivity | exact IH].
Qed.

Lemma activation_calls_generate_nothing (k : list Call) :
  forallb is_activation_call k = true -> generated_framebuffers k = [].
Proof.
  induction k as [| c k IH]; intros H; [reflexivity |].
  cbn [forallb] in H. apply andb_prop in H. destruct H as [Hc H].
  destruct c; try discriminate Hc; exact (IH H).
Qed.

Lemma GL_ActivateRenderer_quiet (P : Platform) (s s' : GLState) (r : Z) :
  GL_ActivateRenderer P s = Some (r, s') -> quiet s s'.
Proof.
  intros H.
  destruct (GL_ActivateRenderer_framebuffers P s)
    as (r1 & s1 & k & E & Hl & Hn & Hf & _).
  rewrite E in H. injection H as _ <-.
  exact (quiet_log _ _ _ Hf Hl (activation_calls_generate_nothing k Hn)).
Qed.

Lemma GL_GetFBO_tracked (P : Platform) (w h : Uint32) (s s' : GLState)
    (r : option GL_FBOList) :
  framebuffers_tracked s -> GL_GetFBO P w h s = Some (r, s') ->
  framebuffers_tracked s'.
Proof.
  intros Ht H.
  destruct (GL_GetFBO_effect P w h s) as (r1 & s1 & k & E & Hl & Hold & Hnew).
  rewrite E in H. injection H as _ <-.
  destruct (find_FBO (framebuffers (renderdata s)) w h) as [f |] eqn:Ef.
  - destruct (Hold f eq_refl) as (_ & -> & _). exact Ht.
  - specialize (Hnew eq_refl).
    destruct (alloc_ok P Alloc_FBOList).
    + destruct Hnew as (_ & -> & Hfb & _).
      unfold framebuffers_tracked in *.
      rewrite Hfb, Hl, generated_framebuffers_app, rev_app_distr.
      cbn [map FBO generated_framebuffers flat_map app rev].
      rewrite Ht. reflexivity.
    + destruct Hnew as (_ & -> & _). exact Ht.
Qed.

Lemma create_yuv_planes_quiet (P : Platform) (textype scaleMode : GLenum)
    (internalFormat half_w half_h : Z) (fmt type : GLenum)
    (s s' : GLState) (uv : GLuint * GLuint) :
  create_yuv_planes P textype scaleMode internalFormat half_w half_h fmt type s
  = Some (uv, s') ->
  quiet s s'.
Proof.
  unfold create_yuv_planes. intros H.
  apply bind_inv in H. destruct H as (u & s1 & H1 & H).
  apply gen_texture_quiet in H1.
  apply bind_inv in H. destruct H as (v & s2 & H2 & H).
  apply gen_texture_quiet in H2.
  apply bind_inv in H. destruct H as (u3 & s3 & H3 & H).
  eapply call_keeps_framebuffers in H3; [| reflexivity].
  apply bind_inv in H. destruct H as (u4 & s4 & H4 & H).
  eapply call_keeps_framebuffers in H4; [| reflexivity].
  apply bind_inv in H. destruct H as (u5 & s5 & H5 & H).
  eapply calls_keep_framebuffers in H5; [| reflexivity].
  apply bind_inv in H. destruct H as (u6 & s6 & H6 & H).
  eapply call_keeps_framebuffers in H6; [| reflexivity].
  apply bind_inv in H. destruct H as (u7 & s7 & H7 & H).
  eapply call_keeps_framebuffers in H7; [| reflexivity].
  apply bind_inv in H. destruct H as (u8 & s8 & H8 & H).
  eapply calls_keep_framebuffers in H8; [| reflexivity].
  apply bind_inv in H. destruct H as (u9 & s9 & H9 & H).
  eapply call_keeps_framebuffers in H9; [| reflexivity].
  apply bind_inv in H. destruct H as (u10 & s10 & H10 & H).
  eapply call_keeps_framebuffers in H10; [| reflexivity].
  apply ret_inv in H. destruct H as [_ ->].
  repeat (eapply quiet_trans; [eassumption |]). apply quiet_refl.
Qed.

Lemma create_nv12_plane_quiet (P : Platform) (textype scaleMode : GLenum)
    (half_w half_h : Z) (s s' : GLState) (u : GLuint) :
  create_nv12_plane P textype scaleMode half_w half_h s = Some (u, s') ->
  quiet s s'.
Proof.
  unfold create_nv12_plane. intros H.
  apply bind_inv in H. destruct H as (u1 & s1 & H1 & H).
  apply gen_texture_quiet in H1.
  apply bind_inv in H. destruct H as (u2 & s2 & H2 & H).
  eapply call_keeps_framebuffers in H2; [| reflexivity].
  apply bind_inv in H. destruct H as (u3 & s3 & H3 & H).
  eapply call_keeps_framebuffers in H3; [| reflexivity].
  apply bind_inv in H. destruct H as (u4 & s4 & H4 & H).
  eapply calls_keep_framebuffers in H4; [| reflexivity].
  apply bind_inv in H. destruct H as (u5 & s5 & H5 & H).
  eapply call_keeps_framebuffers in H5; [| reflexivity].
  apply bind_inv in H. destruct H as (u6 & s6 & H6 & H).
  eapply call_keeps_framebuffers in H6; [| reflexivity].
  apply ret_inv in H. destruct H as [_ ->].
  repeat (eapply quiet_trans; [eassumption |]). apply quiet_refl.
Qed.

Lemma primary_texture_calls_generate_nothing (P : Platform)
    (tex : SDL_Texture) (textype scaleMode : GLenum) (name : GLuint)
    (internalFormat texture_w texture_h : Z) (fmt type : GLenum) (pitch : Z) :
  generated_framebuffers
    (primary_texture_calls P tex textype scaleMode name internalFormat
       texture_w texture_h fmt type pitch) = [].
Proof.
  unfold primary_texture_calls, primary_image.
  rewrite !generated_framebuffers_app.
  destruct (negb (textype =? 34037)), (MACOSX P); cbn [andb];
    try (destruct ((tex_access tex =? 1) && (tex_format tex =? 372645892)
                   && (Z.rem (tex_w tex) 8 =? 0)));
    reflexivity.
Qed.

(** [GL_CreateTexture] keeps the list of framebuffer objects in step with
    what has been generated, whatever it returns. *)
Lemma GL_CreateTexture_tracked (P : Platform) (fuel : nat)
    (tex : SDL_Texture) (s s' : GLState) (res : Z * SDL_Texture) :
  framebuffers_tracked s ->
  GL_CreateTexture P fuel tex s = Some (res, s') ->
  framebuffers_tracked s'.
Proof.
  unfold GL_CreateTexture. intros Ht H.
  apply bind_inv in H. destruct H as (a0 & s0 & H0 & H).
  apply GL_ActivateRenderer_quiet in H0.
  apply (quiet_tracked _ _ Ht) in H0. clear Ht.
  apply bind_inv in H. destruct H as (d & s1 & Hd & H).
  injection Hd as <- <-.
  destruct ((tex_access tex =? 2)
            && negb (GL_EXT_framebuffer_object_supported (renderdata s0)));
    [apply ret_inv in H; destruct H as [_ ->]; exact H0 |].
  destruct (convert_format (MACOSX P) (tex_format tex))
    as [[[internalFormat fmt] type] |];
    [| apply ret_inv in H; destruct H as [_ ->]; exact H0].
  destruct (negb (alloc_ok P Alloc_TextureData));
    [apply ret_inv in H; destruct H as [_ ->]; exact H0 |].
  cbv zeta in H.
  destruct ((tex_access tex =? 1)
            && negb (alloc_ok P (Alloc_pixels (streaming_size P tex))));
    [apply ret_inv in H; destruct H as [_ ->]; exact H0 |].
  apply bind_inv in H. destruct H as (f & s2 & H2 & H).
  assert (Ht2 : framebuffers_tracked s2).
  { destruct (tex_access tex =? 2).
    - exact (GL_GetFBO_tracked _ _ _ _ _ _ H0 H2).
    - apply ret_inv in H2. destruct H2 as [_ ->]. exact H0. }
  clear H0 H2.
  apply bind_inv in H. destruct H as (r3 & s3 & H3 & H).
  apply GL_CheckError_quiet in H3. apply (quiet_tracked _ _ Ht2) in H3.
  apply bind_inv in H. destruct H as (name & s4 & H4 & H).
  apply gen_texture_quiet in H4. apply (quiet_tracked _ _ H3) in H4.
  apply bind_inv in H. destruct H as (r5 & s5 & H5 & H).
  apply GL_CheckError_quiet in H5. apply (quiet_tracked _ _ H4) in H5.
  destruct (r5 <? 0);
    [apply ret_inv in H; destruct H as [_ ->]; exact H5 |].
  destruct (texture_dimensions fuel (renderdata s0) tex)
    as [[[[tw th] tw_scale] th_scale] |]; [| discriminate H].
  apply bind_inv in H. destruct H as (u6 & s6 & H6 & H).
  eapply calls_keep_framebuffers in H6;
    [| apply primary_texture_calls_generate_nothing].
  apply (quiet_tracked _ _ H5) in H6.
  apply bind_inv in H. destruct H as (r7 & s7 & H7 & H).
  apply GL_CheckError_quiet in H7. apply (quiet_tracked _ _ H6) in H7.
  destruct (r7 <? 0);
    [apply ret_inv in H; destruct H as [_ ->]; exact H7 |].
  apply bind_inv in H. destruct H as (uv & s8 & H8 & H).
  assert (Ht8 : framebuffers_tracked s8).
  { destruct (is_YV12_or_IYUV (tex_format tex)).
    - apply create_yuv_planes_quiet in H8.
      exact (quiet_tracked _ _ H7 H8).
    - apply ret_inv in H8. destruct H8 as [_ ->]. exact H7. }
  apply bind_inv in H. destruct H as (u & s9 & H9 & H).
  assert (Ht9 : framebuffers_tracked s9).
  { destruct (is_NV12_or_NV21 (tex_format tex)).
    - apply create_nv12_plane_quiet in H9.
      exact (quiet_tracked _ _ Ht8 H9).
    - apply ret_inv in H9. destruct H9 as [_ ->]. exact Ht8. }
  apply bind_inv in H. destruct H as (r10 & s10 & H10 & H).
  apply GL_CheckError_quiet in H10. apply (quiet_tracked _ _ Ht9) in H10.
  apply ret_inv in H. destruct H as [_ ->]. exact H10.
Qed.

(** A framebuffer object that has been generated is deleted at the end of
    the renderer.  When the list of framebuffer objects holds what has been
    generated so far (as it does in a new renderer), it still does after
    [GL_CreateTexture], whatever that returns; and [GL_DestroyRenderer],
    on a renderer with a context, then deletes each framebuffer object that
    was generated, once, the latest first. *)
Theorem generated_framebuffers_are_deleted (D : Driver) (fuel : nat)
    (tex : SDL_Texture) (s s' : GLState) (res : Z * SDL_Texture)
    (tr : list Op) :
  framebuffers_tracked s ->
  GL_CreateTexture (platform D) fuel tex s = Some (res, s') ->
  context (renderdata s') <> 0 ->
  framebuffers_tracked s'
  /\ exists x' k,
       GL_DestroyRenderer D true (mkSession s' tr) = Some (tt, x')
       /\ trace x' = tr ++ k
       /\ deleted_framebuffers k = rev (generated_framebuffers (log s'))
       /\ framebuffers (renderdata (gl_state x')) = [].
Proof.
  intros Ht Hcreate Hctx.
  pose proof (GL_CreateTexture_tracked _ _ _ _ _ _ Ht Hcreate) as Ht'.
  split; [exact Ht' |].
  destruct (GL_DestroyRenderer_deletes_the_framebuffers_aux D
              (mkSession s' tr))
    as (x' & k & E & Htr & Hdel & Hempty).
  cbn [gl_state trace] in Htr, Hdel, Hempty.
  apply Z.eqb_neq in Hctx. rewrite Hctx in Htr, Hdel, Hempty.
  exists x', (k ++ [SDL_GL_DeleteContext (context (renderdata s'))]).
  split; [exact E |]. split; [exact Htr |].
  split; [| exact Hempty].
  rewrite deleted_framebuffers_app, Hdel. cbn [deleted_framebuffers flat_map].
  rewrite app_nil_r. exact Ht'.
Qed.

Lemma generated_framebuffers_are_deleted_witness :
  exists res s' x' k,
    GL_CreateTexture (platform sample_driver) 32
      (sample_texture SDL_PIXELFORMAT_ARGB8888 SDL_TEXTUREACCESS_TARGET
         100 60)
      (sample_state false false) = Some (res, s')
    /\ GL_DestroyRenderer sample_driver true (mkSession s' [])
       = Some (tt, x')
    /\ trace x' = [] ++ k
    /\ deleted_framebuffers k = [1].
Proof.
  pose (tex := sample_texture SDL_PIXELFORMAT_ARGB8888
                 SDL_TEXTUREACCESS_TARGET 100 60).
  pose (run := GL_CreateTexture (platform sample_driver) 32 tex
                 (sample_state false false)).
  pose (res := match run with Some (r, _) => r | None => (0, tex) end).
  pose (s' := match run with
              | Some (_, s) => s
              | None => sample_state false false
              end).
  assert (Hrun : run = Some (res, s')) by (vm_compute; reflexivity).
  assert (Ht : framebuffers_tracked (sample_state false false))
    by reflexivity.
  assert (Hctx : context (renderdata s') <> 0) by (vm_compute; discriminate).
  assert (Hgen : rev (generated_framebuffers (log s')) = [1])
    by (vm_compute; reflexivity).
  destruct (generated_framebuffers_are_deleted sample_driver 32 tex
              (sample_state false false) s' res [] Ht Hrun Hctx)
    as (_ & x' & k & E & Htr & Hdel & _).
  exists res, s', x', k. split; [exact Hrun |]. split; [exact E |].
  split; [exact Htr |]. rewrite Hdel. exact Hgen.
Defined.

(** ** The rows of pixels that are read back *)

Lemma load_middle (a b c : list Uint8) :
  load (a ++ b ++ c) (Z.of_nat (length a)) (Z.of_nat (length b)) = Some b.
Proof.
  unfold load. rewrite !length_app.
  replace ((0 <=? Z.of_nat (length a)) && (0 <=? Z.of_nat (length b))
           && (Z.of_nat (length a) + Z.of_nat (length b)
               <=? Z.of_nat (length a + (length b + length c))))
    with true by (symmetry; rewrite !andb_true_iff, !Z.leb_le; lia).
  rewrite !Nat2Z.id, skipn_app, skipn_all, Nat.sub_diag. cbn [skipn app].
  rewrite firstn_app, firstn_all, Nat.sub_diag. cbn [firstn].
  rewrite app_nil_r. reflexivity.
Qed.

Lemma store_bytes_middle (a b c b' : list Uint8) :
  length b' = length b ->
  store_bytes (a ++ b ++ c) (Z.of_nat (length a)) b' = Some (a ++ b' ++ c).
Proof.
  intros Hl. unfold store_bytes. rewrite !length_app, Hl.
  replace ((0 <=? Z.of_nat (length a))
           && (Z.of_nat (length a) + Z.of_nat (length b)
               <=? Z.of_nat (length a + (length b + length c))))
    with true by (symmetry; rewrite !andb_true_iff, !Z.leb_le; lia).
  rewrite !Nat2Z.id, firstn_app, firstn_all, Nat.sub_diag. cbn [firstn].
  rewrite app_nil_r.
  rewrite skipn_app.
  replace (length a + length b - length a)%nat with (length b) by lia.
  rewrite (skipn_all2 a) by lia. cbn [app].
  rewrite skipn_app, skipn_all, Nat.sub_diag. cbn [skipn app].
  reflexivity.
Qed.

Lemma concat_length_uniform (L : nat) (M : list (list Uint8)) :
  Forall (fun r => length r = L) M ->
  length (concat M) = (length M * L)%nat.
Proof.
  induction 1 as [| r M Hr _ IH]; [reflexivity |].
  cbn [concat length]. rewrite length_app, Hr, IH. lia.
Qed.

(** The loop exchanges the first row with the last, the second with the
    last but one, and so on: it reverses the order of the rows. *)
Lemma flip_rows_reverses (L : nat) :
  forall (k : nat) (M A B : list (list Uint8)) (fuel : nat),
    (length M / 2 = k)%nat ->
    Forall (fun r => length r = L) M ->
    Z.of_nat (length M) < 2 ^ 31 ->
    (k < fuel)%nat ->
    flip_rows fuel (Z.of_nat k) (concat (A ++ M ++ B))
      (Z.of_nat (length (concat A)))
      (Z.of_nat (length (concat A))
       + (Z.of_nat (length M) - 1) * Z.of_nat L)
      (Z.of_nat L) (Z.of_nat L)
    = Some (concat (A ++ rev M ++ B)).
Proof.
  induction k as [| k IH]; intros M A B fuel Hk HM Hrange Hfuel;
    (destruct fuel as [| fuel]; [lia |]).
  - cbn [flip_rows Z.of_nat Z.eqb].
    destruct M as [| f [| g M]]; [reflexivity | reflexivity |].
    exfalso. cbn [length] in Hk.
    change (S (S (length M))) with (2 + length M)%nat in Hk.
    replace (2 + length M)%nat with (length M + 1 * 2)%nat in Hk by lia.
    rewrite Nat.div_add in Hk by lia. lia.
  - destruct M as [| f M1].
    { cbn in Hk. discriminate Hk. }
    destruct (exists_last (l := M1)) as (M' & l & ->).
    { intros ->. cbn in Hk. discriminate Hk. }
    assert (Hlen : length (f :: M' ++ [l]) = (length M' + 2)%nat)
      by (cbn [length]; rewrite length_app; cbn [length]; lia).
    rewrite Hlen in Hk, Hrange |- *.
    assert (Hk' : (length M' / 2 = k)%nat).
    { replace (length M' + 2)%nat with (length M' + 1 * 2)%nat in Hk by lia.
      rewrite Nat.div_add in Hk by lia. lia. }
    assert (Hf : length f = L) by (inversion HM; assumption).
    assert (HM1 : Forall (fun r => length r = L) (M' ++ [l]))
      by (inversion HM; assumption).
    apply Forall_app in HM1. destruct HM1 as [HM' Hl].
    assert (Hl' : length l = L) by (inversion Hl; assumption).
    pose proof (concat_length_uniform L M' HM') as HcM'.
    cbn [flip_rows].
    replace (Z.of_nat (S k) =? 0) with false
      by (symmetry; apply Z.eqb_neq; lia).
    (* the buffer, seen from [dst] and from [src] *)
    assert (Hbuf : concat (A ++ (f :: M' ++ [l]) ++ B)
                   = concat A ++ f ++ (concat M' ++ l ++ concat B)).
    { rewrite !concat_app. cbn [concat app].
      rewrite !concat_app. cbn [concat]. rewrite app_nil_r.
      rewrite <- !app_assoc. reflexivity. }
    assert (Hbuf' : concat A ++ f ++ (concat M' ++ l ++ concat B)
                    = (concat A ++ f ++ concat M') ++ l ++ concat B)
      by (rewrite <- !app_assoc; reflexivity).
    assert (Hsrc : Z.of_nat (length (concat A))
                   + (Z.of_nat (length M' + 2) - 1) * Z.of_nat L
                   = Z.of_nat (length (concat A ++ f ++ concat M'))).
    { rewrite !length_app, Hf, HcM'. nia. }
    rewrite Hbuf.
    rewrite <- Hf at 1. rewrite load_middle.
    rewrite Hbuf', Hsrc. rewrite <- Hl' at 1. rewrite load_middle.
    rewrite <- Hbuf'.
    rewrite (store_bytes_middle (concat A) f _ l) by congruence.
    assert (Hbuf2 : concat A ++ l ++ (concat M' ++ l ++ concat B)
                    = (concat A ++ l ++ concat M') ++ l ++ concat B)
      by (rewrite <- !app_assoc; reflexivity).
    assert (Hsrc2 : length (concat A ++ f ++ concat M')
                    = length (concat A ++ l ++ concat M'))
      by (rewrite !length_app; lia).
    rewrite Hbuf2, Hsrc2.
    rewrite (store_bytes_middle _ l _ f) by congruence.
    replace (int_sub (Z.of_nat (S k)) 1) with (Z.of_nat k).
    2:{ unfold int_sub. rewrite wrap_int_small; [lia |].
        assert (k <= length M')%nat
          by (rewrite <- Hk'; apply Nat.Div0.div_le_upper_bound; lia).
        lia. }
    assert (Hnew : (concat A ++ l ++ concat M') ++ f ++ concat B
                   = concat ((A ++ [l]) ++ M' ++ (f :: B))).
    { rewrite !concat_app. cbn [concat]. rewrite app_nil_r.
      rewrite <- !app_assoc. reflexivity. }
    rewrite Hnew.
    assert (HlA : length (concat (A ++ [l])) = (length (concat A) + L)%nat).
    { rewrite concat_app, length_app. cbn [concat].
      rewrite app_nil_r, Hl'. reflexivity. }
    assert (Hlmid : length (concat A ++ l ++ concat M')
                    = (length (concat A) + (L + length M' * L))%nat).
    { repeat rewrite length_app. rewrite HcM', Hl'. reflexivity. }
    replace (Z.of_nat (length (concat A)) + Z.of_nat L)
      with (Z.of_nat (length (concat (A ++ [l])))) by (rewrite HlA; lia).
    replace (Z.of_nat (length (concat A ++ l ++ concat M')) - Z.of_nat L)
      with (Z.of_nat (length (concat (A ++ [l])))
            + (Z.of_nat (length M') - 1) * Z.of_nat L)
      by (rewrite HlA, Hlmid; nia).
    rewrite (IH M' (A ++ [l]) (f :: B) fuel Hk' HM'); [| lia | lia].
    f_equal. cbn [rev]. rewrite rev_app_distr. cbn [rev app].
    rewrite <- !app_assoc. reflexivity.
Qed.

Lemma rows_of_concat (len : nat) :
  forall (n : nat) (buf : list Uint8),
    length buf = (n * len)%nat ->
    concat (rows_of n len buf) = buf
    /\ Forall (fun r => length r = len) (rows_of n len buf)
    /\ length (rows_of n len buf) = n.
Proof.
  induction n as [| n IH]; intros buf Hl.
  - destruct buf; [| discriminate Hl]. repeat split. constructor.
  - cbn [rows_of concat length].
    destruct (IH (skipn len buf)) as (Hc & Hf & Hn).
    { rewrite length_skipn, Hl. cbn [Nat.mul]. lia. }
    split; [rewrite Hc; apply firstn_skipn |].
    split; [| rewrite Hn; reflexivity].
    constructor; [| exact Hf].
    rewrite length_firstn, Hl. cbn [Nat.mul]. lia.
Qed.

(** The rows that [GL_RenderReadPixels] hands to [SDL_ConvertPixels] for a
    window are the rows the driver has delivered, in reverse order. *)
Lemma flip_rows_of_buffer (w h : Z) (buf : list Uint8) :
  0 < w -> 0 < h -> h * w < 2 ^ 31 ->
  length buf = Z.to_nat (h * w) ->
  flip_rows (S (Z.to_nat (int_div h 2))) (int_div h 2) buf 0
    (int_mul (int_sub h 1) w) w w
  = Some (concat (rev (rows_of (Z.to_nat h) (Z.to_nat w) buf))).
Proof.
  intros Hw Hh Hrange Hlen.
  assert (Hlen' : length buf = (Z.to_nat h * Z.to_nat w)%nat)
    by (rewrite Hlen; apply Z2Nat.inj_mul; lia).
  destruct (rows_of_concat (Z.to_nat w) (Z.to_nat h) buf Hlen')
    as (Hc & Hf & Hn).
  set (M := rows_of (Z.to_nat h) (Z.to_nat w) buf) in *.
  assert (Hhalf : int_div h 2 = Z.of_nat (length M / 2)).
  { unfold int_div. rewrite Z.quot_div_nonneg by lia.
    rewrite Hn, Nat2Z.inj_div, Z2Nat.id by lia. reflexivity. }
  assert (Hsrc : int_mul (int_sub h 1) w
                 = Z.of_nat (length (concat (@nil (list Uint8))))
                   + (Z.of_nat (length M) - 1) * Z.of_nat (Z.to_nat w)).
  { unfold int_mul, int_sub. rewrite (wrap_int_small (h - 1)) by nia.
    rewrite wrap_int_small by nia.
    rewrite Hn, !Z2Nat.id by lia. cbn [concat length Z.of_nat]. lia. }
  pose proof (flip_rows_reverses (Z.to_nat w) (length M / 2) M [] []
                (S (Z.to_nat (int_div h 2))) eq_refl Hf) as Hflip.
  cbn [app] in Hflip. rewrite !app_nil_r in Hflip.
  rewrite Hc, <- Hhalf, <- Hsrc, Z2Nat.id in Hflip by lia.
  cbn [concat length Z.of_nat] in Hflip.
  apply Hflip.
  - rewrite Hn, Z2Nat.id by lia. nia.
  - rewrite Hhalf, Nat2Z.id. lia.
Qed.

(** [GL_RenderReadPixels] of a window turns the image upside down.  For a
    renderer that draws to the window (debug flag off, a rectangle that is
    not empty, memory at hand) it reads the rectangle with its lower edge
    at [h - rect->y - rect->h], [h] being the height of the output, with a
    pack row length of [rect->w], and hands to [SDL_ConvertPixels] the rows
    the driver has delivered in reverse order: the last row first.  It
    returns what [SDL_ConvertPixels] returns. *)
Theorem GL_RenderReadPixels_flips_the_rows (D : Driver)
    (renderer : SDL_Renderer) (rect : SDL_Rect) (pixel_format : Uint32)
    (pitch : Z) (x : Session) :
  target renderer = 0 ->
  debug_enabled (renderdata (gl_state x)) = false ->
  SDL_BYTESPERPIXEL (platform D) SDL_PIXELFORMAT_ARGB8888 = 4 ->
  0 < rw rect -> 0 < rh rect -> rh rect * (rw rect * 4) < 2 ^ 31 ->
  malloc_ok D (rh rect * (rw rect * 4)) = true ->
  exists x' k0,
    let read :=
      glReadPixels (rx rect)
        (int_sub (int_sub (snd (SDL_GetRendererOutputSize D)) (ry rect))
                 (rh rect))
        (rw rect) (rh rect) GL_BGRA GL_UNSIGNED_INT_8_8_8_8_REV in
    let delivered :=
      map (read_back D read)
          (seq 0 (Z.to_nat (rh rect * (rw rect * 4)))) in
    let converted :=
      SDL_ConvertPixels D (rw rect) (rh rect) SDL_PIXELFORMAT_ARGB8888
        (concat (rev (rows_of (Z.to_nat (rh rect))
                              (Z.to_nat (rw rect * 4)) delivered)))
        (rw rect * 4) pixel_format pitch in
    GL_RenderReadPixels D renderer rect pixel_format pitch x
    = Some ((fst converted, Some (snd converted)), x')
    /\ forallb is_activation_call k0 = true
    /\ trace x'
       = trace x ++ map gl k0
         ++ [ gl (glPixelStorei GL_PACK_ALIGNMENT 1);
              gl (glPixelStorei GL_PACK_ROW_LENGTH (rw rect));
              read ].
Proof.
  intros Htarget Hd Hbpp Hw Hh Hrange Hmalloc.
  destruct (lift_GL_ActivateRenderer (platform D) x)
    as (r0 & x0 & k0 & E0 & _ & Ht0 & _ & Hc0 & Hn0).
  assert (Hpitch : int_mul (rw rect) 4 = rw rect * 4)
    by (apply int_mul_small; nia).
  assert (Hsize : wrap_size_t (int_mul (rh rect) (rw rect * 4))
                  = rh rect * (rw rect * 4)).
  { rewrite int_mul_small by nia. apply wrap_size_t_small. nia. }
  set (read := glReadPixels (rx rect)
                 (int_sub (int_sub (snd (SDL_GetRendererOutputSize D))
                                   (ry rect)) (rh rect))
                 (rw rect) (rh rect) GL_BGRA GL_UNSIGNED_INT_8_8_8_8_REV).
  set (body := [ gl (glPixelStorei GL_PACK_ALIGNMENT 1);
                 gl (glPixelStorei GL_PACK_ROW_LENGTH (rw rect));
                 read ]).
  exists (after D body x0), k0. cbv zeta.
  split.
  - unfold GL_RenderReadPixels. rewrite Htarget.
    cbn [Z.eqb negb]. cbv zeta.
    rewrite (bindx_eq _ _ _ _ _ E0).
    cbn [convert_format].
    replace (rw rect =? 0) with false by (symmetry; apply Z.eqb_neq; lia).
    replace (rh rect =? 0) with false by (symmetry; apply Z.eqb_neq; lia).
    cbn [orb]. rewrite Hbpp, Hpitch, Hsize, Hmalloc. cbn [negb Z.eqb].
    rewrite bindx_glcall.
    unfold int_div at 1. rewrite Z.quot_mul by lia.
    rewrite bindx_glcall. rewrite bindx_op by exact I.
    fold read.
    match goal with
    | |- bindx (lift GL_CheckError) _ ?y = _ => set (x3 := y)
    end.
    destruct (lift_GL_CheckError x3) as (r & x4 & n & E & _ & _ & _ & Hoff).
    assert (Hd3 : debug_enabled (renderdata (gl_state x3)) = false).
    { assert (Hc3 : caps (renderdata (gl_state x3))
                    = caps (renderdata (gl_state x0)))
        by exact (after_caps D body x0).
      destruct (caps_flags _ _ Hc3) as (-> & _).
      destruct (caps_flags _ _ Hc0) as (-> & _). exact Hd. }
    destruct (Hoff Hd3) as [-> ->].
    rewrite (bindx_eq _ _ _ _ _ E). cbn [Z.ltb Z.compare].
    rewrite flip_rows_of_buffer.
    + reflexivity.
    + lia.
    + exact Hh.
    + exact Hrange.
    + rewrite length_map, length_seq. reflexivity.
  - split; [exact Hn0 |].
    rewrite after_trace, Ht0, <- app_assoc. reflexivity.
Qed.

Lemma GL_RenderReadPixels_flips_the_rows_witness :
  exists x',
    GL_RenderReadPixels sample_driver (sample_renderer 0 false)
      (mkRect 0 0 2 3) SDL_PIXELFORMAT_ARGB8888 8 sample_session
    = Some ((0, Some [ 16; 17; 18; 19; 20; 21; 22; 23;
                       8; 9; 10; 11; 12; 13; 14; 15;
                       0; 1; 2; 3; 4; 5; 6; 7 ]), x').
Proof.
  assert (Htarget : target (sample_renderer 0 false) = 0) by reflexivity.
  assert (Hd : debug_enabled (renderdata (gl_state sample_session)) = false)
    by reflexivity.
  assert (Hbpp : SDL_BYTESPERPIXEL (platform sample_driver)
                   SDL_PIXELFORMAT_ARGB8888 = 4) by reflexivity.
  assert (Hw : 0 < rw (mkRect 0 0 2 3)) by reflexivity.
  assert (Hh : 0 < rh (mkRect 0 0 2 3)) by reflexivity.
  assert (Hrange : rh (mkRect 0 0 2 3) * (rw (mkRect 0 0 2 3) * 4) < 2 ^ 31)
    by reflexivity.
  assert (Hmalloc : malloc_ok sample_driver
                      (rh (mkRect 0 0 2 3) * (rw (mkRect 0 0 2 3) * 4))
                    = true) by reflexivity.
  destruct (GL_RenderReadPixels_flips_the_rows sample_driver
              (sample_renderer 0 false) (mkRect 0 0 2 3)
              SDL_PIXELFORMAT_ARGB8888 8 sample_session
              Htarget Hd Hbpp Hw Hh Hrange Hmalloc)
    as (x' & k0 & E & _).
  exists x'. rewrite E. vm_compute. reflexivity.
Defined.

(** ** Binding and unbinding a texture *)

Lemma units_after_app (textype : GLenum) (u : Units) (k1 k2 : list Call) :
  units_after textype u (k1 ++ k2)
  = units_after textype (units_after textype u k1) k2.
Proof. apply fold_left_app. Qed.

Lemma units_after_activation (textype : GLenum) (k : list Call) :
  forallb is_activation_call k = true ->
  forall u, units_after textype u k = u.
Proof.
  induction k as [| c k IH]; intros H u; [reflexivity |].
  cbn [forallb] in H. apply andb_prop in H. destruct H as [Hc H].
  destruct c; try discriminate Hc; exact (IH H u).
Qed.

(** What the two functions do, whatever the driver reports. *)
Lemma GL_BindTexture_run (P : Platform) (tex : SDL_Texture)
    (data : GL_TextureData) (s : GLState) :
  driverdata tex = Some data ->
  exists s1 k0,
    GL_BindTexture P tex s = Some ((0, texw data, texh data), s1)
    /\ forallb is_activation_call k0 = true
    /\ caps (renderdata s1) = caps (renderdata s)
    /\ log s1
       = log s ++ k0
         ++ [ glEnable (textype (renderdata s)) ]
         ++ (if yuv data
             then [ glActiveTextureARB GL_TEXTURE2_ARB;
                    glBindTexture (textype (renderdata s)) (vtexture data);
                    glActiveTextureARB GL_TEXTURE1_ARB;
                    glBindTexture (textype (renderdata s)) (utexture data);
                    glActiveTextureARB GL_TEXTURE0_ARB ]
             else [])
         ++ [ glBindTexture (textype (renderdata s)) (texture data) ].
Proof.
  intros Hdata.
  destruct (GL_ActivateRenderer_framebuffers P s)
    as (r0 & s0 & k0 & E0 & Hl0 & Hn0 & _ & Hc0).
  unfold GL_BindTexture. unfold bind at 1. unfold get_data at 1.
  cbv beta iota zeta. gl_run E0. rewrite Hdata.
  match goal with
  | |- context [calls P ?l] =>
      destruct (calls_total P l s0) as [s1 E1];
      pose proof (calls_step P l s0 s1 tt E1) as [Hl1 Hc1]
  end.
  gl_run E1. unfold ret.
  exists s1, k0. split; [reflexivity |]. split; [exact Hn0 |].
  split; [rewrite Hc1; exact Hc0 |].
  rewrite Hl1, Hl0, <- !app_assoc. reflexivity.
Qed.

Lemma GL_UnbindTexture_run (P : Platform) (tex : SDL_Texture)
    (data : GL_TextureData) (s : GLState) :
  driverdata tex = Some data ->
  exists s1 k0,
    GL_UnbindTexture P tex s = Some (0, s1)
    /\ forallb is_activation_call k0 = true
    /\ caps (renderdata s1) = caps (renderdata s)
    /\ log s1
       = log s ++ k0
         ++ (if yuv data
             then [ glActiveTextureARB GL_TEXTURE2_ARB;
                    glDisable (textype (renderdata s));
                    glActiveTextureARB GL_TEXTURE1_ARB;
                    glDisable (textype (renderdata s));
                    glActiveTextureARB GL_TEXTURE0_ARB ]
             else [])
         ++ [ glDisable (textype (renderdata s)) ].
Proof.
  intros Hdata.
  destruct (GL_ActivateRenderer_framebuffers P s)
    as (r0 & s0 & k0 & E0 & Hl0 & Hn0 & _ & Hc0).
  unfold GL_UnbindTexture. unfold bind at 1. unfold get_data at 1.
  cbv beta iota zeta. gl_run E0. rewrite Hdata.
  match goal with
  | |- context [calls P ?l] =>
      destruct (calls_total P l s0) as [s1 E1];
      pose proof (calls_step P l s0 s1 tt E1) as [Hl1 Hc1]
  end.
  gl_run E1. unfold ret.
  exists s1, k0. split; [reflexivity |]. split; [exact Hn0 |].
  split; [rewrite Hc1; exact Hc0 |].
  rewrite Hl1, Hl0, <- !app_assoc. reflexivity.
Qed.

(** [GL_BindTexture] followed by [GL_UnbindTexture] on a texture that has
    its driver data: both return 0, whatever the driver reports, and the
    first one gives out the UV scale of the texture.  After the first the
    texture object is bound on the unit that was active, with the U and V
    textures of a planar texture on units 1 and 2, and the target is
    enabled on the active unit; after the second the target is enabled on
    no unit on which it was not enabled before, and is disabled on the
    active one.  The active unit is the same before and after.  For a
    planar texture this needs unit 0 to be the active one at the call: the
    functions leave unit 0 active. *)
Theorem GL_BindTexture_then_GL_UnbindTexture (P : Platform)
    (tex : SDL_Texture) (data : GL_TextureData) (s : GLState) (u : Units) :
  driverdata tex = Some data ->
  (yuv data = true -> active_unit u = GL_TEXTURE0_ARB) ->
  exists s1 s2 k1 k2,
    GL_BindTexture P tex s = Some ((0, texw data, texh data), s1)
    /\ log s1 = log s ++ k1
    /\ GL_UnbindTexture P tex s1 = Some (0, s2)
    /\ log s2 = log s1 ++ k2
    /\ let u1 := units_after (textype (renderdata s)) u k1 in
       let u2 := units_after (textype (renderdata s)) u1 k2 in
       active_unit u1 = active_unit u
       /\ unit_enabled u1 (active_unit u) = true
       /\ unit_texture u1 (active_unit u) = Some (texture data)
       /\ (yuv data = true ->
           unit_texture u1 GL_TEXTURE1_ARB = Some (utexture data)
           /\ unit_texture u1 GL_TEXTURE2_ARB = Some (vtexture data))
       /\ active_unit u2 = active_unit u
       /\ unit_enabled u2 (active_unit u) = false
       /\ (forall unit,
             unit_enabled u2 unit = true -> unit_enabled u unit = true).
Proof.
  intros Hdata Hactive.
  destruct (GL_BindTexture_run P tex data s Hdata)
    as (s1 & k0 & E1 & Hn0 & Hc1 & Hl1).
  destruct (GL_UnbindTexture_run P tex data s1 Hdata)
    as (s2 & k0' & E2 & Hn0' & _ & Hl2).
  destruct (caps_flags _ _ Hc1) as (_ & _ & Htt). rewrite Htt in Hl2.
  set (textype := textype (renderdata s)) in *.
  eexists s1, s2, _, _.
  split; [exact E1 |]. split; [exact Hl1 |]. split; [exact E2 |].
  split; [exact Hl2 |]. cbv zeta.
  rewrite !units_after_app.
  rewrite (units_after_activation textype k0 Hn0).
  rewrite (units_after_activation textype k0' Hn0').
  destruct u as [a en bt]. cbn [active_unit unit_enabled unit_texture] in *.
  destruct (yuv data) eqn:Hyuv.
  - rewrite (Hactive eq_refl).
    cbn [units_after fold_left app unit_call active_unit unit_enabled
         unit_texture].
    rewrite !Z.eqb_refl.
    cbn [active_unit unit_enabled unit_texture].
    unfold set_at. cbn [Z.eqb Pos.eqb].
    repeat split; try reflexivity.
    intros unit.
    destruct (unit =? 33984); [discriminate |].
    destruct (unit =? 33985); [discriminate |].
    destruct (unit =? 33986); [discriminate |].
    intros H; exact H.
  - cbn [units_after fold_left app unit_call active_unit unit_enabled
         unit_texture].
    rewrite !Z.eqb_refl.
    cbn [active_unit unit_enabled unit_texture].
    unfold set_at. rewrite !Z.eqb_refl.
    repeat split; try reflexivity; try discriminate.
    intros unit. destruct (unit =? a); [discriminate |].
    intros H; exact H.
Qed.

Lemma GL_BindTexture_then_GL_UnbindTexture_witness :
  exists s1 s2 k1 k2,
    GL_BindTexture sample_platform
      (sample_planar_texture SDL_PIXELFORMAT_YV12) (sample_state true false)
    = Some ((0, f32_one, f32_one), s1)
    /\ log s1 = log (sample_state true false) ++ k1
    /\ GL_UnbindTexture sample_platform
         (sample_planar_texture SDL_PIXELFORMAT_YV12) s1 = Some (0, s2)
    /\ log s2 = log s1 ++ k2
    /\ unit_texture
         (units_after GL_TEXTURE_2D
            (mkUnits GL_TEXTURE0_ARB (fun _ => false) (fun _ => None)) k1)
         GL_TEXTURE2_ARB = Some 3
    /\ unit_enabled
         (units_after GL_TEXTURE_2D
            (units_after GL_TEXTURE_2D
               (mkUnits GL_TEXTURE0_ARB (fun _ => false) (fun _ => None))
               k1) k2) GL_TEXTURE0_ARB = false.
Proof.
  pose (data := mkTextureData 1 f32_one f32_one GL_LUMINANCE GL_UNSIGNED_BYTE
                  (Some 24) 4 (mkRect 0 0 0 0) true false 2 3 None).
  pose (u := mkUnits GL_TEXTURE0_ARB (fun _ => false) (fun _ => None)).
  assert (Hdata : driverdata (sample_planar_texture SDL_PIXELFORMAT_YV12)
                  = Some data) by reflexivity.
  assert (Hactive : yuv data = true -> active_unit u = GL_TEXTURE0_ARB)
    by (intros _; reflexivity).
  destruct (GL_BindTexture_then_GL_UnbindTexture sample_platform
              (sample_planar_texture SDL_PIXELFORMAT_YV12) data
              (sample_state true false) u Hdata Hactive)
    as (s1 & s2 & k1 & k2 & E1 & Hl1 & E2 & Hl2 & Hu).
  cbv zeta in Hu.
  destruct Hu as (_ & _ & _ & Hplanes & _ & Hoff & _).
  exists s1, s2, k1, k2.
  split; [exact E1 |]. split; [exact Hl1 |]. split; [exact E2 |].
  split; [exact Hl2 |].
  split; [exact (proj2 (Hplanes eq_refl)) | exact Hoff].
Defined.

(** ** Colours *)

Lemma all_Uint8_spec (f : Z -> bool) :
  forallb f all_Uint8 = true -> forall v, is_Uint8 v -> f v = true.
Proof.
  intros H v Hv. rewrite forallb_forall in H. apply H.
  unfold all_Uint8. apply in_map_iff. exists (Z.to_nat v).
  split; [apply Z2Nat.id; apply Hv |].
  apply in_seq. unfold is_Uint8 in Hv. lia.
Qed.

Lemma color_component_decoded (v : Z) :
  is_Uint8 v -> byte_of_component (color_component v) = Some v.
Proof.
  intros Hv.
  assert (H : forallb (fun v => match byte_of_component (color_component v)
                                with
                                | Some w => w =? v
                                | None => false
                                end) all_Uint8 = true)
    by (vm_compute; reflexivity).
  pose proof (all_Uint8_spec _ H v Hv) as Hd. cbv beta in Hd.
  destruct (byte_of_component (color_component v)) as [w |];
    [| discriminate Hd].
  apply Z.eqb_eq in Hd. rewrite Hd. reflexivity.
Qed.

Lemma color_component_injective (v w : Z) :
  is_Uint8 v -> is_Uint8 w ->
  color_component v = color_component w -> v = w.
Proof.
  intros Hv Hw H.
  pose proof (color_component_decoded v Hv) as Dv.
  pose proof (color_component_decoded w Hw) as Dw.
  rewrite H, Dw in Dv. injection Dv as ->. reflexivity.
Qed.

Lemma color_component_range (v : Z) :
  is_Uint8 v -> in_unit_range (color_component v) = true.
Proof.
  intros Hv.
  apply (all_Uint8_spec (fun v => in_unit_range (color_component v)));
    [vm_compute; reflexivity | exact Hv].
Qed.

Lemma land_shiftl_low (x y k : Z) :
  0 <= k -> 0 <= y < 2 ^ k -> Z.land (Z.shiftl x k) y = 0.
Proof.
  intros Hk Hy. apply Z.bits_inj'. intros n Hn.
  rewrite Z.land_spec, Z.bits_0.
  destruct (Z.lt_ge_cases n k) as [Hlt | Hge].
  - rewrite Z.shiftl_spec_low by exact Hlt. reflexivity.
  - destruct (Z.eq_dec y 0) as [-> | Hy0].
    + rewrite Z.bits_0. apply andb_false_r.
    + rewrite (Z.bits_above_log2 y n); [apply andb_false_r | lia |].
      apply Z.log2_lt_pow2; [lia |].
      apply Z.lt_le_trans with (2 ^ k); [lia |].
      apply Z.pow_le_mono_r; lia.
Qed.

Lemma lor_shiftl_low (x y k : Z) :
  0 <= k -> 0 <= y < 2 ^ k -> Z.lor (Z.shiftl x k) y = x * 2 ^ k + y.
Proof.
  intros Hk Hy.
  pose proof (Z.add_lor_land (Z.shiftl x k) y) as H.
  rewrite land_shiftl_low, Z.add_0_r in H by assumption.
  rewrite H, Z.shiftl_mul_pow2 by exact Hk. reflexivity.
Qed.

(** The packed colour of four bytes is their number in base 256. *)
Lemma pack_color_value (r g b a : Z) :
  is_Uint8 r -> is_Uint8 g -> is_Uint8 b -> is_Uint8 a ->
  pack_color r g b a = a * 2 ^ 24 + r * 2 ^ 16 + g * 2 ^ 8 + b.
Proof.
  unfold is_Uint8, pack_color. intros Hr Hg Hb Ha.
  assert (E1 : Z.lor (Z.shiftl a 24) (Z.shiftl r 16)
               = Z.shiftl (a * 256 + r) 16).
  { rewrite (Z.shiftl_mul_pow2 r 16), lor_shiftl_low, Z.shiftl_mul_pow2
      by lia. lia. }
  assert (E2 : Z.lor (Z.shiftl (a * 256 + r) 16) (Z.shiftl g 8)
               = Z.shiftl (a * 65536 + r * 256 + g) 8).
  { rewrite (Z.shiftl_mul_pow2 g 8), lor_shiftl_low, Z.shiftl_mul_pow2
      by lia. lia. }
  assert (E3 : Z.lor (Z.shiftl (a * 65536 + r * 256 + g) 8) b
               = (a * 65536 + r * 256 + g) * 256 + b).
  { rewrite lor_shiftl_low by lia. lia. }
  rewrite E1, E2, E3. unfold wrap_Uint32. rewrite Z.mod_small by lia. lia.
Qed.

Lemma pack_color_injective (r g b a r' g' b' a' : Z) :
  is_Uint8 r -> is_Uint8 g -> is_Uint8 b -> is_Uint8 a ->
  is_Uint8 r' -> is_Uint8 g' -> is_Uint8 b' -> is_Uint8 a' ->
  pack_color r g b a = pack_color r' g' b' a' ->
  r = r' /\ g = g' /\ b = b' /\ a = a'.
Proof.
  intros Hr Hg Hb Ha Hr' Hg' Hb' Ha' H.
  rewrite !pack_color_value in H by assumption.
  unfold is_Uint8 in *. lia.
Qed.

(** The colour cache of the executor is exact.  The executor remembers a
    colour as the packed [Uint32] of its four bytes and hands it to OpenGL
    as four floats: two colours have the same packed value exactly when
    they give the same [glColor4f] call (and the same [glClearColor]
    call), so a colour is never taken for another and never set twice.
    Every component handed to OpenGL lies between 0.0 and 1.0; it is 0.0
    only for the byte 0 and 1.0 only for the byte 255. *)
Theorem color_cache_is_exact (r g b a r' g' b' a' : Uint8) :
  is_Uint8 r -> is_Uint8 g -> is_Uint8 b -> is_Uint8 a ->
  is_Uint8 r' -> is_Uint8 g' -> is_Uint8 b' -> is_Uint8 a' ->
  (pack_color r g b a = pack_color r' g' b' a' <->
   glColor4f_bytes r g b a = glColor4f_bytes r' g' b' a')
  /\ (pack_color r g b a = pack_color r' g' b' a' <->
      glClearColor_bytes r g b a = glClearColor_bytes r' g' b' a')
  /\ glColor4f_bytes r g b a
     = glColor4f (color_component r) (color_component g)
                 (color_component b) (color_component a)
  /\ in_unit_range (color_component r) = true
  /\ in_unit_range (color_component g) = true
  /\ in_unit_range (color_component b) = true
  /\ in_unit_range (color_component a) = true
  /\ (color_component r = f32_zero <-> r = 0)
  /\ (color_component r = f32_one <-> r = 255).
Proof.
  intros Hr Hg Hb Ha Hr' Hg' Hb' Ha'.
  assert (Hinj : forall mk : GLfloat -> GLfloat -> GLfloat -> GLfloat -> Call,
             (forall x1 x2 x3 x4 y1 y2 y3 y4,
                mk x1 x2 x3 x4 = mk y1 y2 y3 y4 ->
                x1 = y1 /\ x2 = y2 /\ x3 = y3 /\ x4 = y4) ->
             (pack_color r g b a = pack_color r' g' b' a' <->
              mk (color_component r) (color_component g)
                 (color_component b) (color_component a)
              = mk (color_component r') (color_component g')
                   (color_component b') (color_component a'))).
  { intros mk Hmk. split.
    - intros H.
      destruct (pack_color_injective _ _ _ _ _ _ _ _
                  Hr Hg Hb Ha Hr' Hg' Hb' Ha' H) as (-> & -> & -> & ->).
      reflexivity.
    - intros H. apply Hmk in H. destruct H as (H1 & H2 & H3 & H4).
      apply color_component_injective in H1, H2, H3, H4; try assumption.
      subst. reflexivity. }
  split.
  { apply (Hinj glColor4f). intros x1 x2 x3 x4 y1 y2 y3 y4 H.
    injection H as -> -> -> ->. repeat split. }
  split.
  { apply (Hinj glClearColor). intros x1 x2 x3 x4 y1 y2 y3 y4 H.
    injection H as -> -> -> ->. repeat split. }
  split; [reflexivity |].
  split; [exact (color_component_range r Hr) |].
  split; [exact (color_component_range g Hg) |].
  split; [exact (color_component_range b Hb) |].
  split; [exact (color_component_range a Ha) |].
  split.
  - split.
    + intros H. apply (color_component_injective r 0 Hr); [unfold is_Uint8; lia |].
      rewrite H. vm_compute. reflexivity.
    + intros ->. vm_compute. reflexivity.
  - split.
    + intros H.
      apply (color_component_injective r 255 Hr); [unfold is_Uint8; lia |].
      rewrite H. vm_compute. reflexivity.
    + intros ->. vm_compute. reflexivity.
Qed.

Lemma color_cache_is_exact_witness :
  (pack_color 255 128 0 255 = pack_color 255 128 0 255 <->
   glColor4f_bytes 255 128 0 255 = glColor4f_bytes 255 128 0 255)
  /\ in_unit_range (color_component 128) = true
  /\ (color_component 255 = f32_one <-> 255 = 255).
Proof.
  assert (H255 : is_Uint8 255) by (unfold is_Uint8; lia).
  assert (H128 : is_Uint8 128) by (unfold is_Uint8; lia).
  assert (H0 : is_Uint8 0) by (unfold is_Uint8; lia).
  destruct (color_cache_is_exact 255 128 0 255 255 128 0 255
              H255 H128 H0 H255 H255 H128 H0 H255)
    as (Hc & _ & _ & _ & Hg & _ & _ & _ & H1).
  split; [exact Hc |]. split; [exact Hg | exact H1].
Defined.

(** ** The renderer that is created *)

(** The renderer [GL_CreateRenderer] returns is consistent with what
    [GL_CreateTexture] accepts.  Its texture target is one of the two the
    backend knows, the rectangle target exactly when rectangle textures are
    in use, and never together with the non-power-of-two extension; its
    context is not null, its list of framebuffer objects is empty and debug
    output is in use only with the debug flag.  It advertises
    [SDL_RENDERER_TARGETTEXTURE] exactly when it supports framebuffer
    objects, and no pixel format twice; and a texture of an advertised
    format, which is a render target only if render targets are
    advertised, is not turned down by [GL_CreateTexture] as long as the
    memory for it can be allocated. *)
Theorem GL_CreateRenderer_is_consistent (P : Platform) (W : Window)
    (flags : Uint32) (data : GL_RenderData) (info : SDL_RendererInfo) :
  GL_CreateRenderer P W flags = Some (data, info) ->
  valid_textype data
  /\ (textype data = GL_TEXTURE_RECTANGLE_ARB <->
      GL_ARB_texture_rectangle_supported data = true)
  /\ GL_ARB_texture_non_power_of_two_supported data
     && GL_ARB_texture_rectangle_supported data = false
  /\ context data <> 0
  /\ framebuffers data = []
  /\ error_messages data = []
  /\ (GL_ARB_debug_output_supported data = true -> debug_enabled data = true)
  /\ (Z.land (info_flags info) SDL_RENDERER_TARGETTEXTURE <> 0 <->
      GL_EXT_framebuffer_object_supported data = true)
  /\ NoDup (texture_formats info)
  /\ In SDL_PIXELFORMAT_ARGB8888 (texture_formats info)
  /\ forall tex : SDL_Texture,
       In (tex_format tex) (texture_formats info) ->
       (tex_access tex = SDL_TEXTUREACCESS_TARGET ->
        Z.land (info_flags info) SDL_RENDERER_TARGETTEXTURE <> 0) ->
       alloc_ok P Alloc_TextureData = true ->
       alloc_ok P (Alloc_pixels (streaming_size P tex)) = true ->
       creation_refused P data tex = false.
Proof.
  unfold GL_CreateRenderer. intros H.
  destruct (_ && negb (SDL_RecreateWindow_ok W)); [discriminate H |].
  destruct (negb (calloc_renderer_ok W)); [discriminate H |].
  destruct (negb (calloc_data_ok W)); [discriminate H |].
  cbv zeta in H.
  destruct (SDL_GL_CreateContext W =? 0) eqn:Ectx; [discriminate H |].
  destruct (negb (make_current_ok P)); [discriminate H |].
  destruct (negb (GL_LoadFunctions_ok W)); [discriminate H |].
  injection H as <- <-.
  cbn [textype GL_ARB_texture_rectangle_supported
       GL_ARB_texture_non_power_of_two_supported context framebuffers
       error_messages GL_ARB_debug_output_supported debug_enabled
       GL_EXT_framebuffer_object_supported info_flags texture_formats].
  set (np := SDL_GL_ExtensionSupported W GL_ARB_texture_non_power_of_two).
  set (re := SDL_GL_ExtensionSupported W GL_ARB_texture_rectangle
             || SDL_GL_ExtensionSupported W GL_EXT_texture_rectangle).
  set (fb := SDL_GL_ExtensionSupported W GL_EXT_framebuffer_object).
  set (vs := 0 <? SDL_GL_GetSwapInterval W _).
  set (yuv_formats := _ && (3 <=? _)).
  assert (Hflag : Z.land (if fb
                          then Z.lor (if vs then Z.lor 2 4 else 2) 8
                          else if vs then Z.lor 2 4 else 2) 8 <> 0
                  <-> fb = true).
  { destruct fb, vs; cbn; split; try discriminate; try reflexivity;
      intros E; try discriminate E; exfalso; apply E; reflexivity. }
  split.
  { unfold valid_textype. cbn [textype].
    destruct (negb np && re); [right | left]; reflexivity. }
  split.
  { destruct (negb np && re); split; try reflexivity; discriminate. }
  split; [destruct np; reflexivity |].
  split; [apply Z.eqb_neq; exact Ectx |].
  split; [reflexivity |]. split; [reflexivity |].
  split.
  { intros Hd. apply andb_prop in Hd. exact (proj1 Hd). }
  split; [exact Hflag |].
  split.
  { destruct yuv_formats, (MACOSX P); cbn [app];
      repeat (constructor; [cbn [In]; intros Hin;
                            repeat (destruct Hin as [Hin | Hin];
                                    [discriminate Hin |]);
                            exact Hin |]);
      constructor. }
  split; [left; reflexivity |].
  intros tex Hin Htarget Ha Hp.
  unfold creation_refused.
  cbn [GL_EXT_framebuffer_object_supported]. rewrite Ha, Hp.
  cbn [negb]. rewrite andb_false_r, !orb_false_r.
  assert (Hconv : match convert_format (MACOSX P) (tex_format tex) with
                  | Some _ => false
                  | None => true
                  end = false).
  { destruct yuv_formats, (MACOSX P); cbn [app In] in Hin;
      repeat (destruct Hin as [Hin | Hin]; [rewrite <- Hin; reflexivity |]);
      destruct Hin. }
  rewrite Hconv, orb_false_r.
  destruct (tex_access tex =? 2) eqn:Eacc; [| reflexivity].
  apply Z.eqb_eq in Eacc. apply Htarget in Eacc. apply Hflag in Eacc.
  rewrite Eacc. reflexivity.
Qed.

Lemma GL_CreateRenderer_is_consistent_witness :
  exists data info,
    GL_CreateRenderer sample_platform sample_window 0 = Some (data, info)
    /\ valid_textype data
    /\ texture_formats info
       = [ SDL_PIXELFORMAT_ARGB8888; SDL_PIXELFORMAT_YV12;
           SDL_PIXELFORMAT_IYUV; SDL_PIXELFORMAT_NV12;
           SDL_PIXELFORMAT_NV21 ]
    /\ creation_refused sample_platform data
         (sample_texture SDL_PIXELFORMAT_NV12 SDL_TEXTUREACCESS_TARGET 64 64)
       = false.
Proof.
  pose (run := GL_CreateRenderer sample_platform sample_window 0).
  pose (data := match run with
                | Some (d, _) => d
                | None => sample_renderdata false false
                end).
  pose (info := match run with
                | Some (_, i) => i
                | None => mkInfo 0 [] 0 0
                end).
  assert (Hrun : run = Some (data, info)) by reflexivity.
  destruct (GL_CreateRenderer_is_consistent sample_platform sample_window 0
              data info Hrun)
    as (Hv & _ & _ & _ & _ & _ & _ & _ & _ & _ & Hcreate).
  exists data, info. split; [exact Hrun |]. split; [exact Hv |].
  split; [reflexivity |].
  apply Hcreate.
  - cbn. tauto.
  - intros _. discriminate.
  - reflexivity.
  - reflexivity.
Defined.
